(** * Influencer participation lifecycle of product orders (campaigns and surveys)

    A shallow embedding of the status-transition methods of [CampaignService]
    (src/core/campaign/campaign.service.ts), [SurveysService]
    (src/core/surveys/entities/answer.entity.ts) and
    [PlatformProductOrderService.addInfluencers]
    (src/core/platform-product/platform-product-order.service.ts).

    The database behind the Prisma client is an explicit value of type [Db];
    every service method is a computation in a small state-and-exception
    monad [M] over a [World] that holds the committed database, the writes
    pending in an open interactive transaction, and the scripted rejections
    of upcoming store writes. *)

From Stdlib Require Import ZArith QArith List String Bool Lia DecimalString.
From Stdlib Require Import Qround.
Import ListNotations.
Open Scope string_scope.
Open Scope Z_scope.

(** ** Enumerations *)

(** A TypeScript numeric enum is a set of named numbers, and a status column
    holds a number. *)
Definition number := Q.

(** The members of ProductOrderInfluencerStatus named by the services. *)
Inductive ProductOrderInfluencerStatus :=
| Added | Invited | Matching | ToBeSubmitted | ToBeAnswered | ToBeApproved
| Approved | NotApproved | ToBePaid | Paid
| Declined | NotSelected | Removed | Withdrawn.

(** The members of the order-level Status the lifecycle methods compare
    against. *)
Inductive Status := InPreparation | OnGoing | Finished | Archived.

(** The caller of the influencer-side endpoints (UserWithInfluencer). *)
Record UserWithInfluencer := {
  caller_id : Z;
  caller_influencer : option Z  (* user.influencer?.id *) }.

(** Declarations the services import from files that are not part of the
    sources: the numeric value of each enum member
    (platform-product/enums/product-order-influencer-status.enum.ts and
    campaign/enums/status.enum.ts), users/utils/user-identity.ts and
    campaign/utils/website-link-generator.ts.  They are parameters of the
    whole development. *)
Class Declarations := {
  influencerStatus : ProductOrderInfluencerStatus -> number;
  orderStatus : Status -> number;
  userIdentity : UserWithInfluencer -> string;
  idToPseudostring : Z -> string }.

(** ** Rows *)

Record User := {
  user_id : Z;
  user_currency : Z;
  user_status : number }.

Record Influencer := {
  influencer_id : Z;
  influencer_userId : Z }.

(** influencerCampaignAmounts / influencerSurveyAmounts: the desired income
    an influencer declared per post type, resp. per survey type. *)
Record InfluencerAmount := {
  amount_influencerId : Z;
  amount_type : Z;
  desiredAmount : Q }.

Record PlatformProductOrder := {
  order_id : Z;
  order_status : number }.

Record Campaign := {
  campaign_id : Z;
  campaign_platformProductOrderId : Z;
  postType : option Z }.

Record Survey := {
  survey_id : Z;
  survey_platformProductOrderId : Z;
  surveyType : option Z }.

Record PlatformProductOrderInfluencer := {
  poi_id : Z;
  productOrderId : Z;
  influencerId : Z;
  agreedAmount : Q;
  currency : Z;
  status : number }.

Record CampaignInfluencerPerformance := {
  perf_campaignId : Z;
  perf_influencerId : Z;
  submissionLink : string;
  trackingCode : string;
  websiteClick : Z }.

Record SurveyResponse := {
  resp_userId : Z;
  resp_surveyId : Z;
  surveyQuestionId : Z;
  surveyOptionId : Z;
  surveyResponseText : string }.

Record Db := {
  users : list User;
  influencers : list Influencer;
  influencerCampaignAmounts : list InfluencerAmount;
  influencerSurveyAmounts : list InfluencerAmount;
  platformProductOrders : list PlatformProductOrder;
  campaigns : list Campaign;
  surveys : list Survey;
  platformProductOrderInfluencers : list PlatformProductOrderInfluencer;
  campaignInfluencerPerformances : list CampaignInfluencerPerformance;
  surveyResponses : list SurveyResponse }.

Definition withParticipants (db : Db) (rows : list PlatformProductOrderInfluencer) : Db :=
  {| users := users db; influencers := influencers db;
     influencerCampaignAmounts := influencerCampaignAmounts db;
     influencerSurveyAmounts := influencerSurveyAmounts db;
     platformProductOrders := platformProductOrders db;
     campaigns := campaigns db; surveys := surveys db;
     platformProductOrderInfluencers := rows;
     campaignInfluencerPerformances := campaignInfluencerPerformances db;
     surveyResponses := surveyResponses db |}.

Definition withOrders (db : Db) (rows : list PlatformProductOrder) : Db :=
  {| users := users db; influencers := influencers db;
     influencerCampaignAmounts := influencerCampaignAmounts db;
     influencerSurveyAmounts := influencerSurveyAmounts db;
     platformProductOrders := rows;
     campaigns := campaigns db; surveys := surveys db;
     platformProductOrderInfluencers := platformProductOrderInfluencers db;
     campaignInfluencerPerformances := campaignInfluencerPerformances db;
     surveyResponses := surveyResponses db |}.

Definition withPerformances (db : Db) (rows : list CampaignInfluencerPerformance) : Db :=
  {| users := users db; influencers := influencers db;
     influencerCampaignAmounts := influencerCampaignAmounts db;
     influencerSurveyAmounts := influencerSurveyAmounts db;
     platformProductOrders := platformProductOrders db;
     campaigns := campaigns db; surveys := surveys db;
     platformProductOrderInfluencers := platformProductOrderInfluencers db;
     campaignInfluencerPerformances := rows;
     surveyResponses := surveyResponses db |}.

Definition withResponses (db : Db) (rows : list SurveyResponse) : Db :=
  {| users := users db; influencers := influencers db;
     influencerCampaignAmounts := influencerCampaignAmounts db;
     influencerSurveyAmounts := influencerSurveyAmounts db;
     platformProductOrders := platformProductOrders db;
     campaigns := campaigns db; surveys := surveys db;
     platformProductOrderInfluencers := platformProductOrderInfluencers db;
     campaignInfluencerPerformances := campaignInfluencerPerformances db;
     surveyResponses := rows |}.

Definition withStatus (r : PlatformProductOrderInfluencer) (s : number) : PlatformProductOrderInfluencer :=
  {| poi_id := poi_id r; productOrderId := productOrderId r;
     influencerId := influencerId r; agreedAmount := agreedAmount r;
     currency := currency r; status := s |}.

(** ** JavaScript values *)

(** [a === b], [a < b] and [a >= b] on numbers. *)
Definition strictEq (a b : number) : bool := Qeq_bool a b.
Definition lessThan (a b : number) : bool := negb (Qle_bool b a).
Definition atLeast (a b : number) : bool := Qle_bool b a.

(** [list.includes(x)] on numbers. *)
Definition includes (l : list number) (x : number) : bool := existsb (strictEq x) l.

(** The integers a JavaScript number holds exactly: from
    Number.MIN_SAFE_INTEGER to Number.MAX_SAFE_INTEGER.  The ids of the
    services are such numbers. *)
Definition safeInteger (z : Z) : Prop := - (2 ^ 53 - 1) <= z <= 2 ^ 53 - 1.

(** The decimal digits of an integer, with its sign. *)
Definition decimalDigits (z : Z) : string := NilZero.string_of_int (Z.to_int z).

(** The binary64 number nearest to the natural number [z], ties to the even
    significand; none when that is beyond the largest number (Infinity). *)
Definition nearestDouble (z : Z) : option Z :=
  let e := Z.log2 z - 52 in
  if e <=? 0 then Some z
  else
    let q := Z.shiftr z e in
    let r := z - Z.shiftl q e in
    let half := Z.shiftl 1 (e - 1) in
    let m := if r <? half then q
             else if half <? r then q + 1
             else if Z.even q then q else q + 1 in
    if Z.shiftl m e <? 2 ^ 1024 then Some (Z.shiftl m e) else None.

(** The decimal [c] denotes the number [v]. *)
Definition readsAs (c v : Z) : bool :=
  match nearestDouble c with
  | Some d => d =? v
  | None => false
  end.

(** Number::toString, the digits: the decimal with the fewest significant
    digits that denotes the number [v], the closest to [v] of those, the
    even one of two as close.  It is looked for with [digits] - 1 zeros at
    the end first, then with one zero less, and so on. *)
Fixpoint shortest (digits : nat) (v : Z) : Z :=
  match digits with
  | O => v
  | S zeros =>
      let p := 10 ^ Z.of_nat zeros in
      let lo := v / p * p in
      let hi := lo + p in
      match readsAs lo v, readsAs hi v with
      | true, true =>
          if v - lo <? hi - v then lo
          else if hi - v <? v - lo then hi
          else if Z.even (v / p) then lo else hi
      | true, false => lo
      | false, true => hi
      | false, false => shortest zeros v
      end
  end.

(** [c] without the zeros at its end. *)
Fixpoint significand (fuel : nat) (c : Z) : Z :=
  match fuel with
  | O => c
  | S fuel' => if c mod 10 =? 0 then significand fuel' (c / 10) else c
  end.

(** Number::toString from 1e21 on: d.ddde+n. *)
Definition exponential (c : Z) : string :=
  let n := String.length (decimalDigits c) in
  match decimalDigits (significand n c) with
  | String d rest =>
      String d (if (String.length rest =? 0)%nat then "" else "." ++ rest)
        ++ "e+" ++ decimalDigits (Z.of_nat n - 1)
  | EmptyString => ""
  end.

(** Template-literal rendering of the number that an integer is in
    JavaScript.  Up to 2^53 every integer is a number and prints as its
    decimal digits; beyond, the integer stands for the number nearest to it,
    which prints with the fewest digits that denote it, followed by zeros
    below 1e21 and in exponent notation from there on. *)
Definition jsNumber (z : Z) : string :=
  if Z.abs z <=? 9007199254740992 then decimalDigits z
  else
    (if z <? 0 then "-" else "") ++
    match nearestDouble (Z.abs z) with
    | Some v =>
        let c := shortest (String.length (decimalDigits v)) v in
        if c <? 10 ^ 21 then decimalDigits c else exponential c
    | None => "Infinity"
    end.

(** Template-literal rendering of a plain object. *)
Definition jsObject : string := "[object Object]".

(** [array.join(', ')]. *)
Definition join (l : list string) : string := String.concat ", " l.

(** ** Exceptions *)

Inductive Exception :=
| ApplicationException (message : string)
| BadRequestApplicationException (message : string)
| ForbiddenApplicationException (message : string)
| NotFoundApplicationException (message : string)
| ConflictException (message : string)
| NotFoundError                                   (* findUniqueOrThrow / findFirstOrThrow *)
| PrismaClientKnownRequestError (code : string)  (* a write rejected by the store *)
| TypeError.                                      (* property read on undefined or null *)

Inductive Result (A : Type) :=
| Ok (a : A)
| Throw (e : Exception).
Arguments Ok {A} a.
Arguments Throw {A} e.

(** ** The world a service method runs in *)

(** [committed]: the database as every client sees it.
    [pending]: the writes issued on the transaction client of the open
    interactive transaction, replayed on [committed] when it commits and
    dropped when it rolls back.
    [rejections]: what the store answers to the upcoming writes and commits,
    in order: [None] (or an exhausted script) accepts, [Some code] rejects
    with that error code. *)
Record World := {
  committed : Db;
  pending : list (Db -> Db);
  rejections : list (option string) }.

Definition quiet (db : Db) : World :=
  {| committed := db; pending := []; rejections := [] |}.

Definition M (A : Type) : Type := World -> World * Result A.

Definition ret {A} (a : A) : M A := fun w => (w, Ok a).

Definition throw {A} (e : Exception) : M A := fun w => (w, Throw e).

Definition bind {A B} (m : M A) (k : A -> M B) : M B := fun w =>
  match m w with
  | (w', Ok a) => k a w'
  | (w', Throw e) => (w', Throw e)
  end.

Notation "x <- m ;; k" := (bind m (fun x => k))
  (at level 61, m at next level, right associativity).
Notation "m ;;; k" := (bind m (fun _ => k))
  (at level 61, right associativity).

(** Reading a property of a value that may be undefined. *)
Definition deref {A} (o : option A) : M A :=
  match o with
  | Some a => ret a
  | None => throw TypeError
  end.

(** [Promise.all]: every promise runs; the first rejection is the outcome. *)
Fixpoint promiseAll {A} (ps : list (M A)) : M (list A) := fun w =>
  match ps with
  | [] => (w, Ok [])
  | p :: rest =>
      let (w1, r1) := p w in
      let (w2, r2) := promiseAll rest w1 in
      (w2, match r1, r2 with
           | Throw e, _ => Throw e
           | Ok _, Throw e => Throw e
           | Ok a, Ok l => Ok (a :: l)
           end)
  end.

Definition catch {A} (m : M A) (handler : Exception -> M A) : M A := fun w =>
  match m w with
  | (w', Ok a) => (w', Ok a)
  | (w', Throw e) => handler e w'
  end.

(** [xs.length] used as a condition. *)
Definition nonEmpty {A} (l : list A) : bool :=
  match l with [] => false | _ => true end.

(** [xs.length === 1 ? one(xs[0]) : many(xs.join(', '))]. *)
Definition oneOrMany {A} (show : A -> string) (l : list A) (one many : string -> string) : string :=
  match l with
  | [x] => one (show x)
  | _ => many (join (map show l))
  end.

Definition inIds (x : Z) (ids : list Z) : bool := existsb (Z.eqb x) ids.

(** ** The Prisma client

    Reads go to the committed database.  A write asks the store for its
    answer first; an accepted write on [prismaService] changes the committed
    database at once, an accepted write on the transaction client [tx] is
    queued.  [transaction] is [$transaction(async (tx) => ...)]: when the
    callback throws, or the store rejects the commit, the queue is dropped;
    otherwise the queue is replayed on the committed database. *)
Module Prisma.

Inductive Client := prismaService | tx.

Definition answer : M (option string) := fun w =>
  match rejections w with
  | [] => (w, Ok None)
  | a :: rest =>
      ({| committed := committed w; pending := pending w; rejections := rest |}, Ok a)
  end.

Definition replay (ws : list (Db -> Db)) (db : Db) : Db :=
  fold_left (fun d f => f d) ws db.

Definition effect {A} (f : Db -> Result (Db * A)) (db : Db) : Db :=
  match f db with
  | Ok (db', _) => db'
  | Throw _ => db
  end.

Definition write {A} (c : Client) (f : Db -> Result (Db * A)) : M A :=
  a <- answer ;;
  match a with
  | Some code => throw (PrismaClientKnownRequestError code)
  | None => fun w =>
      match c with
      | prismaService =>
          match f (committed w) with
          | Ok (db', r) =>
              ({| committed := db'; pending := pending w; rejections := rejections w |}, Ok r)
          | Throw e => (w, Throw e)
          end
      | tx =>
          match f (replay (pending w) (committed w)) with
          | Ok (_, r) =>
              ({| committed := committed w; pending := pending w ++ [effect f];
                  rejections := rejections w |}, Ok r)
          | Throw e => (w, Throw e)
          end
      end
  end.

Definition query {A} (c : Client) (q : Db -> A) : M A := fun w =>
  match c with
  | prismaService => (w, Ok (q (committed w)))
  | tx => (w, Ok (q (replay (pending w) (committed w))))
  end.

Definition rollback (w : World) : World :=
  {| committed := committed w; pending := []; rejections := rejections w |}.

Definition commit (w : World) : World :=
  {| committed := replay (pending w) (committed w); pending := [];
     rejections := rejections w |}.

Definition transaction {A} (body : Client -> M A) : M A := fun w =>
  match body tx w with
  | (w1, Throw e) => (rollback w1, Throw e)
  | (w1, Ok a) =>
      match answer w1 with
      | (w2, Ok (Some code)) => (rollback w2, Throw (PrismaClientKnownRequestError code))
      | (w2, _) => (commit w2, Ok a)
      end
  end.

(** *** Reads *)

Definition orThrow {A} (o : option A) : M A :=
  match o with
  | Some a => ret a
  | None => throw NotFoundError
  end.

Definition campaign_findUniqueOrThrow (id : Z) : M Campaign :=
  o <- query prismaService (fun db => find (fun c => campaign_id c =? id) (campaigns db)) ;;
  orThrow o.

Definition survey_findUniqueOrThrow (id : Z) : M Survey :=
  o <- query prismaService (fun db => find (fun s => survey_id s =? id) (surveys db)) ;;
  orThrow o.

(** The relation [platformProductOrder] of a campaign or survey. *)
Definition platformProductOrder (orderId : Z) : M (option PlatformProductOrder) :=
  query prismaService (fun db => find (fun o => order_id o =? orderId) (platformProductOrders db)).

(** [platformProductOrderInfluencers: { where: { influencer: ... }, select:
    { id, status, influencer: { ... } } }] of the order: every row comes
    with the influencer it points to. *)
Definition influencersOfOrder (db : Db) (orderId : Z) (sel : Influencer -> bool)
  : list (PlatformProductOrderInfluencer * Influencer) :=
  flat_map (fun r =>
    if productOrderId r =? orderId then
      match find (fun i => influencer_id i =? influencerId r) (influencers db) with
      | Some i => if sel i then [(r, i)] else []
      | None => []
      end
    else []) (platformProductOrderInfluencers db).

(** [platformProductOrderInfluencers: { where: { influencerId } }] of the
    order. *)
Definition rowsOfOrder (db : Db) (orderId : Z) (sel : PlatformProductOrderInfluencer -> bool)
  : list PlatformProductOrderInfluencer :=
  filter (fun r => (productOrderId r =? orderId) && sel r) (platformProductOrderInfluencers db).

(** *** Writes on platformProductOrderInfluencer *)

Definition nextId (rows : list PlatformProductOrderInfluencer) : Z :=
  1 + fold_right (fun r m => Z.max (poi_id r) m) 0 rows.

(** Each write is the pure change it makes to a database, handed to
    [write]. *)
Definition updateStatus (id : Z) (s : number) (db : Db)
  : Result (Db * PlatformProductOrderInfluencer) :=
  let rows := platformProductOrderInfluencers db in
  match find (fun r => poi_id r =? id) rows with
  | None => Throw (PrismaClientKnownRequestError "P2025")
  | Some r =>
      Ok (withParticipants db
            (map (fun x => if poi_id x =? id then withStatus x s else x) rows),
          withStatus r s)
  end.

(** [platformProductOrderInfluencer.update({ data: { status }, where: { id } })]. *)
Definition platformProductOrderInfluencer_update (c : Client) (id : Z) (s : number)
  : M PlatformProductOrderInfluencer :=
  write c (updateStatus id s).

Definition updateManyStatus (where_ : PlatformProductOrderInfluencer -> bool) (s : number)
    (db : Db) : Result (Db * Z) :=
  let rows := platformProductOrderInfluencers db in
  Ok (withParticipants db (map (fun x => if where_ x then withStatus x s else x) rows),
      Z.of_nat (List.length (filter where_ rows))).

(** [platformProductOrderInfluencer.updateMany({ data: { status }, where })];
    the result is the count of the records matched. *)
Definition platformProductOrderInfluencer_updateMany (c : Client)
    (where_ : PlatformProductOrderInfluencer -> bool) (s : number) : M Z :=
  write c (updateManyStatus where_ s).

Definition withAmount (r : PlatformProductOrderInfluencer) (amount : Q) (cur : Z)
  : PlatformProductOrderInfluencer :=
  {| poi_id := poi_id r; productOrderId := productOrderId r;
     influencerId := influencerId r; agreedAmount := amount;
     currency := cur; status := status r |}.

(** The compound unique key PlatformProductOrderInfluencerIdentifier. *)
Definition identifier (orderId inflId : Z) (r : PlatformProductOrderInfluencer) : bool :=
  (productOrderId r =? orderId) && (influencerId r =? inflId).

(** The relations [productOrder] and [influencer] of a participation
    record are foreign keys: the store rejects (P2003) a record whose
    product order or influencer does not exist. *)
Definition references (db : Db) (orderId inflId : Z) : bool :=
  existsb (fun o => order_id o =? orderId) (platformProductOrders db)
  && existsb (fun i => influencer_id i =? inflId) (influencers db).

Definition upsertParticipant (orderId inflId : Z) (amount : Q) (cur : Z)
    (createStatus : number) (db : Db) : Result (Db * PlatformProductOrderInfluencer) :=
  let rows := platformProductOrderInfluencers db in
  match find (identifier orderId inflId) rows with
  | Some r =>
      Ok (withParticipants db
            (map (fun x => if identifier orderId inflId x then withAmount x amount cur else x)
                 rows),
          withAmount r amount cur)
  | None =>
      if references db orderId inflId then
        let r := {| poi_id := nextId rows; productOrderId := orderId;
                    influencerId := inflId; agreedAmount := amount;
                    currency := cur; status := createStatus |} in
        Ok (withParticipants db (rows ++ [r]), r)
      else Throw (PrismaClientKnownRequestError "P2003")
  end.

(** [platformProductOrderInfluencer.upsert({ create, update: { agreedAmount,
    currency }, where: { PlatformProductOrderInfluencerIdentifier } })]. *)
Definition platformProductOrderInfluencer_upsert (c : Client)
    (orderId inflId : Z) (amount : Q) (cur : Z) (createStatus : number)
  : M PlatformProductOrderInfluencer :=
  write c (upsertParticipant orderId inflId amount cur createStatus).

Definition createParticipant (orderId inflId : Z) (amount : Q) (cur : Z)
    (createStatus : number) (db : Db) : Result (Db * PlatformProductOrderInfluencer) :=
  let rows := platformProductOrderInfluencers db in
  match find (identifier orderId inflId) rows with
  | Some _ => Throw (PrismaClientKnownRequestError "P2002")
  | None =>
      if references db orderId inflId then
        let r := {| poi_id := nextId rows; productOrderId := orderId;
                    influencerId := inflId; agreedAmount := amount;
                    currency := cur; status := createStatus |} in
        Ok (withParticipants db (rows ++ [r]), r)
      else Throw (PrismaClientKnownRequestError "P2003")
  end.

(** [platformProductOrderInfluencer.create({ data })]; the unique key
    rejects a second record of the pair, the foreign keys a record of an
    order or an influencer that does not exist. *)
Definition platformProductOrderInfluencer_create (c : Client)
    (orderId inflId : Z) (amount : Q) (cur : Z) (createStatus : number)
  : M PlatformProductOrderInfluencer :=
  write c (createParticipant orderId inflId amount cur createStatus).

(** *** Other writes *)

Definition setOrderStatus (orderId : Z) (s : number) (db : Db) : Db :=
  withOrders db
    (map (fun o => if order_id o =? orderId
                   then {| order_id := order_id o; order_status := s |} else o)
         (platformProductOrders db)).

Definition updateCampaignOrderStatus (id : Z) (s : number) (db : Db)
  : Result (Db * Campaign) :=
  match find (fun x => campaign_id x =? id) (campaigns db) with
  | None => Throw (PrismaClientKnownRequestError "P2025")
  | Some cmp => Ok (setOrderStatus (campaign_platformProductOrderId cmp) s db, cmp)
  end.

(** [campaign.update({ data: { platformProductOrder: { update: { status } } },
    where: { id } })]. *)
Definition campaign_update_orderStatus (c : Client) (id : Z) (s : number) : M Campaign :=
  write c (updateCampaignOrderStatus id s).

Definition updateSurveyOrderStatus (id : Z) (s : number) (db : Db)
  : Result (Db * Survey) :=
  match find (fun x => survey_id x =? id) (surveys db) with
  | None => Throw (PrismaClientKnownRequestError "P2025")
  | Some sv => Ok (setOrderStatus (survey_platformProductOrderId sv) s db, sv)
  end.

(** [survey.update({ data: { platformProductOrder: { update: { status } } },
    where: { id } })]. *)
Definition survey_update_orderStatus (c : Client) (id : Z) (s : number) : M Survey :=
  write c (updateSurveyOrderStatus id s).

Definition upsertPerformance (create : CampaignInfluencerPerformance) (link : string)
    (db : Db) : Result (Db * CampaignInfluencerPerformance) :=
  let rows := campaignInfluencerPerformances db in
  let hit p := (perf_campaignId p =? perf_campaignId create)
               && (perf_influencerId p =? perf_influencerId create) in
  let relink p := {| perf_campaignId := perf_campaignId p;
                     perf_influencerId := perf_influencerId p;
                     submissionLink := link; trackingCode := trackingCode p;
                     websiteClick := websiteClick p |} in
  match find hit rows with
  | Some p => Ok (withPerformances db (map (fun x => if hit x then relink x else x) rows),
                  relink p)
  | None => Ok (withPerformances db (rows ++ [create]), create)
  end.

(** [campaignInfluencerPerformance.upsert({ create, update: { submissionLink },
    where: { CampaignInfluencerPerformanceIdentifier } })]. *)
Definition campaignInfluencerPerformance_upsert (c : Client)
    (create : CampaignInfluencerPerformance) (link : string)
  : M CampaignInfluencerPerformance :=
  write c (upsertPerformance create link).

Definition upsertResponse (create : SurveyResponse) (text : string) (db : Db)
  : Result (Db * SurveyResponse) :=
  let rows := surveyResponses db in
  let hit p := (surveyQuestionId p =? surveyQuestionId create)
               && (surveyOptionId p =? surveyOptionId create)
               && (resp_userId p =? resp_userId create) in
  let retext p := {| resp_userId := resp_userId p; resp_surveyId := resp_surveyId p;
                     surveyQuestionId := surveyQuestionId p;
                     surveyOptionId := surveyOptionId p;
                     surveyResponseText := text |} in
  match find hit rows with
  | Some p => Ok (withResponses db (map (fun x => if hit x then retext x else x) rows),
                  retext p)
  | None => Ok (withResponses db (rows ++ [create]), create)
  end.

(** [surveyResponse.upsert({ create, update: { surveyResponseText },
    where: { UserSurveyQuestionResponseIdentifier } })]. *)
Definition surveyResponse_upsert (c : Client)
    (create : SurveyResponse) (text : string) : M SurveyResponse :=
  write c (upsertResponse create text).

End Prisma.

(** The relation object behind [x.platformProductOrder]: reading a property
    of it throws when it is null. *)
Definition orderOf (orderId : Z) : M PlatformProductOrder :=
  o <- Prisma.platformProductOrder orderId ;;
  deref o.

(** A callback of [array.map] that may throw: the first throw ends the map. *)
Fixpoint traverse {A B} (f : A -> M B) (l : list A) : M (list B) :=
  match l with
  | [] => ret []
  | x :: rest =>
      y <- f x ;;
      ys <- traverse f rest ;;
      ret (y :: ys)
  end.

(** A user selected together with [influencer: { select: { id, userId,
    influencer...Amounts: { where: { type } } } }]. *)
Record UserInfluencer := {
  ui_id : Z;
  ui_currency : Z;
  ui_influencer : option (Influencer * list InfluencerAmount) }.

Definition selectUserInfluencers (amounts : Db -> list InfluencerAmount) (type : option Z)
    (influencerIds : list Z) (db : Db) : list UserInfluencer :=
  map (fun u =>
         {| ui_id := user_id u;
            ui_currency := user_currency u;
            ui_influencer :=
              match find (fun i => influencer_userId i =? user_id u) (influencers db) with
              | Some i =>
                  Some (i, filter (fun a => (amount_influencerId a =? influencer_id i)
                                            && match type with
                                               | Some t => amount_type a =? t
                                               | None => false
                                               end) (amounts db))
              | None => None
              end |})
      (filter (fun u => inIds (user_id u) influencerIds) (users db)).

(** The arguments of one upsert of [addInfluencers]:
    [userInfluencer.influencer.id], [...Amounts[0].desiredAmount] and
    [userInfluencer.currency].  The callback of [userInfluencers.map]
    evaluates them for every user before [Promise.all] awaits, that is
    starts, the first upsert: a Prisma promise runs when it is awaited. *)
Definition upsertArguments (u : UserInfluencer) : M (Z * Q * Z) :=
  i <- deref (ui_influencer u) ;;
  a <- deref (hd_error (snd i)) ;;
  ret (influencer_id (fst i), desiredAmount a, ui_currency u).

(** ** CampaignService (campaign.service.ts) *)
Module CampaignService.
Section Service.
Context {D : Declarations}.
Import Prisma.

(* campaign.service.ts:1262 *)
Definition addInfluencers (campaignId : Z) (influencerIds : list Z)
  : M (list PlatformProductOrderInfluencer) :=
  campaign <- campaign_findUniqueOrThrow campaignId ;;
  order <- orderOf (campaign_platformProductOrderId campaign) ;;
  if atLeast (order_status order) (orderStatus Finished) then
    throw (ForbiddenApplicationException
             "Can't add influencer/s after the campaign has finished")
  else if match postType campaign with None => true | Some _ => false end then
    throw (BadRequestApplicationException "Campaign has to have post type defined")
  else
    userInfluencers <- query prismaService
      (selectUserInfluencers influencerCampaignAmounts (postType campaign) influencerIds) ;;
    let userInfluencersNotExist :=
      filter (fun influencerId =>
                negb (existsb (fun userInfluencer => ui_id userInfluencer =? influencerId)
                              userInfluencers))
             influencerIds in
    if nonEmpty userInfluencersNotExist then
      throw (NotFoundApplicationException
               (oneOrMany jsNumber userInfluencersNotExist
                  (fun x => "Influencer " ++ x ++ " does not exist")
                  (fun xs => "Influencers " ++ xs ++ " do not exist")))
    else
      args <- traverse upsertArguments userInfluencers ;;
      promiseAll
        (map (fun '(inflId, amount, cur) =>
                platformProductOrderInfluencer_upsert prismaService
                  (campaign_platformProductOrderId campaign) inflId amount cur
                  (influencerStatus Added))
             args).

(* campaign.service.ts:1381 *)
Definition inviteInfluencers (campaignId : Z) (influencerIds : list Z)
  : M (list PlatformProductOrderInfluencer) :=
  campaign <- campaign_findUniqueOrThrow campaignId ;;
  order <- orderOf (campaign_platformProductOrderId campaign) ;;
  campaignInfluencers <- query prismaService (fun db =>
    influencersOfOrder db (order_id order)
      (fun i => inIds (influencer_id i) influencerIds)) ;;
  let userInfluencersNotInCampaign :=
    filter (fun influencerId =>
              negb (existsb (fun ci => influencer_id (snd ci) =? influencerId)
                            campaignInfluencers))
           influencerIds in
  let campaignInfluencersWithInvalidStatus :=
    filter (fun ci =>
              negb (includes [influencerStatus Added; influencerStatus Invited]
                             (status (fst ci))))
           campaignInfluencers in
  if nonEmpty userInfluencersNotInCampaign then
    throw (BadRequestApplicationException
             (oneOrMany jsNumber userInfluencersNotInCampaign
                (fun x => "Influencer " ++ x ++ " is not in the campaign " ++ jsNumber campaignId)
                (fun xs => "Influencers " ++ xs ++ " are not in the campaign " ++ jsNumber campaignId)))
  else if nonEmpty campaignInfluencersWithInvalidStatus then
    throw (BadRequestApplicationException
             (oneOrMany (fun _ => jsObject) campaignInfluencersWithInvalidStatus
                (fun x => "Influencer " ++ x ++ " doesn't have valid state to be invited")
                (fun xs => "Influencers " ++ xs ++ " don't have valid state to be invited")))
  else
    promiseAll
      (map (fun ci =>
              platformProductOrderInfluencer_update prismaService (poi_id (fst ci))
                (influencerStatus Invited))
           campaignInfluencers).

(** The part shared by [acceptInvitation] and [declineInvitation], which
    differ in the status they write (campaign.service.ts:1459 and 1505). *)
Definition answerInvitation (next : ProductOrderInfluencerStatus)
    (campaignId : Z) (user : UserWithInfluencer) : M PlatformProductOrderInfluencer :=
  match caller_influencer user with
  | None =>
      throw (BadRequestApplicationException
               ("User " ++ userIdentity user ++ " is not an influencer"))
  | Some userInfluencerId =>
      campaign <- campaign_findUniqueOrThrow campaignId ;;
      order <- orderOf (campaign_platformProductOrderId campaign) ;;
      rows <- query prismaService (fun db =>
        rowsOfOrder db (order_id order) (fun r => influencerId r =? userInfluencerId)) ;;
      match hd_error rows with
      | None =>
          throw (BadRequestApplicationException
                   ("Influencer " ++ userIdentity user ++ " is not in the campaign "
                      ++ jsNumber campaignId))
      | Some campaignInfluencer =>
          if negb (strictEq (status campaignInfluencer) (influencerStatus Invited)) then
            throw (BadRequestApplicationException
                     ("Influencer " ++ userIdentity user ++ " is not invited"))
          else
            platformProductOrderInfluencer_update prismaService
              (poi_id campaignInfluencer) (influencerStatus next)
      end
  end.

(* campaign.service.ts:1459 *)
Definition acceptInvitation := answerInvitation Matching.

(* campaign.service.ts:1505 *)
Definition declineInvitation := answerInvitation Declined.

(* campaign.service.ts:1551 *)
Definition removeInfluencers (campaignId : Z) (influencerIds : list Z) : M Z :=
  campaign <- campaign_findUniqueOrThrow campaignId ;;
  order <- orderOf (campaign_platformProductOrderId campaign) ;;
  campaignInfluencers <- query prismaService (fun db =>
    influencersOfOrder db (order_id order)
      (fun i => inIds (influencer_id i) influencerIds)) ;;
  let userInfluencersNotInCampaign :=
    filter (fun influencerId =>
              negb (existsb (fun ci => influencer_id (snd ci) =? influencerId)
                            campaignInfluencers))
           influencerIds in
  if nonEmpty userInfluencersNotInCampaign then
    throw (BadRequestApplicationException
             (oneOrMany jsNumber userInfluencersNotInCampaign
                (fun x => "Influencer " ++ x ++ " is not in the campaign " ++ jsNumber campaignId)
                (fun xs => "Influencers " ++ xs ++ " are not in the campaign " ++ jsNumber campaignId)))
  else
    counts <- promiseAll
      [ platformProductOrderInfluencer_updateMany prismaService
          (fun r => (productOrderId r =? campaign_platformProductOrderId campaign)
                    && inIds (influencerId r) influencerIds
                    && includes [influencerStatus Added; influencerStatus Invited;
                                 influencerStatus Matching] (status r))
          (influencerStatus NotSelected);
        platformProductOrderInfluencer_updateMany prismaService
          (fun r => (productOrderId r =? campaign_platformProductOrderId campaign)
                    && inIds (influencerId r) influencerIds
                    && includes [influencerStatus ToBeSubmitted; influencerStatus ToBeApproved;
                                 influencerStatus Approved; influencerStatus ToBePaid;
                                 influencerStatus Paid] (status r))
          (influencerStatus Removed) ] ;;
    ret (fold_right Z.add 0 counts).

(* campaign.service.ts:1639 *)
Definition removeInfluencerSelf (campaignId : Z) (user : UserWithInfluencer)
  : M PlatformProductOrderInfluencer :=
  match caller_influencer user with
  | None =>
      throw (BadRequestApplicationException
               ("User " ++ userIdentity user ++ " is not an influencer"))
  | Some userInfluencerId =>
      campaign <- campaign_findUniqueOrThrow campaignId ;;
      order <- orderOf (campaign_platformProductOrderId campaign) ;;
      rows <- query prismaService (fun db =>
        rowsOfOrder db (order_id order) (fun r => influencerId r =? userInfluencerId)) ;;
      (* campaignInfluencer = ...[0]; its fields are read by the first test *)
      campaignInfluencer <- deref (hd_error rows) ;;
      if negb (userInfluencerId =? influencerId campaignInfluencer)
         || lessThan (status campaignInfluencer) (influencerStatus Invited) then
        throw (ApplicationException
                 ("Influencer " ++ userIdentity user ++ " is not in the campaign "
                    ++ jsNumber campaignId ++ " or is not invited yet"))
      else if strictEq (status campaignInfluencer) (influencerStatus Invited) then
        throw (ForbiddenApplicationException
                 "Can't remove itself from the campaign if invitation is not accepted, eg. not in the campaign")
      else
        platformProductOrderInfluencer_update prismaService
          (poi_id campaignInfluencer) (influencerStatus Withdrawn)
  end.

(* campaign.service.ts:1688 *)
Definition confirmMatch (campaignId : Z) (influencerIds : list Z)
  : M (list PlatformProductOrderInfluencer) :=
  campaign <- campaign_findUniqueOrThrow campaignId ;;
  order <- orderOf (campaign_platformProductOrderId campaign) ;;
  campaignInfluencers <- query prismaService (fun db =>
    influencersOfOrder db (order_id order)
      (fun i => inIds (influencer_userId i) influencerIds)) ;;
  let userInfluencersNotInCampaign :=
    filter (fun influencerId =>
              negb (existsb (fun ci => influencer_userId (snd ci) =? influencerId)
                            campaignInfluencers))
           influencerIds in
  let campaignInfluencersWithInvalidStatus :=
    filter (fun ci => negb (strictEq (status (fst ci)) (influencerStatus Matching)))
           campaignInfluencers in
  if nonEmpty userInfluencersNotInCampaign then
    throw (BadRequestApplicationException
             (oneOrMany jsNumber userInfluencersNotInCampaign
                (fun x => "Influencer " ++ x ++ " is not in the campaign " ++ jsNumber campaignId)
                (fun xs => "Influencers " ++ xs ++ " are not in the campaign " ++ jsNumber campaignId)))
  else if nonEmpty campaignInfluencersWithInvalidStatus then
    throw (BadRequestApplicationException
             (oneOrMany (fun _ => jsObject) campaignInfluencersWithInvalidStatus
                (fun x => "Influencer " ++ x ++ " doesn't have valid state to confirm a match")
                (fun xs => "Influencers " ++ xs ++ " don't have valid state to confirm a match")))
  else
    promiseAll
      (map (fun ci =>
              platformProductOrderInfluencer_update prismaService (poi_id (fst ci))
                (influencerStatus ToBeSubmitted))
           campaignInfluencers).

(* campaign.service.ts:1759 *)
Definition submitInfluencerData (campaignId : Z) (user : UserWithInfluencer)
    (data_submissionLink : string) : M CampaignInfluencerPerformance :=
  match caller_influencer user with
  | None =>
      throw (BadRequestApplicationException
               ("User " ++ userIdentity user ++ " is not an influencer"))
  | Some userInfluencerId =>
      campaign <- campaign_findUniqueOrThrow campaignId ;;
      order <- orderOf (campaign_platformProductOrderId campaign) ;;
      rows <- query prismaService (fun db =>
        rowsOfOrder db (order_id order) (fun r => influencerId r =? userInfluencerId)) ;;
      (* campaignInfluencer = ...[0]; its status is read by the test *)
      campaignInfluencer <- deref (hd_error rows) ;;
      if negb (includes [influencerStatus ToBeSubmitted; influencerStatus NotApproved]
                        (status campaignInfluencer)) then
        throw (ForbiddenApplicationException
                 ("Influencer " ++ userIdentity user
                    ++ " doesn't have a match (or is already approved) - confirm a match first"))
      else
        transaction (fun tx =>
          platformProductOrderInfluencer_update tx (poi_id campaignInfluencer)
            (influencerStatus ToBeApproved) ;;;
          campaignInfluencerPerformance_upsert tx
            {| perf_campaignId := campaignId;
               perf_influencerId := userInfluencerId;
               submissionLink := data_submissionLink;
               trackingCode := idToPseudostring userInfluencerId;
               websiteClick := 0 |}
            data_submissionLink)
  end.

(** The validation shared by [approveSubmission] and
    [disapproveSubmission] (campaign.service.ts:1834 and 1904): they differ
    in the statuses accepted, in the wording and in the status written. *)
Definition reviewSubmission (invalid : number -> bool) (verb : string) (next : number)
    (campaignId : Z) (influencerIds : list Z) : M Z :=
  campaign <- campaign_findUniqueOrThrow campaignId ;;
  order <- orderOf (campaign_platformProductOrderId campaign) ;;
  campaignInfluencers <- query prismaService (fun db =>
    influencersOfOrder db (order_id order)
      (fun i => inIds (influencer_userId i) influencerIds)) ;;
  let userInfluencersNotInCampaign :=
    filter (fun influencerId =>
              negb (existsb (fun ci => influencer_userId (snd ci) =? influencerId)
                            campaignInfluencers))
           influencerIds in
  let campaignInfluencersWithInvalidStatus :=
    filter (fun ci => invalid (status (fst ci))) campaignInfluencers in
  if nonEmpty userInfluencersNotInCampaign then
    throw (BadRequestApplicationException
             (oneOrMany jsNumber userInfluencersNotInCampaign
                (fun x => "Influencer " ++ x ++ " is not in the campaign " ++ jsNumber campaignId)
                (fun xs => "Influencers " ++ xs ++ " are not in the campaign " ++ jsNumber campaignId)))
  else if nonEmpty campaignInfluencersWithInvalidStatus then
    throw (BadRequestApplicationException
             (oneOrMany (fun _ => jsObject) campaignInfluencersWithInvalidStatus
                (fun x => "Influencer " ++ x ++ " doesn't have valid state to become "
                            ++ verb ++ " - force him to submit the required data")
                (fun xs => "Influencers " ++ xs ++ " don't have valid state to become "
                             ++ verb ++ " - force them to submit the required data")))
  else
    platformProductOrderInfluencer_updateMany prismaService
      (fun r => productOrderId r =? campaign_platformProductOrderId campaign)
      next.

(* campaign.service.ts:1834 *)
Definition approveSubmission : Z -> list Z -> M Z :=
  reviewSubmission
    (fun s => negb (includes [influencerStatus ToBeApproved; influencerStatus NotApproved] s))
    "approved" (influencerStatus Approved).

(* campaign.service.ts:1904; the result of the write is awaited and dropped *)
Definition disapproveSubmission (campaignId : Z) (influencerIds : list Z) : M unit :=
  reviewSubmission
    (fun s => negb (strictEq s (influencerStatus ToBeApproved)))
    "disapproved" (influencerStatus NotApproved) campaignId influencerIds ;;;
  ret tt.

(* campaign.service.ts:2018 *)
Definition finishCampaign (campaignId : Z) : M Campaign :=
  campaign <- campaign_findUniqueOrThrow campaignId ;;
  order <- orderOf (campaign_platformProductOrderId campaign) ;;
  if negb (strictEq (order_status order) (orderStatus OnGoing)) then
    throw (ForbiddenApplicationException "Campaign can't be stopped as it is not started")
  else if lessThan (orderStatus Finished) (order_status order) then
    throw (ForbiddenApplicationException "Campaign can't be stopped as it is already finished")
  else
    transaction (fun tx =>
      platformProductOrderInfluencer_updateMany tx
        (fun r => strictEq (status r) (influencerStatus Approved))
        (influencerStatus ToBePaid) ;;;
      (* issued on this.prismaService, not on tx *)
      campaign_update_orderStatus prismaService campaignId (orderStatus Finished)).

End Service.
End CampaignService.

(** ** SurveysService (surveys/entities/answer.entity.ts) *)
Module SurveysService.
Section Service.
Context {D : Declarations}.
Import Prisma.

(* answer.entity.ts:986 *)
Definition addInfluencers (surveyId : Z) (influencerIds : list Z)
  : M (list PlatformProductOrderInfluencer) :=
  survey <- survey_findUniqueOrThrow surveyId ;;
  order <- orderOf (survey_platformProductOrderId survey) ;;
  if atLeast (order_status order) (orderStatus Finished) then
    throw (ForbiddenApplicationException
             "Can't add influencer/s after the survey has finished")
  else if match surveyType survey with None => true | Some _ => false end then
    throw (BadRequestApplicationException "Survey has to have survey type defined")
  else
    userInfluencers <- query prismaService
      (selectUserInfluencers influencerSurveyAmounts (surveyType survey) influencerIds) ;;
    let userInfluencersNotExist :=
      filter (fun influencerId =>
                negb (existsb (fun userInfluencer => ui_id userInfluencer =? influencerId)
                              userInfluencers))
             influencerIds in
    if nonEmpty userInfluencersNotExist then
      throw (NotFoundApplicationException
               (oneOrMany jsNumber userInfluencersNotExist
                  (fun x => "Influencer " ++ x ++ " does not exist")
                  (fun xs => "Influencers " ++ xs ++ " do not exist")))
    else
      args <- traverse upsertArguments userInfluencers ;;
      promiseAll
        (map (fun '(inflId, amount, cur) =>
                platformProductOrderInfluencer_upsert prismaService
                  (survey_platformProductOrderId survey) inflId amount cur
                  (influencerStatus Added))
             args).

(* answer.entity.ts:1070 *)
Definition inviteInfluencers (surveyId : Z) (influencerIds : list Z)
  : M (list PlatformProductOrderInfluencer) :=
  survey <- survey_findUniqueOrThrow surveyId ;;
  order <- orderOf (survey_platformProductOrderId survey) ;;
  surveyInfluencers <- query prismaService (fun db =>
    influencersOfOrder db (order_id order)
      (fun i => inIds (influencer_id i) influencerIds)) ;;
  let userInfluencersNotInSurvey :=
    filter (fun influencerId =>
              negb (existsb (fun si => influencer_id (snd si) =? influencerId)
                            surveyInfluencers))
           influencerIds in
  let surveyInfluencersWithInvalidStatus :=
    filter (fun si =>
              negb (includes [influencerStatus Added; influencerStatus Invited]
                             (status (fst si))))
           surveyInfluencers in
  if nonEmpty userInfluencersNotInSurvey then
    throw (BadRequestApplicationException
             (oneOrMany jsNumber userInfluencersNotInSurvey
                (fun x => "Influencer " ++ x ++ " is not in the survey " ++ jsNumber surveyId)
                (fun xs => "Influencers " ++ xs ++ " are not in the survey " ++ jsNumber surveyId)))
  else if nonEmpty surveyInfluencersWithInvalidStatus then
    throw (BadRequestApplicationException
             (oneOrMany (fun _ => jsObject) surveyInfluencersWithInvalidStatus
                (fun x => "Influencer " ++ x ++ " doesn't have valid state to be invited")
                (fun xs => "Influencers " ++ xs ++ " don't have valid state to be invited")))
  else
    promiseAll
      (map (fun si =>
              platformProductOrderInfluencer_update prismaService (poi_id (fst si))
                (influencerStatus Invited))
           surveyInfluencers).

(** The part shared by [acceptInvitation] and [declineInvitation]
    (answer.entity.ts:1146 and 1193). *)
Definition answerInvitation (next : ProductOrderInfluencerStatus)
    (surveyId : Z) (user : UserWithInfluencer) : M PlatformProductOrderInfluencer :=
  match caller_influencer user with
  | None =>
      throw (BadRequestApplicationException
               ("User " ++ userIdentity user ++ " is not an influencer"))
  | Some userInfluencerId =>
      survey <- survey_findUniqueOrThrow surveyId ;;
      order <- orderOf (survey_platformProductOrderId survey) ;;
      rows <- query prismaService (fun db =>
        rowsOfOrder db (order_id order) (fun r => influencerId r =? userInfluencerId)) ;;
      match hd_error rows with
      | None =>
          throw (BadRequestApplicationException
                   ("Influencer " ++ userIdentity user ++ " is not in the survey "
                      ++ jsNumber surveyId))
      | Some surveyInfluencer =>
          if negb (strictEq (status surveyInfluencer) (influencerStatus Invited)) then
            throw (BadRequestApplicationException
                     ("Influencer " ++ userIdentity user ++ " is not invited"))
          else
            platformProductOrderInfluencer_update prismaService
              (poi_id surveyInfluencer) (influencerStatus next)
      end
  end.

(* answer.entity.ts:1146; next state is different than in a campaign *)
Definition acceptInvitation := answerInvitation ToBeAnswered.

(* answer.entity.ts:1193 *)
Definition declineInvitation := answerInvitation Declined.

(* answer.entity.ts:1241 *)
Definition removeInfluencers (surveyId : Z) (influencerIds : list Z) : M Z :=
  survey <- survey_findUniqueOrThrow surveyId ;;
  order <- orderOf (survey_platformProductOrderId survey) ;;
  surveyInfluencers <- query prismaService (fun db =>
    influencersOfOrder db (order_id order)
      (fun i => inIds (influencer_id i) influencerIds)) ;;
  let userInfluencersNotInSurvey :=
    filter (fun influencerId =>
              negb (existsb (fun si => influencer_id (snd si) =? influencerId)
                            surveyInfluencers))
           influencerIds in
  if nonEmpty userInfluencersNotInSurvey then
    throw (BadRequestApplicationException
             (oneOrMany jsNumber userInfluencersNotInSurvey
                (fun x => "Influencer " ++ x ++ " is not in the survey " ++ jsNumber surveyId)
                (fun xs => "Influencers " ++ xs ++ " are not in the survey " ++ jsNumber surveyId)))
  else
    counts <- promiseAll
      [ platformProductOrderInfluencer_updateMany prismaService
          (fun r => (productOrderId r =? survey_platformProductOrderId survey)
                    && inIds (influencerId r) influencerIds
                    && includes [influencerStatus Added; influencerStatus Invited] (status r))
          (influencerStatus NotSelected);
        platformProductOrderInfluencer_updateMany prismaService
          (fun r => (productOrderId r =? survey_platformProductOrderId survey)
                    && inIds (influencerId r) influencerIds
                    && includes [influencerStatus ToBeAnswered; influencerStatus ToBeApproved;
                                 influencerStatus Approved; influencerStatus ToBePaid;
                                 influencerStatus Paid] (status r))
          (influencerStatus Removed) ] ;;
    ret (fold_right Z.add 0 counts).

(* answer.entity.ts:1327 *)
Definition removeInfluencerSelf (surveyId : Z) (user : UserWithInfluencer)
  : M PlatformProductOrderInfluencer :=
  match caller_influencer user with
  | None =>
      throw (BadRequestApplicationException
               ("User " ++ userIdentity user ++ " is not an influencer"))
  | Some userInfluencerId =>
      survey <- survey_findUniqueOrThrow surveyId ;;
      order <- orderOf (survey_platformProductOrderId survey) ;;
      rows <- query prismaService (fun db =>
        rowsOfOrder db (order_id order) (fun r => influencerId r =? userInfluencerId)) ;;
      (* surveyInfluencer = ...[0]; its fields are read by the first test *)
      surveyInfluencer <- deref (hd_error rows) ;;
      if negb (userInfluencerId =? influencerId surveyInfluencer)
         || lessThan (status surveyInfluencer) (influencerStatus Invited) then
        throw (ApplicationException
                 ("Influencer " ++ userIdentity user ++ " is not in the survey "
                    ++ jsNumber surveyId ++ " or is not invited yet"))
      else if strictEq (status surveyInfluencer) (influencerStatus Invited) then
        throw (ForbiddenApplicationException
                 "Can't remove itself from the survey if invitation is not accepted, eg. not in the survey")
      else
        platformProductOrderInfluencer_update prismaService
          (poi_id surveyInfluencer) (influencerStatus Withdrawn)
  end.

(** SubmitSurveyResultDto. *)
Record SubmitSurveyResultDto := {
  data_surveyQuestionId : Z;
  data_surveyOptionId : Z;
  data_surveyResponseText : string }.

(* answer.entity.ts:1482 *)
Definition submitSurveyResult (surveyId : Z) (user : UserWithInfluencer)
    (data : SubmitSurveyResultDto) : M SurveyResponse :=
  match caller_influencer user with
  | None =>
      throw (BadRequestApplicationException
               ("User " ++ userIdentity user ++ " is not an influencer"))
  | Some userInfluencerId =>
      survey <- survey_findUniqueOrThrow surveyId ;;
      order <- orderOf (survey_platformProductOrderId survey) ;;
      rows <- query prismaService (fun db =>
        rowsOfOrder db (order_id order) (fun r => influencerId r =? userInfluencerId)) ;;
      (* surveyInfluencer = ...[0]; its status is read by the test *)
      surveyInfluencer <- deref (hd_error rows) ;;
      if negb (includes [influencerStatus ToBeAnswered; influencerStatus NotApproved]
                        (status surveyInfluencer)) then
        throw (ForbiddenApplicationException
                 ("Influencer " ++ userIdentity user
                    ++ " doesn't have a match (or is already approved) - confirm a result first"))
      else
        transaction (fun tx =>
          platformProductOrderInfluencer_update tx (poi_id surveyInfluencer)
            (influencerStatus ToBeApproved) ;;;
          surveyResponse_upsert tx
            {| resp_userId := caller_id user;
               resp_surveyId := surveyId;
               surveyQuestionId := data_surveyQuestionId data;
               surveyOptionId := data_surveyOptionId data;
               surveyResponseText := data_surveyResponseText data |}
            (data_surveyResponseText data))
  end.

(** The validation shared by [approveSurveyResult] and
    [disapproveSurveyResult] (answer.entity.ts:1555 and 1623): they differ
    in the test that makes a status invalid and in the status written; the
    wording is the same in both. *)
Definition reviewSurveyResult (invalid : number -> bool) (next : number)
    (surveyId : Z) (influencerIds : list Z) : M Z :=
  survey <- survey_findUniqueOrThrow surveyId ;;
  order <- orderOf (survey_platformProductOrderId survey) ;;
  surveyInfluencers <- query prismaService (fun db =>
    influencersOfOrder db (order_id order)
      (fun i => inIds (influencer_userId i) influencerIds)) ;;
  let userInfluencersNotInSurvey :=
    filter (fun influencerId =>
              negb (existsb (fun si => influencer_userId (snd si) =? influencerId)
                            surveyInfluencers))
           influencerIds in
  let surveyInfluencersWithInvalidStatus :=
    filter (fun si => invalid (status (fst si))) surveyInfluencers in
  if nonEmpty userInfluencersNotInSurvey then
    throw (BadRequestApplicationException
             (oneOrMany jsNumber userInfluencersNotInSurvey
                (fun x => "Influencer " ++ x ++ " is not in the survey " ++ jsNumber surveyId)
                (fun xs => "Influencers " ++ xs ++ " are not in the survey " ++ jsNumber surveyId)))
  else if nonEmpty surveyInfluencersWithInvalidStatus then
    throw (BadRequestApplicationException
             (oneOrMany (fun _ => jsObject) surveyInfluencersWithInvalidStatus
                (fun x => "Influencer " ++ x
                            ++ " doesn't have valid state to become approved - force him to submit the survey")
                (fun xs => "Influencers " ++ xs
                             ++ " don't have valid state to become approved - force them to submit the survey")))
  else
    platformProductOrderInfluencer_updateMany prismaService
      (fun r => productOrderId r =? survey_platformProductOrderId survey)
      next.

(* answer.entity.ts:1555 *)
Definition approveSurveyResult : Z -> list Z -> M Z :=
  reviewSurveyResult
    (fun s => negb (includes [influencerStatus ToBeApproved; influencerStatus NotApproved] s))
    (influencerStatus Approved).

(* answer.entity.ts:1623 *)
Definition disapproveSurveyResult : Z -> list Z -> M Z :=
  reviewSurveyResult
    (fun s => negb (strictEq s (influencerStatus ToBeApproved)))
    (influencerStatus NotApproved).

(* answer.entity.ts:1730 *)
Definition finishSurvey (surveyId : Z) : M Survey :=
  survey <- survey_findUniqueOrThrow surveyId ;;
  order <- orderOf (survey_platformProductOrderId survey) ;;
  if negb (strictEq (order_status order) (orderStatus OnGoing)) then
    throw (ForbiddenApplicationException "Survey can't be stopped as it is not started")
  else if lessThan (orderStatus Finished) (order_status order) then
    throw (ForbiddenApplicationException "Survey can't be stopped as it is already finished")
  else
    transaction (fun tx =>
      platformProductOrderInfluencer_updateMany tx
        (fun r => strictEq (status r) (influencerStatus Approved))
        (influencerStatus ToBePaid) ;;;
      (* issued on this.prismaService, not on tx *)
      survey_update_orderStatus prismaService surveyId (orderStatus Finished)).

End Service.
End SurveysService.

(** ** PlatformProductOrderService (platform-product-order.service.ts) *)
Module PlatformProductOrderService.
Import Prisma.

(** AddInfluencersDto. *)
Record AddInfluencersDto := {
  dto_productOrderId : Z;
  dto_influencerId : Z }.

(* platform-product-order.service.ts:129 *)
Definition addInfluencers (dto : AddInfluencersDto) : M PlatformProductOrderInfluencer :=
  catch
    (transaction (fun tx =>
       (* both reads are started, then awaited together *)
       user <- (o <- query tx (fun db =>
                  find (fun u =>
                          existsb (fun i => (influencer_userId i =? user_id u)
                                            && (influencer_id i =? dto_influencerId dto))
                                  (influencers db))
                       (users db)) ;;
                orThrow o) ;;
       campaignAmount <- (o <- query tx (fun db =>
                            find (fun a => amount_influencerId a =? dto_influencerId dto)
                                 (influencerCampaignAmounts db)) ;;
                          orThrow o) ;;
       platformProductOrderInfluencer_create tx
         (dto_productOrderId dto) (dto_influencerId dto)
         (desiredAmount campaignAmount) (user_currency user) (user_status user)))
    (fun _ => throw (ConflictException "Already Exists")).

End PlatformProductOrderService.

(** ** Order-level transitions of CampaignService (campaign.service.ts) *)
Module CampaignOrderStatus.
Section Service.
Context {D : Declarations}.
Import Prisma.

(** The column [instructions] of a campaign.  The row type [Campaign]
    carries the columns the participation methods read; no method modelled
    here writes this one, so it is given as a function of the row. *)
Variable instructions : Campaign -> option string.

(** [!text] for a nullable text column: null and the empty string are falsy. *)
Definition blank (text : option string) : bool :=
  match text with
  | None => true
  | Some EmptyString => true
  | Some _ => false
  end.

(* campaign.service.ts:1970 *)
Definition startCampaign (campaignId : Z) : M Campaign :=
  campaign <- campaign_findUniqueOrThrow campaignId ;;
  order <- orderOf (campaign_platformProductOrderId campaign) ;;
  if strictEq (order_status order) (orderStatus OnGoing) then
    throw (BadRequestApplicationException
             ("Campaign " ++ jsNumber campaignId ++ " has already started"))
  else if lessThan (orderStatus OnGoing) (order_status order) then
    throw (BadRequestApplicationException
             ("Campaign " ++ jsNumber campaignId ++ " has finished"))
  else if blank (instructions campaign) then
    throw (BadRequestApplicationException "Fill the data required: instructions")
  else
    campaign_update_orderStatus prismaService campaignId (orderStatus OnGoing).

(* campaign.service.ts:2059; [status <= OnGoing] is [OnGoing >= status] *)
Definition archiveCampaign (campaignId : Z) : M Campaign :=
  campaign <- campaign_findUniqueOrThrow campaignId ;;
  order <- orderOf (campaign_platformProductOrderId campaign) ;;
  if atLeast (orderStatus OnGoing) (order_status order) then
    throw (ForbiddenApplicationException "Campaign can't be archived as it is not finished")
  else if strictEq (order_status order) (orderStatus Archived) then
    throw (ForbiddenApplicationException "Campaign is already archived")
  else
    campaign_update_orderStatus prismaService campaignId (orderStatus Archived).

End Service.
End CampaignOrderStatus.

(** ** Order-level transitions of SurveysService (answer.entity.ts) *)
Module SurveyOrderStatus.
Section Service.
Context {D : Declarations}.
Import Prisma.

(** The column [instructionsDescription] of a survey, as a function of the
    row (see [CampaignOrderStatus.instructions]). *)
Variable instructionsDescription : Survey -> option string.

(* answer.entity.ts:1688 *)
Definition startSurvey (surveyId : Z) : M Survey :=
  survey <- survey_findUniqueOrThrow surveyId ;;
  order <- orderOf (survey_platformProductOrderId survey) ;;
  if strictEq (order_status order) (orderStatus OnGoing) then
    throw (BadRequestApplicationException
             ("Survey " ++ jsNumber surveyId ++ " has already started"))
  else if lessThan (orderStatus OnGoing) (order_status order) then
    throw (BadRequestApplicationException
             ("Survey " ++ jsNumber surveyId ++ " has finished"))
  else if CampaignOrderStatus.blank (instructionsDescription survey) then
    throw (BadRequestApplicationException "Fill the data required: instructions")
  else
    survey_update_orderStatus prismaService surveyId (orderStatus OnGoing).

(* answer.entity.ts:1771 *)
Definition archiveSurvey (surveyId : Z) : M Survey :=
  survey <- survey_findUniqueOrThrow surveyId ;;
  order <- orderOf (survey_platformProductOrderId survey) ;;
  if atLeast (orderStatus OnGoing) (order_status order) then
    throw (ForbiddenApplicationException "Survey can't be archived as it is not finished")
  else if strictEq (order_status order) (orderStatus Archived) then
    throw (ForbiddenApplicationException "Survey is already archived")
  else
    survey_update_orderStatus prismaService surveyId (orderStatus Archived).

End Service.
End SurveyOrderStatus.

(** ** PlatformProductOrderService, the payments
    (src/core/platform-product/platform-product-order.service.ts) *)

Module PlatformProductOrderPayments.
Section Service.
Context {D : Declarations}.
Import Prisma.

(** ApprovePaymentsDto. *)
Record ApprovePaymentsDto := {
  paymentIds : list Z;
  dto_status : number }.

(* platform-product-order.service.ts:772; the updates are handed to
   [$transaction] as an array, which runs them in order in one transaction *)
Definition updatePlatformProductPayments (dto : ApprovePaymentsDto)
  : M (list PlatformProductOrderInfluencer) :=
  catch
    (existingPayments <- query prismaService (fun db =>
       filter (fun r =>
                 inIds (poi_id r) (paymentIds dto)
                 && includes [influencerStatus Declined; influencerStatus ToBePaid;
                              influencerStatus Paid] (status r))
              (platformProductOrderInfluencers db)) ;;
     let existingPaymentIds := map poi_id existingPayments in
     let missingPaymentIds :=
       filter (fun id => negb (inIds id existingPaymentIds)) (paymentIds dto) in
     if 0 <? Z.of_nat (List.length missingPaymentIds) then
       throw (ConflictException
                ("Payment with id " ++ join (map jsNumber missingPaymentIds)
                   ++ " does not exist"))
     else
       transaction (fun tx =>
         traverse (fun id => platformProductOrderInfluencer_update tx id (dto_status dto))
                  existingPaymentIds))
    (fun error => throw error).

End Service.
End PlatformProductOrderPayments.

(** ** Prisma's Decimal

    [Decimal] of @prisma/client/runtime is decimal.js, which is not among the
    sources: a sum and a difference are rounded to the precision the library
    is configured with.  A Decimal column holds a value at the precision and
    the scale of its declaration in the Prisma schema, which is not among the
    sources either.  The values, the operations the service calls and what a
    column holds of a value written to it are parameters of the
    development: nothing is assumed of them. *)
Module Decimal.

(** The Decimal columns the service writes. *)
Inductive Column :=
| transactionFlow_amount
| transaction_availableAmounts
| transaction_unavailableAmounts.

Class Arithmetic := {
  t : Type;                              (* a Decimal *)
  number : Type;                         (* a JavaScript number *)
  new : number -> t;                     (* new Decimal(n) *)
  zero : t;                              (* new Decimal(0) *)
  add : t -> t -> t;                     (* x.add(y) *)
  sub : t -> t -> t;                     (* x.sub(y) *)
  lessThan : t -> t -> bool;             (* x.lessThan(y) *)
  stored : Column -> t -> t;             (* what the column holds of a Decimal written to it *)
  storedNumber : Column -> number -> t   (* what the column holds of a number written to it *) }.

End Decimal.

(** ** FinanceService (src/core/finance/finance.service.ts) *)

Module Finance.

(** TransactionStatus and TransactionFlowType come from src/utils, which is
    not among the sources: the numbers of their members are parameters. *)
Inductive TransactionStatus := Pending | Approved | Declined.

Class Declarations := {
  transactionStatus : TransactionStatus -> number;
  Withdrawal : number }.

(** The calls of the service to NotificationsService, with their arguments. *)
Inductive Notification :=
| paymentRequested (userId transactionId transactionFlowId : Z)
| paymentApproved (userId transactionId transactionFlowId : Z)
| paymentDeclined (userId transactionId transactionFlowId : Z)
| withdrawRequested (userId transactionId : Z)
| withdrawApproved (userId transactionId : Z)
| withdrawDeclined (userId transactionId : Z).

Inductive Failure :=
| TransactionOperationBadRequestException (transactionFlowId : Z) (operation : string)
| TransactionInsufficientFundsUnprocessableEntityException
| TypeError
| Rejected (code : string).

Inductive Outcome (A : Type) :=
| Done (a : A)
| Failed (e : Failure).
Arguments Done {A} a.
Arguments Failed {A} e.

Section Rows.
Context {Dec : Decimal.Arithmetic}.

(** *** Rows *)

(** [amount] is a Decimal column: the row holds what the column holds of the
    value written. *)
Record TransactionFlow := {
  flow_id : Z;
  flow_name : option string;
  flow_vendorId : option Z;
  flow_userId : Z;
  flow_type : number;
  flow_amount : Decimal.t;
  flow_productOrderId : option Z }.

(** [availableAmounts] and [unavailableAmounts] are Decimal columns. *)
Record Transaction := {
  txn_id : Z;
  txn_transactionFlowId : Z;
  availableAmounts : Decimal.t;
  unavailableAmounts : Decimal.t;
  txn_status : number }.

(** [transactions] is in the order of [createdAt], the oldest first.
    [notified]: the notifications that went out.
    [answers]: what the store and the notifications service answer to the
    upcoming writes and notifications, in order: [None] (or an exhausted
    script) accepts, [Some code] fails with that code. *)
Record Store := {
  transactionFlows : list TransactionFlow;
  transactions : list Transaction;
  notified : list Notification;
  answers : list (option string) }.

Definition F (A : Type) : Type := Store -> Store * Outcome A.

Definition ret {A} (a : A) : F A := fun w => (w, Done a).

Definition throw {A} (e : Failure) : F A := fun w => (w, Failed e).

Definition bind {A B} (m : F A) (k : A -> F B) : F B := fun w =>
  match m w with
  | (w', Done a) => k a w'
  | (w', Failed e) => (w', Failed e)
  end.

End Rows.

Declare Scope finance_scope.
Delimit Scope finance_scope with finance.
Notation "x <- m ;; k" := (bind m (fun x => k))
  (at level 61, m at next level, right associativity) : finance_scope.
Notation "m ;;; k" := (bind m (fun _ => k))
  (at level 61, right associativity) : finance_scope.
Local Open Scope finance_scope.

Section Ledger.
Context {Dec : Decimal.Arithmetic}.

(** Reading a property of a value that may be undefined or null. *)
Definition deref {A} (o : option A) : F A :=
  match o with
  | Some a => ret a
  | None => throw TypeError
  end.

Definition answer : F (option string) := fun w =>
  match answers w with
  | [] => (w, Done None)
  | a :: rest =>
      ({| transactionFlows := transactionFlows w; transactions := transactions w;
          notified := notified w; answers := rest |}, Done a)
  end.

(** A write or a notification [change], accepted or not by the next answer. *)
Definition attempt {A} (change : Store -> Store * A) : F A :=
  a <- answer ;;
  match a with
  | Some code => throw (Rejected code)
  | None => fun w => let (w', r) := change w in (w', Done r)
  end.

(** *** The store *)

(** The flow a transaction belongs to ([include: { transactionFlow: true }]
    and the relation filter [transactionFlow: { ... }]). *)
Definition flowOf (w : Store) (t : Transaction) : option TransactionFlow :=
  find (fun f => flow_id f =? txn_transactionFlowId t) (transactionFlows w).

(** [findMany({ where, take: 1, orderBy: { createdAt: 'desc' } })] followed
    by [shift()]: the newest transaction that satisfies [where], if any. *)
Definition newest (where_ : Transaction -> bool) (w : Store) : option Transaction :=
  hd_error (rev (filter where_ (transactions w))).

(** Autoincremented primary keys. *)
Definition nextFlowId (w : Store) : Z :=
  1 + fold_right (fun f m => Z.max (flow_id f) m) 0 (transactionFlows w).

Definition nextTransactionId (w : Store) : Z :=
  1 + fold_right (fun t m => Z.max (txn_id t) m) 0 (transactions w).

Definition withFlow (w : Store) (f : TransactionFlow) : Store :=
  {| transactionFlows := transactionFlows w ++ [f]; transactions := transactions w;
     notified := notified w; answers := answers w |}.

Definition withTransaction (w : Store) (t : Transaction) : Store :=
  {| transactionFlows := transactionFlows w; transactions := transactions w ++ [t];
     notified := notified w; answers := answers w |}.

Definition withNotification (w : Store) (n : Notification) : Store :=
  {| transactionFlows := transactionFlows w; transactions := transactions w;
     notified := notified w ++ [n]; answers := answers w |}.

(** [transactionFlow.create({ data })], for [amount] the value the column
    holds of the amount written. *)
Definition transactionFlow_create (name : option string) (vendorId : option Z)
    (userId : Z) (type : number) (amount : Decimal.t) (productOrderId : option Z)
  : F TransactionFlow :=
  attempt (fun w =>
    let f := {| flow_id := nextFlowId w; flow_name := name; flow_vendorId := vendorId;
                flow_userId := userId; flow_type := type; flow_amount := amount;
                flow_productOrderId := productOrderId |} in
    (withFlow w f, f)).

(** [transaction.create({ data, include: { transactionFlow: true } })]: the
    row holds what the two columns hold of the amounts written. *)
Definition transaction_create (flowId : Z) (available unavailable : Decimal.t) (s : number)
  : F (Transaction * option TransactionFlow) :=
  attempt (fun w =>
    let t := {| txn_id := nextTransactionId w; txn_transactionFlowId := flowId;
                availableAmounts :=
                  Decimal.stored Decimal.transaction_availableAmounts available;
                unavailableAmounts :=
                  Decimal.stored Decimal.transaction_unavailableAmounts unavailable;
                txn_status := s |} in
    (withTransaction w t, (t, flowOf w t))).

(** [transactionFlow.create({ data: { ..., transactions: { create } } })]:
    the flow and its first transaction in one write. *)
Definition transactionFlow_create_nested (userId : Z) (type : number) (amount : Decimal.t)
    (available unavailable : Decimal.t) (s : number) : F TransactionFlow :=
  attempt (fun w =>
    let f := {| flow_id := nextFlowId w; flow_name := None; flow_vendorId := None;
                flow_userId := userId; flow_type := type;
                flow_amount := Decimal.stored Decimal.transactionFlow_amount amount;
                flow_productOrderId := None |} in
    let t := {| txn_id := nextTransactionId w; txn_transactionFlowId := flow_id f;
                availableAmounts :=
                  Decimal.stored Decimal.transaction_availableAmounts available;
                unavailableAmounts :=
                  Decimal.stored Decimal.transaction_unavailableAmounts unavailable;
                txn_status := s |} in
    (withTransaction (withFlow w f) t, f)).

(** A call to NotificationsService: it touches neither flows nor
    transactions, and it can fail. *)
Definition notificationsService (n : Notification) : F unit :=
  attempt (fun w => (withNotification w n, tt)).

(** *** The service *)

Section Service.
Context {D : Declarations}.

(** CreateTransactionFlowDto; [amount] is a number. *)
Record CreateTransactionFlowDto := {
  dto_name : option string;
  dto_vendorId : option Z;
  dto_type : number;
  dto_amount : Decimal.number;
  dto_productOrderId : option Z }.

(* finance.service.ts:69 *)
Definition getLastTransaction (userId : Z) : F (option Transaction) := fun w =>
  (w, Done (newest (fun t => match flowOf w t with
                             | Some f => flow_userId f =? userId
                             | None => false
                             end) w)).

(* finance.service.ts:85 *)
Definition getLastTransactionInFlow (transactionFlowId : Z)
  : F (option (Transaction * option TransactionFlow)) := fun w =>
  (w, Done (option_map (fun t => (t, flowOf w t))
              (newest (fun t => txn_transactionFlowId t =? transactionFlowId) w))).

(** The amounts of the last transaction of the user, or [new Decimal(0)]
    twice. *)
Definition amountsOf (lastTransaction : option Transaction) : Decimal.t * Decimal.t :=
  match lastTransaction with
  | Some t => (availableAmounts t, unavailableAmounts t)
  | None => (Decimal.zero, Decimal.zero)
  end.

(* finance.service.ts:119; two writes, outside any transaction; the number
   [amount] goes to the column as it is *)
Definition createTransactionFlow (userId : Z) (dto : CreateTransactionFlowDto)
  : F TransactionFlow :=
  lastTransaction <- getLastTransaction userId ;;
  let amounts := amountsOf lastTransaction in
  transactionFlow <- transactionFlow_create (dto_name dto) (dto_vendorId dto) userId
                       (dto_type dto)
                       (Decimal.storedNumber Decimal.transactionFlow_amount (dto_amount dto))
                       (dto_productOrderId dto) ;;
  transaction <- transaction_create (flow_id transactionFlow) (fst amounts) (snd amounts)
                   (transactionStatus Pending) ;;
  notificationsService
    (paymentRequested userId (txn_id (fst transaction)) (flow_id transactionFlow)) ;;;
  ret transactionFlow.

(** The part shared by the four methods that settle a flow
    (finance.service.ts:162, 201, 280 and 318): they differ in the word of
    the failure, in the amounts and the status of the transaction they
    create, and in the notification. *)
Definition settle (operation : string)
    (available unavailable : Transaction -> Decimal.t -> Decimal.t) (s : number)
    (notification : Z -> Z -> Z -> Notification) (transactionFlowId : Z)
  : F Transaction :=
  found <- getLastTransactionInFlow transactionFlowId ;;
  lastTransactionInFlow <- deref found ;;
  if negb (strictEq (txn_status (fst lastTransactionInFlow)) (transactionStatus Pending)) then
    throw (TransactionOperationBadRequestException transactionFlowId operation)
  else
    flow <- deref (snd lastTransactionInFlow) ;;
    last <- getLastTransaction (flow_userId flow) ;;
    lastTransaction <- deref last ;;
    transaction <- transaction_create (txn_transactionFlowId (fst lastTransactionInFlow))
                     (available lastTransaction (flow_amount flow))
                     (unavailable lastTransaction (flow_amount flow)) s ;;
    included <- deref (snd transaction) ;;
    notificationsService
      (notification (flow_userId included) (txn_id (fst transaction)) (flow_id included)) ;;;
    ret (fst transaction).

(* finance.service.ts:162 *)
Definition approveTransactionFlow : Z -> F Transaction :=
  settle "approve"
    (fun t amount => Decimal.add (availableAmounts t) amount)
    (fun t _ => unavailableAmounts t)
    (transactionStatus Approved) paymentApproved.

(* finance.service.ts:201 *)
Definition declineTransactionFlow : Z -> F Transaction :=
  settle "decline"
    (fun t _ => availableAmounts t)
    (fun t _ => unavailableAmounts t)
    (transactionStatus Declined) paymentDeclined.

(* finance.service.ts:238; [dto_amount] is [dto.amount] *)
Definition createWithdrawTransaction (userId : Z) (dto_amount : Decimal.number)
  : F TransactionFlow :=
  let amount := Decimal.new dto_amount in
  lastTransaction <- getLastTransaction userId ;;
  let amounts := amountsOf lastTransaction in
  if Decimal.lessThan (Decimal.sub (fst amounts) amount) Decimal.zero then
    throw TransactionInsufficientFundsUnprocessableEntityException
  else
    transaction <- transactionFlow_create_nested userId Withdrawal amount
                     (Decimal.sub (fst amounts) amount) (Decimal.add (snd amounts) amount)
                     (transactionStatus Pending) ;;
    (* the flow created is passed where the id of a transaction is expected *)
    notificationsService (withdrawRequested userId (flow_id transaction)) ;;;
    ret transaction.

(* finance.service.ts:280 *)
Definition approveWithdrawTransactionFlow : Z -> F Transaction :=
  settle "approve"
    (fun t _ => availableAmounts t)
    (fun t amount => Decimal.sub (unavailableAmounts t) amount)
    (transactionStatus Approved) (fun userId transactionId _ => withdrawApproved userId transactionId).

(* finance.service.ts:318 *)
Definition declineWithdrawTransactionFlow : Z -> F Transaction :=
  settle "decline"
    (fun t amount => Decimal.add (availableAmounts t) amount)
    (fun t amount => Decimal.sub (unavailableAmounts t) amount)
    (transactionStatus Declined) (fun userId transactionId _ => withdrawDeclined userId transactionId).

End Service.
End Ledger.
End Finance.

(** ** CampaignService, the tracking of website clicks
    (src/core/campaign/campaign.service.ts) *)

Module CampaignTracking.
Section Service.
Import Prisma.

(** The column [clientCompanyWebsite] of Campaign. *)
Variable clientCompanyWebsite : Campaign -> option string.

Definition clicked (p : CampaignInfluencerPerformance) : CampaignInfluencerPerformance :=
  {| perf_campaignId := perf_campaignId p; perf_influencerId := perf_influencerId p;
     submissionLink := submissionLink p; trackingCode := trackingCode p;
     websiteClick := websiteClick p + 1 |}.

(** [trackingCode] is a unique column; the schema, which fixes the range of
    [websiteClick], is not among the sources. *)
Definition incrementWebsiteClick (code : string) (db : Db) : Result (Db * option Campaign) :=
  let rows := campaignInfluencerPerformances db in
  match find (fun p => (trackingCode p =? code)%string) rows with
  | None => Throw (PrismaClientKnownRequestError "P2025")
  | Some p =>
      Ok (withPerformances db
            (map (fun x => if (trackingCode x =? code)%string then clicked x else x) rows),
          find (fun c => campaign_id c =? perf_campaignId p) (campaigns db))
  end.

(** [campaignInfluencerPerformance.update({ where: { trackingCode },
    data: { websiteClick: { increment: 1 } }, select: { campaign } })]. *)
Definition campaignInfluencerPerformance_update_websiteClick (c : Client) (code : string)
  : M (option Campaign) :=
  write c (incrementWebsiteClick code).

(* campaign.service.ts:1233 *)
Definition track (code : string) : M (option string) :=
  catch
    (selected <- campaignInfluencerPerformance_update_websiteClick prismaService code ;;
     (* const { campaign: { clientCompanyWebsite } } = ... *)
     campaign <- deref selected ;;
     ret (clientCompanyWebsite campaign))
    (fun err =>
       match err with
       | PrismaClientKnownRequestError errorCode =>
           if (errorCode =? "P2025")%string then
             throw (NotFoundApplicationException "Cannot track a code")
           else throw err
       | _ => throw err
       end).

End Service.
End CampaignTracking.

(** ** Insight: the relative change (src/core/insight/utils/relative-change.ts) *)

Module RelativeChange.

(** The doubles of JavaScript, as far as [getChange] uses them.
    [identical] is [===] on two numbers: false as soon as one is NaN, true
    on [0] and [-0]. *)
Class Doubles := {
  double : Type;
  literal : Z -> double;
  NaN : double;
  identical : double -> double -> bool;
  negate : double -> double;
  divide : double -> double -> double;
  subtract : double -> double -> double;
  multiply : double -> double -> double }.

Section Function.
Context {F : Doubles}.

(** What the caller passes for an optional [number]. *)
Inductive Value :=
| undefined
| null
| Num (d : double).

(** What [getChange] returns: the text ['N/A'] or a value. *)
Inductive Change :=
| NA
| Val (v : Value).

(** [v === undefined], [v === null] and [v === 0]. *)
Definition isUndefined (v : Value) : bool :=
  match v with undefined => true | _ => false end.

Definition isNull (v : Value) : bool :=
  match v with null => true | _ => false end.

Definition isZero (v : Value) : bool :=
  match v with Num d => identical d (literal 0) | _ => false end.

(** The number an operand of [-], [/] is converted to. *)
Definition toNumber (v : Value) : double :=
  match v with
  | undefined => NaN
  | null => literal 0
  | Num d => d
  end.

(* relative-change.ts:1; the fourth test of the guard repeats the second *)
Definition getChange (after before : Value) : Change :=
  if isNull after || isUndefined after || isNull before || isUndefined after then NA
  else if isZero before && isZero after then Val (Num (literal 0))
  else if isZero before && negb (isZero after) then Val after
  else if negb (isZero before) && isZero after then Val (Num (negate (toNumber before)))
  else Val (Num (multiply (literal 100)
                   (subtract (divide (toNumber after) (toNumber before)) (literal 1)))).

End Function.
End RelativeChange.

(** ** The dates of birth of an age range (src/utils) *)

Module DateOfBirth.
Section Function.

(** The dates of JavaScript, as far as [calculateDOB] uses them:
    [setFullYear] changes the date it is called on, here it gives the date
    changed. *)
Variable Date : Type.
Variable getFullYear : Date -> Z.
Variable setFullYear : Date -> Z -> Date.

(** What [age && new Date(...)] evaluates to: the age when it is
    [undefined] or [0], the date otherwise.  Ages are whole numbers. *)
Inductive Bound :=
| NoAge (age : option Z)
| Born (date : Date).

Definition truthy (age : option Z) : bool :=
  match age with
  | None => false
  | Some a => negb (a =? 0)
  end.

Definition yearsOf (age : option Z) : Z :=
  match age with Some a => a | None => 0 end.

(** [calculateDOB(minAge, maxAge)] at the time [now]; the one [currentDate]
    is changed by the first [setFullYear] and read again by the second.  The
    result is [(minDOB, maxDOB)]. *)
Definition calculateDOB (now : Date) (minAge maxAge : option Z) : Bound * Bound :=
  let currentDate := now in
  let '(maxDOB, currentDate) :=
    if truthy minAge then
      let changed := setFullYear currentDate (getFullYear currentDate - yearsOf minAge) in
      (Born changed, changed)
    else (NoAge minAge, currentDate) in
  let minDOB :=
    if truthy maxAge then
      Born (setFullYear currentDate (getFullYear currentDate - yearsOf maxAge))
    else NoAge maxAge in
  (minDOB, maxDOB).

End Function.
End DateOfBirth.

(** ** Paginated results (src/utils/prisma/get-paginated-result.util.ts) *)

Module Pagination.

(** The numbers of JavaScript, as far as the metadata use them. *)
Class Numbers := {
  number : Type;
  ofZ : Z -> number;
  divide : number -> number -> number;
  ceil : number -> number;
  add : number -> number -> number }.

Section Util.
Context {N : Numbers}.

(** The records of the model queried, with the [id] the cursor is read from;
    the conditions of [where]; the other arguments of [findMany]. *)
Variables (U Where Others : Type).
Variable id : U -> Z.

Record FindManyArgs := {
  where_ : option Where;
  take : option Z;
  skip : option Z;
  cursor : option Z;
  others : Others }.

(** The client: [count] and [findMany] of the model named, which answer or
    reject ([None]). *)
Variable count : option Where -> option Z.
Variable findMany : FindManyArgs -> option (list U).

Record PaginationParams := {
  limit : Z;
  params_skip : option Z;
  params_cursor : option Z }.

Record PaginationMetadata := {
  totalItems : Z;
  totalFilteredItems : Z;
  itemCount : Z;
  itemsPerPage : Z;
  totalPages : number;
  currentPage : number;
  nextCursor : option Z }.

Record PaginatedResult := {
  data : list U;
  pagination : PaginationMetadata }.

Definition length_ (l : list U) : Z := Z.of_nat (List.length l).

(** [params.skip] as a condition: a number other than [0]. *)
Definition given (n : option Z) : bool :=
  match n with
  | Some s => negb (s =? 0)
  | None => false
  end.

(* get-paginated-result.util.ts:27 *)
Definition calculatePaginationMetadata (params : PaginationParams)
    (totalItems totalFilteredItems : Z) (data : list U) : PaginationMetadata :=
  let itemCount := if 0 <? length_ data then length_ data - 1 else 0 in
  let totalPages := ceil (divide (ofZ totalFilteredItems) (ofZ (limit params))) in
  let currentPage :=
    if given (params_skip params) then
      add (divide (ofZ (match params_skip params with Some s => s | None => 0 end))
                  (ofZ (limit params)))
          (ofZ 1)
    else
      match params_cursor params with
      | Some _ => add (ceil (divide (ofZ itemCount) (ofZ (limit params)))) (ofZ 1)
      | None => ofZ 1
      end in
  let nextCursor :=
    if 0 <? length_ data then option_map id (hd_error (rev data)) else None in
  {| totalItems := totalItems; totalFilteredItems := totalFilteredItems;
     itemCount := itemCount; itemsPerPage := limit params;
     totalPages := totalPages; currentPage := currentPage; nextCursor := nextCursor |}.

(* get-paginated-result.util.ts:54; [{ ...findManyArgs, take, cursor }] and
   [{ ...findManyArgs, take, skip }] *)
Definition getPaginatedResults (findManyArgs : FindManyArgs)
    (paginationParams : PaginationParams) : option PaginatedResult :=
  match count None with
  | None => None
  | Some totalItems =>
      match (match where_ findManyArgs with
             | Some w => count (Some w)
             | None => Some totalItems
             end) with
      | None => None
      | Some totalFilteredItems =>
          match (match params_cursor paginationParams with
                 | Some c =>
                     findMany {| where_ := where_ findManyArgs;
                                 take := Some (limit paginationParams + 1);
                                 skip := skip findManyArgs;
                                 cursor := Some c;
                                 others := others findManyArgs |}
                 | None =>
                     findMany {| where_ := where_ findManyArgs;
                                 take := Some (limit paginationParams + 1);
                                 skip := params_skip paginationParams;
                                 cursor := cursor findManyArgs;
                                 others := others findManyArgs |}
                 end) with
          | None => None
          | Some data =>
              let pagination :=
                calculatePaginationMetadata paginationParams totalItems
                  totalFilteredItems data in
              (* data.pop() *)
              let data := if limit paginationParams <? length_ data
                          then removelast data else data in
              Some {| data := data; pagination := pagination |}
          end
      end
  end.

End Util.

Arguments where_ {Where Others}.
Arguments take {Where Others}.
Arguments skip {Where Others}.
Arguments cursor {Where Others}.
Arguments others {Where Others}.
Arguments data {N U}.
Arguments pagination {N U}.

End Pagination.

(** ** A concrete numbering and a concrete database *)

(** Modelled from the spec: the values of the members of
    ProductOrderInfluencerStatus and Status, whose declaring files
    (product-order-influencer-status.enum.ts, status.enum.ts) are missing.
    Section 4.1 of the specification gives Added(0), Invited(1), Matching(2),
    ToBeSubmitted(3) / ToBeAnswered(3), ToBeApproved(4), NotApproved(4.5),
    Approved(5), ToBePaid(6), Paid(7), and orders the order-level statuses
    InPreparation, OnGoing, Finished, Archived.  It gives no ordinal to the
    side-branch states, which are numbered after Paid here.  The two helper
    functions, whose files are missing as well, render the numeric id. *)
Definition specDeclarations : Declarations :=
  {| influencerStatus := fun s =>
       match s with
       | Added => 0 | Invited => 1 | Matching => 2
       | ToBeSubmitted => 3 | ToBeAnswered => 3
       | ToBeApproved => 4 | NotApproved => 9 # 2 | Approved => 5
       | ToBePaid => 6 | Paid => 7
       | Declined => 8 | NotSelected => 9 | Removed => 10 | Withdrawn => 11
       end%Q;
     orderStatus := fun s =>
       match s with
       | InPreparation => 0 | OnGoing => 1 | Finished => 2 | Archived => 3
       end%Q;
     userIdentity := fun u => jsNumber (caller_id u);
     idToPseudostring := jsNumber |}.

Module Example.

Definition val := @influencerStatus specDeclarations.

Definition row (id order infl : Z) (s : ProductOrderInfluencerStatus)
  : PlatformProductOrderInfluencer :=
  {| poi_id := id; productOrderId := order; influencerId := infl;
     agreedAmount := 100%Q; currency := 1; status := val s |}.

(** Users 11, 12, 13 are the influencers 1, 2, 3.  Campaign 7 runs on order
    70, campaign 8 on order 80, survey 9 on order 90; all three orders are
    on-going. *)
Definition base (rows : list PlatformProductOrderInfluencer) : Db :=
  {| users := [ {| user_id := 11; user_currency := 1; user_status := 4%Q |};
                {| user_id := 12; user_currency := 2; user_status := 4%Q |};
                {| user_id := 13; user_currency := 1; user_status := 4%Q |} ];
     influencers := [ {| influencer_id := 1; influencer_userId := 11 |};
                      {| influencer_id := 2; influencer_userId := 12 |};
                      {| influencer_id := 3; influencer_userId := 13 |} ];
     influencerCampaignAmounts :=
       [ {| amount_influencerId := 1; amount_type := 0; desiredAmount := 250%Q |};
         {| amount_influencerId := 2; amount_type := 0; desiredAmount := (75 # 2)%Q |} ];
     influencerSurveyAmounts :=
       [ {| amount_influencerId := 1; amount_type := 0; desiredAmount := 20%Q |};
         {| amount_influencerId := 2; amount_type := 0; desiredAmount := 30%Q |} ];
     platformProductOrders :=
       [ {| order_id := 70; order_status := @orderStatus specDeclarations OnGoing |};
         {| order_id := 80; order_status := @orderStatus specDeclarations OnGoing |};
         {| order_id := 90; order_status := @orderStatus specDeclarations OnGoing |} ];
     campaigns := [ {| campaign_id := 7; campaign_platformProductOrderId := 70;
                       postType := Some 0 |};
                    {| campaign_id := 8; campaign_platformProductOrderId := 80;
                       postType := Some 0 |} ];
     surveys := [ {| survey_id := 9; survey_platformProductOrderId := 90;
                     surveyType := Some 0 |} ];
     platformProductOrderInfluencers := rows;
     campaignInfluencerPerformances := [];
     surveyResponses := [] |}.

Definition caller (user infl : Z) : UserWithInfluencer :=
  {| caller_id := user; caller_influencer := Some infl |}.

(** The statuses of the participation records, in table order. *)
Definition statuses (w : World) : list number :=
  map status (platformProductOrderInfluencers (committed w)).

Definition orderStatuses (w : World) : list number :=
  map order_status (platformProductOrders (committed w)).

End Example.

(** * Properties *)

(** ** Vocabulary of the statements *)

(** Campaign [campaignId] exists and runs on the product order [order]. *)
Definition campaignAt (db : Db) (campaignId : Z) (campaign : Campaign)
    (order : PlatformProductOrder) : Prop :=
  find (fun c => campaign_id c =? campaignId) (campaigns db) = Some campaign /\
  find (fun o => order_id o =? campaign_platformProductOrderId campaign)
       (platformProductOrders db) = Some order.

(** Survey [surveyId] exists and runs on the product order [order]. *)
Definition surveyAt (db : Db) (surveyId : Z) (survey : Survey)
    (order : PlatformProductOrder) : Prop :=
  find (fun s => survey_id s =? surveyId) (surveys db) = Some survey /\
  find (fun o => order_id o =? survey_platformProductOrderId survey)
       (platformProductOrders db) = Some order.

(** The participation record of influencer [infl] in order [orderId]: the
    first one in table order (the only one under the unique key). *)
Definition participant (db : Db) (orderId infl : Z) : option PlatformProductOrderInfluencer :=
  find (fun r => (productOrderId r =? orderId) && (influencerId r =? infl))
       (platformProductOrderInfluencers db).

(** The database in which the records with primary key [id] carry status [s]. *)
Definition setStatus (db : Db) (id : Z) (s : number) : Db :=
  withParticipants db
    (map (fun x => if poi_id x =? id then withStatus x s else x)
         (platformProductOrderInfluencers db)).

(** The record [p'] is the record [p] under the status [s]: it has the
    primary key, the pair, the amount and the currency of [p], and its status
    is [s]. *)
Definition restatused (p p' : PlatformProductOrderInfluencer) (s : number) : Prop :=
  poi_id p' = poi_id p /\ productOrderId p' = productOrderId p /\
  influencerId p' = influencerId p /\ agreedAmount p' = agreedAmount p /\
  currency p' = currency p /\ status p' = s.

(** In the database [db'] the record [p] is found under the status [s]. *)
Definition heldAt (db' : Db) (p : PlatformProductOrderInfluencer) (s : number) : Prop :=
  exists p', In p' (platformProductOrderInfluencers db') /\ restatused p p' s.

(** In the database [db'] the record [p] is found under the status [s], and
    every record with its primary key has that status. *)
Definition foundAt (db' : Db) (p : PlatformProductOrderInfluencer) (s : number) : Prop :=
  heldAt db' p s /\
  (forall x, In x (platformProductOrderInfluencers db') -> poi_id x = poi_id p -> status x = s).

(** The contract of [removeInfluencerSelf] as the specification words it,
    for a run [run] of the method from the database [db] in which the
    caller's participation record is [record]: failure when the caller has no
    record or the status is below Invited, the Forbidden failure at Invited,
    and otherwise the move of the caller's record to Withdrawn: the record
    returned has the status Withdrawn, so has the caller's record in the
    database, and no other record is changed.  A failure leaves the database
    as it was. *)
Definition selfRemovalContract `{D : Declarations}
    (run : M PlatformProductOrderInfluencer) (db : Db)
    (record : option PlatformProductOrderInfluencer) : Prop :=
  match record with
  | None => exists e, run (quiet db) = (quiet db, Throw e)
  | Some p =>
      ((status p < influencerStatus Invited)%Q ->
         exists m, run (quiet db) = (quiet db, Throw (ApplicationException m))) /\
      ((status p == influencerStatus Invited)%Q ->
         exists m, run (quiet db) = (quiet db, Throw (ForbiddenApplicationException m))) /\
      (~ (status p < influencerStatus Invited)%Q ->
       ~ (status p == influencerStatus Invited)%Q ->
         exists r db',
           run (quiet db) = (quiet db', Ok r) /\
           poi_id r = poi_id p /\
           status r = influencerStatus Withdrawn /\
           foundAt db' p (influencerStatus Withdrawn) /\
           db' = setStatus db (poi_id p) (influencerStatus Withdrawn))
  end.

(** The participants an operation names by the ids [ids]: the records of
    the order whose influencer has its [key] (the influencer id or the user
    id, as the operation has it) among [ids]. *)
Definition named (db : Db) (orderId : Z) (key : Influencer -> Z) (ids : list Z)
  : list (PlatformProductOrderInfluencer * Influencer) :=
  Prisma.influencersOfOrder db orderId (fun i => inIds (key i) ids).

(** Influencer [a] is registered as [i] and [p] is its one participation
    record in order [orderId]. *)
Definition soleRecord (db : Db) (orderId a : Z)
    (p : PlatformProductOrderInfluencer) (i : Influencer) : Prop :=
  find (fun i => influencer_id i =? a) (influencers db) = Some i /\
  filter (fun r => (productOrderId r =? orderId) && (influencerId r =? a))
         (platformProductOrderInfluencers db) = [p].

(** The run [run] from [db] succeeds and its one effect is that the record
    [p] carries status [s] afterwards. *)
Definition moves {A} (run : M A) (db : Db) (p : PlatformProductOrderInfluencer)
    (s : number) : Prop :=
  exists r db',
    run (quiet db) = (quiet db', Ok r) /\
    foundAt db' p s /\
    db' = setStatus db (poi_id p) s.

(** The run [run] from [db] fails with BadRequest and changes nothing. *)
Definition refuses {A} (run : M A) (db : Db) : Prop :=
  exists m, run (quiet db) = (quiet db, Throw (BadRequestApplicationException m)).

(** Influencer [a] takes part in order [orderId]: it is registered and has a
    participation record there. *)
Definition isParticipant (db : Db) (orderId a : Z) : Prop :=
  exists r i,
    In r (platformProductOrderInfluencers db) /\
    productOrderId r = orderId /\ influencerId r = a /\
    find (fun i => influencer_id i =? a) (influencers db) = Some i.

(** The record [r] belongs to order [orderId] and to one of the influencers
    [ids]. *)
Definition namedRow (orderId : Z) (ids : list Z) (r : PlatformProductOrderInfluencer) : bool :=
  (productOrderId r =? orderId) && inIds (influencerId r) ids.

(** The pre-application and post-application statuses of the two services. *)
Definition campaignPre := [Added; Invited; Matching].
Definition campaignPost := [ToBeSubmitted; ToBeApproved; Approved; ToBePaid; Paid].
Definition surveyPre := [Added; Invited].
Definition surveyPost := [ToBeAnswered; ToBeApproved; Approved; ToBePaid; Paid].

(** What [removeInfluencers] is specified to do to one record. *)
Definition removal `{D : Declarations} (pre post : list ProductOrderInfluencerStatus)
    (orderId : Z) (ids : list Z) (r : PlatformProductOrderInfluencer)
  : PlatformProductOrderInfluencer :=
  if namedRow orderId ids r then
    if includes (map influencerStatus pre) (status r)
    then withStatus r (influencerStatus NotSelected)
    else if includes (map influencerStatus post) (status r)
         then withStatus r (influencerStatus Removed)
         else r
  else r.

(** The number of named records of the order whose status is in [bucket]. *)
Definition bucketCount `{D : Declarations} (bucket : list ProductOrderInfluencerStatus)
    (orderId : Z) (ids : list Z) (db : Db) : Z :=
  Z.of_nat (List.length
    (filter (fun r => namedRow orderId ids r
                      && includes (map influencerStatus bucket) (status r))
            (platformProductOrderInfluencers db))).

(** No member of [xs] has the numeric value of a member of [ys]. *)
Definition separated `{D : Declarations} (xs ys : list ProductOrderInfluencerStatus) : Prop :=
  forall x y, In x xs -> In y ys -> ~ (influencerStatus x == influencerStatus y)%Q.

(** What [finishCampaign] and [finishSurvey] leave behind when nothing is
    rejected: the order [orderId] carries the status Finished, and every
    participation record whose status is Approved, of whatever order, carries
    ToBePaid. *)
Definition finished `{D : Declarations} (db : Db) (orderId : Z) : Db :=
  withOrders
    (withParticipants db
       (map (fun r => if strictEq (status r) (influencerStatus Approved)
                      then withStatus r (influencerStatus ToBePaid) else r)
            (platformProductOrderInfluencers db)))
    (map (fun o => if order_id o =? orderId
                   then {| order_id := order_id o; order_status := orderStatus Finished |}
                   else o)
         (platformProductOrders db)).

(** The world outside any transaction in which the store answers the
    upcoming writes and commits by [script]. *)
Definition scripted (db : Db) (script : list (option string)) : World :=
  {| committed := db; pending := []; rejections := script |}.

(** All or nothing, for a run that ended in world [w] with result [r] after
    starting from the committed database [db]: a failure has left [db] as it
    was, and a success has made all of [effects] true of the committed
    database. *)
Definition allOrNothing {A} (db : Db) (w : World) (r : Result A) (effects : Db -> Prop) : Prop :=
  pending w = [] /\
  match r with
  | Throw _ => committed w = db
  | Ok _ => effects (committed w)
  end.

(** The run [run] from [db] fails with Forbidden, resp. with the plain
    ApplicationException, and changes nothing. *)
Definition forbids {A} (run : M A) (db : Db) : Prop :=
  exists m, run (quiet db) = (quiet db, Throw (ForbiddenApplicationException m)).

Definition fails {A} (run : M A) (db : Db) : Prop :=
  exists m, run (quiet db) = (quiet db, Throw (ApplicationException m)).

(** Whatever the outcome of the run [run] from [db], the participation
    records afterwards are the records before, each one changed by [f], and
    [f] leaves the record [r] as it is. *)
Definition keeps {A} (run : M A) (db : Db) (r : PlatformProductOrderInfluencer) : Prop :=
  exists f,
    platformProductOrderInfluencers (committed (fst (run (quiet db))))
    = map f (platformProductOrderInfluencers db) /\
    f r = r.

(** The run [run] from [db] succeeds. *)
Definition succeeds {A} (run : M A) (db : Db) : Prop :=
  exists a db', run (quiet db) = (quiet db', Ok a).

(** The status value [v] is the value of no member of [set]. *)
Definition outside `{D : Declarations} (set : list ProductOrderInfluencerStatus)
    (v : number) : Prop :=
  forall x, In x set -> ~ (v == influencerStatus x)%Q.

(** The upsert arguments the directory yields for a selected user, when the
    user has an influencer profile with a desired amount for the type. *)
Definition plan (u : UserInfluencer) : option (Z * Q * Z) :=
  match ui_influencer u with
  | Some (i, a :: _) => Some (influencer_id i, desiredAmount a, ui_currency u)
  | _ => None
  end.

(** The ids of [ids] that are the id of no user. *)
Definition unknownUsers (db : Db) (ids : list Z) : list Z :=
  filter (fun id => negb (existsb (fun u => user_id u =? id) (users db))) ids.

(** One upsert on the table of participation records, and a sequence of
    them: the record of the pair, if there is one, gets the amount and the
    currency; otherwise a record is appended with the status [createStatus]. *)
Definition upsertRow (orderId : Z) (createStatus : number)
    (rows : list PlatformProductOrderInfluencer) (arg : Z * Q * Z)
  : list PlatformProductOrderInfluencer :=
  let '(inflId, amount, cur) := arg in
  match find (Prisma.identifier orderId inflId) rows with
  | Some _ =>
      map (fun x => if Prisma.identifier orderId inflId x
                    then Prisma.withAmount x amount cur else x) rows
  | None =>
      rows ++ [ {| poi_id := Prisma.nextId rows; productOrderId := orderId;
                   influencerId := inflId; agreedAmount := amount;
                   currency := cur; status := createStatus |} ]
  end.

Definition upsertAll (orderId : Z) (createStatus : number) (args : list (Z * Q * Z))
    (rows : list PlatformProductOrderInfluencer) : list PlatformProductOrderInfluencer :=
  fold_left (upsertRow orderId createStatus) args rows.

(** The number of participation records of the pair (order, influencer). *)
Definition recordCount (orderId inflId : Z) (rows : list PlatformProductOrderInfluencer) : nat :=
  List.length (filter (Prisma.identifier orderId inflId) rows).

(** [g] changes at most the amount and the currency of a record. *)
Definition amountOnly (g : PlatformProductOrderInfluencer -> PlatformProductOrderInfluencer)
  : Prop :=
  forall x, poi_id (g x) = poi_id x /\ productOrderId (g x) = productOrderId x /\
            influencerId (g x) = influencerId x /\ status (g x) = status x.

(** Every record of order [orderId] whose influencer occurs in [args]
    carries the amount and the currency of one of its entries in [args]. *)
Definition covered (orderId : Z) (args : list (Z * Q * Z))
    (rows : list PlatformProductOrderInfluencer) : Prop :=
  forall x, In x rows -> productOrderId x = orderId ->
    (exists a c, In (influencerId x, a, c) args) ->
    In (influencerId x, agreedAmount x, currency x) args.

(** The run never ends in the Conflict exception, whatever the world. *)
Definition neverConflict {A} (m : M A) : Prop :=
  forall w msg, snd (m w) <> Throw (ConflictException msg).

(** The text of the NotFound failure of [addInfluencers] for the ids
    [missing], in decimal digits. *)
Definition doNotExist (missing : list Z) : string :=
  oneOrMany decimalDigits missing
    (fun x => "Influencer " ++ x ++ " does not exist")
    (fun xs => "Influencers " ++ xs ++ " do not exist").

(** The contract of [addInfluencers] that the code keeps, for a run [run]
    on the order [order] whose post or survey type is [type], with [selected]
    the users the directory returns for the named ids. *)
Definition addContract `{D : Declarations} (run : M (list PlatformProductOrderInfluencer))
    (db : Db) (ids : list Z) (order : PlatformProductOrder) (type : option Z)
    (selected : list UserInfluencer) : Prop :=
  (* the order has finished *)
  ((orderStatus Finished <= order_status order)%Q -> forbids run db) /\
  (* no type on the order *)
  ((order_status order < orderStatus Finished)%Q -> type = None -> refuses run db) /\
  (* an id is the id of no user; the text, for ids that are safe integers *)
  ((order_status order < orderStatus Finished)%Q -> type <> None ->
   unknownUsers db ids <> [] ->
   Forall safeInteger (unknownUsers db ids) ->
   run (quiet db)
   = (quiet db, Throw (NotFoundApplicationException (doNotExist (unknownUsers db ids))))) /\
  (* success *)
  (forall args,
     (order_status order < orderStatus Finished)%Q -> type <> None ->
     unknownUsers db ids = [] ->
     map plan selected = map Some args ->
     exists rs db',
       run (quiet db) = (quiet db', Ok rs) /\
       platformProductOrderInfluencers db'
       = upsertAll (order_id order) (influencerStatus Added) args
           (platformProductOrderInfluencers db) /\
       forall i a c, In (i, a, c) args ->
         exists x, In x (platformProductOrderInfluencers db') /\
                   productOrderId x = order_id order /\ influencerId x = i /\
                   In (i, agreedAmount x, currency x) args /\
                   (recordCount (order_id order) i (platformProductOrderInfluencers db) = 0%nat ->
                    status x = influencerStatus Added)) /\
  (* no Conflict, whatever the store answers *)
  neverConflict run.

(** Calling [addInfluencers] twice, for a run [run] on the order [orderId]
    whose directory yields the arguments [args]: both calls succeed; every
    named pair has exactly one record after the first call and after the
    second; the second call creates no record and changes at most the amount
    and the currency of the records, which for a named pair are those of the
    directory. *)
Definition addedTwice {A} (run : M A)
    (db : Db) (orderId : Z) (args : list (Z * Q * Z)) : Prop :=
  exists rs1 db1 rs2 db2 g,
    run (quiet db) = (quiet db1, Ok rs1) /\
    run (quiet db1) = (quiet db2, Ok rs2) /\
    (forall i a c, In (i, a, c) args ->
       recordCount orderId i (platformProductOrderInfluencers db1) = 1%nat /\
       recordCount orderId i (platformProductOrderInfluencers db2) = 1%nat) /\
    platformProductOrderInfluencers db2 = map g (platformProductOrderInfluencers db1) /\
    amountOnly g /\
    (forall x i a c, In x (platformProductOrderInfluencers db2) ->
       In (i, a, c) args -> productOrderId x = orderId -> influencerId x = i ->
       In (i, agreedAmount x, currency x) args).

(** The insert-only [PlatformProductOrderService.addInfluencers] called
    twice, for a run [run] on the pair (order, influencer): the first call
    succeeds and appends the record it returns, the one record of the pair;
    the second call fails with Conflict and leaves the database, that record
    included, as the first call left it. *)
Definition insertedOnce (run : M PlatformProductOrderInfluencer)
    (db : Db) (orderId inflId : Z) : Prop :=
  exists r db1,
    run (quiet db) = (quiet db1, Ok r) /\
    platformProductOrderInfluencers db1 = (platformProductOrderInfluencers db ++ [r])%list /\
    productOrderId r = orderId /\ influencerId r = inflId /\
    recordCount orderId inflId (platformProductOrderInfluencers db1) = 1%nat /\
    run (quiet db1) = (quiet db1, Throw (ConflictException "Already Exists")).


(** Starting twice: the first start succeeds and its one effect is that the
    order is on-going; the second start fails with BadRequest and leaves the
    database as the first one left it. *)
Definition startedTwice `{D : Declarations} {A} (start : M A) (db : Db) (orderId : Z) : Prop :=
  exists r db1,
    start (quiet db) = (quiet db1, Ok r) /\
    db1 = Prisma.setOrderStatus orderId (orderStatus OnGoing) db /\
    refuses start db1.


(** The guards of archive, for an order whose status is [s]: Forbidden at or
    below OnGoing and at Archived; otherwise the order becomes Archived,
    nothing else changes, and a second archive is Forbidden. *)
Definition archiveGuards `{D : Declarations} {A} (archive : M A) (db : Db)
    (orderId : Z) (s : number) : Prop :=
  ((s <= orderStatus OnGoing)%Q -> forbids archive db) /\
  ((s == orderStatus Archived)%Q -> forbids archive db) /\
  ((orderStatus OnGoing < s)%Q -> ~ (s == orderStatus Archived)%Q ->
     exists r db1,
       archive (quiet db) = (quiet db1, Ok r) /\
       db1 = Prisma.setOrderStatus orderId (orderStatus Archived) db /\
       forbids archive db1).

(** The guards of finish, for an order whose status is [s]: off OnGoing the
    call fails with the Forbidden text [notStarted], whatever the world, and
    leaves it as it was; the Forbidden text [alreadyFinished] is the outcome
    in no world. *)
Definition finishGuards `{D : Declarations} {A} (finish : M A) (db : Db) (s : number)
    (notStarted alreadyFinished : string) : Prop :=
  (~ (s == orderStatus OnGoing)%Q ->
     forall w, committed w = db ->
       finish w = (w, Throw (ForbiddenApplicationException notStarted))) /\
  (forall w, committed w = db ->
     snd (finish w) <> Throw (ForbiddenApplicationException alreadyFinished)).

(** The result is a value, or the rejection of a store operation: no
    exception of the application. *)
Definition storeError {A} (r : Result A) : Prop :=
  match r with
  | Ok _ => True
  | Throw (PrismaClientKnownRequestError _) => True
  | Throw _ => False
  end.

(** The record [r] belongs to order [orderId] and to a registered influencer
    whose [key] is one of [ids]: the relation filter
    [where: { influencer: { <key>: { in: ids } } }] on the records of an
    order. *)
Definition namedBy (db : Db) (orderId : Z) (key : Influencer -> Z) (ids : list Z)
    (r : PlatformProductOrderInfluencer) : bool :=
  (productOrderId r =? orderId) &&
  match find (fun i => influencer_id i =? influencerId r) (influencers db) with
  | Some i => inIds (key i) ids
  | None => false
  end.

(** Some record of order [orderId] belongs to a registered influencer whose
    [key] is [a]. *)
Definition takesPartAs (db : Db) (orderId : Z) (key : Influencer -> Z) (a : Z) : Prop :=
  exists r i,
    In r (platformProductOrderInfluencers db) /\
    productOrderId r = orderId /\
    find (fun i => influencer_id i =? influencerId r) (influencers db) = Some i /\
    key i = a.

(** The run [run] from [db] succeeds; its one effect is that the records
    selected by [sel] carry status [s]; it returns the selected records, in
    table order, with that status. *)
Definition batch (run : M (list PlatformProductOrderInfluencer)) (db : Db)
    (sel : PlatformProductOrderInfluencer -> bool) (s : number) : Prop :=
  run (quiet db)
  = (quiet (withParticipants db
              (map (fun x => if sel x then withStatus x s else x)
                   (platformProductOrderInfluencers db))),
     Ok (map (fun x => withStatus x s) (filter sel (platformProductOrderInfluencers db)))).

(** The writes [fs], one after the other on the database [db]: the database
    after the last one and the results, or the first failure. *)
Fixpoint applyAll {A} (fs : list (Db -> Result (Db * A))) (db : Db) : Result (Db * list A) :=
  match fs with
  | [] => Ok (db, [])
  | f :: rest =>
      match f db with
      | Throw e => Throw e
      | Ok (d1, a) =>
          match applyAll rest d1 with
          | Throw e => Throw e
          | Ok (d2, l) => Ok (d2, a :: l)
          end
      end
  end.

(** The statuses a payment can be updated from. *)
Definition payable `{D : Declarations} (v : number) : bool :=
  includes [influencerStatus Declined; influencerStatus ToBePaid; influencerStatus Paid] v.

(** The ids of [ids], in their order, that are the primary key of no record
    with a payable status. *)
Definition notPayable `{D : Declarations} (db : Db) (ids : list Z) : list Z :=
  filter (fun id => negb (existsb (fun r => (poi_id r =? id) && payable (status r))
                                  (platformProductOrderInfluencers db)))
         ids.

(** The account of the influencer [infl], as
    [user.findFirst({ where: { influencer: { id } } })] finds it. *)
Definition accountOf (db : Db) (infl : Z) : option User :=
  find (fun u => existsb (fun i => (influencer_userId i =? user_id u)
                                   && (influencer_id i =? infl))
                         (influencers db))
       (users db).

(** The first desired campaign amount of the influencer [infl]. *)
Definition campaignAmountOf (db : Db) (infl : Z) : option InfluencerAmount :=
  find (fun a => amount_influencerId a =? infl) (influencerCampaignAmounts db).

(** The run [run] from [db] succeeds with [result]; its one effect is that
    every record of the order [orderId] carries status [s]. *)
Definition orderWide {A} (run : M A) (db : Db) (orderId : Z) (s : number) (result : A) : Prop :=
  run (quiet db)
  = (quiet (withParticipants db
              (map (fun x => if productOrderId x =? orderId then withStatus x s else x)
                   (platformProductOrderInfluencers db))),
     Ok result).

(** The number of the records of the order [orderId]. *)
Definition recordsOfOrder (db : Db) (orderId : Z) : Z :=
  Z.of_nat (List.length (filter (fun r => productOrderId r =? orderId)
                                (platformProductOrderInfluencers db))).



(** *** The ledger of FinanceService *)

Section FinanceVocabulary.
Import Finance.
Context {Dec : Decimal.Arithmetic}.

(** The last transaction of the user, as [getLastTransaction] finds it. *)
Definition lastOf (w : Store) (userId : Z) : option Transaction :=
  newest (fun t => match flowOf w t with
                   | Some f => flow_userId f =? userId
                   | None => false
                   end) w.

(** The balance of the user: the available and the unavailable amount of the
    last transaction, zero without one. *)
Definition balance (w : Store) (userId : Z) : Decimal.t * Decimal.t :=
  amountsOf (lastOf w userId).

(** The last transaction of the flow, as [getLastTransactionInFlow] finds it,
    and the state of the flow: the status of that transaction. *)
Definition lastInFlow (w : Store) (flowId : Z) : option Transaction :=
  newest (fun t => txn_transactionFlowId t =? flowId) w.

Definition stateOfFlow (w : Store) (flowId : Z) : option number :=
  option_map txn_status (lastInFlow w flowId).

(** Flows and transactions are those of [w]: nothing was written to the
    ledger. *)
Definition sameLedger (w' w : Store) : Prop :=
  transactionFlows w' = transactionFlows w /\ transactions w' = transactions w.

(** The foreign key of Transaction: every transaction belongs to a flow. *)
Definition foreignKeys (w : Store) : Prop :=
  forall t, In t (transactions w) -> flowOf w t <> None.

(** The four methods that settle a flow. *)
Definition settlements `{D : Declarations} : list (Z -> F Transaction) :=
  [approveTransactionFlow; declineTransactionFlow;
   approveWithdrawTransactionFlow; declineWithdrawTransactionFlow].

(** The transaction a settlement of the flow [flowId] writes in [w], from
    the last transaction [lt] of the owner of the flow [f]. *)
Definition settledTransaction (flowId : Z)
    (available unavailable : Transaction -> Decimal.t -> Decimal.t) (s : number)
    (w : Store) (lt : Transaction) (f : TransactionFlow) : Transaction :=
  {| txn_id := nextTransactionId w;
     txn_transactionFlowId := flowId;
     availableAmounts :=
       Decimal.stored Decimal.transaction_availableAmounts (available lt (flow_amount f));
     unavailableAmounts :=
       Decimal.stored Decimal.transaction_unavailableAmounts (unavailable lt (flow_amount f));
     txn_status := s |}.

(** The flow and the transaction that [createWithdrawTransaction] writes in
    [w] for the user and the amount, and those of [createTransactionFlow]. *)
Definition withdrawalFlow `{D : Declarations} (w : Store)
    (userId : Z) (amount : Decimal.number) : TransactionFlow :=
  {| flow_id := nextFlowId w; flow_name := None;
     flow_vendorId := None; flow_userId := userId;
     flow_type := Withdrawal;
     flow_amount := Decimal.stored Decimal.transactionFlow_amount (Decimal.new amount);
     flow_productOrderId := None |}.

Definition reservation `{D : Declarations} (w : Store)
    (userId : Z) (amount : Decimal.number) : Transaction :=
  {| txn_id := nextTransactionId w;
     txn_transactionFlowId := nextFlowId w;
     availableAmounts :=
       Decimal.stored Decimal.transaction_availableAmounts
         (Decimal.sub (fst (balance w userId)) (Decimal.new amount));
     unavailableAmounts :=
       Decimal.stored Decimal.transaction_unavailableAmounts
         (Decimal.add (snd (balance w userId)) (Decimal.new amount));
     txn_status := transactionStatus Pending |}.

Definition paymentFlow (w : Store) (userId : Z)
    (dto : CreateTransactionFlowDto) : TransactionFlow :=
  {| flow_id := nextFlowId w; flow_name := dto_name dto;
     flow_vendorId := dto_vendorId dto; flow_userId := userId;
     flow_type := dto_type dto;
     flow_amount := Decimal.storedNumber Decimal.transactionFlow_amount (dto_amount dto);
     flow_productOrderId := dto_productOrderId dto |}.

Definition paymentRequest `{D : Declarations} (w : Store)
    (userId : Z) : Transaction :=
  {| txn_id := nextTransactionId w;
     txn_transactionFlowId := nextFlowId w;
     availableAmounts :=
       Decimal.stored Decimal.transaction_availableAmounts (fst (balance w userId));
     unavailableAmounts :=
       Decimal.stored Decimal.transaction_unavailableAmounts (snd (balance w userId));
     txn_status := transactionStatus Pending |}.

(** The ledger of [w'] is the ledger of [w] with one more flow and its first
    transaction. *)
Definition opened (w' w : Store) (f : TransactionFlow) (t : Transaction) : Prop :=
  transactionFlows w' = (transactionFlows w ++ [f])%list /\
  transactions w' = (transactions w ++ [t])%list.

(** The store after [createWithdrawTransaction], resp.
    [createTransactionFlow], went through in [w]. *)
Definition afterWithdrawal `{D : Declarations} (w : Store)
    (userId : Z) (amount : Decimal.number) : Store :=
  withNotification
    (withTransaction (withFlow w (withdrawalFlow w userId amount))
       (reservation w userId amount))
    (withdrawRequested userId (nextFlowId w)).

Definition afterRequest `{D : Declarations} (w : Store)
    (userId : Z) (dto : CreateTransactionFlowDto) : Store :=
  withNotification
    (withTransaction (withFlow w (paymentFlow w userId dto))
       (paymentRequest w userId))
    (paymentRequested userId (nextTransactionId w) (nextFlowId w)).

(** The run [run] of a settlement from [w] succeeds; afterwards the balance
    of the user is [amounts] and the flow is in state [s]. *)
Definition settles (run : F Transaction) (w : Store)
    (userId flowId : Z) (amounts : Decimal.t * Decimal.t) (s : number) : Prop :=
  exists t w',
    run w = (w', Done t) /\
    balance w' userId = amounts /\
    stateOfFlow w' flowId = Some s.

(** The amounts a column holds of the amounts [x]. *)
Definition held (x : Decimal.t * Decimal.t) : Decimal.t * Decimal.t :=
  (Decimal.stored Decimal.transaction_availableAmounts (fst x),
   Decimal.stored Decimal.transaction_unavailableAmounts (snd x)).

(** The flow [flowId], if there is one, does not belong to the user. *)
Definition notTheOwner (w : Store) (flowId userId : Z) : Prop :=
  forall f, In f (transactionFlows w) -> flow_id f = flowId ->
            flow_userId f <> userId.

End FinanceVocabulary.

(** A numbering of the finance enumerations with distinct members, for the
    examples. *)
Definition exampleFinance : Finance.Declarations :=
  {| Finance.transactionStatus := fun s =>
       match s with
       | Finance.Pending => 0%Q
       | Finance.Approved => 1%Q
       | Finance.Declined => 2%Q
       end;
     Finance.Withdrawal := 1%Q |}.

(** An arithmetic for the examples: amounts in cents, which no operation and
    no column rounds. *)
Definition exampleDecimals : Decimal.Arithmetic :=
  {| Decimal.t := Z;
     Decimal.number := Z;
     Decimal.new := fun n => n;
     Decimal.zero := 0;
     Decimal.add := Z.add;
     Decimal.sub := Z.sub;
     Decimal.lessThan := Z.ltb;
     Decimal.stored := fun _ x => x;
     Decimal.storedNumber := fun _ n => n |}.

(** A ledger for the examples, in cents: user 11 has 100 available and 20
    reserved after an approved payment (flow 1); user 12 has a pending
    payment of 30 (flow 2). *)
Definition exampleLedger (script : list (option string)) : @Finance.Store exampleDecimals :=
  let flow id name userId amount order : @Finance.TransactionFlow exampleDecimals :=
    {| Finance.flow_id := id; Finance.flow_name := Some name; Finance.flow_vendorId := None;
       Finance.flow_userId := userId; Finance.flow_type := 0%Q;
       Finance.flow_amount := amount; Finance.flow_productOrderId := Some order |} in
  let transaction id flowId available unavailable s : @Finance.Transaction exampleDecimals :=
    {| Finance.txn_id := id; Finance.txn_transactionFlowId := flowId;
       Finance.availableAmounts := available; Finance.unavailableAmounts := unavailable;
       Finance.txn_status := s |} in
  {| Finance.transactionFlows := [ flow 1 "campaign" 11 100 70; flow 2 "survey" 12 30 90 ];
     Finance.transactions :=
       [ transaction 1 1 0 20 0%Q; transaction 2 1 100 20 1%Q; transaction 3 2 0 0 0%Q ];
     Finance.notified := [];
     Finance.answers := script |}.

(** *** Performances and clicks *)

(** The performance record of the influencer [u] in the campaign [cid]. *)
Definition performanceOf (db : Db) (cid u : Z) : option CampaignInfluencerPerformance :=
  find (fun p => (perf_campaignId p =? cid) && (perf_influencerId p =? u))
       (campaignInfluencerPerformances db).

(** The record a first submission creates, and a record with another link. *)
Definition firstPerformance `{D : Declarations} (cid u : Z) (link : string)
  : CampaignInfluencerPerformance :=
  {| perf_campaignId := cid; perf_influencerId := u; submissionLink := link;
     trackingCode := idToPseudostring u; websiteClick := 0 |}.

Definition relinked (link : string) (p : CampaignInfluencerPerformance)
  : CampaignInfluencerPerformance :=
  {| perf_campaignId := perf_campaignId p; perf_influencerId := perf_influencerId p;
     submissionLink := link; trackingCode := trackingCode p;
     websiteClick := websiteClick p |}.

(** The record that carries the tracking code [code]. *)
Definition tracked (db : Db) (code : string) : option CampaignInfluencerPerformance :=
  find (fun p => (trackingCode p =? code)%string) (campaignInfluencerPerformances db).

(** The world after [n] runs of [run], one after the other. *)
Fixpoint repeatedly {A} (n : nat) (run : M A) (w : World) : World :=
  match n with
  | O => w
  | S k => repeatedly k run (fst (run w))
  end.

(** The record [p] with [n] more clicks. *)
Definition withClicks (n : nat) (p : CampaignInfluencerPerformance)
  : CampaignInfluencerPerformance :=
  {| perf_campaignId := perf_campaignId p; perf_influencerId := perf_influencerId p;
     submissionLink := submissionLink p; trackingCode := trackingCode p;
     websiteClick := websiteClick p + Z.of_nat n |}.

(** *** Doubles and dates for the examples *)

(** Rationals and NaN, without rounding and without infinities: dividing by
    zero gives NaN here. *)
Definition exampleDoubles : RelativeChange.Doubles :=
  {| RelativeChange.double := option Q;
     RelativeChange.literal := fun z => Some (inject_Z z);
     RelativeChange.NaN := None;
     RelativeChange.identical := fun x y =>
       match x, y with Some a, Some b => Qeq_bool a b | _, _ => false end;
     RelativeChange.negate := option_map Qopp;
     RelativeChange.divide := fun x y =>
       match x, y with
       | Some a, Some b => if Qeq_bool b 0 then None else Some (a / b)%Q
       | _, _ => None
       end;
     RelativeChange.subtract := fun x y =>
       match x, y with Some a, Some b => Some (a - b)%Q | _, _ => None end;
     RelativeChange.multiply := fun x y =>
       match x, y with Some a, Some b => Some (a * b)%Q | _, _ => None end |}.

(** NaN is what every operation on NaN gives. *)
Definition propagatesNaN (F : RelativeChange.Doubles) : Prop :=
  RelativeChange.negate RelativeChange.NaN = RelativeChange.NaN /\
  (forall x, RelativeChange.divide x RelativeChange.NaN = RelativeChange.NaN) /\
  (forall y, RelativeChange.subtract RelativeChange.NaN y = RelativeChange.NaN) /\
  (forall x, RelativeChange.multiply x RelativeChange.NaN = RelativeChange.NaN).

(** What [bound] is, read as a year: the year of the date, none for an age
    that gave no date. *)
Definition yearOfBound {Date : Type} (getFullYear : Date -> Z)
    (bound : DateOfBirth.Bound Date) : option Z :=
  match bound with
  | DateOfBirth.Born _ date => Some (getFullYear date)
  | DateOfBirth.NoAge _ _ => None
  end.

(** *** Pages *)

(** The query [getPaginatedResults] sends for the page. *)
Definition pageQuery {Where Others : Type}
    (args : Pagination.FindManyArgs Where Others)
    (params : Pagination.PaginationParams) : Pagination.FindManyArgs Where Others :=
  match Pagination.params_cursor params with
  | Some c =>
      {| Pagination.where_ := Pagination.where_ args;
         Pagination.take := Some (Pagination.limit params + 1);
         Pagination.skip := Pagination.skip args;
         Pagination.cursor := Some c;
         Pagination.others := Pagination.others args |}
  | None =>
      {| Pagination.where_ := Pagination.where_ args;
         Pagination.take := Some (Pagination.limit params + 1);
         Pagination.skip := Pagination.params_skip params;
         Pagination.cursor := Pagination.cursor args;
         Pagination.others := Pagination.others args |}
  end.

(** The count of the records that satisfy the conditions of the query. *)
Definition filteredCount {Where Others : Type} (count : option Where -> option Z)
    (args : Pagination.FindManyArgs Where Others) (totalItems : Z) : option Z :=
  match Pagination.where_ args with
  | Some w => count (Some w)
  | None => Some totalItems
  end.

(** The rows from the one with the id [c] on, that one included: what a
    cursor selects. *)
Fixpoint fromCursor {U : Type} (id : U -> Z) (c : Z) (rows : list U) : list U :=
  match rows with
  | [] => []
  | x :: rest => if id x =? c then x :: rest else fromCursor id c rest
  end.

(** What the page [page] is, for the rows [fetched] that the query returned
    and the limit [limit]: empty; or full with a row after it, which the
    cursor names; or the last one, whose count is one short and whose cursor
    names its own last row. *)
Definition pageOf `{N : Pagination.Numbers} {U : Type} (id : U -> Z)
    (page : Pagination.PaginatedResult U) (fetched : list U) (limit : Z) : Prop :=
  let meta := Pagination.pagination page in
  (fetched = [] /\ Pagination.data page = [] /\
   Pagination.itemCount meta = 0 /\ Pagination.nextCursor meta = None) \/
  (exists next,
     fetched = (Pagination.data page ++ [next])%list /\
     Z.of_nat (List.length (Pagination.data page)) = limit /\
     Pagination.itemCount meta = limit /\
     Pagination.nextCursor meta = Some (id next)) \/
  (exists init final,
     fetched = (init ++ [final])%list /\
     Pagination.data page = fetched /\
     Z.of_nat (List.length fetched) <= limit /\
     Pagination.itemCount meta = Z.of_nat (List.length (Pagination.data page)) - 1 /\
     Pagination.nextCursor meta = Some (id final)).

(** Whole numbers, fractions that are no whole number, and the rest (NaN
    and the infinities), without rounding: numbers for the examples. *)
Inductive ExampleNumber :=
| Whole (z : Z)
| Fraction (q : Q)
| NotFinite.

Definition exampleNumbers : Pagination.Numbers :=
  {| Pagination.number := ExampleNumber;
     Pagination.ofZ := Whole;
     Pagination.divide := fun x y =>
       match x, y with
       | Whole a, Whole b =>
           if b =? 0 then NotFinite
           else if a mod b =? 0 then Whole (a / b)
           else Fraction (inject_Z a / inject_Z b)%Q
       | _, _ => NotFinite
       end;
     Pagination.ceil := fun x =>
       match x with
       | Whole a => Whole a
       | Fraction q => Whole (Qceiling q)
       | NotFinite => NotFinite
       end;
     Pagination.add := fun x y =>
       match x, y with
       | Whole a, Whole b => Whole (a + b)
       | Fraction q, Whole b => Fraction (q + inject_Z b)%Q
       | Whole a, Fraction q => Fraction (inject_Z a + q)%Q
       | Fraction p, Fraction q => Fraction (p + q)%Q
       | _, _ => NotFinite
       end |}.

(** A client for the examples, over the rows [rows] of ids with a name: it
    has no conditions, and it answers a query that takes at least nothing
    and skips at least nothing. *)
Definition exampleCount (rows : list (Z * string)) (where_ : option unit) : option Z :=
  Some (Z.of_nat (List.length rows)).

Definition exampleFindMany (rows : list (Z * string))
    (args : Pagination.FindManyArgs unit unit) : option (list (Z * string)) :=
  let taken := match Pagination.take args with Some n => n | None => Z.of_nat (List.length rows) end in
  let skipped := match Pagination.skip args with Some n => n | None => 0 end in
  if (taken <? 0) || (skipped <? 0) then None
  else
    let from := match Pagination.cursor args with
                | Some c => fromCursor fst c rows
                | None => rows
                end in
    Some (firstn (Z.to_nat taken) (skipn (Z.to_nat skipped) from)).

Definition exampleArgs : Pagination.FindManyArgs unit unit :=
  {| Pagination.where_ := None; Pagination.take := None; Pagination.skip := None;
     Pagination.cursor := None; Pagination.others := tt |}.

Definition exampleRows : list (Z * string) :=
  [(4, "d"); (8, "h"); (15, "o"); (16, "p"); (23, "w")].

(** The parameters of the page of [limit] rows at the cursor [c]. *)
Definition pageAt (limit : Z) (skip : option Z) (c : Z) : Pagination.PaginationParams :=
  {| Pagination.limit := limit; Pagination.params_skip := skip;
     Pagination.params_cursor := Some c |}.

(** The client answers a query with a cursor by the rows of [rows] from the
    cursor on, as many as it is asked to take. *)
Definition answersCursors {U Where Others : Type} (id : U -> Z)
    (findMany : Pagination.FindManyArgs Where Others -> option (list U))
    (args : Pagination.FindManyArgs Where Others) (rows : list U) : Prop :=
  forall limit skip c,
    0 <= limit ->
    findMany (pageQuery args (pageAt limit skip c))
    = Some (firstn (Z.to_nat (limit + 1)) (fromCursor id c rows)).

(** What the page number of a page of [limit] rows at a cursor needs of the
    numbers: 0 over the limit rounds up to 0, a count from 1 to the limit
    over the limit rounds up to 1, and 0 + 1 is 1 and 1 + 1 is 2. *)
Definition roundsUp (N : Pagination.Numbers) (limit : Z) : Prop :=
  Pagination.ceil (Pagination.divide (Pagination.ofZ 0) (Pagination.ofZ limit))
  = Pagination.ofZ 0 /\
  (forall k, 0 < k <= limit ->
     Pagination.ceil (Pagination.divide (Pagination.ofZ k) (Pagination.ofZ limit))
     = Pagination.ofZ 1) /\
  Pagination.add (Pagination.ofZ 0) (Pagination.ofZ 1) = Pagination.ofZ 1 /\
  Pagination.add (Pagination.ofZ 1) (Pagination.ofZ 1) = Pagination.ofZ 2.

(** ** Numbers *)

Lemma jsNumber_safe (z : Z) : safeInteger z -> jsNumber z = decimalDigits z.
Proof.
unfold safeInteger, jsNumber. intros H.
destruct (Z.abs z <=? 9007199254740992) eqn:E; [reflexivity|].
apply Z.leb_gt in E. change (2 ^ 53) with 9007199254740992 in H. lia.
Qed.

Lemma map_jsNumber_safe (l : list Z) :
  Forall safeInteger l -> map jsNumber l = map decimalDigits l.
Proof.
intros H. apply map_ext_in. intros z Hz. apply jsNumber_safe.
now apply (proj1 (Forall_forall _ _) H).
Qed.

Lemma oneOrMany_safe (l : list Z) (one many : string -> string) :
  Forall safeInteger l -> oneOrMany jsNumber l one many = oneOrMany decimalDigits l one many.
Proof.
intros H. unfold oneOrMany. rewrite (map_jsNumber_safe l H).
destruct l as [|x [|y l']]; try reflexivity.
now rewrite (jsNumber_safe x (Forall_inv H)).
Qed.

Lemma strictEq_true (a b : number) : strictEq a b = true <-> (a == b)%Q.
Proof. apply Qeq_bool_iff. Qed.

Lemma strictEq_false (a b : number) : strictEq a b = false <-> ~ (a == b)%Q.
Proof.
  rewrite <- strictEq_true. destruct (strictEq a b); split; congruence.
Qed.

Lemma strictEq_refl (a : number) : strictEq a a = true.
Proof. apply strictEq_true. reflexivity. Qed.

Lemma lessThan_true (a b : number) : lessThan a b = true <-> (a < b)%Q.
Proof.
  unfold lessThan. rewrite negb_true_iff. split.
  - intros H. apply Qnot_le_lt. intros Hle.
    apply Qle_bool_iff in Hle. congruence.
  - intros H. destruct (Qle_bool b a) eqn:E; [|reflexivity].
    apply Qle_bool_iff in E. exfalso. exact (Qlt_not_le _ _ H E).
Qed.

Lemma lessThan_false (a b : number) : lessThan a b = false <-> ~ (a < b)%Q.
Proof.
  rewrite <- lessThan_true. destruct (lessThan a b); split; congruence.
Qed.

Lemma atLeast_true (a b : number) : atLeast a b = true <-> (b <= a)%Q.
Proof. apply Qle_bool_iff. Qed.

Lemma includes_true (l : list number) (x : number) :
  includes l x = true <-> exists y, In y l /\ (x == y)%Q.
Proof.
  unfold includes. rewrite existsb_exists.
  split; intros [y [Hy E]]; exists y; split; auto; now apply strictEq_true.
Qed.

Lemma includes_false (l : list number) (x : number) :
  includes l x = false <-> forall y, In y l -> ~ (x == y)%Q.
Proof.
  split.
  - intros H y Hy E.
    assert (includes l x = true) by (apply includes_true; eauto). congruence.
  - intros H. destruct (includes l x) eqn:E; [|reflexivity].
    apply includes_true in E. destruct E as [y [Hy E]]. now elim (H y Hy).
Qed.

Lemma includes_self (l : list number) (x : number) : In x l -> includes l x = true.
Proof. intros H. apply includes_true. exists x. split; [assumption|reflexivity]. Qed.

(** ** Running the monad *)

Lemma bind_query {A B} (q : Db -> A) (k : A -> M B) (w : World) :
  (x <- Prisma.query Prisma.prismaService q ;; k x) w = k (q (committed w)) w.
Proof. reflexivity. Qed.

Lemma campaign_prefix `{D : Declarations} {A} cid c o
    (k : Campaign -> PlatformProductOrder -> M A) (w : World) :
  campaignAt (committed w) cid c o ->
  (campaign <- Prisma.campaign_findUniqueOrThrow cid ;;
   order <- orderOf (campaign_platformProductOrderId campaign) ;;
   k campaign order) w = k c o w.
Proof.
  intros [Hc Ho].
  unfold bind, Prisma.campaign_findUniqueOrThrow, orderOf, Prisma.platformProductOrder,
    Prisma.query, bind. rewrite Hc. cbn. rewrite Ho. reflexivity.
Qed.

Lemma survey_prefix `{D : Declarations} {A} sid s o
    (k : Survey -> PlatformProductOrder -> M A) (w : World) :
  surveyAt (committed w) sid s o ->
  (survey <- Prisma.survey_findUniqueOrThrow sid ;;
   order <- orderOf (survey_platformProductOrderId survey) ;;
   k survey order) w = k s o w.
Proof.
  intros [Hs Ho].
  unfold bind, Prisma.survey_findUniqueOrThrow, orderOf, Prisma.platformProductOrder,
    Prisma.query, bind. rewrite Hs. cbn. rewrite Ho. reflexivity.
Qed.

Lemma campaignAt_order_id db cid c o :
  campaignAt db cid c o -> order_id o = campaign_platformProductOrderId c.
Proof.
  intros [_ Ho]. apply find_some in Ho. destruct Ho as [_ Ho]. now apply Z.eqb_eq in Ho.
Qed.

Lemma surveyAt_order_id db sid s o :
  surveyAt db sid s o -> order_id o = survey_platformProductOrderId s.
Proof.
  intros [_ Ho]. apply find_some in Ho. destruct Ho as [_ Ho]. now apply Z.eqb_eq in Ho.
Qed.

Lemma hd_error_filter {A} (f : A -> bool) (l : list A) :
  hd_error (filter f l) = find f l.
Proof.
  induction l as [|x l IH]; [reflexivity|]. cbn. destruct (f x); [reflexivity|exact IH].
Qed.

Lemma first_row_is_participant db orderId u :
  hd_error (Prisma.rowsOfOrder db orderId (fun r => influencerId r =? u))
  = participant db orderId u.
Proof. apply hd_error_filter. Qed.

Lemma participant_some db orderId u p :
  participant db orderId u = Some p ->
  In p (platformProductOrderInfluencers db) /\ productOrderId p = orderId /\ influencerId p = u.
Proof.
  intros H. apply find_some in H. destruct H as [Hin H].
  apply andb_true_iff in H. destruct H as [H1 H2].
  apply Z.eqb_eq in H1, H2. auto.
Qed.

Lemma participant_none db orderId u :
  (forall r, In r (platformProductOrderInfluencers db) ->
             productOrderId r = orderId -> influencerId r <> u) ->
  participant db orderId u = None.
Proof.
  intros H. unfold participant.
  destruct (find _ _) eqn:E; [|reflexivity].
  apply find_some in E. destruct E as [Hin E].
  apply andb_true_iff in E. destruct E as [E1 E2]. apply Z.eqb_eq in E1, E2.
  now elim (H p Hin E1).
Qed.

(** An accepted write on [prismaService] outside any transaction. *)
Lemma write_quiet {A} (f : Db -> Result (Db * A)) (db : Db) :
  Prisma.write Prisma.prismaService f (quiet db)
  = match f db with
    | Ok (db', r) => (quiet db', Ok r)
    | Throw e => (quiet db, Throw e)
    end.
Proof.
  unfold Prisma.write, bind, Prisma.answer. cbn. destruct (f db) as [[db' r]|e]; reflexivity.
Qed.

Lemma update_quiet db id s p :
  In p (platformProductOrderInfluencers db) -> poi_id p = id ->
  exists r, Prisma.platformProductOrderInfluencer_update Prisma.prismaService id s (quiet db)
            = (quiet (setStatus db id s), Ok r).
Proof.
  intros Hin Hid. unfold Prisma.platformProductOrderInfluencer_update.
  rewrite write_quiet. unfold Prisma.updateStatus. cbv zeta.
  destruct (find (fun r => poi_id r =? id) (platformProductOrderInfluencers db)) eqn:E.
  - eexists. reflexivity.
  - exfalso. apply (find_none _ _ E) in Hin. rewrite Hid, Z.eqb_refl in Hin. discriminate.
Qed.

Lemma setStatus_row db id s p :
  In p (platformProductOrderInfluencers db) -> poi_id p = id ->
  In (withStatus p s) (platformProductOrderInfluencers (setStatus db id s)).
Proof.
  intros Hin Hid. cbn. apply in_map_iff. exists p. rewrite Hid, Z.eqb_refl. auto.
Qed.

Lemma setStatus_foundAt db s p :
  In p (platformProductOrderInfluencers db) ->
  foundAt (setStatus db (poi_id p) s) p s.
Proof.
  intros Hin. split.
  - exists (withStatus p s). split.
    + now apply setStatus_row.
    + repeat split.
  - intros x Hx Hid. cbn in Hx. apply in_map_iff in Hx. destruct Hx as (y & <- & _).
    destruct (poi_id y =? poi_id p) eqn:E; [reflexivity|].
    apply Z.eqb_neq in E. contradiction.
Qed.

(** The record an accepted update returns. *)
Lemma update_quiet_record db id s p :
  In p (platformProductOrderInfluencers db) -> poi_id p = id ->
  exists r, Prisma.platformProductOrderInfluencer_update Prisma.prismaService id s (quiet db)
            = (quiet (setStatus db id s), Ok r) /\
            poi_id r = id /\ status r = s.
Proof.
  intros Hin Hid. unfold Prisma.platformProductOrderInfluencer_update.
  rewrite write_quiet. unfold Prisma.updateStatus. cbv zeta.
  destruct (find (fun r => poi_id r =? id) (platformProductOrderInfluencers db)) eqn:E.
  - eexists. split; [reflexivity|]. apply find_some in E. destruct E as [_ E].
    apply Z.eqb_eq in E. split; [exact E|reflexivity].
  - exfalso. apply (find_none _ _ E) in Hin. rewrite Hid, Z.eqb_refl in Hin. discriminate.
Qed.

(** ** Self-service operations of a caller who is not a participant *)

Section NotAParticipant.
Context `{D : Declarations}.
Variables (w : World) (user : UserWithInfluencer) (u : Z).
Hypothesis caller : caller_influencer user = Some u.

Lemma campaign_removeInfluencerSelf_undefined cid c o :
  campaignAt (committed w) cid c o ->
  participant (committed w) (order_id o) u = None ->
  CampaignService.removeInfluencerSelf cid user w = (w, Throw TypeError).
Proof.
  intros Hc Hp. unfold CampaignService.removeInfluencerSelf. rewrite caller.
  rewrite (campaign_prefix cid c o) by assumption.
  rewrite bind_query, first_row_is_participant, Hp. reflexivity.
Qed.

Lemma campaign_submitInfluencerData_undefined cid c o link :
  campaignAt (committed w) cid c o ->
  participant (committed w) (order_id o) u = None ->
  CampaignService.submitInfluencerData cid user link w = (w, Throw TypeError).
Proof.
  intros Hc Hp. unfold CampaignService.submitInfluencerData. rewrite caller.
  rewrite (campaign_prefix cid c o) by assumption.
  rewrite bind_query, first_row_is_participant, Hp. reflexivity.
Qed.

Lemma survey_removeInfluencerSelf_undefined sid s o :
  surveyAt (committed w) sid s o ->
  participant (committed w) (order_id o) u = None ->
  SurveysService.removeInfluencerSelf sid user w = (w, Throw TypeError).
Proof.
  intros Hs Hp. unfold SurveysService.removeInfluencerSelf. rewrite caller.
  rewrite (survey_prefix sid s o) by assumption.
  rewrite bind_query, first_row_is_participant, Hp. reflexivity.
Qed.

Lemma survey_submitSurveyResult_undefined sid s o data :
  surveyAt (committed w) sid s o ->
  participant (committed w) (order_id o) u = None ->
  SurveysService.submitSurveyResult sid user data w = (w, Throw TypeError).
Proof.
  intros Hs Hp. unfold SurveysService.submitSurveyResult. rewrite caller.
  rewrite (survey_prefix sid s o) by assumption.
  rewrite bind_query, first_row_is_participant, Hp. reflexivity.
Qed.

End NotAParticipant.

(** C10.  When the calling influencer has no participation record in the
    order of the campaign (resp. of the survey), [removeInfluencerSelf] and
    the submission ([submitInfluencerData], [submitSurveyResult]) read a field
    of the undefined first element of the empty record list: each ends in the
    runtime TypeError, not in one of the application exceptions, and the
    world (the database included) is left as it was.  The campaign methods
    ask nothing of the surveys, and conversely. *)
Theorem C10_not_a_participant_is_a_TypeError `{D : Declarations}
    (w : World) (user : UserWithInfluencer) (u : Z) :
  caller_influencer user = Some u ->
  (forall (cid : Z) (c : Campaign) (co : PlatformProductOrder) (link : string),
     campaignAt (committed w) cid c co ->
     (forall r, In r (platformProductOrderInfluencers (committed w)) ->
                productOrderId r = order_id co -> influencerId r <> u) ->
     CampaignService.removeInfluencerSelf cid user w = (w, Throw TypeError) /\
     CampaignService.submitInfluencerData cid user link w = (w, Throw TypeError)) /\
  (forall (sid : Z) (s : Survey) (so : PlatformProductOrder)
          (data : SurveysService.SubmitSurveyResultDto),
     surveyAt (committed w) sid s so ->
     (forall r, In r (platformProductOrderInfluencers (committed w)) ->
                productOrderId r = order_id so -> influencerId r <> u) ->
     SurveysService.removeInfluencerSelf sid user w = (w, Throw TypeError) /\
     SurveysService.submitSurveyResult sid user data w = (w, Throw TypeError)).
Proof.
  intros Hu. split.
  - intros cid c co link Hc Hn. apply participant_none in Hn. split.
    + eapply campaign_removeInfluencerSelf_undefined; eassumption.
    + eapply campaign_submitInfluencerData_undefined; eassumption.
  - intros sid s so data Hs Hn. apply participant_none in Hn. split.
    + eapply survey_removeInfluencerSelf_undefined; eassumption.
    + eapply survey_submitSurveyResult_undefined; eassumption.
Qed.

(** C10, at influencer 3 (user 13), who takes part in survey 9 and not in
    campaign 7: both campaign methods end in the TypeError; and at influencer
    1 (user 11), who takes part in campaign 7 and not in survey 9: both
    survey methods do. *)
Lemma C10_witness :
  let w := quiet (Example.base [Example.row 1 70 1 Added; Example.row 2 90 3 Invited]) in
  let data := {| SurveysService.data_surveyQuestionId := 1;
                 SurveysService.data_surveyOptionId := 1;
                 SurveysService.data_surveyResponseText := "yes" |} in
  (@CampaignService.removeInfluencerSelf specDeclarations 7 (Example.caller 13 3) w
   = (w, Throw TypeError) /\
   @CampaignService.submitInfluencerData specDeclarations 7 (Example.caller 13 3) "link" w
   = (w, Throw TypeError)) /\
  (@SurveysService.removeInfluencerSelf specDeclarations 9 (Example.caller 11 1) w
   = (w, Throw TypeError) /\
   @SurveysService.submitSurveyResult specDeclarations 9 (Example.caller 11 1) data w
   = (w, Throw TypeError)).
Proof.
  cbv zeta. split.
  - eapply (proj1 (@C10_not_a_participant_is_a_TypeError specDeclarations _
                     (Example.caller 13 3) 3 eq_refl) 7).
    + split; reflexivity.
    + intros r [<-|[<-|[]]]; cbn; intros; lia.
  - eapply (proj2 (@C10_not_a_participant_is_a_TypeError specDeclarations _
                     (Example.caller 11 1) 1 eq_refl) 9).
    + split; reflexivity.
    + intros r [<-|[<-|[]]]; cbn; intros; lia.
Defined.

(** ** removeInfluencerSelf *)

Section RemoveSelf.
Context `{D : Declarations}.
Variables (db : Db) (user : UserWithInfluencer) (u : Z)
          (orderId : Z) (p : PlatformProductOrderInfluencer).
Hypothesis caller : caller_influencer user = Some u.
Hypothesis record : participant db orderId u = Some p.

(** What the three branches of the method do once the caller's record [p]
    is at hand; [k] is the method after the record has been fetched. *)
Lemma own_record_test : negb (u =? influencerId p) = false.
Proof.
  apply participant_some in record. destruct record as (_ & _ & ->).
  now rewrite Z.eqb_refl.
Qed.

Lemma campaign_removeInfluencerSelf_cases cid c o :
  campaignAt db cid c o -> order_id o = orderId ->
  ((status p < influencerStatus Invited)%Q ->
     exists m, CampaignService.removeInfluencerSelf cid user (quiet db)
               = (quiet db, Throw (ApplicationException m))) /\
  ((status p == influencerStatus Invited)%Q ->
     exists m, CampaignService.removeInfluencerSelf cid user (quiet db)
               = (quiet db, Throw (ForbiddenApplicationException m))) /\
  (~ (status p < influencerStatus Invited)%Q ->
   ~ (status p == influencerStatus Invited)%Q ->
     exists r, CampaignService.removeInfluencerSelf cid user (quiet db)
               = (quiet (setStatus db (poi_id p) (influencerStatus Withdrawn)), Ok r) /\
               poi_id r = poi_id p /\ status r = influencerStatus Withdrawn).
Proof.
  intros Hc Ho. unfold CampaignService.removeInfluencerSelf. rewrite caller.
  rewrite (campaign_prefix cid c o) by assumption.
  rewrite bind_query, first_row_is_participant, Ho. cbn [committed quiet].
  rewrite record.
  change (bind (deref (Some p)) ?k (quiet db)) with (k p (quiet db)).
  cbv beta. rewrite own_record_test. cbn [orb].
  repeat split.
  - intros Hlt. apply lessThan_true in Hlt. rewrite Hlt. eexists. reflexivity.
  - intros Heq.
    assert (Hlt : lessThan (status p) (influencerStatus Invited) = false).
    { apply lessThan_false. rewrite Heq. apply Qlt_irrefl. }
    apply strictEq_true in Heq. rewrite Hlt, Heq. eexists. reflexivity.
  - intros Hlt Heq. apply lessThan_false in Hlt. apply strictEq_false in Heq.
    rewrite Hlt, Heq.
    apply participant_some in record. destruct record as (Hin & _ & _).
    eapply update_quiet_record; [exact Hin|reflexivity].
Qed.

Lemma survey_removeInfluencerSelf_cases sid s o :
  surveyAt db sid s o -> order_id o = orderId ->
  ((status p < influencerStatus Invited)%Q ->
     exists m, SurveysService.removeInfluencerSelf sid user (quiet db)
               = (quiet db, Throw (ApplicationException m))) /\
  ((status p == influencerStatus Invited)%Q ->
     exists m, SurveysService.removeInfluencerSelf sid user (quiet db)
               = (quiet db, Throw (ForbiddenApplicationException m))) /\
  (~ (status p < influencerStatus Invited)%Q ->
   ~ (status p == influencerStatus Invited)%Q ->
     exists r, SurveysService.removeInfluencerSelf sid user (quiet db)
               = (quiet (setStatus db (poi_id p) (influencerStatus Withdrawn)), Ok r) /\
               poi_id r = poi_id p /\ status r = influencerStatus Withdrawn).
Proof.
  intros Hs Ho. unfold SurveysService.removeInfluencerSelf. rewrite caller.
  rewrite (survey_prefix sid s o) by assumption.
  rewrite bind_query, first_row_is_participant, Ho. cbn [committed quiet].
  rewrite record.
  change (bind (deref (Some p)) ?k (quiet db)) with (k p (quiet db)).
  cbv beta. rewrite own_record_test. cbn [orb].
  repeat split.
  - intros Hlt. apply lessThan_true in Hlt. rewrite Hlt. eexists. reflexivity.
  - intros Heq.
    assert (Hlt : lessThan (status p) (influencerStatus Invited) = false).
    { apply lessThan_false. rewrite Heq. apply Qlt_irrefl. }
    apply strictEq_true in Heq. rewrite Hlt, Heq. eexists. reflexivity.
  - intros Hlt Heq. apply lessThan_false in Hlt. apply strictEq_false in Heq.
    rewrite Hlt, Heq.
    apply participant_some in record. destruct record as (Hin & _ & _).
    eapply update_quiet_record; [exact Hin|reflexivity].
Qed.

End RemoveSelf.

(** C8.  [removeInfluencerSelf], of a campaign and of a survey: it fails when
    the caller has no participation record in the order and when the status
    of the record is below Invited; it fails with the Forbidden exception
    when the status is Invited; in every other case the record of the caller
    moves to Withdrawn: the record returned and the record in the database
    have that status, and nothing else changes.  The campaign method asks
    nothing of the surveys, and conversely. *)
Theorem C8_removeInfluencerSelf_contract `{D : Declarations}
    (db : Db) (user : UserWithInfluencer) (u : Z) :
  caller_influencer user = Some u ->
  (forall (cid : Z) (c : Campaign) (co : PlatformProductOrder),
     campaignAt db cid c co ->
     selfRemovalContract (CampaignService.removeInfluencerSelf cid user) db
       (participant db (order_id co) u)) /\
  (forall (sid : Z) (s : Survey) (so : PlatformProductOrder),
     surveyAt db sid s so ->
     selfRemovalContract (SurveysService.removeInfluencerSelf sid user) db
       (participant db (order_id so) u)).
Proof.
  intros Hu. split.
  - intros cid c co Hc. unfold selfRemovalContract.
    destruct (participant db (order_id co) u) as [p|] eqn:Hp.
    + destruct (campaign_removeInfluencerSelf_cases db user u (order_id co) p Hu Hp
                  cid c co Hc eq_refl) as (H1 & H2 & H3).
      repeat split; [exact H1|exact H2|].
      intros Hlt Heq. destruct (H3 Hlt Heq) as (r & Hr & Hid & Hst).
      exists r, (setStatus db (poi_id p) (influencerStatus Withdrawn)).
      split; [exact Hr|]. split; [exact Hid|]. split; [exact Hst|]. split; [|reflexivity].
      apply participant_some in Hp. apply setStatus_foundAt. tauto.
    + exists TypeError.
      apply (campaign_removeInfluencerSelf_undefined (quiet db) user u Hu cid c co Hc Hp).
  - intros sid s so Hs. unfold selfRemovalContract.
    destruct (participant db (order_id so) u) as [p|] eqn:Hp.
    + destruct (survey_removeInfluencerSelf_cases db user u (order_id so) p Hu Hp
                  sid s so Hs eq_refl) as (H1 & H2 & H3).
      repeat split; [exact H1|exact H2|].
      intros Hlt Heq. destruct (H3 Hlt Heq) as (r & Hr & Hid & Hst).
      exists r, (setStatus db (poi_id p) (influencerStatus Withdrawn)).
      split; [exact Hr|]. split; [exact Hid|]. split; [exact Hst|]. split; [|reflexivity].
      apply participant_some in Hp. apply setStatus_foundAt. tauto.
    + exists TypeError.
      apply (survey_removeInfluencerSelf_undefined (quiet db) user u Hu sid s so Hs Hp).
Qed.

(** ** Validation of a batch of named participants *)

Lemma nonEmpty_filter_nil {A} (f : A -> bool) (l : list A) :
  (forall x, In x l -> f x = false) -> filter f l = [].
Proof.
  induction l as [|x l IH]; intros H; [reflexivity|].
  cbn. rewrite (H x (or_introl eq_refl)). apply IH. intros y Hy. apply H. now right.
Qed.

Lemma nonEmpty_filter_in {A} (f : A -> bool) (l : list A) (x : A) :
  In x l -> f x = true -> nonEmpty (filter f l) = true.
Proof.
  intros Hin Hf.
  assert (H : In x (filter f l)) by (apply filter_In; auto).
  destruct (filter f l); [contradiction|reflexivity].
Qed.

(** The records named by the single influencer id [a]. *)
Lemma named_sole db orderId a p i :
  soleRecord db orderId a p i ->
  named db orderId influencer_id [a] = [(p, i)].
Proof.
  intros [Hi Hrows]. unfold named, Prisma.influencersOfOrder.
  revert Hrows. generalize (platformProductOrderInfluencers db) as rows.
  assert (Hsel : forall r,
    (if productOrderId r =? orderId then
       match find (fun i0 => influencer_id i0 =? influencerId r) (influencers db) with
       | Some i0 => if inIds (influencer_id i0) [a] then [(r, i0)] else []
       | None => []
       end
     else [])
    = if (productOrderId r =? orderId) && (influencerId r =? a) then [(r, i)] else []).
  { intros r. destruct (productOrderId r =? orderId); [|reflexivity]. cbn [andb].
    destruct (influencerId r =? a) eqn:Ea.
    - apply Z.eqb_eq in Ea. rewrite Ea, Hi.
      apply find_some in Hi. destruct Hi as [_ Hi]. apply Z.eqb_eq in Hi.
      unfold inIds. cbn. now rewrite Hi, Z.eqb_refl.
    - destruct (find (fun i0 => influencer_id i0 =? influencerId r) (influencers db))
        as [i0|] eqn:E0; [|reflexivity].
      apply find_some in E0. destruct E0 as [_ E0]. apply Z.eqb_eq in E0.
      unfold inIds. cbn. rewrite E0. now rewrite Ea. }
  intros rows. revert p. induction rows as [|r rows IH]; intros p Hrows; [discriminate|].
  cbn [flat_map]. rewrite Hsel. cbn [filter] in Hrows.
  destruct ((productOrderId r =? orderId) && (influencerId r =? a)).
  - injection Hrows as -> Hrest.
    assert (Hnil : flat_map (fun r =>
      if productOrderId r =? orderId then
        match find (fun i0 => influencer_id i0 =? influencerId r) (influencers db) with
        | Some i0 => if inIds (influencer_id i0) [a] then [(r, i0)] else []
        | None => []
        end
      else []) rows = []).
    { clear IH. induction rows as [|r' rows IH']; [reflexivity|].
      cbn [flat_map]. rewrite Hsel. cbn [filter] in Hrest.
      destruct ((productOrderId r' =? orderId) && (influencerId r' =? a)); [discriminate|].
      cbn. now apply IH'. }
    rewrite Hnil. reflexivity.
  - cbn [app]. now apply IH.
Qed.

Lemma soleRecord_participant db orderId a p i :
  soleRecord db orderId a p i -> participant db orderId a = Some p.
Proof.
  intros [_ H]. unfold participant. rewrite <- hd_error_filter, H. reflexivity.
Qed.

Lemma soleRecord_in db orderId a p i :
  soleRecord db orderId a p i -> In p (platformProductOrderInfluencers db).
Proof.
  intros H. apply soleRecord_participant in H. now apply participant_some in H.
Qed.

Lemma soleRecord_influencer db orderId a p i :
  soleRecord db orderId a p i -> influencer_id i = a.
Proof.
  intros [H _]. apply find_some in H. destruct H as [_ H]. now apply Z.eqb_eq in H.
Qed.

(** One accepted update, awaited through [Promise.all]. *)
Lemma promiseAll_one_update db id s p :
  In p (platformProductOrderInfluencers db) -> poi_id p = id ->
  exists r, promiseAll [Prisma.platformProductOrderInfluencer_update Prisma.prismaService id s]
              (quiet db)
            = (quiet (setStatus db id s), Ok [r]).
Proof.
  intros Hin Hid. destruct (update_quiet db id s p Hin Hid) as [r Hr].
  exists r. cbn [promiseAll]. rewrite Hr. reflexivity.
Qed.

(** ** Invitation, acceptance and refusal *)

Section Invitation.
Context `{D : Declarations}.
Variables (db : Db) (a : Z) (p : PlatformProductOrderInfluencer) (i : Influencer).

Lemma invitable_status :
  ((status p == influencerStatus Added)%Q \/ (status p == influencerStatus Invited)%Q) ->
  includes [influencerStatus Added; influencerStatus Invited] (status p) = true.
Proof.
  intros [H|H]; apply includes_true; eexists; (split; [|exact H]); cbn; auto.
Qed.

Lemma campaign_invite_sole cid c o :
  campaignAt db cid c o -> soleRecord db (order_id o) a p i ->
  ((status p == influencerStatus Added)%Q \/ (status p == influencerStatus Invited)%Q) ->
  exists r, CampaignService.inviteInfluencers cid [a] (quiet db)
            = (quiet (setStatus db (poi_id p) (influencerStatus Invited)), Ok r).
Proof.
  intros Hc Hsole Hst. unfold CampaignService.inviteInfluencers.
  rewrite (campaign_prefix cid c o) by assumption.
  rewrite bind_query. cbn [committed quiet].
  change (Prisma.influencersOfOrder db (order_id o) (fun i0 => inIds (influencer_id i0) [a]))
    with (named db (order_id o) influencer_id [a]).
  rewrite (named_sole _ _ _ _ _ Hsole).
  cbn [filter existsb snd fst map].
  rewrite (soleRecord_influencer _ _ _ _ _ Hsole), Z.eqb_refl.
  rewrite (invitable_status Hst). cbn [orb negb nonEmpty].
  destruct (promiseAll_one_update db (poi_id p) (influencerStatus Invited) p
              (soleRecord_in _ _ _ _ _ Hsole) eq_refl) as [r Hr].
  eexists. exact Hr.
Qed.

Lemma survey_invite_sole sid s o :
  surveyAt db sid s o -> soleRecord db (order_id o) a p i ->
  ((status p == influencerStatus Added)%Q \/ (status p == influencerStatus Invited)%Q) ->
  exists r, SurveysService.inviteInfluencers sid [a] (quiet db)
            = (quiet (setStatus db (poi_id p) (influencerStatus Invited)), Ok r).
Proof.
  intros Hs Hsole Hst. unfold SurveysService.inviteInfluencers.
  rewrite (survey_prefix sid s o) by assumption.
  rewrite bind_query. cbn [committed quiet].
  change (Prisma.influencersOfOrder db (order_id o) (fun i0 => inIds (influencer_id i0) [a]))
    with (named db (order_id o) influencer_id [a]).
  rewrite (named_sole _ _ _ _ _ Hsole).
  cbn [filter existsb snd fst map].
  rewrite (soleRecord_influencer _ _ _ _ _ Hsole), Z.eqb_refl.
  rewrite (invitable_status Hst). cbn [orb negb nonEmpty].
  destruct (promiseAll_one_update db (poi_id p) (influencerStatus Invited) p
              (soleRecord_in _ _ _ _ _ Hsole) eq_refl) as [r Hr].
  eexists. exact Hr.
Qed.

Variable user : UserWithInfluencer.
Hypothesis caller : caller_influencer user = Some a.

(** Both answers to an invitation, for the status [next] they write. *)
Lemma campaign_answerInvitation_invited next cid c o :
  campaignAt db cid c o -> participant db (order_id o) a = Some p ->
  (status p == influencerStatus Invited)%Q ->
  exists r, CampaignService.answerInvitation next cid user (quiet db)
            = (quiet (setStatus db (poi_id p) (influencerStatus next)), Ok r).
Proof.
  intros Hc Hp Hst. unfold CampaignService.answerInvitation. rewrite caller.
  rewrite (campaign_prefix cid c o) by assumption.
  rewrite bind_query, first_row_is_participant. cbn [committed quiet]. rewrite Hp.
  apply strictEq_true in Hst. rewrite Hst. cbn [negb].
  apply participant_some in Hp. destruct Hp as (Hin & _).
  eapply update_quiet; [exact Hin|reflexivity].
Qed.

Lemma campaign_answerInvitation_not_invited next cid c o :
  campaignAt db cid c o -> participant db (order_id o) a = Some p ->
  ~ (status p == influencerStatus Invited)%Q ->
  exists m, CampaignService.answerInvitation next cid user (quiet db)
            = (quiet db, Throw (BadRequestApplicationException m)).
Proof.
  intros Hc Hp Hst. unfold CampaignService.answerInvitation. rewrite caller.
  rewrite (campaign_prefix cid c o) by assumption.
  rewrite bind_query, first_row_is_participant. cbn [committed quiet]. rewrite Hp.
  apply strictEq_false in Hst. rewrite Hst. cbn [negb].
  eexists. reflexivity.
Qed.

Lemma survey_answerInvitation_invited next sid s o :
  surveyAt db sid s o -> participant db (order_id o) a = Some p ->
  (status p == influencerStatus Invited)%Q ->
  exists r, SurveysService.answerInvitation next sid user (quiet db)
            = (quiet (setStatus db (poi_id p) (influencerStatus next)), Ok r).
Proof.
  intros Hs Hp Hst. unfold SurveysService.answerInvitation. rewrite caller.
  rewrite (survey_prefix sid s o) by assumption.
  rewrite bind_query, first_row_is_participant. cbn [committed quiet]. rewrite Hp.
  apply strictEq_true in Hst. rewrite Hst. cbn [negb].
  apply participant_some in Hp. destruct Hp as (Hin & _).
  eapply update_quiet; [exact Hin|reflexivity].
Qed.

Lemma survey_answerInvitation_not_invited next sid s o :
  surveyAt db sid s o -> participant db (order_id o) a = Some p ->
  ~ (status p == influencerStatus Invited)%Q ->
  exists m, SurveysService.answerInvitation next sid user (quiet db)
            = (quiet db, Throw (BadRequestApplicationException m)).
Proof.
  intros Hs Hp Hst. unfold SurveysService.answerInvitation. rewrite caller.
  rewrite (survey_prefix sid s o) by assumption.
  rewrite bind_query, first_row_is_participant. cbn [committed quiet]. rewrite Hp.
  apply strictEq_false in Hst. rewrite Hst. cbn [negb].
  eexists. reflexivity.
Qed.

End Invitation.

Lemma moves_intro {A} (run : M A) db p s :
  In p (platformProductOrderInfluencers db) ->
  (exists r, run (quiet db) = (quiet (setStatus db (poi_id p) s), Ok r)) ->
  moves run db p s.
Proof.
  intros Hin [r Hr]. exists r, (setStatus db (poi_id p) s).
  split; [exact Hr|]. split; [now apply setStatus_foundAt|reflexivity].
Qed.

Lemma moves_run {A} (run : M A) db p s :
  moves run db p s ->
  exists r, run (quiet db) = (quiet (setStatus db (poi_id p) s), Ok r).
Proof. intros (r & db' & Hr & _ & ->). now exists r. Qed.

(** C9.  For the one participation record of an influencer in the order of
    a campaign (resp. of a survey): [inviteInfluencers] moves it from Added
    to Invited and, called on the Invited record again, succeeds and leaves
    it Invited; from Invited, [acceptInvitation] moves it to Matching in a
    campaign and to ToBeAnswered in a survey, and [declineInvitation] moves
    it to Declined; on a Declined record [acceptInvitation] fails with
    BadRequest.  A move succeeds, leaves the record in the database under the
    new status and changes no other record.  The campaign methods ask
    nothing of the surveys, and conversely. *)
Theorem C9_invitation_round `{D : Declarations}
    (db : Db) (a : Z) (user : UserWithInfluencer) :
  caller_influencer user = Some a ->
  ~ (influencerStatus Declined == influencerStatus Invited)%Q ->
  (forall (cid : Z) (c : Campaign) (co : PlatformProductOrder)
          (pc : PlatformProductOrderInfluencer) (ic : Influencer),
     campaignAt db cid c co -> soleRecord db (order_id co) a pc ic ->
     ((status pc == influencerStatus Added)%Q \/ (status pc == influencerStatus Invited)%Q ->
        moves (CampaignService.inviteInfluencers cid [a]) db pc (influencerStatus Invited)) /\
     ((status pc == influencerStatus Invited)%Q ->
        moves (CampaignService.acceptInvitation cid user) db pc (influencerStatus Matching) /\
        moves (CampaignService.declineInvitation cid user) db pc (influencerStatus Declined)) /\
     ((status pc == influencerStatus Declined)%Q ->
        refuses (CampaignService.acceptInvitation cid user) db)) /\
  (forall (sid : Z) (s : Survey) (so : PlatformProductOrder)
          (ps : PlatformProductOrderInfluencer) (isv : Influencer),
     surveyAt db sid s so -> soleRecord db (order_id so) a ps isv ->
     ((status ps == influencerStatus Added)%Q \/ (status ps == influencerStatus Invited)%Q ->
        moves (SurveysService.inviteInfluencers sid [a]) db ps (influencerStatus Invited)) /\
     ((status ps == influencerStatus Invited)%Q ->
        moves (SurveysService.acceptInvitation sid user) db ps (influencerStatus ToBeAnswered) /\
        moves (SurveysService.declineInvitation sid user) db ps (influencerStatus Declined)) /\
     ((status ps == influencerStatus Declined)%Q ->
        refuses (SurveysService.acceptInvitation sid user) db)).
Proof.
  intros Hu Hdistinct. split.
  - intros cid c co pc ic Hc Hpc.
    pose proof (soleRecord_in _ _ _ _ _ Hpc) as Hinc.
    pose proof (soleRecord_participant _ _ _ _ _ Hpc) as Hfc.
    split; [|split].
    + intros Hst. apply moves_intro; [exact Hinc|].
      eapply campaign_invite_sole; eassumption.
    + intros Hst. split; apply moves_intro; try exact Hinc;
        eapply campaign_answerInvitation_invited; eassumption.
    + intros Hst. eapply campaign_answerInvitation_not_invited; try eassumption.
      intros Hinv. apply Hdistinct. rewrite <- Hst, <- Hinv. reflexivity.
  - intros sid s so ps isv Hs Hps.
    pose proof (soleRecord_in _ _ _ _ _ Hps) as Hins.
    pose proof (soleRecord_participant _ _ _ _ _ Hps) as Hfs.
    split; [|split].
    + intros Hst. apply moves_intro; [exact Hins|].
      eapply survey_invite_sole; eassumption.
    + intros Hst. split; apply moves_intro; try exact Hins;
        eapply survey_answerInvitation_invited; eassumption.
    + intros Hst. eapply survey_answerInvitation_not_invited; try eassumption.
      intros Hinv. apply Hdistinct. rewrite <- Hst, <- Hinv. reflexivity.
Qed.

(** The scenario of the specification, run on campaign 7 with influencer 1
    (user 11) at Added: invited, invited again, declined; the acceptance
    that follows is refused and the record stays Declined. *)
Example invitation_scenario :
  let D := specDeclarations in
  let w0 := quiet (Example.base [Example.row 1 70 1 Added]) in
  let (w1, r1) := CampaignService.inviteInfluencers 7 [1] w0 in
  let (w2, r2) := CampaignService.inviteInfluencers 7 [1] w1 in
  let (w3, r3) := CampaignService.declineInvitation 7 (Example.caller 11 1) w2 in
  let (w4, r4) := CampaignService.acceptInvitation 7 (Example.caller 11 1) w3 in
  Example.statuses w1 = [influencerStatus Invited] /\
  Example.statuses w2 = [influencerStatus Invited] /\
  Example.statuses w3 = [influencerStatus Declined] /\
  Example.statuses w4 = [influencerStatus Declined] /\
  exists m, r4 = Throw (BadRequestApplicationException m).
Proof. vm_compute. repeat split. eexists. reflexivity. Qed.

(** C9, at influencer 1 (user 11) whose one record is in campaign 7, at
    Added: the invitation leaves the record at Invited (value 1); and at the
    same influencer whose one record is in survey 9, at Invited: the
    acceptance leaves it at ToBeAnswered (value 3), the refusal at Declined
    (value 8). *)
Lemma C9_witness :
  let D := specDeclarations in
  (exists r, CampaignService.inviteInfluencers 7 [1]
               (quiet (Example.base [Example.row 1 70 1 Added]))
             = (quiet (Example.base
                  [ {| poi_id := 1; productOrderId := 70; influencerId := 1;
                       agreedAmount := 100%Q; currency := 1; status := 1%Q |} ]), Ok r)) /\
  (exists r, SurveysService.acceptInvitation 9 (Example.caller 11 1)
               (quiet (Example.base [Example.row 2 90 1 Invited]))
             = (quiet (Example.base
                  [ {| poi_id := 2; productOrderId := 90; influencerId := 1;
                       agreedAmount := 100%Q; currency := 1; status := 3%Q |} ]), Ok r)) /\
  (exists r, SurveysService.declineInvitation 9 (Example.caller 11 1)
               (quiet (Example.base [Example.row 2 90 1 Invited]))
             = (quiet (Example.base
                  [ {| poi_id := 2; productOrderId := 90; influencerId := 1;
                       agreedAmount := 100%Q; currency := 1; status := 8%Q |} ]), Ok r)).
Proof.
  cbv zeta.
  assert (Hd : ~ (@influencerStatus specDeclarations Declined
                  == @influencerStatus specDeclarations Invited)%Q)
    by (vm_compute; discriminate).
  split; [|split].
  - destruct (proj1 (@C9_invitation_round specDeclarations
                (Example.base [Example.row 1 70 1 Added]) 1 (Example.caller 11 1) eq_refl Hd)
              7 {| campaign_id := 7; campaign_platformProductOrderId := 70; postType := Some 0 |}
              {| order_id := 70; order_status := 1%Q |}
              (Example.row 1 70 1 Added) {| influencer_id := 1; influencer_userId := 11 |})
      as (Hinvite & _).
    + split; reflexivity.
    + split; reflexivity.
    + destruct (moves_run _ _ _ _ (Hinvite (or_introl (Qeq_refl _)))) as [r Hr].
      exists r. exact Hr.
  - destruct (proj2 (@C9_invitation_round specDeclarations
                (Example.base [Example.row 2 90 1 Invited]) 1 (Example.caller 11 1) eq_refl Hd)
              9 {| survey_id := 9; survey_platformProductOrderId := 90; surveyType := Some 0 |}
              {| order_id := 90; order_status := 1%Q |}
              (Example.row 2 90 1 Invited) {| influencer_id := 1; influencer_userId := 11 |})
      as (_ & Hanswer & _).
    + split; reflexivity.
    + split; reflexivity.
    + destruct (moves_run _ _ _ _ (proj1 (Hanswer (Qeq_refl _)))) as [r Hr].
      exists r. exact Hr.
  - destruct (proj2 (@C9_invitation_round specDeclarations
                (Example.base [Example.row 2 90 1 Invited]) 1 (Example.caller 11 1) eq_refl Hd)
              9 {| survey_id := 9; survey_platformProductOrderId := 90; surveyType := Some 0 |}
              {| order_id := 90; order_status := 1%Q |}
              (Example.row 2 90 1 Invited) {| influencer_id := 1; influencer_userId := 11 |})
      as (_ & Hanswer & _).
    + split; reflexivity.
    + split; reflexivity.
    + destruct (moves_run _ _ _ _ (proj2 (Hanswer (Qeq_refl _)))) as [r Hr].
      exists r. exact Hr.
Defined.

(** C8, at influencer 1 (user 11), whose one record is in campaign 7 at
    Matching: the removal succeeds and leaves the record at Withdrawn (value
    11); and at the same influencer, whose one record is in survey 9 at
    Invited: the removal is forbidden. *)
Lemma C8_witness :
  let D := specDeclarations in
  (exists r, CampaignService.removeInfluencerSelf 7 (Example.caller 11 1)
               (quiet (Example.base [Example.row 1 70 1 Matching]))
             = (quiet (Example.base
                  [ {| poi_id := 1; productOrderId := 70; influencerId := 1;
                       agreedAmount := 100%Q; currency := 1; status := 11%Q |} ]), Ok r) /\
             status r = 11%Q) /\
  forbids (SurveysService.removeInfluencerSelf 9 (Example.caller 11 1))
    (Example.base [Example.row 2 90 1 Invited]).
Proof.
  cbv zeta. split.
  - pose proof (proj1 (@C8_removeInfluencerSelf_contract specDeclarations
                  (Example.base [Example.row 1 70 1 Matching]) (Example.caller 11 1) 1 eq_refl)
                7 {| campaign_id := 7; campaign_platformProductOrderId := 70; postType := Some 0 |}
                {| order_id := 70; order_status := 1%Q |}) as H.
    destruct H as (_ & _ & H); [split; reflexivity|].
    destruct H as (r & db' & Hr & _ & Hst & _ & ->).
    + vm_compute. discriminate.
    + vm_compute. discriminate.
    + exists r. split; [exact Hr|exact Hst].
  - pose proof (proj2 (@C8_removeInfluencerSelf_contract specDeclarations
                  (Example.base [Example.row 2 90 1 Invited]) (Example.caller 11 1) 1 eq_refl)
                9 {| survey_id := 9; survey_platformProductOrderId := 90; surveyType := Some 0 |}
                {| order_id := 90; order_status := 1%Q |}) as H.
    destruct H as (_ & H & _); [split; reflexivity|].
    apply H. reflexivity.
Defined.

(** ** removeInfluencers *)

Lemma updateMany_quiet db where_ s :
  Prisma.platformProductOrderInfluencer_updateMany Prisma.prismaService where_ s (quiet db)
  = (quiet (withParticipants db
              (map (fun x => if where_ x then withStatus x s else x)
                   (platformProductOrderInfluencers db))),
     Ok (Z.of_nat (List.length (filter where_ (platformProductOrderInfluencers db))))).
Proof.
unfold Prisma.platformProductOrderInfluencer_updateMany. now rewrite write_quiet.
Qed.

Lemma includes_Qeq (l : list number) (x y : number) :
  (x == y)%Q -> includes l x = includes l y.
Proof.
intros E. unfold includes. induction l as [|z l IH]; [reflexivity|].
cbn. rewrite IH. f_equal. unfold strictEq.
destruct (Qeq_bool x z) eqn:Ex, (Qeq_bool y z) eqn:Ey; try reflexivity.
- apply Qeq_bool_iff in Ex. rewrite E in Ex. apply Qeq_bool_iff in Ex. congruence.
- apply Qeq_bool_iff in Ey. rewrite <- E in Ey. apply Qeq_bool_iff in Ey. congruence.
Qed.

Lemma separated_excludes `{D : Declarations} xs ys x v :
  separated xs ys -> In x xs -> (v == influencerStatus x)%Q ->
  includes (map influencerStatus ys) v = false.
Proof.
intros Hsep Hx Hv. apply includes_false. intros y Hy E.
apply in_map_iff in Hy. destruct Hy as [y' [<- Hy']].
apply (Hsep x y' Hx Hy'). rewrite <- Hv. exact E.
Qed.

Lemma in_named db orderId key ids r i :
  In r (platformProductOrderInfluencers db) ->
  productOrderId r = orderId ->
  find (fun i => influencer_id i =? influencerId r) (influencers db) = Some i ->
  inIds (key i) ids = true ->
  In (r, i) (named db orderId key ids).
Proof.
intros Hin Ho Hi Hk. unfold named, Prisma.influencersOfOrder.
apply in_flat_map. exists r. split; [exact Hin|].
rewrite Ho, Z.eqb_refl, Hi, Hk. now left.
Qed.

Lemma inIds_true x ids : In x ids -> inIds x ids = true.
Proof.
intros H. unfold inIds. apply existsb_exists. exists x. split; [exact H|apply Z.eqb_refl].
Qed.

(** When every named id takes part, nobody is reported as missing. *)
Lemma all_participants_by_id db orderId ids :
  (forall a, In a ids -> isParticipant db orderId a) ->
  filter (fun influencerId =>
            negb (existsb (fun ci : PlatformProductOrderInfluencer * Influencer =>
                             influencer_id (snd ci) =? influencerId)
                          (named db orderId influencer_id ids)))
         ids = [].
Proof.
intros H. apply nonEmpty_filter_nil. intros a Ha.
destruct (H a Ha) as (r & i & Hin & Ho & Hr & Hi).
apply negb_false_iff, existsb_exists. exists (r, i). split.
- apply in_named; try assumption.
  + now rewrite Hr.
  + apply find_some in Hi. destruct Hi as [_ Hi]. apply Z.eqb_eq in Hi.
    rewrite Hi. now apply inIds_true.
- cbn. apply find_some in Hi. destruct Hi as [_ Hi]. exact Hi.
Qed.

Section TwoBuckets.
Context `{D : Declarations}.
Variables (pre post : list ProductOrderInfluencerStatus) (orderId : Z) (ids : list Z).
Hypothesis apart : separated (NotSelected :: pre) post.

Let first (r : PlatformProductOrderInfluencer) : bool :=
  (productOrderId r =? orderId) && inIds (influencerId r) ids
  && includes (map influencerStatus pre) (status r).
Let second (r : PlatformProductOrderInfluencer) : bool :=
  (productOrderId r =? orderId) && inIds (influencerId r) ids
  && includes (map influencerStatus post) (status r).
Let afterFirst (r : PlatformProductOrderInfluencer) :=
  if first r then withStatus r (influencerStatus NotSelected) else r.

Lemma pre_not_post v :
  includes (map influencerStatus pre) v = true ->
  includes (map influencerStatus post) v = false.
Proof.
intros H. apply includes_true in H. destruct H as [y [Hy E]].
apply in_map_iff in Hy. destruct Hy as [x [<- Hx]].
apply (separated_excludes (NotSelected :: pre) post x v apart); [now right|exact E].
Qed.

Lemma notSelected_not_post :
  includes (map influencerStatus post) (influencerStatus NotSelected) = false.
Proof.
apply (separated_excludes (NotSelected :: pre) post NotSelected _ apart); [now left|reflexivity].
Qed.

Lemma second_afterFirst r :
  second (afterFirst r)
  = namedRow orderId ids r && includes (map influencerStatus post) (status r).
Proof.
unfold second, afterFirst, first, namedRow.
destruct ((productOrderId r =? orderId) && inIds (influencerId r) ids) eqn:En;
  cbn [andb]; [|now rewrite En].
destruct (includes (map influencerStatus pre) (status r)) eqn:Ep.
- cbn [withStatus productOrderId influencerId status]. rewrite En. cbn [andb].
  rewrite notSelected_not_post. symmetry. now apply pre_not_post.
- now rewrite En.
Qed.

Lemma both_updates r :
  (if second (afterFirst r)
   then withStatus (afterFirst r) (influencerStatus Removed) else afterFirst r)
  = removal pre post orderId ids r.
Proof.
rewrite second_afterFirst. unfold removal, afterFirst, first, namedRow.
destruct ((productOrderId r =? orderId) && inIds (influencerId r) ids); cbn [andb];
  [|reflexivity].
destruct (includes (map influencerStatus pre) (status r)) eqn:Ep.
- now rewrite (pre_not_post _ Ep).
- reflexivity.
Qed.

Lemma two_buckets_rows rows :
  map (fun x => if second x then withStatus x (influencerStatus Removed) else x)
      (map afterFirst rows)
  = map (removal pre post orderId ids) rows.
Proof.
rewrite map_map. apply map_ext. intros r. apply both_updates.
Qed.

Lemma two_buckets_second_count rows :
  List.length (filter second (map afterFirst rows))
  = List.length (filter (fun r => namedRow orderId ids r
                                  && includes (map influencerStatus post) (status r)) rows).
Proof.
induction rows as [|r rows IH]; [reflexivity|].
cbn [map filter]. rewrite second_afterFirst.
destruct (namedRow orderId ids r && includes (map influencerStatus post) (status r));
  cbn [List.length]; now rewrite IH.
Qed.

(** The two bulk updates of [removeInfluencers], awaited together. *)
Lemma two_buckets_run db :
  promiseAll
    [ Prisma.platformProductOrderInfluencer_updateMany Prisma.prismaService first
        (influencerStatus NotSelected);
      Prisma.platformProductOrderInfluencer_updateMany Prisma.prismaService second
        (influencerStatus Removed) ] (quiet db)
  = (quiet (withParticipants db
              (map (removal pre post orderId ids) (platformProductOrderInfluencers db))),
     Ok [bucketCount pre orderId ids db; bucketCount post orderId ids db]).
Proof.
cbn [promiseAll]. rewrite updateMany_quiet, updateMany_quiet.
cbn [platformProductOrderInfluencers withParticipants].
change (map (fun x => if first x then withStatus x (influencerStatus NotSelected) else x)
            (platformProductOrderInfluencers db))
  with (map afterFirst (platformProductOrderInfluencers db)).
rewrite two_buckets_rows, two_buckets_second_count. reflexivity.
Qed.

End TwoBuckets.

Lemma campaign_removeInfluencers_run `{D : Declarations} db cid c o ids :
  campaignAt db cid c o ->
  (forall a, In a ids -> isParticipant db (order_id o) a) ->
  separated (NotSelected :: campaignPre) campaignPost ->
  CampaignService.removeInfluencers cid ids (quiet db)
  = (quiet (withParticipants db
              (map (removal campaignPre campaignPost (order_id o) ids)
                   (platformProductOrderInfluencers db))),
     Ok (bucketCount campaignPre (order_id o) ids db
         + bucketCount campaignPost (order_id o) ids db)).
Proof.
intros Hc Hall Hsep. unfold CampaignService.removeInfluencers.
rewrite (campaign_prefix cid c o) by assumption.
rewrite bind_query. cbn [committed quiet].
change (Prisma.influencersOfOrder db (order_id o) (fun i => inIds (influencer_id i) ids))
  with (named db (order_id o) influencer_id ids).
rewrite (all_participants_by_id db (order_id o) ids Hall). cbn [nonEmpty].
rewrite <- (campaignAt_order_id _ _ _ _ Hc).
change [influencerStatus Added; influencerStatus Invited; influencerStatus Matching]
  with (map influencerStatus campaignPre).
change [influencerStatus ToBeSubmitted; influencerStatus ToBeApproved;
        influencerStatus Approved; influencerStatus ToBePaid; influencerStatus Paid]
  with (map influencerStatus campaignPost).
unfold bind at 1.
rewrite (two_buckets_run campaignPre campaignPost (order_id o) ids Hsep db).
unfold ret. cbn [fold_right]. now rewrite Z.add_0_r.
Qed.

Lemma survey_removeInfluencers_run `{D : Declarations} db sid s o ids :
  surveyAt db sid s o ->
  (forall a, In a ids -> isParticipant db (order_id o) a) ->
  separated (NotSelected :: surveyPre) surveyPost ->
  SurveysService.removeInfluencers sid ids (quiet db)
  = (quiet (withParticipants db
              (map (removal surveyPre surveyPost (order_id o) ids)
                   (platformProductOrderInfluencers db))),
     Ok (bucketCount surveyPre (order_id o) ids db
         + bucketCount surveyPost (order_id o) ids db)).
Proof.
intros Hs Hall Hsep. unfold SurveysService.removeInfluencers.
rewrite (survey_prefix sid s o) by assumption.
rewrite bind_query. cbn [committed quiet].
change (Prisma.influencersOfOrder db (order_id o) (fun i => inIds (influencer_id i) ids))
  with (named db (order_id o) influencer_id ids).
rewrite (all_participants_by_id db (order_id o) ids Hall). cbn [nonEmpty].
rewrite <- (surveyAt_order_id _ _ _ _ Hs).
change [influencerStatus Added; influencerStatus Invited]
  with (map influencerStatus surveyPre).
change [influencerStatus ToBeAnswered; influencerStatus ToBeApproved;
        influencerStatus Approved; influencerStatus ToBePaid; influencerStatus Paid]
  with (map influencerStatus surveyPost).
unfold bind at 1.
rewrite (two_buckets_run surveyPre surveyPost (order_id o) ids Hsep db).
unfold ret. cbn [fold_right]. now rewrite Z.add_0_r.
Qed.

(** C5.  One call of [removeInfluencers] whose ids all take part in the
    order: every record of the order that belongs to a named influencer moves
    to NotSelected when its status is a pre-application one ({Added, Invited,
    Matching} in a campaign, {Added, Invited} in a survey), to Removed when
    its status is a post-application one ({ToBeSubmitted resp. ToBeAnswered,
    ToBeApproved, Approved, ToBePaid, Paid}), and is left as it is otherwise;
    every other record is left as it is; the count returned is the number of
    records of the first bucket plus the number of records of the second.
    The campaign method asks nothing of the surveys, and conversely. *)
Theorem C5_removeInfluencers_two_buckets `{D : Declarations} (db : Db) (ids : list Z) :
  (forall (cid : Z) (c : Campaign) (co : PlatformProductOrder),
     campaignAt db cid c co ->
     (forall a, In a ids -> isParticipant db (order_id co) a) ->
     separated (NotSelected :: campaignPre) campaignPost ->
     CampaignService.removeInfluencers cid ids (quiet db)
     = (quiet (withParticipants db
                 (map (removal campaignPre campaignPost (order_id co) ids)
                      (platformProductOrderInfluencers db))),
        Ok (bucketCount campaignPre (order_id co) ids db
            + bucketCount campaignPost (order_id co) ids db))) /\
  (forall (sid : Z) (s : Survey) (so : PlatformProductOrder),
     surveyAt db sid s so ->
     (forall a, In a ids -> isParticipant db (order_id so) a) ->
     separated (NotSelected :: surveyPre) surveyPost ->
     SurveysService.removeInfluencers sid ids (quiet db)
     = (quiet (withParticipants db
                 (map (removal surveyPre surveyPost (order_id so) ids)
                      (platformProductOrderInfluencers db))),
        Ok (bucketCount surveyPre (order_id so) ids db
            + bucketCount surveyPost (order_id so) ids db))).
Proof.
split.
- intros cid c co Hc Hall Hsep. now apply campaign_removeInfluencers_run with (c := c).
- intros sid s so Hs Hall Hsep. now apply survey_removeInfluencers_run with (s := s).
Qed.

Lemma specDeclarations_separated xs ys :
  forallb (fun x => forallb (fun y =>
    negb (strictEq (@influencerStatus specDeclarations x)
                   (@influencerStatus specDeclarations y))) ys) xs = true ->
  @separated specDeclarations xs ys.
Proof.
intros H x y Hx Hy E.
rewrite forallb_forall in H. specialize (H x Hx).
rewrite forallb_forall in H. specialize (H y Hy).
apply negb_true_iff, strictEq_false in H. contradiction.
Qed.

(** C5, at campaign 7 with the influencers 1, 2, 3 at Added, Approved and
    Declined, in a database whose survey has no participant: the count is 2,
    the records end at NotSelected (value 9), Removed (value 10) and Declined
    (value 8); and at survey 9 with the influencers 1, 2 at Invited and
    ToBeAnswered, the campaigns without participant: the count is 2. *)
Lemma C5_witness :
  let D := specDeclarations in
  CampaignService.removeInfluencers 7 [1; 2; 3]
    (quiet (Example.base
       [Example.row 1 70 1 Added; Example.row 2 70 2 Approved; Example.row 3 70 3 Declined]))
  = (quiet (Example.base
       [ {| poi_id := 1; productOrderId := 70; influencerId := 1;
            agreedAmount := 100%Q; currency := 1; status := 9%Q |};
         {| poi_id := 2; productOrderId := 70; influencerId := 2;
            agreedAmount := 100%Q; currency := 1; status := 10%Q |};
         {| poi_id := 3; productOrderId := 70; influencerId := 3;
            agreedAmount := 100%Q; currency := 1; status := 8%Q |} ]), Ok 2) /\
  SurveysService.removeInfluencers 9 [1; 2]
    (quiet (Example.base [Example.row 4 90 1 Invited; Example.row 5 90 2 ToBeAnswered]))
  = (quiet (Example.base
       [ {| poi_id := 4; productOrderId := 90; influencerId := 1;
            agreedAmount := 100%Q; currency := 1; status := 9%Q |};
         {| poi_id := 5; productOrderId := 90; influencerId := 2;
            agreedAmount := 100%Q; currency := 1; status := 10%Q |} ]), Ok 2).
Proof.
cbv zeta. split.
- apply (proj1 (@C5_removeInfluencers_two_buckets specDeclarations
    (Example.base
       [Example.row 1 70 1 Added; Example.row 2 70 2 Approved; Example.row 3 70 3 Declined])
    [1; 2; 3])
    7 {| campaign_id := 7; campaign_platformProductOrderId := 70; postType := Some 0 |}
    {| order_id := 70; order_status := 1%Q |}).
  + split; reflexivity.
  + intros a [<-|[<-|[<-|[]]]].
    * exists (Example.row 1 70 1 Added), {| influencer_id := 1; influencer_userId := 11 |}.
      cbn. tauto.
    * exists (Example.row 2 70 2 Approved), {| influencer_id := 2; influencer_userId := 12 |}.
      cbn. tauto.
    * exists (Example.row 3 70 3 Declined), {| influencer_id := 3; influencer_userId := 13 |}.
      cbn. tauto.
  + apply specDeclarations_separated. reflexivity.
- apply (proj2 (@C5_removeInfluencers_two_buckets specDeclarations
    (Example.base [Example.row 4 90 1 Invited; Example.row 5 90 2 ToBeAnswered])
    [1; 2])
    9 {| survey_id := 9; survey_platformProductOrderId := 90; surveyType := Some 0 |}
    {| order_id := 90; order_status := 1%Q |}).
  + split; reflexivity.
  + intros a [<-|[<-|[]]].
    * exists (Example.row 4 90 1 Invited), {| influencer_id := 1; influencer_userId := 11 |}.
      cbn. tauto.
    * exists (Example.row 5 90 2 ToBeAnswered), {| influencer_id := 2; influencer_userId := 12 |}.
      cbn. tauto.
  + apply specDeclarations_separated. reflexivity.
Defined.

(** ** finishCampaign and finishSurvey *)

Lemma campaign_finish_run `{D : Declarations} db cid c o :
  campaignAt db cid c o ->
  (order_status o == orderStatus OnGoing)%Q ->
  ~ (orderStatus Finished < order_status o)%Q ->
  CampaignService.finishCampaign cid (quiet db) = (quiet (finished db (order_id o)), Ok c).
Proof.
intros Hc Hon Hfin. unfold CampaignService.finishCampaign.
rewrite (campaign_prefix cid c o) by assumption.
apply strictEq_true in Hon. apply lessThan_false in Hfin. rewrite Hon, Hfin. cbn [negb].
destruct Hc as [Hfind Hord].
unfold Prisma.transaction, bind, Prisma.platformProductOrderInfluencer_updateMany,
  Prisma.campaign_update_orderStatus, Prisma.write, Prisma.answer, bind, ret, throw,
  Prisma.updateManyStatus, Prisma.updateCampaignOrderStatus, Prisma.setOrderStatus.
cbn [quiet committed pending rejections Prisma.replay fold_left app].
rewrite Hfind.
cbn [quiet committed pending rejections Prisma.replay fold_left app Prisma.commit
     Prisma.effect].
unfold finished. apply find_some in Hord. destruct Hord as [_ Hord].
apply Z.eqb_eq in Hord. rewrite Hord. reflexivity.
Qed.

Lemma survey_finish_run `{D : Declarations} db sid s o :
  surveyAt db sid s o ->
  (order_status o == orderStatus OnGoing)%Q ->
  ~ (orderStatus Finished < order_status o)%Q ->
  SurveysService.finishSurvey sid (quiet db) = (quiet (finished db (order_id o)), Ok s).
Proof.
intros Hs Hon Hfin. unfold SurveysService.finishSurvey.
rewrite (survey_prefix sid s o) by assumption.
apply strictEq_true in Hon. apply lessThan_false in Hfin. rewrite Hon, Hfin. cbn [negb].
destruct Hs as [Hfind Hord].
unfold Prisma.transaction, bind, Prisma.platformProductOrderInfluencer_updateMany,
  Prisma.survey_update_orderStatus, Prisma.write, Prisma.answer, bind, ret, throw,
  Prisma.updateManyStatus, Prisma.updateSurveyOrderStatus, Prisma.setOrderStatus.
cbn [quiet committed pending rejections Prisma.replay fold_left app].
rewrite Hfind.
cbn [quiet committed pending rejections Prisma.replay fold_left app Prisma.commit
     Prisma.effect].
unfold finished. apply find_some in Hord. destruct Hord as [_ Hord].
apply Z.eqb_eq in Hord. rewrite Hord. reflexivity.
Qed.

(** C3.  [finishCampaign] and [finishSurvey] on an on-going order whose
    participants are at Approved and ToBeSubmitted (resp. ToBeAnswered),
    while two other orders each have a participant at Approved: the order
    becomes Finished, its Approved participant becomes ToBePaid and its
    other participant is untouched, but the Approved participants of the
    other orders become ToBePaid as well, because the bulk update selects on
    the status alone. *)
Theorem C3_finishOrder_reaches_other_orders :
  let D := specDeclarations in
  let db := Example.base
    [Example.row 1 70 1 Approved; Example.row 2 70 2 ToBeSubmitted;
     Example.row 3 80 3 Approved;
     Example.row 4 90 1 Approved; Example.row 5 90 2 ToBeAnswered] in
  (let (w, r) := CampaignService.finishCampaign 7 (quiet db) in
   (exists c, r = Ok c) /\
   Example.orderStatuses w
   = [orderStatus Finished; orderStatus OnGoing; orderStatus OnGoing] /\
   Example.statuses w
   = [influencerStatus ToBePaid; influencerStatus ToBeSubmitted;
      influencerStatus ToBePaid;
      influencerStatus ToBePaid; influencerStatus ToBeAnswered]) /\
  (let (w, r) := SurveysService.finishSurvey 9 (quiet db) in
   (exists s, r = Ok s) /\
   Example.orderStatuses w
   = [orderStatus OnGoing; orderStatus OnGoing; orderStatus Finished] /\
   Example.statuses w
   = [influencerStatus ToBePaid; influencerStatus ToBeSubmitted;
      influencerStatus ToBePaid;
      influencerStatus ToBePaid; influencerStatus ToBeAnswered]).
Proof.
cbv zeta. split.
- rewrite (@campaign_finish_run specDeclarations _ 7
    {| campaign_id := 7; campaign_platformProductOrderId := 70; postType := Some 0 |}
    {| order_id := 70; order_status := 1%Q |}).
  + split; [eexists; reflexivity|]. split; reflexivity.
  + split; reflexivity.
  + reflexivity.
  + vm_compute. discriminate.
- rewrite (@survey_finish_run specDeclarations _ 9
    {| survey_id := 9; survey_platformProductOrderId := 90; surveyType := Some 0 |}
    {| order_id := 90; order_status := 1%Q |}).
  + split; [eexists; reflexivity|]. split; reflexivity.
  + split; reflexivity.
  + reflexivity.
  + vm_compute. discriminate.
Qed.

(** ** approveSubmission and disapproveSubmission *)

(** The shape of the validation of every batch operation: the missing ids
    are reported first, the records with an invalid status second, and
    nothing has been written by then. *)
Lemma validation_refuses {A X} (missing : list Z) (invalid : list X)
    (m1 m2 : string) (k : M A) (db : Db) :
  nonEmpty invalid = true ->
  exists m,
    (if nonEmpty missing then throw (BadRequestApplicationException m1)
     else if nonEmpty invalid then throw (BadRequestApplicationException m2)
     else k) (quiet db)
    = (quiet db, Throw (BadRequestApplicationException m)).
Proof.
intros H. rewrite H. destruct (nonEmpty missing); eexists; reflexivity.
Qed.

Lemma validation_passes {A X} (m1 m2 : string) (k : M A) (w : World) :
  (if nonEmpty (@nil Z) then throw (BadRequestApplicationException m1)
   else if nonEmpty (@nil X) then throw (BadRequestApplicationException m2)
   else k) w = k w.
Proof. reflexivity. Qed.

(** When every named user id takes part, nobody is reported as missing. *)
Lemma all_participants_by_userId db orderId ids :
  (forall a, In a ids ->
     exists r i, In (r, i) (named db orderId influencer_userId ids)
                 /\ influencer_userId i = a) ->
  filter (fun influencerId =>
            negb (existsb (fun ci : PlatformProductOrderInfluencer * Influencer =>
                             influencer_userId (snd ci) =? influencerId)
                          (named db orderId influencer_userId ids)))
         ids = [].
Proof.
intros H. apply nonEmpty_filter_nil. intros a Ha.
destruct (H a Ha) as (r & i & Hin & Hi).
apply negb_false_iff, existsb_exists. exists (r, i). split; [exact Hin|].
cbn. rewrite Hi. apply Z.eqb_refl.
Qed.

(** A review that passes the validation writes [next] into every record of
    the order. *)
Lemma campaign_review_run `{D : Declarations} db cid c o ids invalid verb next :
  campaignAt db cid c o ->
  (forall a, In a ids ->
     exists r i, In (r, i) (named db (order_id o) influencer_userId ids)
                 /\ influencer_userId i = a) ->
  (forall r i, In (r, i) (named db (order_id o) influencer_userId ids) ->
     invalid (status r) = false) ->
  CampaignService.reviewSubmission invalid verb next cid ids (quiet db)
  = (quiet (withParticipants db
              (map (fun r => if productOrderId r =? order_id o then withStatus r next else r)
                   (platformProductOrderInfluencers db))),
     Ok (Z.of_nat (List.length
           (filter (fun r => productOrderId r =? order_id o)
                   (platformProductOrderInfluencers db))))).
Proof.
intros Hc Hall Hvalid. unfold CampaignService.reviewSubmission.
rewrite (campaign_prefix cid c o) by assumption.
rewrite bind_query. cbn [committed quiet].
change (Prisma.influencersOfOrder db (order_id o) (fun i => inIds (influencer_userId i) ids))
  with (named db (order_id o) influencer_userId ids).
rewrite (all_participants_by_userId db (order_id o) ids Hall).
rewrite (nonEmpty_filter_nil (fun ci : PlatformProductOrderInfluencer * Influencer =>
                                invalid (status (fst ci)))).
2:{ intros [r i] Hin. exact (Hvalid r i Hin). }
rewrite validation_passes, updateMany_quiet.
now rewrite (campaignAt_order_id _ _ _ _ Hc).
Qed.

Lemma survey_review_run `{D : Declarations} db sid s o ids invalid next :
  surveyAt db sid s o ->
  (forall a, In a ids ->
     exists r i, In (r, i) (named db (order_id o) influencer_userId ids)
                 /\ influencer_userId i = a) ->
  (forall r i, In (r, i) (named db (order_id o) influencer_userId ids) ->
     invalid (status r) = false) ->
  SurveysService.reviewSurveyResult invalid next sid ids (quiet db)
  = (quiet (withParticipants db
              (map (fun r => if productOrderId r =? order_id o then withStatus r next else r)
                   (platformProductOrderInfluencers db))),
     Ok (Z.of_nat (List.length
           (filter (fun r => productOrderId r =? order_id o)
                   (platformProductOrderInfluencers db))))).
Proof.
intros Hs Hall Hvalid. unfold SurveysService.reviewSurveyResult.
rewrite (survey_prefix sid s o) by assumption.
rewrite bind_query. cbn [committed quiet].
change (Prisma.influencersOfOrder db (order_id o) (fun i => inIds (influencer_userId i) ids))
  with (named db (order_id o) influencer_userId ids).
rewrite (all_participants_by_userId db (order_id o) ids Hall).
rewrite (nonEmpty_filter_nil (fun ci : PlatformProductOrderInfluencer * Influencer =>
                                invalid (status (fst ci)))).
2:{ intros [r i] Hin. exact (Hvalid r i Hin). }
rewrite validation_passes, updateMany_quiet.
now rewrite (surveyAt_order_id _ _ _ _ Hs).
Qed.

(** C2.  [approveSubmission] for user 12 alone, in an order whose
    participants are influencer 1 at Matching, influencer 2 (user 12) at
    ToBeApproved and influencer 3 at Paid, and likewise
    [approveSurveyResult] with Declined and Paid bystanders: only the named
    participant is validated and the call succeeds, but the write sets
    Approved on every record of the order, the Matching, Declined and Paid
    ones included; the records of the other orders are not touched. *)
Theorem C2_approveSubmission_overwrites_every_status :
  let D := specDeclarations in
  let db := Example.base
    [Example.row 1 70 1 Matching; Example.row 2 70 2 ToBeApproved;
     Example.row 3 70 3 Paid; Example.row 4 80 1 Matching;
     Example.row 5 90 1 Declined; Example.row 6 90 2 ToBeApproved;
     Example.row 7 90 3 Paid] in
  (let (w, r) := CampaignService.approveSubmission 7 [12] (quiet db) in
   r = Ok 3 /\
   Example.statuses w
   = [influencerStatus Approved; influencerStatus Approved; influencerStatus Approved;
      influencerStatus Matching;
      influencerStatus Declined; influencerStatus ToBeApproved; influencerStatus Paid]) /\
  (let (w, r) := SurveysService.approveSurveyResult 9 [12] (quiet db) in
   r = Ok 3 /\
   Example.statuses w
   = [influencerStatus Matching; influencerStatus ToBeApproved; influencerStatus Paid;
      influencerStatus Matching;
      influencerStatus Approved; influencerStatus Approved; influencerStatus Approved]).
Proof.
cbv zeta. split.
- unfold CampaignService.approveSubmission.
  rewrite (@campaign_review_run specDeclarations _ 7
    {| campaign_id := 7; campaign_platformProductOrderId := 70; postType := Some 0 |}
    {| order_id := 70; order_status := 1%Q |}).
  + split; reflexivity.
  + split; reflexivity.
  + intros a [<-|[]].
    exists (Example.row 2 70 2 ToBeApproved), {| influencer_id := 2; influencer_userId := 12 |}.
    split; [now left|reflexivity].
  + intros r i [E|[]]. injection E as <- <-. reflexivity.
- unfold SurveysService.approveSurveyResult.
  rewrite (@survey_review_run specDeclarations _ 9
    {| survey_id := 9; survey_platformProductOrderId := 90; surveyType := Some 0 |}
    {| order_id := 90; order_status := 1%Q |}).
  + split; reflexivity.
  + split; reflexivity.
  + intros a [<-|[]].
    exists (Example.row 6 90 2 ToBeApproved), {| influencer_id := 2; influencer_userId := 12 |}.
    split; [now left|reflexivity].
  + intros r i [E|[]]. injection E as <- <-. reflexivity.
Qed.

(** The BadRequest of a review names the missing ids, but for the records
    with an invalid status it interpolates the record objects. *)
Example approveSubmission_messages :
  let D := specDeclarations in
  let db := Example.base
    [Example.row 1 70 1 Matching; Example.row 2 70 2 ToBeApproved] in
  snd (CampaignService.approveSubmission 7 [13; 14] (quiet db))
  = Throw (BadRequestApplicationException
             "Influencers 13, 14 are not in the campaign 7") /\
  snd (CampaignService.approveSubmission 7 [11] (quiet db))
  = Throw (BadRequestApplicationException
             "Influencer [object Object] doesn't have valid state to become approved - force him to submit the required data").
Proof. split; reflexivity. Qed.

(** ** Transactions *)







(** A rejected step of [finishCampaign] leaves nothing behind. *)
Example finishCampaign_rejected_step :
  let D := specDeclarations in
  let db := Example.base [Example.row 1 70 1 Approved; Example.row 2 70 2 ToBeSubmitted] in
  fst (CampaignService.finishCampaign 7 (scripted db [Some "P2034"])) = scripted db [] /\
  fst (CampaignService.finishCampaign 7 (scripted db [None; Some "P2034"])) = scripted db [].
Proof. split; reflexivity. Qed.

(** C4.  [finishCampaign] and [finishSurvey] when both writes are accepted
    and the store then rejects the commit of the transaction: the call fails,
    the bulk update of the participants is rolled back (the Approved
    participant is still Approved), but the order is Finished, because the
    order-level write went through the client outside the transaction.  So
    the two writes of finishOrder do not commit together or not at all. *)
Theorem C4_finishOrder_is_not_atomic :
  let D := specDeclarations in
  let db := Example.base
    [Example.row 1 70 1 Approved; Example.row 2 70 2 ToBeSubmitted;
     Example.row 3 90 1 Approved] in
  let script := [None; None; Some "P2028"] in
  (let (w, r) := CampaignService.finishCampaign 7 (scripted db script) in
   r = Throw (PrismaClientKnownRequestError "P2028") /\
   Example.orderStatuses w
   = [orderStatus Finished; orderStatus OnGoing; orderStatus OnGoing] /\
   Example.statuses w = Example.statuses (quiet db) /\
   ~ allOrNothing db w r (fun _ => True)) /\
  (let (w, r) := SurveysService.finishSurvey 9 (scripted db script) in
   r = Throw (PrismaClientKnownRequestError "P2028") /\
   Example.orderStatuses w
   = [orderStatus OnGoing; orderStatus OnGoing; orderStatus Finished] /\
   Example.statuses w = Example.statuses (quiet db) /\
   ~ allOrNothing db w r (fun _ => True)).
Proof.
cbv zeta. split.
- repeat split. intros [_ H]. cbn in H. discriminate H.
- repeat split. intros [_ H]. cbn in H. discriminate H.
Qed.

(** ** Operations called on a participant outside their source states *)

Lemma outside_includes `{D : Declarations} set v :
  outside set v -> includes (map influencerStatus set) v = false.
Proof.
intros H. apply includes_false. intros y Hy E.
apply in_map_iff in Hy. destruct Hy as [x [<- Hx]]. exact (H x Hx E).
Qed.

Lemma outside_one `{D : Declarations} x v :
  outside [x] v -> strictEq v (influencerStatus x) = false.
Proof. intros H. apply strictEq_false. apply H. now left. Qed.

Section Refusals.
Context `{D : Declarations}.
Variables (db : Db) (ids : list Z)
          (p : PlatformProductOrderInfluencer) (i : Influencer).

Lemma campaign_invite_refuses cid c o :
  campaignAt db cid c o ->
  In (p, i) (named db (order_id o) influencer_id ids) ->
  outside [Added; Invited] (status p) ->
  refuses (CampaignService.inviteInfluencers cid ids) db.
Proof.
intros Hc Hin Hout. unfold refuses, CampaignService.inviteInfluencers.
rewrite (campaign_prefix cid c o) by assumption.
rewrite bind_query. cbn [committed quiet].
apply validation_refuses. apply nonEmpty_filter_in with (x := (p, i)); [exact Hin|].
cbn [fst]. apply negb_true_iff. exact (outside_includes _ _ Hout).
Qed.

Lemma survey_invite_refuses sid s o :
  surveyAt db sid s o ->
  In (p, i) (named db (order_id o) influencer_id ids) ->
  outside [Added; Invited] (status p) ->
  refuses (SurveysService.inviteInfluencers sid ids) db.
Proof.
intros Hs Hin Hout. unfold refuses, SurveysService.inviteInfluencers.
rewrite (survey_prefix sid s o) by assumption.
rewrite bind_query. cbn [committed quiet].
apply validation_refuses. apply nonEmpty_filter_in with (x := (p, i)); [exact Hin|].
cbn [fst]. apply negb_true_iff. exact (outside_includes _ _ Hout).
Qed.

Lemma campaign_confirmMatch_refuses cid c o :
  campaignAt db cid c o ->
  In (p, i) (named db (order_id o) influencer_userId ids) ->
  outside [Matching] (status p) ->
  refuses (CampaignService.confirmMatch cid ids) db.
Proof.
intros Hc Hin Hout. unfold refuses, CampaignService.confirmMatch.
rewrite (campaign_prefix cid c o) by assumption.
rewrite bind_query. cbn [committed quiet].
apply validation_refuses. apply nonEmpty_filter_in with (x := (p, i)); [exact Hin|].
cbn [fst]. apply negb_true_iff. exact (outside_one _ _ Hout).
Qed.

Lemma campaign_review_refuses invalid verb next cid c o :
  campaignAt db cid c o ->
  In (p, i) (named db (order_id o) influencer_userId ids) ->
  invalid (status p) = true ->
  refuses (CampaignService.reviewSubmission invalid verb next cid ids) db.
Proof.
intros Hc Hin Hbad. unfold refuses, CampaignService.reviewSubmission.
rewrite (campaign_prefix cid c o) by assumption.
rewrite bind_query. cbn [committed quiet].
apply validation_refuses. apply nonEmpty_filter_in with (x := (p, i)); [exact Hin|].
exact Hbad.
Qed.

Lemma survey_review_refuses invalid next sid s o :
  surveyAt db sid s o ->
  In (p, i) (named db (order_id o) influencer_userId ids) ->
  invalid (status p) = true ->
  refuses (SurveysService.reviewSurveyResult invalid next sid ids) db.
Proof.
intros Hs Hin Hbad. unfold refuses, SurveysService.reviewSurveyResult.
rewrite (survey_prefix sid s o) by assumption.
rewrite bind_query. cbn [committed quiet].
apply validation_refuses. apply nonEmpty_filter_in with (x := (p, i)); [exact Hin|].
exact Hbad.
Qed.

Lemma campaign_disapprove_refuses cid c o :
  campaignAt db cid c o ->
  In (p, i) (named db (order_id o) influencer_userId ids) ->
  outside [ToBeApproved] (status p) ->
  refuses (CampaignService.disapproveSubmission cid ids) db.
Proof.
intros Hc Hin Hout.
destruct (campaign_review_refuses
            (fun s => negb (strictEq s (influencerStatus ToBeApproved)))
            "disapproved" (influencerStatus NotApproved) cid c o Hc Hin) as [m Hm].
- apply negb_true_iff. exact (outside_one _ _ Hout).
- exists m. unfold CampaignService.disapproveSubmission, bind. now rewrite Hm.
Qed.

Variables (user : UserWithInfluencer) (u : Z).
Hypothesis caller : caller_influencer user = Some u.

Lemma campaign_submit_forbids cid c o link :
  campaignAt db cid c o -> participant db (order_id o) u = Some p ->
  outside [ToBeSubmitted; NotApproved] (status p) ->
  forbids (CampaignService.submitInfluencerData cid user link) db.
Proof.
intros Hc Hp Hout. unfold forbids, CampaignService.submitInfluencerData. rewrite caller.
rewrite (campaign_prefix cid c o) by assumption.
rewrite bind_query, first_row_is_participant. cbn [committed quiet]. rewrite Hp.
change (bind (deref (Some p)) ?k (quiet db)) with (k p (quiet db)). cbv beta.
change [influencerStatus ToBeSubmitted; influencerStatus NotApproved]
  with (map influencerStatus [ToBeSubmitted; NotApproved]).
rewrite (outside_includes _ _ Hout). cbn [negb]. eexists. reflexivity.
Qed.

Lemma survey_submit_forbids sid s o data :
  surveyAt db sid s o -> participant db (order_id o) u = Some p ->
  outside [ToBeAnswered; NotApproved] (status p) ->
  forbids (SurveysService.submitSurveyResult sid user data) db.
Proof.
intros Hs Hp Hout. unfold forbids, SurveysService.submitSurveyResult. rewrite caller.
rewrite (survey_prefix sid s o) by assumption.
rewrite bind_query, first_row_is_participant. cbn [committed quiet]. rewrite Hp.
change (bind (deref (Some p)) ?k (quiet db)) with (k p (quiet db)). cbv beta.
change [influencerStatus ToBeAnswered; influencerStatus NotApproved]
  with (map influencerStatus [ToBeAnswered; NotApproved]).
rewrite (outside_includes _ _ Hout). cbn [negb]. eexists. reflexivity.
Qed.

End Refusals.

(** The bulk operations do not fail on a record outside their source
    states; they leave it as it is. *)
Lemma keeps_unchanged {A} (run : M A) db r x :
  run (quiet db) = (quiet db, x) -> keeps run db r.
Proof.
intros H. exists (fun y => y). rewrite H. cbn. now rewrite map_id.
Qed.

Lemma removal_outside `{D : Declarations} pre post orderId ids r :
  outside pre (status r) -> outside post (status r) ->
  removal pre post orderId ids r = r.
Proof.
intros H1 H2. unfold removal.
rewrite (outside_includes _ _ H1), (outside_includes _ _ H2).
now destruct (namedRow orderId ids r).
Qed.

Lemma campaign_removeInfluencers_keeps `{D : Declarations} db cid c o ids r :
  campaignAt db cid c o ->
  separated (NotSelected :: campaignPre) campaignPost ->
  outside campaignPre (status r) -> outside campaignPost (status r) ->
  keeps (CampaignService.removeInfluencers cid ids) db r.
Proof.
intros Hc Hsep H1 H2.
destruct (nonEmpty (filter (fun influencerId =>
            negb (existsb (fun ci : PlatformProductOrderInfluencer * Influencer =>
                             influencer_id (snd ci) =? influencerId)
                          (named db (order_id o) influencer_id ids))) ids)) eqn:E.
- eapply keeps_unchanged. unfold CampaignService.removeInfluencers.
  rewrite (campaign_prefix cid c o) by assumption.
  rewrite bind_query. cbn [committed quiet]. unfold named in E. rewrite E. reflexivity.
- exists (removal campaignPre campaignPost (order_id o) ids).
  split; [|now apply removal_outside].
  unfold CampaignService.removeInfluencers.
  rewrite (campaign_prefix cid c o) by assumption.
  rewrite bind_query. cbn [committed quiet]. unfold named in E. rewrite E.
  rewrite <- (campaignAt_order_id _ _ _ _ Hc).
  change [influencerStatus Added; influencerStatus Invited; influencerStatus Matching]
    with (map influencerStatus campaignPre).
  change [influencerStatus ToBeSubmitted; influencerStatus ToBeApproved;
          influencerStatus Approved; influencerStatus ToBePaid; influencerStatus Paid]
    with (map influencerStatus campaignPost).
  unfold bind at 1.
  rewrite (two_buckets_run campaignPre campaignPost (order_id o) ids Hsep db).
  reflexivity.
Qed.

Lemma survey_removeInfluencers_keeps `{D : Declarations} db sid s o ids r :
  surveyAt db sid s o ->
  separated (NotSelected :: surveyPre) surveyPost ->
  outside surveyPre (status r) -> outside surveyPost (status r) ->
  keeps (SurveysService.removeInfluencers sid ids) db r.
Proof.
intros Hs Hsep H1 H2.
destruct (nonEmpty (filter (fun influencerId =>
            negb (existsb (fun ci : PlatformProductOrderInfluencer * Influencer =>
                             influencer_id (snd ci) =? influencerId)
                          (named db (order_id o) influencer_id ids))) ids)) eqn:E.
- eapply keeps_unchanged. unfold SurveysService.removeInfluencers.
  rewrite (survey_prefix sid s o) by assumption.
  rewrite bind_query. cbn [committed quiet]. unfold named in E. rewrite E. reflexivity.
- exists (removal surveyPre surveyPost (order_id o) ids).
  split; [|now apply removal_outside].
  unfold SurveysService.removeInfluencers.
  rewrite (survey_prefix sid s o) by assumption.
  rewrite bind_query. cbn [committed quiet]. unfold named in E. rewrite E.
  rewrite <- (surveyAt_order_id _ _ _ _ Hs).
  change [influencerStatus Added; influencerStatus Invited]
    with (map influencerStatus surveyPre).
  change [influencerStatus ToBeAnswered; influencerStatus ToBeApproved;
          influencerStatus Approved; influencerStatus ToBePaid; influencerStatus Paid]
    with (map influencerStatus surveyPost).
  unfold bind at 1.
  rewrite (two_buckets_run surveyPre surveyPost (order_id o) ids Hsep db).
  reflexivity.
Qed.

Lemma campaign_finish_keeps `{D : Declarations} db cid c o r :
  campaignAt db cid c o ->
  outside [Approved] (status r) ->
  keeps (CampaignService.finishCampaign cid) db r.
Proof.
intros Hc Hout.
destruct (strictEq (order_status o) (orderStatus OnGoing)) eqn:E1.
- destruct (lessThan (orderStatus Finished) (order_status o)) eqn:E2.
  + eapply keeps_unchanged. unfold CampaignService.finishCampaign.
    rewrite (campaign_prefix cid c o) by assumption. rewrite E1, E2. reflexivity.
  + apply strictEq_true in E1. apply lessThan_false in E2.
    exists (fun x => if strictEq (status x) (influencerStatus Approved)
                     then withStatus x (influencerStatus ToBePaid) else x).
    rewrite (campaign_finish_run db cid c o Hc E1 E2). split; [reflexivity|].
    now rewrite (outside_one _ _ Hout).
- eapply keeps_unchanged. unfold CampaignService.finishCampaign.
  rewrite (campaign_prefix cid c o) by assumption. rewrite E1. reflexivity.
Qed.

Lemma survey_finish_keeps `{D : Declarations} db sid s o r :
  surveyAt db sid s o ->
  outside [Approved] (status r) ->
  keeps (SurveysService.finishSurvey sid) db r.
Proof.
intros Hs Hout.
destruct (strictEq (order_status o) (orderStatus OnGoing)) eqn:E1.
- destruct (lessThan (orderStatus Finished) (order_status o)) eqn:E2.
  + eapply keeps_unchanged. unfold SurveysService.finishSurvey.
    rewrite (survey_prefix sid s o) by assumption. rewrite E1, E2. reflexivity.
  + apply strictEq_true in E1. apply lessThan_false in E2.
    exists (fun x => if strictEq (status x) (influencerStatus Approved)
                     then withStatus x (influencerStatus ToBePaid) else x).
    rewrite (survey_finish_run db sid s o Hs E1 E2). split; [reflexivity|].
    now rewrite (outside_one _ _ Hout).
- eapply keeps_unchanged. unfold SurveysService.finishSurvey.
  rewrite (survey_prefix sid s o) by assumption. rewrite E1. reflexivity.
Qed.

(** C1 (amended).  A transition operation called on a named or calling
    participant whose status is outside the source states of the operation:
    [inviteInfluencers], [confirmMatch], [approveSubmission],
    [disapproveSubmission], [acceptInvitation] and [declineInvitation] fail
    with BadRequest; the submission fails with Forbidden;
    [removeInfluencerSelf] fails with the plain application exception below
    Invited and with Forbidden at Invited; all of these leave the database as
    it was.  [removeInfluencers] and the bulk step of [finishCampaign] /
    [finishSurvey] leave such a record as it is and do not fail on it:
    [removeInfluencers] succeeds when the ids named all take part in the
    order, the finish succeeds on an on-going order.  The campaign methods
    ask nothing of the surveys, and conversely. *)
Theorem C1_outside_the_source_states `{D : Declarations} (db : Db) (ids : list Z) :
  (forall (cid : Z) (c : Campaign) (co : PlatformProductOrder),
     campaignAt db cid c co ->
     (forall p i, In (p, i) (named db (order_id co) influencer_id ids) ->
        outside [Added; Invited] (status p) ->
        refuses (CampaignService.inviteInfluencers cid ids) db) /\
     (forall p i, In (p, i) (named db (order_id co) influencer_userId ids) ->
        (outside [Matching] (status p) ->
           refuses (CampaignService.confirmMatch cid ids) db) /\
        (outside [ToBeApproved; NotApproved] (status p) ->
           refuses (CampaignService.approveSubmission cid ids) db) /\
        (outside [ToBeApproved] (status p) ->
           refuses (CampaignService.disapproveSubmission cid ids) db)) /\
     (forall user u p,
        caller_influencer user = Some u ->
        participant db (order_id co) u = Some p ->
        (outside [Invited] (status p) ->
           refuses (CampaignService.acceptInvitation cid user) db /\
           refuses (CampaignService.declineInvitation cid user) db) /\
        (forall link, outside [ToBeSubmitted; NotApproved] (status p) ->
           forbids (CampaignService.submitInfluencerData cid user link) db) /\
        ((status p < influencerStatus Invited)%Q ->
           fails (CampaignService.removeInfluencerSelf cid user) db) /\
        ((status p == influencerStatus Invited)%Q ->
           forbids (CampaignService.removeInfluencerSelf cid user) db)) /\
     (forall r,
        separated (NotSelected :: campaignPre) campaignPost ->
        outside campaignPre (status r) -> outside campaignPost (status r) ->
        keeps (CampaignService.removeInfluencers cid ids) db r /\
        ((forall a, In a ids -> isParticipant db (order_id co) a) ->
           succeeds (CampaignService.removeInfluencers cid ids) db)) /\
     (forall r, outside [Approved] (status r) ->
        keeps (CampaignService.finishCampaign cid) db r /\
        ((order_status co == orderStatus OnGoing)%Q ->
         ~ (orderStatus Finished < order_status co)%Q ->
           succeeds (CampaignService.finishCampaign cid) db))) /\
  (forall (sid : Z) (s : Survey) (so : PlatformProductOrder),
     surveyAt db sid s so ->
     (forall p i, In (p, i) (named db (order_id so) influencer_id ids) ->
        outside [Added; Invited] (status p) ->
        refuses (SurveysService.inviteInfluencers sid ids) db) /\
     (forall p i, In (p, i) (named db (order_id so) influencer_userId ids) ->
        (outside [ToBeApproved; NotApproved] (status p) ->
           refuses (SurveysService.approveSurveyResult sid ids) db) /\
        (outside [ToBeApproved] (status p) ->
           refuses (SurveysService.disapproveSurveyResult sid ids) db)) /\
     (forall user u p,
        caller_influencer user = Some u ->
        participant db (order_id so) u = Some p ->
        (outside [Invited] (status p) ->
           refuses (SurveysService.acceptInvitation sid user) db /\
           refuses (SurveysService.declineInvitation sid user) db) /\
        (forall data, outside [ToBeAnswered; NotApproved] (status p) ->
           forbids (SurveysService.submitSurveyResult sid user data) db) /\
        ((status p < influencerStatus Invited)%Q ->
           fails (SurveysService.removeInfluencerSelf sid user) db) /\
        ((status p == influencerStatus Invited)%Q ->
           forbids (SurveysService.removeInfluencerSelf sid user) db)) /\
     (forall r,
        separated (NotSelected :: surveyPre) surveyPost ->
        outside surveyPre (status r) -> outside surveyPost (status r) ->
        keeps (SurveysService.removeInfluencers sid ids) db r /\
        ((forall a, In a ids -> isParticipant db (order_id so) a) ->
           succeeds (SurveysService.removeInfluencers sid ids) db)) /\
     (forall r, outside [Approved] (status r) ->
        keeps (SurveysService.finishSurvey sid) db r /\
        ((order_status so == orderStatus OnGoing)%Q ->
         ~ (orderStatus Finished < order_status so)%Q ->
           succeeds (SurveysService.finishSurvey sid) db))).
Proof.
split.
- intros cid c co Hc. split; [|split; [|split; [|split]]].
  + intros p i Hin Hout. eapply campaign_invite_refuses; eassumption.
  + intros p i Hin. split; [|split]; intros Hout.
    * eapply campaign_confirmMatch_refuses; eassumption.
    * eapply campaign_review_refuses; try eassumption.
      apply negb_true_iff. exact (outside_includes _ _ Hout).
    * eapply campaign_disapprove_refuses; eassumption.
  + intros user u p Hu Hp.
    destruct (campaign_removeInfluencerSelf_cases db user u (order_id co) p Hu Hp
                cid c co Hc eq_refl) as (H1 & H2 & _).
    split; [|split; [|split]].
    * intros Hout.
      assert (Hne : ~ (status p == influencerStatus Invited)%Q) by (apply Hout; now left).
      split; eapply campaign_answerInvitation_not_invited; eassumption.
    * intros link Hout. eapply campaign_submit_forbids; eassumption.
    * exact H1.
    * exact H2.
  + intros r Hsep H1 H2. split.
    * eapply campaign_removeInfluencers_keeps; eassumption.
    * intros Hall. eexists. eexists.
      apply (campaign_removeInfluencers_run db cid c co ids Hc Hall Hsep).
  + intros r Hout. split.
    * eapply campaign_finish_keeps; eassumption.
    * intros Hon Hfin. eexists. eexists.
      apply (campaign_finish_run db cid c co Hc Hon Hfin).
- intros sid s so Hs. split; [|split; [|split; [|split]]].
  + intros p i Hin Hout. eapply survey_invite_refuses; eassumption.
  + intros p i Hin. split; intros Hout.
    * eapply survey_review_refuses; try eassumption.
      apply negb_true_iff. exact (outside_includes _ _ Hout).
    * eapply survey_review_refuses; try eassumption.
      apply negb_true_iff. exact (outside_one _ _ Hout).
  + intros user u p Hu Hp.
    destruct (survey_removeInfluencerSelf_cases db user u (order_id so) p Hu Hp
                sid s so Hs eq_refl) as (H1 & H2 & _).
    split; [|split; [|split]].
    * intros Hout.
      assert (Hne : ~ (status p == influencerStatus Invited)%Q) by (apply Hout; now left).
      split; eapply survey_answerInvitation_not_invited; eassumption.
    * intros data Hout. eapply survey_submit_forbids; eassumption.
    * exact H1.
    * exact H2.
  + intros r Hsep H1 H2. split.
    * eapply survey_removeInfluencers_keeps; eassumption.
    * intros Hall. eexists. eexists.
      apply (survey_removeInfluencers_run db sid s so ids Hs Hall Hsep).
  + intros r Hout. split.
    * eapply survey_finish_keeps; eassumption.
    * intros Hon Hfin. eexists. eexists.
      apply (survey_finish_run db sid s so Hs Hon Hfin).
Qed.

Lemma specDeclarations_outside set v :
  forallb (fun x => negb (strictEq v (@influencerStatus specDeclarations x))) set = true ->
  @outside specDeclarations set v.
Proof.
intros H x Hx E. rewrite forallb_forall in H. specialize (H x Hx).
apply negb_true_iff, strictEq_false in H. contradiction.
Qed.

(** C1 as stated fails: [submitInfluencerData] called by a participant at
    Added, a status outside {ToBeSubmitted, NotApproved}, does not fail with
    BadRequest (it fails with Forbidden). *)
Lemma C1_counterexample :
  let D := specDeclarations in
  let db := Example.base [Example.row 1 70 1 Added] in
  participant db 70 1 = Some (Example.row 1 70 1 Added) /\
  outside [ToBeSubmitted; NotApproved] (status (Example.row 1 70 1 Added)) /\
  ~ refuses (CampaignService.submitInfluencerData 7 (Example.caller 11 1) "link") db.
Proof.
cbv zeta. split; [reflexivity|]. split.
- apply specDeclarations_outside. reflexivity.
- intros [m H]. vm_compute in H. discriminate H.
Qed.

(** C1 (amended), at influencer 1 (user 11) at Added in campaign 7, the one
    record of the database: the submission is forbidden, and [finishCampaign]
    succeeds and keeps the record.  At the same influencer at Declined in
    survey 9, the one record of the database: the acceptance is refused, and
    [removeInfluencers] succeeds and keeps the record. *)
Lemma C1_witness :
  let D := specDeclarations in
  (forbids (CampaignService.submitInfluencerData 7 (Example.caller 11 1) "link")
     (Example.base [Example.row 1 70 1 Added]) /\
   keeps (CampaignService.finishCampaign 7)
     (Example.base [Example.row 1 70 1 Added]) (Example.row 1 70 1 Added) /\
   succeeds (CampaignService.finishCampaign 7) (Example.base [Example.row 1 70 1 Added])) /\
  (refuses (SurveysService.acceptInvitation 9 (Example.caller 11 1))
     (Example.base [Example.row 2 90 1 Declined]) /\
   keeps (SurveysService.removeInfluencers 9 [1])
     (Example.base [Example.row 2 90 1 Declined]) (Example.row 2 90 1 Declined) /\
   succeeds (SurveysService.removeInfluencers 9 [1])
     (Example.base [Example.row 2 90 1 Declined])).
Proof.
cbv zeta. split.
- destruct (proj1 (@C1_outside_the_source_states specDeclarations
              (Example.base [Example.row 1 70 1 Added]) [1])
            7 {| campaign_id := 7; campaign_platformProductOrderId := 70; postType := Some 0 |}
            {| order_id := 70; order_status := 1%Q |})
    as (_ & _ & Hcaller & _ & Hfinish).
  + split; reflexivity.
  + destruct (Hcaller (Example.caller 11 1) 1 (Example.row 1 70 1 Added) eq_refl eq_refl)
      as (_ & Hsubmit & _).
    destruct (Hfinish (Example.row 1 70 1 Added)) as [Hkeep Hrun].
    { apply specDeclarations_outside. reflexivity. }
    split; [|split].
    * apply Hsubmit. apply specDeclarations_outside. reflexivity.
    * exact Hkeep.
    * apply Hrun; [reflexivity|]. vm_compute. discriminate.
- destruct (proj2 (@C1_outside_the_source_states specDeclarations
              (Example.base [Example.row 2 90 1 Declined]) [1])
            9 {| survey_id := 9; survey_platformProductOrderId := 90; surveyType := Some 0 |}
            {| order_id := 90; order_status := 1%Q |})
    as (_ & _ & Hcaller & Hremove & _).
  + split; reflexivity.
  + destruct (Hcaller (Example.caller 11 1) 1 (Example.row 2 90 1 Declined) eq_refl eq_refl)
      as (Hanswer & _).
    destruct (Hremove (Example.row 2 90 1 Declined)) as [Hkeep Hrun].
    { apply specDeclarations_separated. reflexivity. }
    { apply specDeclarations_outside. reflexivity. }
    { apply specDeclarations_outside. reflexivity. }
    split; [|split].
    * apply Hanswer. apply specDeclarations_outside. reflexivity.
    * exact Hkeep.
    * apply Hrun. intros a [<-|[]].
      exists (Example.row 2 90 1 Declined), {| influencer_id := 1; influencer_userId := 11 |}.
      cbn. tauto.
Defined.

(** ** addInfluencers: the table after a sequence of upserts *)

Section Upserts.
Variables (orderId : Z) (createStatus : number).

Local Abbreviation key := (Prisma.identifier orderId).
Local Abbreviation step := (upsertRow orderId createStatus).

Lemma key_true i x : key i x = true <-> productOrderId x = orderId /\ influencerId x = i.
Proof.
unfold Prisma.identifier. rewrite andb_true_iff, !Z.eqb_eq. tauto.
Qed.

Lemma key_withAmount i x a c : key i (Prisma.withAmount x a c) = key i x.
Proof. reflexivity. Qed.

Lemma find_exists {A} (f : A -> bool) (l : list A) :
  (exists x, In x l /\ f x = true) -> exists y, find f l = Some y.
Proof.
intros [x [Hin Hf]]. destruct (find f l) eqn:E; [eauto|].
apply (find_none _ _ E) in Hin. congruence.
Qed.

Lemma length_filter_map {A} (f : A -> bool) (g : A -> A) (l : list A) :
  (forall x, f (g x) = f x) ->
  List.length (filter f (map g l)) = List.length (filter f l).
Proof.
intros H. induction l as [|x l IH]; [reflexivity|].
cbn. rewrite H. destruct (f x); cbn; now rewrite IH.
Qed.

Lemma find_none_count i rows :
  find (key i) rows = None -> recordCount orderId i rows = 0%nat.
Proof.
intros H. unfold recordCount.
rewrite (nonEmpty_filter_nil (key i) rows); [reflexivity|].
intros x Hx. exact (find_none _ _ H x Hx).
Qed.

Lemma find_some_count i rows r :
  find (key i) rows = Some r -> (1 <= recordCount orderId i rows)%nat.
Proof.
intros H. apply find_some in H. destruct H as [Hin Hk].
unfold recordCount.
assert (Hf : In r (filter (key i) rows)) by (apply filter_In; auto).
destruct (filter (key i) rows); [contradiction|cbn; lia].
Qed.

(** The count of a pair after one upsert. *)
Lemma recordCount_step j rows i a c :
  recordCount orderId j (step rows (i, a, c))
  = (recordCount orderId j rows
     + if (i =? j)%Z && (recordCount orderId i rows =? 0)%nat then 1 else 0)%nat.
Proof.
unfold upsertRow.
destruct (find (key i) rows) as [r|] eqn:E.
- pose proof (find_some_count _ _ _ E) as Hpos.
  unfold recordCount at 1. rewrite length_filter_map.
  + fold (recordCount orderId j rows).
    destruct (recordCount orderId i rows =? 0)%nat eqn:E0.
    * apply Nat.eqb_eq in E0. lia.
    * rewrite andb_false_r. lia.
  + intros x. destruct (key i x); reflexivity.
- rewrite (find_none_count _ _ E). cbn [Nat.eqb]. rewrite andb_true_r.
  unfold recordCount. rewrite filter_app, length_app. cbn [filter].
  unfold Prisma.identifier at 2. cbn [productOrderId influencerId].
  rewrite Z.eqb_refl. cbn [andb].
  destruct (i =? j); reflexivity.
Qed.

Lemma recordCount_all_le args : forall rows j,
  (recordCount orderId j rows <= 1)%nat ->
  (recordCount orderId j (upsertAll orderId createStatus args rows) <= 1)%nat.
Proof.
induction args as [|[[i a] c] args IH]; intros rows j H; [exact H|].
cbn [upsertAll fold_left]. apply IH. rewrite recordCount_step.
destruct (i =? j) eqn:E; cbn [andb]; [|lia].
apply Z.eqb_eq in E. subst j.
destruct (recordCount orderId i rows =? 0)%nat eqn:E0; [|lia].
apply Nat.eqb_eq in E0. lia.
Qed.

Lemma recordCount_all_ge args : forall rows j,
  (1 <= recordCount orderId j rows)%nat ->
  (1 <= recordCount orderId j (upsertAll orderId createStatus args rows))%nat.
Proof.
induction args as [|[[i a] c] args IH]; intros rows j H; [exact H|].
cbn [upsertAll fold_left]. apply IH. rewrite recordCount_step. lia.
Qed.

Lemma recordCount_all_present args : forall rows i a c,
  In (i, a, c) args ->
  (1 <= recordCount orderId i (upsertAll orderId createStatus args rows))%nat.
Proof.
induction args as [|[[i' a'] c'] args IH]; intros rows i a c Hin; [contradiction|].
cbn [upsertAll fold_left]. destruct Hin as [E|Hin].
- injection E as -> -> ->. apply recordCount_all_ge. rewrite recordCount_step.
  rewrite Z.eqb_refl. cbn [andb].
  destruct (recordCount orderId i rows =? 0)%nat eqn:E0; [lia|].
  apply Nat.eqb_neq in E0. lia.
- eapply IH. exact Hin.
Qed.

(** Exactly one record per named pair, under the unique key. *)
Lemma recordCount_all_one args rows i a c :
  In (i, a, c) args ->
  (recordCount orderId i rows <= 1)%nat ->
  recordCount orderId i (upsertAll orderId createStatus args rows) = 1%nat.
Proof.
intros Hin Hle.
pose proof (recordCount_all_present args rows i a c Hin).
pose proof (recordCount_all_le args rows i Hle). lia.
Qed.

Lemma count_pos_exists i rows :
  (1 <= recordCount orderId i rows)%nat -> exists x, In x rows /\ key i x = true.
Proof.
unfold recordCount. intros H.
destruct (filter (key i) rows) as [|x l] eqn:E; [cbn in H; lia|].
exists x. apply filter_In. rewrite E. now left.
Qed.

(** When every named pair has a record already, the upserts create
    nothing: they rewrite the amount and the currency in place. *)
Lemma upsertAll_in_place args : forall rows,
  (forall i a c, In (i, a, c) args -> (1 <= recordCount orderId i rows)%nat) ->
  exists g, upsertAll orderId createStatus args rows = map g rows /\ amountOnly g.
Proof.
induction args as [|[[i a] c] args IH]; intros rows Hall.
- exists (fun x => x). split; [now rewrite map_id|]. intros x. auto.
- cbn [upsertAll fold_left].
  destruct (find_exists (key i) rows) as [r Hr].
  { apply count_pos_exists. apply (Hall i a c). now left. }
  assert (Hstep : step rows (i, a, c)
                  = map (fun x => if key i x then Prisma.withAmount x a c else x) rows).
  { unfold upsertRow. now rewrite Hr. }
  rewrite Hstep.
  destruct (IH (map (fun x => if key i x then Prisma.withAmount x a c else x) rows))
    as [g [Hg Hpres]].
  { intros j b d Hj. unfold recordCount. rewrite length_filter_map.
    - apply (Hall j b d). now right.
    - intros x. destruct (key i x); reflexivity. }
  exists (fun x => g (if key i x then Prisma.withAmount x a c else x)). split.
  + fold (upsertAll orderId createStatus args
            (map (fun x => if key i x then Prisma.withAmount x a c else x) rows)).
    rewrite Hg, map_map. reflexivity.
  + intros x. destruct (Hpres (if key i x then Prisma.withAmount x a c else x))
      as (H1 & H2 & H3 & H4).
    rewrite H1, H2, H3, H4. destruct (key i x); auto.
Qed.

(** The amounts after the upserts come from the arguments. *)
Lemma covered_step seen rows i a c :
  covered orderId seen rows ->
  covered orderId (seen ++ [(i, a, c)]) (step rows (i, a, c)).
Proof.
intros Hcov x Hx Ho Harg.
assert (Hold : forall y, In y rows -> productOrderId y = orderId -> influencerId y <> i ->
                 (exists a0 c0, In (influencerId y, a0, c0) (seen ++ [(i, a, c)])) ->
                 In (influencerId y, agreedAmount y, currency y) (seen ++ [(i, a, c)])).
{ intros y Hy Hoy Hne [a0 [c0 Hin]]. apply in_or_app. left.
  apply Hcov; try assumption.
  apply in_app_or in Hin. destruct Hin as [Hin|[E|[]]]; [eauto|].
  injection E as E _ _. now elim Hne. }
assert (Hnew : In (i, a, c) (seen ++ [(i, a, c)])) by (apply in_or_app; right; now left).
unfold upsertRow in Hx. destruct (find (key i) rows) as [r|] eqn:E.
- apply in_map_iff in Hx. destruct Hx as [y [Hy Hin]].
  destruct (key i y) eqn:Ek.
  + apply key_true in Ek. destruct Ek as [_ Ei]. subst x. cbn. now rewrite Ei.
  + subst x. apply Hold; try assumption.
    intros Ei. assert (key i y = true) by (apply key_true; auto). congruence.
- apply in_app_or in Hx. destruct Hx as [Hx|[Hx|[]]].
  + apply Hold; try assumption.
    intros Ei. pose proof (find_none _ _ E x Hx) as Hk.
    assert (key i x = true) by (apply key_true; auto). congruence.
  + subst x. exact Hnew.
Qed.

Lemma covered_all args : forall seen rows,
  covered orderId seen rows ->
  covered orderId (seen ++ args) (upsertAll orderId createStatus args rows).
Proof.
induction args as [|[[i a] c] args IH]; intros seen rows Hcov.
- now rewrite app_nil_r.
- cbn [upsertAll fold_left].
  change (seen ++ (i, a, c) :: args)%list with (seen ++ [(i, a, c)] ++ args)%list.
  rewrite app_assoc. apply IH. now apply covered_step.
Qed.

Lemma covered_upsertAll args rows :
  covered orderId args (upsertAll orderId createStatus args rows).
Proof.
apply (covered_all args [] rows). intros x _ _ [a [c []]].
Qed.

(** A record the upserts create carries [createStatus]; the records that
    were there keep their key, their primary key and their status. *)
Lemma upsertAll_status args : forall rows x,
  In x (upsertAll orderId createStatus args rows) ->
  status x = createStatus \/
  exists y, In y rows /\ status y = status x /\ poi_id y = poi_id x /\
            productOrderId y = productOrderId x /\ influencerId y = influencerId x.
Proof.
induction args as [|[[i a] c] args IH]; intros rows x Hx.
- right. exists x. auto.
- cbn [upsertAll fold_left] in Hx. apply IH in Hx.
  destruct Hx as [Hx|[y (Hy & Hs & Hid & Ho & Hi)]]; [now left|].
  unfold upsertRow in Hy. destruct (find (key i) rows).
  + apply in_map_iff in Hy. destruct Hy as [z [Hz Hin]].
    right. exists z. split; [exact Hin|].
    rewrite <- Hs, <- Hid, <- Ho, <- Hi, <- Hz. destruct (key i z); auto.
  + apply in_app_or in Hy. destruct Hy as [Hy|[Hy|[]]].
    * right. exists y. auto.
    * left. rewrite <- Hs, <- Hy. reflexivity.
Qed.

End Upserts.

(** ** addInfluencers: running the method *)

Lemma withParticipants_same db : withParticipants db (platformProductOrderInfluencers db) = db.
Proof. now destruct db. Qed.

Lemma traverse_plan (sel : list UserInfluencer) : forall args w,
  map plan sel = map Some args ->
  traverse upsertArguments sel w = (w, Ok args).
Proof.
induction sel as [|u sel IH]; intros [|arg args] w H; try discriminate; [reflexivity|].
cbn [map] in H. injection H as Hu Hrest.
cbn [traverse]. unfold bind at 1.
assert (Hone : upsertArguments u w = (w, Ok arg)).
{ unfold plan in Hu. unfold upsertArguments.
  destruct (ui_influencer u) as [[i [|a l]]|]; try discriminate.
  injection Hu as <-. reflexivity. }
rewrite Hone. unfold bind at 1. rewrite (IH args w Hrest). reflexivity.
Qed.

Lemma upsert_quiet orderId i a c st db :
  Prisma.references db orderId i = true ->
  exists r,
    Prisma.platformProductOrderInfluencer_upsert Prisma.prismaService orderId i a c st (quiet db)
    = (quiet (withParticipants db
                (upsertRow orderId st (platformProductOrderInfluencers db) (i, a, c))),
       Ok r).
Proof.
intros Href.
unfold Prisma.platformProductOrderInfluencer_upsert. rewrite write_quiet.
unfold Prisma.upsertParticipant, upsertRow. cbv zeta.
destruct (find (Prisma.identifier orderId i) (platformProductOrderInfluencers db));
  [|rewrite Href]; eexists; reflexivity.
Qed.

Lemma promiseAll_upserts orderId st args : forall db,
  (forall i a c, In (i, a, c) args -> Prisma.references db orderId i = true) ->
  exists rs,
    promiseAll
      (map (fun '(inflId, amount, cur) =>
              Prisma.platformProductOrderInfluencer_upsert Prisma.prismaService
                orderId inflId amount cur st) args) (quiet db)
    = (quiet (withParticipants db
                (upsertAll orderId st args (platformProductOrderInfluencers db))),
       Ok rs).
Proof.
induction args as [|[[i a] c] args IH]; intros db Href.
- exists []. cbn. now rewrite withParticipants_same.
- cbn [map promiseAll].
  destruct (upsert_quiet orderId i a c st db (Href i a c (or_introl eq_refl))) as [r Hr].
  rewrite Hr.
  destruct (IH (withParticipants db
                  (upsertRow orderId st (platformProductOrderInfluencers db) (i, a, c))))
    as [rs Hrs].
  { intros i' a' c' Hin. exact (Href i' a' c' (or_intror Hin)). }
  rewrite Hrs. exists (r :: rs). reflexivity.
Qed.

(** The arguments the directory yields name influencers that exist. *)
Lemma plan_references amounts type ids db args orderId :
  existsb (fun o => order_id o =? orderId) (platformProductOrders db) = true ->
  map plan (selectUserInfluencers amounts type ids db) = map Some args ->
  forall i a c, In (i, a, c) args -> Prisma.references db orderId i = true.
Proof.
intros Ho Hplan i a c Hin. unfold Prisma.references. rewrite Ho. cbn [andb].
assert (Hsome : In (Some (i, a, c)) (map plan (selectUserInfluencers amounts type ids db))).
{ rewrite Hplan. now apply in_map. }
apply in_map_iff in Hsome. destruct Hsome as (u & Hu & Hsel).
unfold selectUserInfluencers in Hsel. apply in_map_iff in Hsel.
destruct Hsel as (x & <- & _). unfold plan in Hu. cbn [ui_influencer ui_currency] in Hu.
destruct (find (fun i0 => influencer_userId i0 =? user_id x) (influencers db))
  as [inf|] eqn:E; [|discriminate].
destruct (filter _ (amounts db)) as [|am l]; [discriminate|].
injection Hu as <- _ _.
apply find_some in E. destruct E as [Hinf _].
apply existsb_exists. exists inf. split; [exact Hinf|apply Z.eqb_refl].
Qed.

Lemma order_exists db orderId o :
  find (fun x => order_id x =? orderId) (platformProductOrders db) = Some o ->
  existsb (fun x => order_id x =? order_id o) (platformProductOrders db) = true.
Proof.
intros H. apply find_some in H. destruct H as [Hin H].
apply existsb_exists. exists o. split; [exact Hin|apply Z.eqb_refl].
Qed.

(** The ids the method reports as missing are the unknown users. *)
Lemma reported_missing amounts type ids db :
  filter (fun influencerId =>
            negb (existsb (fun userInfluencer => ui_id userInfluencer =? influencerId)
                          (selectUserInfluencers amounts type ids db)))
         ids
  = unknownUsers db ids.
Proof.
unfold unknownUsers. apply filter_ext_in. intros id Hid. f_equal.
unfold selectUserInfluencers.
induction (users db) as [|u us IH]; [reflexivity|].
cbn [filter]. destruct (inIds (user_id u) ids) eqn:E.
- cbn [map existsb ui_id]. now rewrite IH.
- cbn [existsb]. rewrite IH.
  destruct (user_id u =? id) eqn:Eu; [|reflexivity].
  apply Z.eqb_eq in Eu. rewrite Eu, (inIds_true id ids Hid) in E. discriminate.
Qed.

Lemma not_atLeast (a b : number) : (a < b)%Q -> atLeast a b = false.
Proof.
intros H. destruct (atLeast a b) eqn:E; [|reflexivity].
apply atLeast_true in E. exfalso. exact (Qlt_not_le _ _ H E).
Qed.

(** Closure of [neverConflict] under the combinators. *)
Lemma nc_bind {A B} (m : M A) (k : A -> M B) :
  neverConflict m -> (forall a, neverConflict (k a)) -> neverConflict (bind m k).
Proof.
intros Hm Hk w msg. unfold bind.
destruct (m w) as [w' [a|e]] eqn:E; [apply Hk|].
intros H. apply (Hm w msg). rewrite E. cbn in H |- *. now injection H as ->.
Qed.

Lemma nc_ret {A} (a : A) : neverConflict (ret a).
Proof. intros w msg. discriminate. Qed.

Lemma nc_query {A} c (q : Db -> A) : neverConflict (Prisma.query c q).
Proof. intros w msg. destruct c; discriminate. Qed.

Lemma nc_deref {A} (o : option A) : neverConflict (deref o).
Proof. intros w msg. destruct o; discriminate. Qed.

Lemma nc_orThrow {A} (o : option A) : neverConflict (Prisma.orThrow o).
Proof. intros w msg. destruct o; discriminate. Qed.

Lemma nc_orderOf orderId : neverConflict (orderOf orderId).
Proof. apply nc_bind; [apply nc_query|intros; apply nc_deref]. Qed.

Lemma nc_traverse {A B} (f : A -> M B) (l : list A) :
  (forall x, neverConflict (f x)) -> neverConflict (traverse f l).
Proof.
intros Hf. induction l as [|x l IH]; [apply nc_ret|].
cbn [traverse]. apply nc_bind; [apply Hf|]. intros y.
apply nc_bind; [exact IH|]. intros ys. apply nc_ret.
Qed.

Lemma nc_upsertArguments u : neverConflict (upsertArguments u).
Proof.
unfold upsertArguments. apply nc_bind; [apply nc_deref|]. intros i.
apply nc_bind; [apply nc_deref|]. intros a. apply nc_ret.
Qed.

Lemma nc_upsert c orderId i a cur st :
  neverConflict (Prisma.platformProductOrderInfluencer_upsert c orderId i a cur st).
Proof.
intros w msg. unfold Prisma.platformProductOrderInfluencer_upsert, Prisma.write, bind,
  Prisma.answer, Prisma.upsertParticipant, throw.
destruct (rejections w) as [|[code|] rest]; cbn [fst snd]; try discriminate;
  destruct c; cbv zeta; destruct (find _ _); try discriminate;
  destruct (Prisma.references _ _ _); discriminate.
Qed.

Lemma nc_promiseAll {A} (ps : list (M A)) :
  (forall p, In p ps -> neverConflict p) -> neverConflict (promiseAll ps).
Proof.
induction ps as [|p ps IH]; intros H w msg; [discriminate|].
cbn [promiseAll].
destruct (p w) as [w1 r1] eqn:E1.
destruct (promiseAll ps w1) as [w2 r2] eqn:E2. cbn [snd].
assert (H1 : r1 <> Throw (ConflictException msg)).
{ intros Hr. apply (H p (or_introl eq_refl) w msg). now rewrite E1. }
assert (H2 : r2 <> Throw (ConflictException msg)).
{ intros Hr. apply (IH (fun q Hq => H q (or_intror Hq)) w1 msg). now rewrite E2. }
destruct r1 as [a|e1].
- destruct r2 as [l|e2]; [discriminate|exact H2].
- intros Hr. apply H1. now injection Hr as ->.
Qed.

Lemma upsertAll_named orderId st args rows i a c :
  In (i, a, c) args ->
  exists x, In x (upsertAll orderId st args rows) /\
            productOrderId x = orderId /\ influencerId x = i /\
            In (i, agreedAmount x, currency x) args /\
            (recordCount orderId i rows = 0%nat -> status x = st).
Proof.
intros Hin.
destruct (count_pos_exists orderId i _ (recordCount_all_present orderId st args rows i a c Hin))
  as [x [Hx Hk]].
apply key_true in Hk. destruct Hk as [Ho Hi].
exists x. repeat split; try assumption.
- rewrite <- Hi. apply (covered_upsertAll orderId st args rows x Hx Ho).
  rewrite Hi. eauto.
- intros Hzero. destruct (upsertAll_status orderId st args rows x Hx)
    as [Hs|[y (Hy & _ & _ & Hoy & Hiy)]]; [exact Hs|].
  exfalso.
  assert (Hf : In y (filter (Prisma.identifier orderId i) rows)).
  { apply filter_In. split; [exact Hy|]. apply key_true. split; congruence. }
  unfold recordCount in Hzero. destruct (filter _ rows); [contradiction|discriminate].
Qed.

(** A call of [addInfluencers] that passes every check performs the upserts
    of the arguments the directory yields. *)
Lemma campaign_add_run `{D : Declarations} db cid c o ids args :
  campaignAt db cid c o ->
  (order_status o < orderStatus Finished)%Q ->
  postType c <> None ->
  unknownUsers db ids = [] ->
  map plan (selectUserInfluencers influencerCampaignAmounts (postType c) ids db) = map Some args ->
  exists rs,
    CampaignService.addInfluencers cid ids (quiet db)
    = (quiet (withParticipants db
                (upsertAll (order_id o) (influencerStatus Added) args
                   (platformProductOrderInfluencers db))),
       Ok rs).
Proof.
intros Hc Hlt Hsome Hknown Hplan. unfold CampaignService.addInfluencers.
rewrite (campaign_prefix cid c o) by assumption.
rewrite (not_atLeast _ _ Hlt).
destruct (postType c) as [t|] eqn:Et; [|congruence].
rewrite bind_query. cbn [committed quiet]. rewrite reported_missing, Hknown.
cbn [nonEmpty]. unfold bind at 1. rewrite (traverse_plan _ args (quiet db) Hplan).
rewrite <- (campaignAt_order_id _ _ _ _ Hc).
apply promiseAll_upserts.
apply (plan_references influencerCampaignAmounts (Some t) ids db args); [|exact Hplan].
exact (order_exists _ _ _ (proj2 Hc)).
Qed.

Lemma campaign_add_contract `{D : Declarations} db cid c o ids :
  campaignAt db cid c o ->
  addContract (CampaignService.addInfluencers cid ids) db ids o (postType c)
    (selectUserInfluencers influencerCampaignAmounts (postType c) ids db).
Proof.
intros Hc. unfold addContract. split; [|split; [|split; [|split]]].
- intros Hfin. unfold forbids, CampaignService.addInfluencers.
  rewrite (campaign_prefix cid c o) by assumption.
  apply atLeast_true in Hfin. rewrite Hfin. eexists. reflexivity.
- intros Hlt Hnone. unfold refuses, CampaignService.addInfluencers.
  rewrite (campaign_prefix cid c o) by assumption.
  rewrite (not_atLeast _ _ Hlt), Hnone. eexists. reflexivity.
- intros Hlt Hsome Hunknown Hsafe. unfold CampaignService.addInfluencers.
  rewrite (campaign_prefix cid c o) by assumption.
  rewrite (not_atLeast _ _ Hlt).
  destruct (postType c) as [t|] eqn:Et; [|congruence].
  rewrite bind_query. cbn [committed quiet]. rewrite reported_missing.
  unfold doNotExist. rewrite <- (oneOrMany_safe _ _ _ Hsafe).
  destruct (unknownUsers db ids) as [|x l] eqn:Eu; [congruence|]. reflexivity.
- intros args Hlt Hsome Hknown Hplan.
  destruct (campaign_add_run db cid c o ids args Hc Hlt Hsome Hknown Hplan) as [rs Hrs].
  rewrite Hrs. eexists. eexists. split; [reflexivity|]. split; [reflexivity|].
  intros i a cur Hin. cbn [platformProductOrderInfluencers withParticipants].
  now apply upsertAll_named with (a := a) (c := cur).
- unfold CampaignService.addInfluencers.
  apply nc_bind.
  { unfold Prisma.campaign_findUniqueOrThrow.
    apply nc_bind; [apply nc_query|intros; apply nc_orThrow]. }
  intros campaign. apply nc_bind; [apply nc_orderOf|]. intros order.
  destruct (atLeast _ _); [intros w msg; discriminate|].
  destruct (postType campaign); [|intros w msg; discriminate].
  apply nc_bind; [apply nc_query|]. intros sel.
  destruct (nonEmpty _); [intros w msg; discriminate|].
  apply nc_bind; [apply nc_traverse, nc_upsertArguments|]. intros args.
  apply nc_promiseAll. intros p Hp. apply in_map_iff in Hp.
  destruct Hp as [[[i a] cur] [<- _]]. apply nc_upsert.
Qed.

(** A call of [addInfluencers] that passes every check performs the upserts
    of the arguments the directory yields. *)
Lemma survey_add_run `{D : Declarations} db cid c o ids args :
  surveyAt db cid c o ->
  (order_status o < orderStatus Finished)%Q ->
  surveyType c <> None ->
  unknownUsers db ids = [] ->
  map plan (selectUserInfluencers influencerSurveyAmounts (surveyType c) ids db) = map Some args ->
  exists rs,
    SurveysService.addInfluencers cid ids (quiet db)
    = (quiet (withParticipants db
                (upsertAll (order_id o) (influencerStatus Added) args
                   (platformProductOrderInfluencers db))),
       Ok rs).
Proof.
intros Hc Hlt Hsome Hknown Hplan. unfold SurveysService.addInfluencers.
rewrite (survey_prefix cid c o) by assumption.
rewrite (not_atLeast _ _ Hlt).
destruct (surveyType c) as [t|] eqn:Et; [|congruence].
rewrite bind_query. cbn [committed quiet]. rewrite reported_missing, Hknown.
cbn [nonEmpty]. unfold bind at 1. rewrite (traverse_plan _ args (quiet db) Hplan).
rewrite <- (surveyAt_order_id _ _ _ _ Hc).
apply promiseAll_upserts.
apply (plan_references influencerSurveyAmounts (Some t) ids db args); [|exact Hplan].
exact (order_exists _ _ _ (proj2 Hc)).
Qed.

Lemma survey_add_contract `{D : Declarations} db cid c o ids :
  surveyAt db cid c o ->
  addContract (SurveysService.addInfluencers cid ids) db ids o (surveyType c)
    (selectUserInfluencers influencerSurveyAmounts (surveyType c) ids db).
Proof.
intros Hc. unfold addContract. split; [|split; [|split; [|split]]].
- intros Hfin. unfold forbids, SurveysService.addInfluencers.
  rewrite (survey_prefix cid c o) by assumption.
  apply atLeast_true in Hfin. rewrite Hfin. eexists. reflexivity.
- intros Hlt Hnone. unfold refuses, SurveysService.addInfluencers.
  rewrite (survey_prefix cid c o) by assumption.
  rewrite (not_atLeast _ _ Hlt), Hnone. eexists. reflexivity.
- intros Hlt Hsome Hunknown Hsafe. unfold SurveysService.addInfluencers.
  rewrite (survey_prefix cid c o) by assumption.
  rewrite (not_atLeast _ _ Hlt).
  destruct (surveyType c) as [t|] eqn:Et; [|congruence].
  rewrite bind_query. cbn [committed quiet]. rewrite reported_missing.
  unfold doNotExist. rewrite <- (oneOrMany_safe _ _ _ Hsafe).
  destruct (unknownUsers db ids) as [|x l] eqn:Eu; [congruence|]. reflexivity.
- intros args Hlt Hsome Hknown Hplan.
  destruct (survey_add_run db cid c o ids args Hc Hlt Hsome Hknown Hplan) as [rs Hrs].
  rewrite Hrs. eexists. eexists. split; [reflexivity|]. split; [reflexivity|].
  intros i a cur Hin. cbn [platformProductOrderInfluencers withParticipants].
  now apply upsertAll_named with (a := a) (c := cur).
- unfold SurveysService.addInfluencers.
  apply nc_bind.
  { unfold Prisma.survey_findUniqueOrThrow.
    apply nc_bind; [apply nc_query|intros; apply nc_orThrow]. }
  intros survey. apply nc_bind; [apply nc_orderOf|]. intros order.
  destruct (atLeast _ _); [intros w msg; discriminate|].
  destruct (surveyType survey); [|intros w msg; discriminate].
  apply nc_bind; [apply nc_query|]. intros sel.
  destruct (nonEmpty _); [intros w msg; discriminate|].
  apply nc_bind; [apply nc_traverse, nc_upsertArguments|]. intros args.
  apply nc_promiseAll. intros p Hp. apply in_map_iff in Hp.
  destruct Hp as [[[i a] cur] [<- _]]. apply nc_upsert.
Qed.

(** ** PlatformProductOrderService.addInfluencers *)

(** The whole behaviour of the method when the store rejects nothing. *)
Lemma platformProductOrder_add_run
    (dto : PlatformProductOrderService.AddInfluencersDto) (db : Db) :
  let order := PlatformProductOrderService.dto_productOrderId dto in
  let infl := PlatformProductOrderService.dto_influencerId dto in
  let rows := platformProductOrderInfluencers db in
  PlatformProductOrderService.addInfluencers dto (quiet db)
  = match accountOf db infl, campaignAmountOf db infl, participant db order infl with
    | Some user, Some amount, None =>
        if Prisma.references db order infl then
          let r := {| poi_id := Prisma.nextId rows; productOrderId := order;
                      influencerId := infl; agreedAmount := desiredAmount amount;
                      currency := user_currency user; status := user_status user |} in
          (quiet (withParticipants db (rows ++ [r])), Ok r)
        else (quiet db, Throw (ConflictException "Already Exists"))
    | _, _, _ => (quiet db, Throw (ConflictException "Already Exists"))
    end.
Proof.
cbv zeta. unfold PlatformProductOrderService.addInfluencers, catch, Prisma.transaction.
unfold bind at 1. unfold bind at 1. unfold Prisma.query at 1.
cbn [quiet committed pending Prisma.replay fold_left].
fold (accountOf db (PlatformProductOrderService.dto_influencerId dto)).
destruct (accountOf db (PlatformProductOrderService.dto_influencerId dto)) as [user|];
  [|reflexivity].
cbn [Prisma.orThrow ret].
unfold bind at 1. unfold bind at 1. unfold Prisma.query at 1.
cbn [quiet committed pending Prisma.replay fold_left].
fold (campaignAmountOf db (PlatformProductOrderService.dto_influencerId dto)).
destruct (campaignAmountOf db (PlatformProductOrderService.dto_influencerId dto)) as [amount|];
  [|reflexivity].
cbn [Prisma.orThrow ret].
unfold Prisma.platformProductOrderInfluencer_create, Prisma.write, bind, Prisma.answer, throw.
cbn [quiet committed pending rejections Prisma.replay fold_left].
unfold Prisma.createParticipant at 1. cbv zeta.
change (find (Prisma.identifier (PlatformProductOrderService.dto_productOrderId dto)
                (PlatformProductOrderService.dto_influencerId dto))
             (platformProductOrderInfluencers db))
  with (participant db (PlatformProductOrderService.dto_productOrderId dto)
          (PlatformProductOrderService.dto_influencerId dto)).
destruct (participant db (PlatformProductOrderService.dto_productOrderId dto)
            (PlatformProductOrderService.dto_influencerId dto)) as [p|] eqn:E;
  [reflexivity|].
destruct (Prisma.references db (PlatformProductOrderService.dto_productOrderId dto)
            (PlatformProductOrderService.dto_influencerId dto)) eqn:R; [|reflexivity].
unfold Prisma.commit, quiet.
cbn [committed pending rejections Prisma.replay fold_left app].
unfold Prisma.effect, Prisma.createParticipant. cbv zeta.
unfold participant in E. unfold Prisma.identifier. rewrite E, R. reflexivity.
Qed.

(** It is where Conflict comes from: it inserts, and every failure inside
    its transaction (a missing user, a missing desired amount, the pair
    already present, a missing order, a rejection by the store) is reported
    as Conflict. *)
Lemma platformProductOrder_add_failure dto w e :
  snd (PlatformProductOrderService.addInfluencers dto w) = Throw e ->
  e = ConflictException "Already Exists".
Proof.
unfold PlatformProductOrderService.addInfluencers, catch.
destruct (Prisma.transaction _ w) as [w' [r|e']]; cbn; intros H; [discriminate|].
now injection H as <-.
Qed.

Lemma platformProductOrder_add_duplicate dto db p :
  participant db (PlatformProductOrderService.dto_productOrderId dto)
    (PlatformProductOrderService.dto_influencerId dto) = Some p ->
  PlatformProductOrderService.addInfluencers dto (quiet db)
  = (quiet db, Throw (ConflictException "Already Exists")).
Proof.
intros Hp. rewrite platformProductOrder_add_run. cbv zeta. rewrite Hp.
destruct (accountOf db _); [|reflexivity]. destruct (campaignAmountOf db _); reflexivity.
Qed.

Lemma find_snoc {A} (f : A -> bool) (l : list A) (x : A) :
  find f l = None -> f x = true -> find f (l ++ [x]) = Some x.
Proof.
induction l as [|y l IH]; cbn; intros Hn Hx.
- now rewrite Hx.
- destruct (f y); [discriminate|]. now apply IH.
Qed.

Lemma filter_snoc_fresh {A} (f : A -> bool) (l : list A) (x : A) :
  find f l = None -> f x = true -> filter f (l ++ [x]) = [x].
Proof.
induction l as [|y l IH]; cbn; intros Hn Hx.
- now rewrite Hx.
- destruct (f y); [discriminate|]. now apply IH.
Qed.

Lemma platformProductOrder_insertedOnce dto db user amount :
  let order := PlatformProductOrderService.dto_productOrderId dto in
  let infl := PlatformProductOrderService.dto_influencerId dto in
  accountOf db infl = Some user ->
  campaignAmountOf db infl = Some amount ->
  Prisma.references db order infl = true ->
  participant db order infl = None ->
  insertedOnce (PlatformProductOrderService.addInfluencers dto) db order infl.
Proof.
cbv zeta. intros Ha Hc Hr Hp. unfold insertedOnce.
rewrite platformProductOrder_add_run. cbv zeta. rewrite Ha, Hc, Hp, Hr.
eexists. eexists. split; [reflexivity|].
cbn [platformProductOrderInfluencers withParticipants productOrderId influencerId].
split; [reflexivity|]. split; [reflexivity|]. split; [reflexivity|]. split.
- unfold recordCount. rewrite filter_snoc_fresh; [reflexivity|exact Hp|].
  unfold Prisma.identifier. cbn. now rewrite !Z.eqb_refl.
- eapply platformProductOrder_add_duplicate. unfold participant.
  cbn [platformProductOrderInfluencers withParticipants].
  apply find_snoc; [exact Hp|]. cbn. now rewrite !Z.eqb_refl.
Qed.

(** C6 (amended).  [addInfluencers] of a campaign and of a survey: it fails
    with Forbidden when the order has reached Finished and with BadRequest
    when the order has no post type (resp. survey type); it fails with
    NotFound, naming exactly the ids that are the id of no user (safe
    integers, in decimal digits), when there is such an id; otherwise it upserts one participation record per
    resolved user: a record created for the pair carries the status Added,
    and the record of the pair, new or not, carries the desired amount for
    the type and the account currency.  It never fails with Conflict: what
    the store rejects surfaces as the error of the store.  Conflict is the
    failure of the insert-only [PlatformProductOrderService.addInfluencers]:
    every failure of it is Conflict, and it fails so, writing nothing, when
    the pair has a record already.  The campaign method asks nothing of the
    surveys, and conversely. *)
Theorem C6_addInfluencers_contract `{D : Declarations} (db : Db) (ids : list Z) :
  (forall (cid : Z) (c : Campaign) (co : PlatformProductOrder),
     campaignAt db cid c co ->
     addContract (CampaignService.addInfluencers cid ids) db ids co (postType c)
       (selectUserInfluencers influencerCampaignAmounts (postType c) ids db)) /\
  (forall (sid : Z) (s : Survey) (so : PlatformProductOrder),
     surveyAt db sid s so ->
     addContract (SurveysService.addInfluencers sid ids) db ids so (surveyType s)
       (selectUserInfluencers influencerSurveyAmounts (surveyType s) ids db)) /\
  (forall (dto : PlatformProductOrderService.AddInfluencersDto),
     (forall w e, snd (PlatformProductOrderService.addInfluencers dto w) = Throw e ->
                  e = ConflictException "Already Exists") /\
     (forall p,
        participant db (PlatformProductOrderService.dto_productOrderId dto)
          (PlatformProductOrderService.dto_influencerId dto) = Some p ->
        PlatformProductOrderService.addInfluencers dto (quiet db)
        = (quiet db, Throw (ConflictException "Already Exists")))).
Proof.
split; [|split].
- intros cid c co Hc. now apply campaign_add_contract.
- intros sid s so Hs. now apply survey_add_contract.
- intros dto. split.
  + intros w e. apply platformProductOrder_add_failure.
  + intros p. apply platformProductOrder_add_duplicate.
Qed.

(** C6 as stated fails: when the store rejects the upsert of
    [addInfluencers] for a violation of the unique key (P2002), the call
    ends in that error of the store, not in Conflict. *)
Lemma C6_counterexample :
  let D := specDeclarations in
  let db := Example.base [] in
  let outcome := CampaignService.addInfluencers 7 [11] (scripted db [Some "P2002"]) in
  snd outcome = Throw (PrismaClientKnownRequestError "P2002") /\
  ~ (exists m, snd outcome = Throw (ConflictException m)).
Proof.
cbv zeta. split; [reflexivity|]. intros [m H]. vm_compute in H. discriminate H.
Qed.

(** C6 (amended).  At campaign 7 with influencer 1 (user 11) at Invited, in
    a database without survey participant: the ids 11 and 99 fail with
    NotFound for 99; the ids 11 and 12 succeed, the record of influencer 1
    keeps its key and status and takes the amount 250, and influencer 2 gets
    a record at Added (value 0) with the amount 75/2 and the currency 2.  At
    survey 9 with no participant: the ids 11 and 12 give two records at
    Added.  The pair (70, 1) has a record: the insert-only method fails with
    Conflict. *)
Lemma C6_witness :
  let D := specDeclarations in
  let db := Example.base [Example.row 1 70 1 Invited] in
  (CampaignService.addInfluencers 7 [11; 99] (quiet db)
   = (quiet db, Throw (NotFoundApplicationException "Influencer 99 does not exist")) /\
   exists rs db',
     CampaignService.addInfluencers 7 [11; 12] (quiet db) = (quiet db', Ok rs) /\
     platformProductOrderInfluencers db'
     = [ {| poi_id := 1; productOrderId := 70; influencerId := 1; agreedAmount := 250%Q;
            currency := 1; status := 1%Q |};
         {| poi_id := 2; productOrderId := 70; influencerId := 2; agreedAmount := (75 # 2)%Q;
            currency := 2; status := 0%Q |} ]) /\
  (exists rs db',
     SurveysService.addInfluencers 9 [11; 12] (quiet (Example.base [])) = (quiet db', Ok rs) /\
     platformProductOrderInfluencers db'
     = [ {| poi_id := 1; productOrderId := 90; influencerId := 1; agreedAmount := 20%Q;
            currency := 1; status := 0%Q |};
         {| poi_id := 2; productOrderId := 90; influencerId := 2; agreedAmount := 30%Q;
            currency := 2; status := 0%Q |} ]) /\
  PlatformProductOrderService.addInfluencers
    {| PlatformProductOrderService.dto_productOrderId := 70;
       PlatformProductOrderService.dto_influencerId := 1 |} (quiet db)
  = (quiet db, Throw (ConflictException "Already Exists")).
Proof.
cbv zeta. split; [split|split].
- destruct (proj1 (@C6_addInfluencers_contract specDeclarations
              (Example.base [Example.row 1 70 1 Invited]) [11; 99])
            7 {| campaign_id := 7; campaign_platformProductOrderId := 70; postType := Some 0 |}
            {| order_id := 70; order_status := 1%Q |})
    as (_ & _ & Hmissing & _).
  + split; reflexivity.
  + apply Hmissing.
    * reflexivity.
    * discriminate.
    * discriminate.
    * repeat constructor; unfold safeInteger; cbn; lia.
- destruct (proj1 (@C6_addInfluencers_contract specDeclarations
              (Example.base [Example.row 1 70 1 Invited]) [11; 12])
            7 {| campaign_id := 7; campaign_platformProductOrderId := 70; postType := Some 0 |}
            {| order_id := 70; order_status := 1%Q |})
    as (_ & _ & _ & Hadd & _).
  + split; reflexivity.
  + destruct (Hadd [(1, 250%Q, 1); (2, (75 # 2)%Q, 2)]) as (rs & db' & Hr & Hrows & _).
    * reflexivity.
    * discriminate.
    * reflexivity.
    * reflexivity.
    * exists rs, db'. split; [exact Hr|exact Hrows].
- destruct (proj1 (proj2 (@C6_addInfluencers_contract specDeclarations
              (Example.base []) [11; 12]))
            9 {| survey_id := 9; survey_platformProductOrderId := 90; surveyType := Some 0 |}
            {| order_id := 90; order_status := 1%Q |})
    as (_ & _ & _ & Hadd & _).
  + split; reflexivity.
  + destruct (Hadd [(1, 20%Q, 1); (2, 30%Q, 2)]) as (rs & db' & Hr & Hrows & _).
    * reflexivity.
    * discriminate.
    * reflexivity.
    * reflexivity.
    * exists rs, db'. split; [exact Hr|exact Hrows].
- apply (proj2 (proj2 (proj2 (@C6_addInfluencers_contract specDeclarations
              (Example.base [Example.row 1 70 1 Invited]) []))
            {| PlatformProductOrderService.dto_productOrderId := 70;
               PlatformProductOrderService.dto_influencerId := 1 |})
          (Example.row 1 70 1 Invited)).
  reflexivity.
Defined.

(** What the call does at that input: the Invited record of influencer 1
    keeps its primary key and its status and takes the desired amount 250;
    influencer 2 gets a record at Added with the amount 75/2 and the
    currency 2. *)
Example addInfluencers_run :
  let D := specDeclarations in
  let db := Example.base [Example.row 1 70 1 Invited] in
  platformProductOrderInfluencers
    (committed (fst (CampaignService.addInfluencers 7 [11; 12] (quiet db))))
  = [ {| poi_id := 1; productOrderId := 70; influencerId := 1; agreedAmount := 250%Q;
         currency := 1; status := influencerStatus Invited |};
      {| poi_id := 2; productOrderId := 70; influencerId := 2; agreedAmount := (75 # 2)%Q;
         currency := 2; status := influencerStatus Added |} ].
Proof. reflexivity. Qed.

Example platformProductOrder_add_runs :
  let db := Example.base [Example.row 1 70 1 Invited] in
  let dto o i := {| PlatformProductOrderService.dto_productOrderId := o;
                    PlatformProductOrderService.dto_influencerId := i |} in
  (* the pair exists: Conflict, nothing written *)
  PlatformProductOrderService.addInfluencers (dto 70 1) (quiet db)
  = (quiet db, Throw (ConflictException "Already Exists")) /\
  (* no such influencer: Conflict as well *)
  PlatformProductOrderService.addInfluencers (dto 70 5) (quiet db)
  = (quiet db, Throw (ConflictException "Already Exists")) /\
  (* a new pair: the record carries the account status of the user *)
  Example.statuses (fst (PlatformProductOrderService.addInfluencers (dto 70 2) (quiet db)))
  = [@influencerStatus specDeclarations Invited; 4%Q].
Proof. repeat split. Qed.

(** ** addInfluencers called twice *)

Lemma campaign_addedTwice `{D : Declarations} db cid c o ids args :
  campaignAt db cid c o ->
  (order_status o < orderStatus Finished)%Q ->
  postType c <> None ->
  unknownUsers db ids = [] ->
  map plan (selectUserInfluencers influencerCampaignAmounts (postType c) ids db)
  = map Some args ->
  (forall i a cur, In (i, a, cur) args ->
     (recordCount (order_id o) i (platformProductOrderInfluencers db) <= 1)%nat) ->
  addedTwice (CampaignService.addInfluencers cid ids) db (order_id o) args.
Proof.
intros Hc Hlt Hsome Hknown Hplan Hunique.
set (rows1 := upsertAll (order_id o) (influencerStatus Added) args
                (platformProductOrderInfluencers db)).
destruct (campaign_add_run db cid c o ids args Hc Hlt Hsome Hknown Hplan) as [rs1 H1].
destruct (campaign_add_run (withParticipants db rows1) cid c o ids args
            Hc Hlt Hsome Hknown Hplan) as [rs2 H2].
cbn [platformProductOrderInfluencers withParticipants] in H2.
assert (Hone : forall i a cur, In (i, a, cur) args ->
                 recordCount (order_id o) i rows1 = 1%nat).
{ intros i a cur Hin. eapply recordCount_all_one; [exact Hin|]. eapply Hunique, Hin. }
destruct (upsertAll_in_place (order_id o) (influencerStatus Added) args rows1)
  as [g [Hg Hamount]].
{ intros i a cur Hin. rewrite (Hone i a cur Hin). lia. }
exists rs1, (withParticipants db rows1), rs2,
  (withParticipants (withParticipants db rows1)
     (upsertAll (order_id o) (influencerStatus Added) args rows1)), g.
split; [exact H1|]. split; [exact H2|].
cbn [platformProductOrderInfluencers withParticipants].
split; [|split; [exact Hg|split; [exact Hamount|]]].
- intros i a cur Hin. split; [now apply (Hone i a cur)|].
  eapply recordCount_all_one; [exact Hin|]. rewrite (Hone i a cur Hin). lia.
- intros x i a cur Hx Hin Ho Hi. rewrite <- Hi.
  apply (covered_upsertAll (order_id o) (influencerStatus Added) args rows1 x Hx Ho).
  rewrite Hi. eauto.
Qed.

Lemma survey_addedTwice `{D : Declarations} db cid c o ids args :
  surveyAt db cid c o ->
  (order_status o < orderStatus Finished)%Q ->
  surveyType c <> None ->
  unknownUsers db ids = [] ->
  map plan (selectUserInfluencers influencerSurveyAmounts (surveyType c) ids db)
  = map Some args ->
  (forall i a cur, In (i, a, cur) args ->
     (recordCount (order_id o) i (platformProductOrderInfluencers db) <= 1)%nat) ->
  addedTwice (SurveysService.addInfluencers cid ids) db (order_id o) args.
Proof.
intros Hc Hlt Hsome Hknown Hplan Hunique.
set (rows1 := upsertAll (order_id o) (influencerStatus Added) args
                (platformProductOrderInfluencers db)).
destruct (survey_add_run db cid c o ids args Hc Hlt Hsome Hknown Hplan) as [rs1 H1].
destruct (survey_add_run (withParticipants db rows1) cid c o ids args
            Hc Hlt Hsome Hknown Hplan) as [rs2 H2].
cbn [platformProductOrderInfluencers withParticipants] in H2.
assert (Hone : forall i a cur, In (i, a, cur) args ->
                 recordCount (order_id o) i rows1 = 1%nat).
{ intros i a cur Hin. eapply recordCount_all_one; [exact Hin|]. eapply Hunique, Hin. }
destruct (upsertAll_in_place (order_id o) (influencerStatus Added) args rows1)
  as [g [Hg Hamount]].
{ intros i a cur Hin. rewrite (Hone i a cur Hin). lia. }
exists rs1, (withParticipants db rows1), rs2,
  (withParticipants (withParticipants db rows1)
     (upsertAll (order_id o) (influencerStatus Added) args rows1)), g.
split; [exact H1|]. split; [exact H2|].
cbn [platformProductOrderInfluencers withParticipants].
split; [|split; [exact Hg|split; [exact Hamount|]]].
- intros i a cur Hin. split; [now apply (Hone i a cur)|].
  eapply recordCount_all_one; [exact Hin|]. rewrite (Hone i a cur Hin). lia.
- intros x i a cur Hx Hin Ho Hi. rewrite <- Hi.
  apply (covered_upsertAll (order_id o) (influencerStatus Added) args rows1 x Hx Ho).
  rewrite Hi. eauto.
Qed.

(** C7 (amended).  [addInfluencers] of a campaign and of a survey, called
    twice with the same ids on a table that holds at most one record per
    pair: both calls succeed, every named pair (order, influencer) has
    exactly one record after the first call and after the second, and the
    second call creates no record: it leaves the primary key, the pair and
    the status of every record as they were and writes the amount and the
    currency of the directory into the record of each named pair.
    [PlatformProductOrderService.addInfluencers] is insert-only: for a pair
    without a record, of an influencer with an account and a desired amount
    and of an order that exists, the first call appends the one record of the
    pair, and the second call fails with Conflict and leaves that record as
    it is.  Each method asks nothing of the products of the others. *)
Theorem C7_addInfluencers_twice `{D : Declarations} (db : Db) :
  (forall (cid : Z) (c : Campaign) (co : PlatformProductOrder)
          (ids : list Z) (args : list (Z * Q * Z)),
     campaignAt db cid c co ->
     (order_status co < orderStatus Finished)%Q ->
     postType c <> None ->
     unknownUsers db ids = [] ->
     map plan (selectUserInfluencers influencerCampaignAmounts (postType c) ids db)
     = map Some args ->
     (forall i a cur, In (i, a, cur) args ->
        (recordCount (order_id co) i (platformProductOrderInfluencers db) <= 1)%nat) ->
     addedTwice (CampaignService.addInfluencers cid ids) db (order_id co) args) /\
  (forall (sid : Z) (s : Survey) (so : PlatformProductOrder)
          (ids : list Z) (args : list (Z * Q * Z)),
     surveyAt db sid s so ->
     (order_status so < orderStatus Finished)%Q ->
     surveyType s <> None ->
     unknownUsers db ids = [] ->
     map plan (selectUserInfluencers influencerSurveyAmounts (surveyType s) ids db)
     = map Some args ->
     (forall i a cur, In (i, a, cur) args ->
        (recordCount (order_id so) i (platformProductOrderInfluencers db) <= 1)%nat) ->
     addedTwice (SurveysService.addInfluencers sid ids) db (order_id so) args) /\
  (forall (dto : PlatformProductOrderService.AddInfluencersDto)
          (user : User) (amount : InfluencerAmount),
     accountOf db (PlatformProductOrderService.dto_influencerId dto) = Some user ->
     campaignAmountOf db (PlatformProductOrderService.dto_influencerId dto) = Some amount ->
     Prisma.references db (PlatformProductOrderService.dto_productOrderId dto)
       (PlatformProductOrderService.dto_influencerId dto) = true ->
     participant db (PlatformProductOrderService.dto_productOrderId dto)
       (PlatformProductOrderService.dto_influencerId dto) = None ->
     insertedOnce (PlatformProductOrderService.addInfluencers dto) db
       (PlatformProductOrderService.dto_productOrderId dto)
       (PlatformProductOrderService.dto_influencerId dto)).
Proof.
split; [|split].
- intros cid c co ids args Hc Hlt Ht Hk Hp Hu. now apply campaign_addedTwice with (c := c).
- intros sid s so ids args Hs Hlt Ht Hk Hp Hu. now apply survey_addedTwice with (c := s).
- intros dto user amount Ha Hc Hr Hp.
  exact (platformProductOrder_insertedOnce dto db user amount Ha Hc Hr Hp).
Qed.

(** C7 as stated fails for [PlatformProductOrderService.addInfluencers]: on
    the pair (order 70, influencer 2), which has no record, the first call
    creates the record and the second call fails with Conflict instead of
    updating the record in place. *)
Lemma C7_counterexample :
  let db := Example.base [] in
  let dto := {| PlatformProductOrderService.dto_productOrderId := 70;
                PlatformProductOrderService.dto_influencerId := 2 |} in
  let first := PlatformProductOrderService.addInfluencers dto (quiet db) in
  let second := PlatformProductOrderService.addInfluencers dto (fst first) in
  (exists r, snd first = Ok r) /\
  snd second = Throw (ConflictException "Already Exists") /\
  ~ addedTwice (PlatformProductOrderService.addInfluencers dto) db 70 [(2, (75 # 2)%Q, 2)].
Proof.
cbv zeta. split; [eexists; reflexivity|]. split; [reflexivity|].
intros (rs1 & db1 & rs2 & db2 & g & H1 & H2 & _).
vm_compute in H1. injection H1 as Hdb _. subst db1.
vm_compute in H2. discriminate H2.
Qed.

(** C7 (amended).  At campaign 7 with the users 11 and 12, of whom influencer
    1 takes part already, in a database without survey participant; at
    survey 9 with the same users and no participant at all; and at the pair
    (order 80, influencer 2) for the insert-only method. *)
Lemma C7_witness :
  let D := specDeclarations in
  addedTwice (CampaignService.addInfluencers 7 [11; 12])
    (Example.base [Example.row 1 70 1 Invited]) 70
    [(1, 250%Q, 1); (2, (75 # 2)%Q, 2)] /\
  addedTwice (SurveysService.addInfluencers 9 [11; 12]) (Example.base []) 90
    [(1, 20%Q, 1); (2, 30%Q, 2)] /\
  insertedOnce
    (PlatformProductOrderService.addInfluencers
       {| PlatformProductOrderService.dto_productOrderId := 80;
          PlatformProductOrderService.dto_influencerId := 2 |})
    (Example.base [Example.row 1 70 1 Invited]) 80 2.
Proof.
cbv zeta. split; [|split].
- apply (proj1 (@C7_addInfluencers_twice specDeclarations
                  (Example.base [Example.row 1 70 1 Invited]))
           7 {| campaign_id := 7; campaign_platformProductOrderId := 70; postType := Some 0 |}
           {| order_id := 70; order_status := 1%Q |} [11; 12]
           [(1, 250%Q, 1); (2, (75 # 2)%Q, 2)]).
  + split; reflexivity.
  + reflexivity.
  + discriminate.
  + reflexivity.
  + reflexivity.
  + intros i a cur [E|[E|[]]]; injection E as <- _ _; cbn; lia.
- apply (proj1 (proj2 (@C7_addInfluencers_twice specDeclarations (Example.base [])))
           9 {| survey_id := 9; survey_platformProductOrderId := 90; surveyType := Some 0 |}
           {| order_id := 90; order_status := 1%Q |} [11; 12]
           [(1, 20%Q, 1); (2, 30%Q, 2)]).
  + split; reflexivity.
  + reflexivity.
  + discriminate.
  + reflexivity.
  + reflexivity.
  + intros i a cur [E|[E|[]]]; injection E as <- _ _; cbn; lia.
- apply (proj2 (proj2 (@C7_addInfluencers_twice specDeclarations
                         (Example.base [Example.row 1 70 1 Invited])))
           {| PlatformProductOrderService.dto_productOrderId := 80;
              PlatformProductOrderService.dto_influencerId := 2 |}
           {| user_id := 12; user_currency := 2; user_status := 4%Q |}
           {| amount_influencerId := 2; amount_type := 0; desiredAmount := (75 # 2)%Q |});
    reflexivity.
Defined.

(** The two calls at that input, with the desired amount of influencer 1
    raised in between: one record per pair, in place, status kept. *)
Example addInfluencers_twice_run :
  let D := specDeclarations in
  let db := Example.base [Example.row 1 70 1 Invited] in
  let (w1, _) := CampaignService.addInfluencers 7 [11; 12] (quiet db) in
  let raised :=
    {| users := users (committed w1); influencers := influencers (committed w1);
       influencerCampaignAmounts :=
         [ {| amount_influencerId := 1; amount_type := 0; desiredAmount := 300%Q |};
           {| amount_influencerId := 2; amount_type := 0; desiredAmount := (75 # 2)%Q |} ];
       influencerSurveyAmounts := influencerSurveyAmounts (committed w1);
       platformProductOrders := platformProductOrders (committed w1);
       campaigns := campaigns (committed w1); surveys := surveys (committed w1);
       platformProductOrderInfluencers := platformProductOrderInfluencers (committed w1);
       campaignInfluencerPerformances := campaignInfluencerPerformances (committed w1);
       surveyResponses := surveyResponses (committed w1) |} in
  let (w2, _) := CampaignService.addInfluencers 7 [11; 12] (quiet raised) in
  map (fun r => (poi_id r, influencerId r, agreedAmount r, status r))
      (platformProductOrderInfluencers (committed w1))
  = [(1, 1, 250%Q, influencerStatus Invited); (2, 2, (75 # 2)%Q, influencerStatus Added)] /\
  map (fun r => (poi_id r, influencerId r, agreedAmount r, status r))
      (platformProductOrderInfluencers (committed w2))
  = [(1, 1, 300%Q, influencerStatus Invited); (2, 2, (75 # 2)%Q, influencerStatus Added)].
Proof. vm_compute. split; reflexivity. Qed.

(** ** Order-level transitions *)

Lemma find_order_update (k k' : Z) (s : number) l o :
  find (fun x => order_id x =? k) l = Some o ->
  find (fun x => order_id x =? k)
       (map (fun x => if order_id x =? k'
                      then {| order_id := order_id x; order_status := s |} else x) l)
  = Some (if order_id o =? k' then {| order_id := order_id o; order_status := s |} else o).
Proof.
induction l as [|x l IH]; [discriminate|]. cbn [find map].
destruct (order_id x =? k) eqn:E.
- intros H. injection H as <-. destruct (order_id x =? k'); cbn [order_id]; now rewrite E.
- intros H. destruct (order_id x =? k'); cbn [order_id]; rewrite E; now apply IH.
Qed.

Lemma se_write {A} (c : Prisma.Client) (f : Db -> Result (Db * A)) :
  (forall db, storeError (f db)) -> forall w, storeError (snd (Prisma.write c f w)).
Proof.
intros Hf w. unfold Prisma.write, bind, Prisma.answer, throw.
destruct (rejections w) as [|[code|] rest]; cbn [fst snd]; try exact I.
- destruct c.
  + specialize (Hf (committed w)). destruct (f (committed w)) as [[db' r]|e]; exact Hf || exact I.
  + specialize (Hf (Prisma.replay (pending w) (committed w))).
    destruct (f (Prisma.replay (pending w) (committed w))) as [[db' r]|e]; exact Hf || exact I.
- destruct c; cbn [committed pending rejections].
  + specialize (Hf (committed w)). destruct (f (committed w)) as [[db' r]|e]; exact Hf || exact I.
  + specialize (Hf (Prisma.replay (pending w) (committed w))).
    destruct (f (Prisma.replay (pending w) (committed w))) as [[db' r]|e]; exact Hf || exact I.
Qed.

Lemma se_bind {A B} (m : M A) (k : A -> M B) :
  (forall w, storeError (snd (m w))) -> (forall a w, storeError (snd (k a w))) ->
  forall w, storeError (snd (bind m k w)).
Proof.
intros Hm Hk w. unfold bind. specialize (Hm w). destruct (m w) as [w1 [a|e]].
- apply Hk.
- exact Hm.
Qed.

Lemma se_transaction {A} (body : Prisma.Client -> M A) :
  (forall w, storeError (snd (body Prisma.tx w))) ->
  forall w, storeError (snd (Prisma.transaction body w)).
Proof.
intros Hb w. unfold Prisma.transaction. specialize (Hb w).
destruct (body Prisma.tx w) as [w1 [a|e]]; [|exact Hb].
unfold Prisma.answer. destruct (rejections w1) as [|[code|] rest]; exact I.
Qed.

Lemma se_updateMany c where_ s w :
  storeError (snd (Prisma.platformProductOrderInfluencer_updateMany c where_ s w)).
Proof. apply se_write. intros db. exact I. Qed.

Lemma campaign_update_se c cid s w :
  storeError (snd (Prisma.campaign_update_orderStatus c cid s w)).
Proof.
apply se_write. intros db. unfold Prisma.updateCampaignOrderStatus.
destruct (find _ (campaigns db)); exact I.
Qed.

Lemma campaign_update_quiet db cid c s :
  find (fun x => campaign_id x =? cid) (campaigns db) = Some c ->
  Prisma.campaign_update_orderStatus Prisma.prismaService cid s (quiet db)
  = (quiet (Prisma.setOrderStatus (campaign_platformProductOrderId c) s db), Ok c).
Proof.
intros H. unfold Prisma.campaign_update_orderStatus. rewrite write_quiet.
unfold Prisma.updateCampaignOrderStatus. now rewrite H.
Qed.

Lemma campaignAt_setOrderStatus db cid c o s :
  campaignAt db cid c o ->
  campaignAt (Prisma.setOrderStatus (campaign_platformProductOrderId c) s db) cid c
    {| order_id := order_id o; order_status := s |}.
Proof.
intros [Hc Ho]. split; [exact Hc|].
cbn [Prisma.setOrderStatus platformProductOrders withOrders].
rewrite (find_order_update _ _ _ _ _ Ho).
apply find_some in Ho. destruct Ho as [_ Ho]. now rewrite Ho.
Qed.


Section CampaignOrder.
Context `{D : Declarations}.
Variable instructions : Campaign -> option string.
Variables (db : Db) (cid : Z) (c : Campaign) (o : PlatformProductOrder).
Hypothesis at_ : campaignAt db cid c o.

Lemma campaign_start_run :
  (order_status o < orderStatus OnGoing)%Q ->
  CampaignOrderStatus.blank (instructions c) = false ->
  CampaignOrderStatus.startCampaign instructions cid (quiet db)
  = (quiet (Prisma.setOrderStatus (order_id o) (orderStatus OnGoing) db), Ok c).
Proof.
intros Hlt Hinstr. unfold CampaignOrderStatus.startCampaign.
rewrite (campaign_prefix cid c o) by assumption.
assert (E1 : strictEq (order_status o) (orderStatus OnGoing) = false).
{ apply strictEq_false. intros E. rewrite E in Hlt. exact (Qlt_irrefl _ Hlt). }
assert (E2 : lessThan (orderStatus OnGoing) (order_status o) = false).
{ apply lessThan_false. intros H. exact (Qlt_irrefl _ (Qlt_trans _ _ _ Hlt H)). }
rewrite E1, E2, Hinstr. rewrite (campaignAt_order_id _ _ _ _ at_).
apply campaign_update_quiet. exact (proj1 at_).
Qed.

Lemma campaign_start_refused :
  (orderStatus OnGoing <= order_status o)%Q ->
  refuses (CampaignOrderStatus.startCampaign instructions cid) db.
Proof.
intros Hle. unfold refuses, CampaignOrderStatus.startCampaign.
rewrite (campaign_prefix cid c o) by assumption.
destruct (strictEq (order_status o) (orderStatus OnGoing)) eqn:E1;
  [eexists; reflexivity|].
assert (E2 : lessThan (orderStatus OnGoing) (order_status o) = true).
{ apply lessThan_true. apply Qle_lt_or_eq in Hle. destruct Hle as [H|H]; [exact H|].
  apply strictEq_false in E1. elim E1. now symmetry. }
rewrite E2. eexists. reflexivity.
Qed.

Lemma campaign_archive_run :
  (orderStatus OnGoing < order_status o)%Q ->
  ~ (order_status o == orderStatus Archived)%Q ->
  CampaignOrderStatus.archiveCampaign cid (quiet db)
  = (quiet (Prisma.setOrderStatus (order_id o) (orderStatus Archived) db), Ok c).
Proof.
intros Hlt Hne. unfold CampaignOrderStatus.archiveCampaign.
rewrite (campaign_prefix cid c o) by assumption.
rewrite (not_atLeast _ _ Hlt). apply strictEq_false in Hne. rewrite Hne.
rewrite (campaignAt_order_id _ _ _ _ at_).
apply campaign_update_quiet. exact (proj1 at_).
Qed.

Lemma campaign_archive_early :
  (order_status o <= orderStatus OnGoing)%Q ->
  forbids (CampaignOrderStatus.archiveCampaign cid) db.
Proof.
intros Hle. unfold forbids, CampaignOrderStatus.archiveCampaign.
rewrite (campaign_prefix cid c o) by assumption.
apply atLeast_true in Hle. rewrite Hle. eexists. reflexivity.
Qed.

Lemma campaign_archive_again :
  (order_status o == orderStatus Archived)%Q ->
  forbids (CampaignOrderStatus.archiveCampaign cid) db.
Proof.
intros He. unfold forbids, CampaignOrderStatus.archiveCampaign.
rewrite (campaign_prefix cid c o) by assumption.
destruct (atLeast (orderStatus OnGoing) (order_status o)); [eexists; reflexivity|].
apply strictEq_true in He. rewrite He. eexists. reflexivity.
Qed.

Lemma campaign_finish_not_started w :
  committed w = db ->
  ~ (order_status o == orderStatus OnGoing)%Q ->
  CampaignService.finishCampaign cid w
  = (w, Throw (ForbiddenApplicationException
                 "Campaign can't be stopped as it is not started")).
Proof.
intros Hw Hne. unfold CampaignService.finishCampaign.
rewrite (campaign_prefix cid c o) by (rewrite Hw; assumption).
apply strictEq_false in Hne. now rewrite Hne.
Qed.

Lemma campaign_finish_never_already_finished w :
  committed w = db ->
  ~ (orderStatus Finished < orderStatus OnGoing)%Q ->
  snd (CampaignService.finishCampaign cid w)
  <> Throw (ForbiddenApplicationException
              "Campaign can't be stopped as it is already finished").
Proof.
intros Hw Hord. unfold CampaignService.finishCampaign.
rewrite (campaign_prefix cid c o) by (rewrite Hw; assumption).
destruct (strictEq (order_status o) (orderStatus OnGoing)) eqn:E1; cbn [negb];
  [|cbn; intros H; discriminate H].
destruct (lessThan (orderStatus Finished) (order_status o)) eqn:E2.
- exfalso. apply strictEq_true in E1. apply lessThan_true in E2.
  apply Hord. now rewrite <- E1.
- pose proof (se_transaction (fun tx =>
      Prisma.platformProductOrderInfluencer_updateMany tx
        (fun r => strictEq (status r) (influencerStatus Approved))
        (influencerStatus ToBePaid) ;;;
      Prisma.campaign_update_orderStatus Prisma.prismaService cid (orderStatus Finished))) as H.
  intros E. specialize (H (fun w0 => se_bind _ _ (se_updateMany _ _ _)
                             (fun _ => campaign_update_se _ _ _) w0) w).
  rewrite E in H. exact H.
Qed.

End CampaignOrder.

Lemma survey_update_se c cid s w :
  storeError (snd (Prisma.survey_update_orderStatus c cid s w)).
Proof.
apply se_write. intros db. unfold Prisma.updateSurveyOrderStatus.
destruct (find _ (surveys db)); exact I.
Qed.

Lemma survey_update_quiet db cid c s :
  find (fun x => survey_id x =? cid) (surveys db) = Some c ->
  Prisma.survey_update_orderStatus Prisma.prismaService cid s (quiet db)
  = (quiet (Prisma.setOrderStatus (survey_platformProductOrderId c) s db), Ok c).
Proof.
intros H. unfold Prisma.survey_update_orderStatus. rewrite write_quiet.
unfold Prisma.updateSurveyOrderStatus. now rewrite H.
Qed.

Lemma surveyAt_setOrderStatus db cid c o s :
  surveyAt db cid c o ->
  surveyAt (Prisma.setOrderStatus (survey_platformProductOrderId c) s db) cid c
    {| order_id := order_id o; order_status := s |}.
Proof.
intros [Hc Ho]. split; [exact Hc|].
cbn [Prisma.setOrderStatus platformProductOrders withOrders].
rewrite (find_order_update _ _ _ _ _ Ho).
apply find_some in Ho. destruct Ho as [_ Ho]. now rewrite Ho.
Qed.


Section SurveyOrder.
Context `{D : Declarations}.
Variable instructions : Survey -> option string.
Variables (db : Db) (cid : Z) (c : Survey) (o : PlatformProductOrder).
Hypothesis at_ : surveyAt db cid c o.

Lemma survey_start_run :
  (order_status o < orderStatus OnGoing)%Q ->
  CampaignOrderStatus.blank (instructions c) = false ->
  SurveyOrderStatus.startSurvey instructions cid (quiet db)
  = (quiet (Prisma.setOrderStatus (order_id o) (orderStatus OnGoing) db), Ok c).
Proof.
intros Hlt Hinstr. unfold SurveyOrderStatus.startSurvey.
rewrite (survey_prefix cid c o) by assumption.
assert (E1 : strictEq (order_status o) (orderStatus OnGoing) = false).
{ apply strictEq_false. intros E. rewrite E in Hlt. exact (Qlt_irrefl _ Hlt). }
assert (E2 : lessThan (orderStatus OnGoing) (order_status o) = false).
{ apply lessThan_false. intros H. exact (Qlt_irrefl _ (Qlt_trans _ _ _ Hlt H)). }
rewrite E1, E2, Hinstr. rewrite (surveyAt_order_id _ _ _ _ at_).
apply survey_update_quiet. exact (proj1 at_).
Qed.

Lemma survey_start_refused :
  (orderStatus OnGoing <= order_status o)%Q ->
  refuses (SurveyOrderStatus.startSurvey instructions cid) db.
Proof.
intros Hle. unfold refuses, SurveyOrderStatus.startSurvey.
rewrite (survey_prefix cid c o) by assumption.
destruct (strictEq (order_status o) (orderStatus OnGoing)) eqn:E1;
  [eexists; reflexivity|].
assert (E2 : lessThan (orderStatus OnGoing) (order_status o) = true).
{ apply lessThan_true. apply Qle_lt_or_eq in Hle. destruct Hle as [H|H]; [exact H|].
  apply strictEq_false in E1. elim E1. now symmetry. }
rewrite E2. eexists. reflexivity.
Qed.

Lemma survey_archive_run :
  (orderStatus OnGoing < order_status o)%Q ->
  ~ (order_status o == orderStatus Archived)%Q ->
  SurveyOrderStatus.archiveSurvey cid (quiet db)
  = (quiet (Prisma.setOrderStatus (order_id o) (orderStatus Archived) db), Ok c).
Proof.
intros Hlt Hne. unfold SurveyOrderStatus.archiveSurvey.
rewrite (survey_prefix cid c o) by assumption.
rewrite (not_atLeast _ _ Hlt). apply strictEq_false in Hne. rewrite Hne.
rewrite (surveyAt_order_id _ _ _ _ at_).
apply survey_update_quiet. exact (proj1 at_).
Qed.

Lemma survey_archive_early :
  (order_status o <= orderStatus OnGoing)%Q ->
  forbids (SurveyOrderStatus.archiveSurvey cid) db.
Proof.
intros Hle. unfold forbids, SurveyOrderStatus.archiveSurvey.
rewrite (survey_prefix cid c o) by assumption.
apply atLeast_true in Hle. rewrite Hle. eexists. reflexivity.
Qed.

Lemma survey_archive_again :
  (order_status o == orderStatus Archived)%Q ->
  forbids (SurveyOrderStatus.archiveSurvey cid) db.
Proof.
intros He. unfold forbids, SurveyOrderStatus.archiveSurvey.
rewrite (survey_prefix cid c o) by assumption.
destruct (atLeast (orderStatus OnGoing) (order_status o)); [eexists; reflexivity|].
apply strictEq_true in He. rewrite He. eexists. reflexivity.
Qed.

Lemma survey_finish_not_started w :
  committed w = db ->
  ~ (order_status o == orderStatus OnGoing)%Q ->
  SurveysService.finishSurvey cid w
  = (w, Throw (ForbiddenApplicationException
                 "Survey can't be stopped as it is not started")).
Proof.
intros Hw Hne. unfold SurveysService.finishSurvey.
rewrite (survey_prefix cid c o) by (rewrite Hw; assumption).
apply strictEq_false in Hne. now rewrite Hne.
Qed.

Lemma survey_finish_never_already_finished w :
  committed w = db ->
  ~ (orderStatus Finished < orderStatus OnGoing)%Q ->
  snd (SurveysService.finishSurvey cid w)
  <> Throw (ForbiddenApplicationException
              "Survey can't be stopped as it is already finished").
Proof.
intros Hw Hord. unfold SurveysService.finishSurvey.
rewrite (survey_prefix cid c o) by (rewrite Hw; assumption).
destruct (strictEq (order_status o) (orderStatus OnGoing)) eqn:E1; cbn [negb];
  [|cbn; intros H; discriminate H].
destruct (lessThan (orderStatus Finished) (order_status o)) eqn:E2.
- exfalso. apply strictEq_true in E1. apply lessThan_true in E2.
  apply Hord. now rewrite <- E1.
- pose proof (se_transaction (fun tx =>
      Prisma.platformProductOrderInfluencer_updateMany tx
        (fun r => strictEq (status r) (influencerStatus Approved))
        (influencerStatus ToBePaid) ;;;
      Prisma.survey_update_orderStatus Prisma.prismaService cid (orderStatus Finished))) as H.
  intros E. specialize (H (fun w0 => se_bind _ _ (se_updateMany _ _ _)
                             (fun _ => survey_update_se _ _ _) w0) w).
  rewrite E in H. exact H.
Qed.

End SurveyOrder.

Lemma campaign_startedTwice `{D : Declarations} instructions db cid c o :
  campaignAt db cid c o ->
  (order_status o < orderStatus OnGoing)%Q ->
  CampaignOrderStatus.blank (instructions c) = false ->
  startedTwice (CampaignOrderStatus.startCampaign instructions cid) db (order_id o).
Proof.
intros Hc Hlt Hi. exists c, (Prisma.setOrderStatus (order_id o) (orderStatus OnGoing) db).
split; [now apply campaign_start_run|]. split; [reflexivity|].
pose proof (campaignAt_setOrderStatus db cid c o (orderStatus OnGoing) Hc) as H1.
rewrite <- (campaignAt_order_id _ _ _ _ Hc) in H1.
apply (campaign_start_refused instructions _ cid c _ H1). cbn [order_status]. apply Qle_refl.
Qed.


Lemma campaign_archiveGuards `{D : Declarations} db cid c o :
  campaignAt db cid c o ->
  archiveGuards (CampaignOrderStatus.archiveCampaign cid) db (order_id o) (order_status o).
Proof.
intros Hc. split; [|split].
- now apply campaign_archive_early with (c := c) (o := o).
- now apply campaign_archive_again with (c := c) (o := o).
- intros Hlt Hne. exists c, (Prisma.setOrderStatus (order_id o) (orderStatus Archived) db).
  split; [now apply campaign_archive_run|]. split; [reflexivity|].
  pose proof (campaignAt_setOrderStatus db cid c o (orderStatus Archived) Hc) as H1.
  rewrite <- (campaignAt_order_id _ _ _ _ Hc) in H1.
  apply (campaign_archive_again _ cid c _ H1). cbn [order_status]. apply Qeq_refl.
Qed.

Lemma campaign_finishGuards `{D : Declarations} db cid c o :
  campaignAt db cid c o ->
  ~ (orderStatus Finished < orderStatus OnGoing)%Q ->
  finishGuards (CampaignService.finishCampaign cid) db (order_status o)
    "Campaign can't be stopped as it is not started"
    "Campaign can't be stopped as it is already finished".
Proof.
intros Hc Hord. split.
- intros Hne w Hw. now apply campaign_finish_not_started with (db := db) (c := c) (o := o).
- intros w Hw. now apply campaign_finish_never_already_finished with (db := db) (c := c) (o := o).
Qed.

Lemma survey_startedTwice `{D : Declarations} instructions db cid c o :
  surveyAt db cid c o ->
  (order_status o < orderStatus OnGoing)%Q ->
  CampaignOrderStatus.blank (instructions c) = false ->
  startedTwice (SurveyOrderStatus.startSurvey instructions cid) db (order_id o).
Proof.
intros Hc Hlt Hi. exists c, (Prisma.setOrderStatus (order_id o) (orderStatus OnGoing) db).
split; [now apply survey_start_run|]. split; [reflexivity|].
pose proof (surveyAt_setOrderStatus db cid c o (orderStatus OnGoing) Hc) as H1.
rewrite <- (surveyAt_order_id _ _ _ _ Hc) in H1.
apply (survey_start_refused instructions _ cid c _ H1). cbn [order_status]. apply Qle_refl.
Qed.


Lemma survey_archiveGuards `{D : Declarations} db cid c o :
  surveyAt db cid c o ->
  archiveGuards (SurveyOrderStatus.archiveSurvey cid) db (order_id o) (order_status o).
Proof.
intros Hc. split; [|split].
- now apply survey_archive_early with (c := c) (o := o).
- now apply survey_archive_again with (c := c) (o := o).
- intros Hlt Hne. exists c, (Prisma.setOrderStatus (order_id o) (orderStatus Archived) db).
  split; [now apply survey_archive_run|]. split; [reflexivity|].
  pose proof (surveyAt_setOrderStatus db cid c o (orderStatus Archived) Hc) as H1.
  rewrite <- (surveyAt_order_id _ _ _ _ Hc) in H1.
  apply (survey_archive_again _ cid c _ H1). cbn [order_status]. apply Qeq_refl.
Qed.

Lemma survey_finishGuards `{D : Declarations} db cid c o :
  surveyAt db cid c o ->
  ~ (orderStatus Finished < orderStatus OnGoing)%Q ->
  finishGuards (SurveysService.finishSurvey cid) db (order_status o)
    "Survey can't be stopped as it is not started"
    "Survey can't be stopped as it is already finished".
Proof.
intros Hc Hord. split.
- intros Hne w Hw. now apply survey_finish_not_started with (db := db) (c := c) (o := o).
- intros w Hw. now apply survey_finish_never_already_finished with (db := db) (c := c) (o := o).
Qed.

(** X1.  Starting a campaign or a survey whose order is below OnGoing and
    whose instructions are filled in succeeds, and its one effect is that the
    order is OnGoing; a second start is then refused with BadRequest and
    changes nothing. *)
Theorem X1_start_only_once `{D : Declarations} (db : Db) :
  (forall (instructions : Campaign -> option string)
          (cid : Z) (c : Campaign) (co : PlatformProductOrder),
     campaignAt db cid c co ->
     (order_status co < orderStatus OnGoing)%Q ->
     CampaignOrderStatus.blank (instructions c) = false ->
     startedTwice (CampaignOrderStatus.startCampaign instructions cid) db (order_id co)) /\
  (forall (instructionsDescription : Survey -> option string)
          (sid : Z) (s : Survey) (so : PlatformProductOrder),
     surveyAt db sid s so ->
     (order_status so < orderStatus OnGoing)%Q ->
     CampaignOrderStatus.blank (instructionsDescription s) = false ->
     startedTwice (SurveyOrderStatus.startSurvey instructionsDescription sid) db (order_id so)).
Proof.
split.
- intros instructions cid c co Hc Hl Hi. now apply campaign_startedTwice with (c := c).
- intros instructions sid s so Hs Hl Hi. now apply survey_startedTwice with (c := s).
Qed.


(** X3.  Archiving is Forbidden, with nothing written, while the order is at
    or below OnGoing and when it is Archived already; above OnGoing and off
    Archived it succeeds, its one effect is that the order is Archived, and a
    second archive is Forbidden. *)
Theorem X3_archive_guards `{D : Declarations} (db : Db) :
  (forall (cid : Z) (c : Campaign) (co : PlatformProductOrder),
     campaignAt db cid c co ->
     archiveGuards (CampaignOrderStatus.archiveCampaign cid) db
       (order_id co) (order_status co)) /\
  (forall (sid : Z) (s : Survey) (so : PlatformProductOrder),
     surveyAt db sid s so ->
     archiveGuards (SurveyOrderStatus.archiveSurvey sid) db
       (order_id so) (order_status so)).
Proof.
split.
- intros cid c co Hc. now apply campaign_archiveGuards with (c := c).
- intros sid s so Hs. now apply survey_archiveGuards with (c := s).
Qed.

(** X4.  When Finished is not below OnGoing: finishing a campaign or a survey
    whose order is off OnGoing fails with Forbidden "can't be stopped as it is
    not started" in every world (also when the order is Finished or Archived),
    leaving the world as it was; and no call, in no world, fails with "can't
    be stopped as it is already finished". *)
Theorem X4_finish_guards `{D : Declarations} (db : Db) :
  ~ (orderStatus Finished < orderStatus OnGoing)%Q ->
  (forall (cid : Z) (c : Campaign) (co : PlatformProductOrder),
     campaignAt db cid c co ->
     finishGuards (CampaignService.finishCampaign cid) db (order_status co)
       "Campaign can't be stopped as it is not started"
       "Campaign can't be stopped as it is already finished") /\
  (forall (sid : Z) (s : Survey) (so : PlatformProductOrder),
     surveyAt db sid s so ->
     finishGuards (SurveysService.finishSurvey sid) db (order_status so)
       "Survey can't be stopped as it is not started"
       "Survey can't be stopped as it is already finished").
Proof.
intros Hord. split.
- intros cid c co Hc. now apply campaign_finishGuards with (c := c).
- intros sid s so Hs. now apply survey_finishGuards with (c := s).
Qed.

(** X1, at campaign 7 in a database whose only order is order 70, in
    preparation: the start leaves the order on-going (value 1) and the
    second start is refused; and at survey 9 where the only order is 90. *)
Lemma X1_witness :
  let D := specDeclarations in
  let dbc := withOrders (Example.base [Example.row 1 70 1 Approved])
               [ {| order_id := 70; order_status := 0%Q |} ] in
  let dbs := withOrders (Example.base [Example.row 1 90 1 Approved])
               [ {| order_id := 90; order_status := 0%Q |} ] in
  (exists r,
     CampaignOrderStatus.startCampaign (fun _ => Some "two posts") 7 (quiet dbc)
     = (quiet (withOrders (Example.base [Example.row 1 70 1 Approved])
                 [ {| order_id := 70; order_status := 1%Q |} ]), Ok r) /\
     refuses (CampaignOrderStatus.startCampaign (fun _ => Some "two posts") 7)
       (withOrders (Example.base [Example.row 1 70 1 Approved])
          [ {| order_id := 70; order_status := 1%Q |} ])) /\
  (exists r,
     SurveyOrderStatus.startSurvey (fun _ => Some "answer all") 9 (quiet dbs)
     = (quiet (withOrders (Example.base [Example.row 1 90 1 Approved])
                 [ {| order_id := 90; order_status := 1%Q |} ]), Ok r) /\
     refuses (SurveyOrderStatus.startSurvey (fun _ => Some "answer all") 9)
       (withOrders (Example.base [Example.row 1 90 1 Approved])
          [ {| order_id := 90; order_status := 1%Q |} ])).
Proof.
cbv zeta. split.
- destruct (proj1 (@X1_start_only_once specDeclarations
              (withOrders (Example.base [Example.row 1 70 1 Approved])
                 [ {| order_id := 70; order_status := 0%Q |} ]))
            (fun _ => Some "two posts")
            7 {| campaign_id := 7; campaign_platformProductOrderId := 70; postType := Some 0 |}
            {| order_id := 70; order_status := 0%Q |})
    as (r & db1 & Hr & -> & Hagain).
  + split; reflexivity.
  + reflexivity.
  + reflexivity.
  + exists r. split; [exact Hr|exact Hagain].
- destruct (proj2 (@X1_start_only_once specDeclarations
              (withOrders (Example.base [Example.row 1 90 1 Approved])
                 [ {| order_id := 90; order_status := 0%Q |} ]))
            (fun _ => Some "answer all")
            9 {| survey_id := 9; survey_platformProductOrderId := 90; surveyType := Some 0 |}
            {| order_id := 90; order_status := 0%Q |})
    as (r & db1 & Hr & -> & Hagain).
  + split; reflexivity.
  + reflexivity.
  + reflexivity.
  + exists r. split; [exact Hr|exact Hagain].
Defined.


(** X3, at campaign 7 in a database whose only order is order 70, Finished:
    the archive leaves the order Archived (value 3); and at survey 9 where
    the only order is 90, on-going: the archive is forbidden. *)
Lemma X3_witness :
  let D := specDeclarations in
  (exists r,
     CampaignOrderStatus.archiveCampaign 7
       (quiet (withOrders (Example.base [Example.row 1 70 1 Approved])
                 [ {| order_id := 70; order_status := 2%Q |} ]))
     = (quiet (withOrders (Example.base [Example.row 1 70 1 Approved])
                 [ {| order_id := 70; order_status := 3%Q |} ]), Ok r)) /\
  forbids (SurveyOrderStatus.archiveSurvey 9)
    (withOrders (Example.base [Example.row 1 90 1 Approved])
       [ {| order_id := 90; order_status := 1%Q |} ]).
Proof.
cbv zeta. split.
- destruct (proj1 (@X3_archive_guards specDeclarations
              (withOrders (Example.base [Example.row 1 70 1 Approved])
                 [ {| order_id := 70; order_status := 2%Q |} ]))
            7 {| campaign_id := 7; campaign_platformProductOrderId := 70; postType := Some 0 |}
            {| order_id := 70; order_status := 2%Q |})
    as (_ & _ & Hrun).
  + split; reflexivity.
  + destruct Hrun as (r & db1 & Hr & -> & _).
    * reflexivity.
    * intros H. vm_compute in H. discriminate H.
    * exists r. exact Hr.
- destruct (proj2 (@X3_archive_guards specDeclarations
              (withOrders (Example.base [Example.row 1 90 1 Approved])
                 [ {| order_id := 90; order_status := 1%Q |} ]))
            9 {| survey_id := 9; survey_platformProductOrderId := 90; surveyType := Some 0 |}
            {| order_id := 90; order_status := 1%Q |})
    as (Hearly & _).
  + split; reflexivity.
  + apply Hearly. cbn. apply Qle_refl.
Defined.

(** X4, at campaign 7 in a database whose only order is order 70, Finished,
    and at survey 9 where the only order is 90, in preparation: the finish
    fails with the text of an order that has not started. *)
Lemma X4_witness :
  let D := specDeclarations in
  let dbc := withOrders (Example.base [Example.row 1 70 1 Approved])
               [ {| order_id := 70; order_status := 2%Q |} ] in
  let dbs := withOrders (Example.base [Example.row 1 90 1 Approved])
               [ {| order_id := 90; order_status := 0%Q |} ] in
  CampaignService.finishCampaign 7 (quiet dbc)
  = (quiet dbc, Throw (ForbiddenApplicationException
                         "Campaign can't be stopped as it is not started")) /\
  SurveysService.finishSurvey 9 (quiet dbs)
  = (quiet dbs, Throw (ForbiddenApplicationException
                         "Survey can't be stopped as it is not started")).
Proof.
cbv zeta.
assert (Hord : ~ (@orderStatus specDeclarations Finished
                  < @orderStatus specDeclarations OnGoing)%Q)
  by (intros H; vm_compute in H; discriminate H).
split.
- destruct (proj1 (@X4_finish_guards specDeclarations
              (withOrders (Example.base [Example.row 1 70 1 Approved])
                 [ {| order_id := 70; order_status := 2%Q |} ]) Hord)
            7 {| campaign_id := 7; campaign_platformProductOrderId := 70; postType := Some 0 |}
            {| order_id := 70; order_status := 2%Q |})
    as (Hoff & _).
  + split; reflexivity.
  + apply Hoff; [|reflexivity]. intros H. vm_compute in H. discriminate H.
- destruct (proj2 (@X4_finish_guards specDeclarations
              (withOrders (Example.base [Example.row 1 90 1 Approved])
                 [ {| order_id := 90; order_status := 0%Q |} ]) Hord)
            9 {| survey_id := 9; survey_platformProductOrderId := 90; surveyType := Some 0 |}
            {| order_id := 90; order_status := 0%Q |})
    as (Hoff & _).
  + split; reflexivity.
  + apply Hoff; [|reflexivity]. intros H. vm_compute in H. discriminate H.
Defined.

(** ** Batches of updates by primary key *)

Lemma find_map_poi (f : PlatformProductOrderInfluencer -> PlatformProductOrderInfluencer)
    id rows :
  (forall x, poi_id (f x) = poi_id x) ->
  find (fun x => poi_id x =? id) (map f rows)
  = option_map f (find (fun x => poi_id x =? id) rows).
Proof.
intros H. induction rows as [|a rows IH]; [reflexivity|].
cbn [map find]. rewrite H. destruct (poi_id a =? id); [reflexivity|exact IH].
Qed.

Lemma update_found db id s r :
  find (fun x => poi_id x =? id) (platformProductOrderInfluencers db) = Some r ->
  Prisma.platformProductOrderInfluencer_update Prisma.prismaService id s (quiet db)
  = (quiet (setStatus db id s), Ok (withStatus r s)).
Proof.
intros H. unfold Prisma.platformProductOrderInfluencer_update. rewrite write_quiet.
unfold Prisma.updateStatus. cbv zeta. rewrite H. reflexivity.
Qed.

Lemma promiseAll_updates s ids :
  forall rs db,
    Forall2 (fun id r =>
               find (fun x => poi_id x =? id) (platformProductOrderInfluencers db) = Some r)
            ids rs ->
    promiseAll
      (map (fun id => Prisma.platformProductOrderInfluencer_update Prisma.prismaService id s)
           ids) (quiet db)
    = (quiet (withParticipants db
                (map (fun x => if inIds (poi_id x) ids then withStatus x s else x)
                     (platformProductOrderInfluencers db))),
       Ok (map (fun r => withStatus r s) rs)).
Proof.
induction ids as [|id ids IH]; intros rs db H; inversion H as [|? r ? rs' Hr Hrest]; subst.
- cbn [map promiseAll inIds existsb]. rewrite map_id, withParticipants_same. reflexivity.
- cbn [map promiseAll]. rewrite (update_found db id s r Hr).
  set (f1 := fun x => if poi_id x =? id then withStatus x s else x).
  assert (Hf1 : forall x, poi_id (f1 x) = poi_id x).
  { intros x. unfold f1. now destruct (poi_id x =? id). }
  rewrite (IH (map f1 rs') (setStatus db id s)).
  + f_equal.
    * f_equal. unfold setStatus.
      cbn [platformProductOrderInfluencers withParticipants].
      change (withParticipants (withParticipants db ?l) ?l') with (withParticipants db l').
      f_equal. rewrite map_map. apply map_ext. intros x.
      fold (f1 x). rewrite Hf1. unfold inIds. cbn [existsb]. fold (inIds (poi_id x) ids).
      unfold f1. destruct (poi_id x =? id); cbn [orb]; [|reflexivity].
      now destruct (inIds (poi_id x) ids).
    * f_equal. f_equal. rewrite map_map. apply map_ext. intros x.
      unfold f1. now destruct (poi_id x =? id).
  + unfold setStatus. cbn [platformProductOrderInfluencers withParticipants].
    fold f1. clear -Hrest Hf1. induction Hrest as [|id' r' ids' rs' H1 _ IH'];
      constructor; [|exact IH'].
    rewrite (find_map_poi f1 id' _ Hf1), H1. reflexivity.
Qed.

Lemma find_by_key rows r :
  NoDup (map poi_id rows) -> In r rows ->
  find (fun x => poi_id x =? poi_id r) rows = Some r.
Proof.
induction rows as [|a rows IH]; intros Hnd Hin; [contradiction|].
cbn [map] in Hnd. inversion Hnd as [|? ? Hnot Hnd']; subst. cbn [find].
destruct Hin as [->|Hin].
- now rewrite Z.eqb_refl.
- destruct (poi_id a =? poi_id r) eqn:E.
  + apply Z.eqb_eq in E. elim Hnot. rewrite E. now apply in_map.
  + now apply IH.
Qed.

Lemma inIds_In x ids : inIds x ids = true -> In x ids.
Proof.
unfold inIds. intros H. apply existsb_exists in H. destruct H as [y [Hy E]].
apply Z.eqb_eq in E. now subst.
Qed.

Lemma inIds_filter rows (sel : PlatformProductOrderInfluencer -> bool) x :
  NoDup (map poi_id rows) -> In x rows ->
  inIds (poi_id x) (map poi_id (filter sel rows)) = sel x.
Proof.
intros Hnd Hin. destruct (sel x) eqn:E.
- apply inIds_true. apply in_map. apply filter_In. now split.
- apply not_true_is_false. intros H. apply inIds_In in H.
  apply in_map_iff in H. destruct H as [z [Hz Hin']].
  apply filter_In in Hin'. destruct Hin' as [Hzin Hsel].
  pose proof (find_by_key rows x Hnd Hin) as Fx.
  pose proof (find_by_key rows z Hnd Hzin) as Fz.
  rewrite Hz, Fx in Fz. injection Fz as ->. congruence.
Qed.

Lemma batch_by_key db (sel : PlatformProductOrderInfluencer -> bool) s :
  NoDup (map poi_id (platformProductOrderInfluencers db)) ->
  promiseAll
    (map (fun id => Prisma.platformProductOrderInfluencer_update Prisma.prismaService id s)
         (map poi_id (filter sel (platformProductOrderInfluencers db)))) (quiet db)
  = (quiet (withParticipants db
              (map (fun x => if sel x then withStatus x s else x)
                   (platformProductOrderInfluencers db))),
     Ok (map (fun x => withStatus x s) (filter sel (platformProductOrderInfluencers db)))).
Proof.
intros Hnd.
rewrite (promiseAll_updates s _ (filter sel (platformProductOrderInfluencers db)) db).
- f_equal. f_equal. f_equal. apply map_ext_in. intros x Hx.
  now rewrite (inIds_filter _ sel x Hnd Hx).
- assert (Hall : forall r, In r (filter sel (platformProductOrderInfluencers db)) ->
                           In r (platformProductOrderInfluencers db)).
  { intros r Hr. apply filter_In in Hr. tauto. }
  induction (filter sel (platformProductOrderInfluencers db)) as [|r l IH]; constructor.
  + apply find_by_key; [exact Hnd|]. apply Hall. now left.
  + apply IH. intros r' Hr'. apply Hall. now right.
Qed.

Lemma named_fst db orderId key ids :
  map fst (named db orderId key ids)
  = filter (namedBy db orderId key ids) (platformProductOrderInfluencers db).
Proof.
unfold named, Prisma.influencersOfOrder, namedBy.
induction (platformProductOrderInfluencers db) as [|r rows IH]; [reflexivity|].
cbn [flat_map filter]. rewrite map_app, IH.
destruct (productOrderId r =? orderId); cbn [andb]; [|reflexivity].
destruct (find (fun i => influencer_id i =? influencerId r) (influencers db)) as [i|];
  [|reflexivity].
now destruct (inIds (key i) ids).
Qed.

Lemma named_updates db orderId key ids s :
  NoDup (map poi_id (platformProductOrderInfluencers db)) ->
  batch (promiseAll
           (map (fun ci : PlatformProductOrderInfluencer * Influencer =>
                   Prisma.platformProductOrderInfluencer_update Prisma.prismaService
                     (poi_id (fst ci)) s)
                (named db orderId key ids)))
        db (namedBy db orderId key ids) s.
Proof.
intros Hnd. unfold batch.
rewrite <- (batch_by_key db (namedBy db orderId key ids) s Hnd).
rewrite <- named_fst, !map_map. reflexivity.
Qed.

Lemma named_valid db orderId key ids (ok : number -> bool) :
  (forall r, In r (platformProductOrderInfluencers db) ->
             namedBy db orderId key ids r = true -> ok (status r) = true) ->
  filter (fun ci : PlatformProductOrderInfluencer * Influencer => negb (ok (status (fst ci))))
         (named db orderId key ids) = [].
Proof.
intros H. apply nonEmpty_filter_nil. intros ci Hci.
assert (Hin : In (fst ci) (map fst (named db orderId key ids))) by now apply in_map.
rewrite named_fst in Hin. apply filter_In in Hin. destruct Hin as [Hin Hsel].
now rewrite (H _ Hin Hsel).
Qed.

Lemma named_in db orderId key ids r i :
  In (r, i) (named db orderId key ids) ->
  In r (platformProductOrderInfluencers db) /\
  productOrderId r = orderId /\
  find (fun i => influencer_id i =? influencerId r) (influencers db) = Some i /\
  inIds (key i) ids = true.
Proof.
unfold named, Prisma.influencersOfOrder. intros H. apply in_flat_map in H.
destruct H as [x [Hx H]].
destruct (productOrderId x =? orderId) eqn:E1; [|contradiction].
destruct (find (fun i0 => influencer_id i0 =? influencerId x) (influencers db)) as [j|] eqn:E2;
  [|contradiction].
destruct (inIds (key j) ids) eqn:E3; [|contradiction].
destruct H as [H|[]]. injection H as <- <-.
apply Z.eqb_eq in E1. now repeat split.
Qed.

Lemma none_missing db orderId key ids :
  (forall a, In a ids -> takesPartAs db orderId key a) ->
  filter (fun a => negb (existsb (fun ci : PlatformProductOrderInfluencer * Influencer =>
                                    key (snd ci) =? a)
                                 (named db orderId key ids))) ids = [].
Proof.
intros H. apply nonEmpty_filter_nil. intros a Ha.
destruct (H a Ha) as [r [i [Hin [Ho [Hf Hk]]]]].
apply negb_false_iff. apply existsb_exists. exists (r, i). split.
- apply in_named; try assumption. rewrite Hk. now apply inIds_true.
- cbn [snd]. now apply Z.eqb_eq.
Qed.

Lemma some_missing db orderId key ids a :
  In a ids -> ~ takesPartAs db orderId key a ->
  nonEmpty (filter (fun a => negb (existsb (fun ci : PlatformProductOrderInfluencer * Influencer =>
                                              key (snd ci) =? a)
                                           (named db orderId key ids))) ids) = true.
Proof.
intros Ha Hno. apply nonEmpty_filter_in with (x := a); [exact Ha|].
apply negb_true_iff. apply not_true_is_false. intros H.
apply existsb_exists in H. destruct H as [[r i] [Hin E]]. cbn [snd] in E.
apply Z.eqb_eq in E. apply named_in in Hin. destruct Hin as [Hr [Ho [Hf _]]].
apply Hno. now exists r, i.
Qed.

Lemma missing_refuses {A X} (missing : list Z) (invalid : list X)
    (m1 m2 : string) (k : M A) (db : Db) :
  nonEmpty missing = true ->
  (if nonEmpty missing then throw (BadRequestApplicationException m1)
   else if nonEmpty invalid then throw (BadRequestApplicationException m2)
   else k) (quiet db)
  = (quiet db, Throw (BadRequestApplicationException m1)).
Proof. intros ->. reflexivity. Qed.

Lemma namedBy_id db orderId ids r :
  (forall a, In a ids -> takesPartAs db orderId influencer_id a) ->
  namedBy db orderId influencer_id ids r = namedRow orderId ids r.
Proof.
intros H. unfold namedBy, namedRow.
destruct (productOrderId r =? orderId); cbn [andb]; [|reflexivity].
destruct (find (fun i => influencer_id i =? influencerId r) (influencers db)) as [i|] eqn:E.
- apply find_some in E. destruct E as [_ E]. apply Z.eqb_eq in E. now rewrite E.
- symmetry. apply not_true_is_false. intros Hin. apply inIds_In in Hin.
  destruct (H _ Hin) as [r' [i' [_ [_ [Hf Hk]]]]].
  apply find_some in Hf. destruct Hf as [Hi' Hf]. apply Z.eqb_eq in Hf.
  pose proof (find_none _ _ E i' Hi') as Hn. cbn in Hn.
  rewrite Hk in Hn. now rewrite Z.eqb_refl in Hn.
Qed.

Section Batches.
Context `{D : Declarations}.
Variables (db : Db) (ids : list Z).
Hypothesis keys : NoDup (map poi_id (platformProductOrderInfluencers db)).

Lemma campaign_invite_batch cid c o :
  campaignAt db cid c o ->
  (forall a, In a ids -> takesPartAs db (order_id o) influencer_id a) ->
  (forall r, In r (platformProductOrderInfluencers db) ->
     namedRow (order_id o) ids r = true ->
     (status r == influencerStatus Added)%Q \/ (status r == influencerStatus Invited)%Q) ->
  batch (CampaignService.inviteInfluencers cid ids) db
    (namedRow (order_id o) ids) (influencerStatus Invited).
Proof.
intros Hc Hall Hst. unfold batch, CampaignService.inviteInfluencers.
rewrite (campaign_prefix cid c o) by assumption.
rewrite bind_query. cbn [committed quiet].
change (Prisma.influencersOfOrder db (order_id o) (fun i0 => inIds (influencer_id i0) ids))
  with (named db (order_id o) influencer_id ids).
rewrite (none_missing db (order_id o) influencer_id ids Hall).
rewrite (named_valid db (order_id o) influencer_id ids
           (includes [influencerStatus Added; influencerStatus Invited])).
2:{ intros r Hr Hn. apply invitable_status. apply Hst; [exact Hr|].
    now rewrite <- (namedBy_id db (order_id o) ids r Hall). }
rewrite validation_passes.
rewrite (named_updates db (order_id o) influencer_id ids (influencerStatus Invited) keys).
f_equal; [f_equal; f_equal; apply map_ext|f_equal; f_equal; apply filter_ext];
  intros r; now rewrite (namedBy_id db (order_id o) ids r Hall).
Qed.

Lemma survey_invite_batch sid s o :
  surveyAt db sid s o ->
  (forall a, In a ids -> takesPartAs db (order_id o) influencer_id a) ->
  (forall r, In r (platformProductOrderInfluencers db) ->
     namedRow (order_id o) ids r = true ->
     (status r == influencerStatus Added)%Q \/ (status r == influencerStatus Invited)%Q) ->
  batch (SurveysService.inviteInfluencers sid ids) db
    (namedRow (order_id o) ids) (influencerStatus Invited).
Proof.
intros Hc Hall Hst. unfold batch, SurveysService.inviteInfluencers.
rewrite (survey_prefix sid s o) by assumption.
rewrite bind_query. cbn [committed quiet].
change (Prisma.influencersOfOrder db (order_id o) (fun i0 => inIds (influencer_id i0) ids))
  with (named db (order_id o) influencer_id ids).
rewrite (none_missing db (order_id o) influencer_id ids Hall).
rewrite (named_valid db (order_id o) influencer_id ids
           (includes [influencerStatus Added; influencerStatus Invited])).
2:{ intros r Hr Hn. apply invitable_status. apply Hst; [exact Hr|].
    now rewrite <- (namedBy_id db (order_id o) ids r Hall). }
rewrite validation_passes.
rewrite (named_updates db (order_id o) influencer_id ids (influencerStatus Invited) keys).
f_equal; [f_equal; f_equal; apply map_ext|f_equal; f_equal; apply filter_ext];
  intros r; now rewrite (namedBy_id db (order_id o) ids r Hall).
Qed.

Lemma campaign_confirmMatch_batch cid c o :
  campaignAt db cid c o ->
  (forall a, In a ids -> takesPartAs db (order_id o) influencer_userId a) ->
  (forall r, In r (platformProductOrderInfluencers db) ->
     namedBy db (order_id o) influencer_userId ids r = true ->
     (status r == influencerStatus Matching)%Q) ->
  batch (CampaignService.confirmMatch cid ids) db
    (namedBy db (order_id o) influencer_userId ids) (influencerStatus ToBeSubmitted).
Proof.
intros Hc Hall Hst. unfold batch, CampaignService.confirmMatch.
rewrite (campaign_prefix cid c o) by assumption.
rewrite bind_query. cbn [committed quiet].
change (Prisma.influencersOfOrder db (order_id o) (fun i0 => inIds (influencer_userId i0) ids))
  with (named db (order_id o) influencer_userId ids).
rewrite (none_missing db (order_id o) influencer_userId ids Hall).
rewrite (named_valid db (order_id o) influencer_userId ids
           (fun v => strictEq v (influencerStatus Matching))).
2:{ intros r Hr Hn. apply strictEq_true. now apply Hst. }
rewrite validation_passes.
exact (named_updates db (order_id o) influencer_userId ids (influencerStatus ToBeSubmitted) keys).
Qed.

End Batches.

Section Missing.
Context `{D : Declarations}.
Variables (db : Db) (ids : list Z) (a : Z).
Hypothesis named_ : In a ids.

Lemma campaign_invite_missing cid c o :
  campaignAt db cid c o ->
  ~ takesPartAs db (order_id o) influencer_id a ->
  refuses (CampaignService.inviteInfluencers cid ids) db.
Proof.
intros Hc Hno. unfold refuses, CampaignService.inviteInfluencers.
rewrite (campaign_prefix cid c o) by assumption.
rewrite bind_query. cbn [committed quiet].
eexists. apply missing_refuses.
exact (some_missing db (order_id o) influencer_id ids a named_ Hno).
Qed.

Lemma survey_invite_missing sid s o :
  surveyAt db sid s o ->
  ~ takesPartAs db (order_id o) influencer_id a ->
  refuses (SurveysService.inviteInfluencers sid ids) db.
Proof.
intros Hc Hno. unfold refuses, SurveysService.inviteInfluencers.
rewrite (survey_prefix sid s o) by assumption.
rewrite bind_query. cbn [committed quiet].
eexists. apply missing_refuses.
exact (some_missing db (order_id o) influencer_id ids a named_ Hno).
Qed.

Lemma campaign_confirmMatch_missing cid c o :
  campaignAt db cid c o ->
  ~ takesPartAs db (order_id o) influencer_userId a ->
  refuses (CampaignService.confirmMatch cid ids) db.
Proof.
intros Hc Hno. unfold refuses, CampaignService.confirmMatch.
rewrite (campaign_prefix cid c o) by assumption.
rewrite bind_query. cbn [committed quiet].
eexists. apply missing_refuses.
exact (some_missing db (order_id o) influencer_userId ids a named_ Hno).
Qed.

End Missing.

(** X5.  [inviteInfluencers] on a list of influencer ids: when primary keys
    are unique, every id has a registered influencer with a record in the
    order, and every record of the order of a named influencer is Added or
    Invited, the call succeeds; exactly the records of the order that belong
    to the named influencers carry Invited afterwards, every other record is
    as before, and the call returns those records, in table order. *)
Theorem X5_inviteInfluencers_batch `{D : Declarations} (db : Db) (ids : list Z) :
  NoDup (map poi_id (platformProductOrderInfluencers db)) ->
  (forall (cid : Z) (c : Campaign) (co : PlatformProductOrder),
     campaignAt db cid c co ->
     (forall a, In a ids -> takesPartAs db (order_id co) influencer_id a) ->
     (forall r, In r (platformProductOrderInfluencers db) ->
        namedRow (order_id co) ids r = true ->
        (status r == influencerStatus Added)%Q \/ (status r == influencerStatus Invited)%Q) ->
     batch (CampaignService.inviteInfluencers cid ids) db
       (namedRow (order_id co) ids) (influencerStatus Invited)) /\
  (forall (sid : Z) (s : Survey) (so : PlatformProductOrder),
     surveyAt db sid s so ->
     (forall a, In a ids -> takesPartAs db (order_id so) influencer_id a) ->
     (forall r, In r (platformProductOrderInfluencers db) ->
        namedRow (order_id so) ids r = true ->
        (status r == influencerStatus Added)%Q \/ (status r == influencerStatus Invited)%Q) ->
     batch (SurveysService.inviteInfluencers sid ids) db
       (namedRow (order_id so) ids) (influencerStatus Invited)).
Proof.
intros Hnd. split.
- intros cid c co Hc Ha Hst. now apply campaign_invite_batch with (c := c).
- intros sid s so Hs Ha Hst. now apply survey_invite_batch with (s := s).
Qed.

(** X5, at campaign 7 with the influencers 1, 2 (named) and 3, and a record
    of influencer 1 in another order, in a database where no survey has a
    participant: the records of the influencers 1 and 2 in order 70 end at
    Invited (value 1) and are returned, the others stay; and at survey 9
    with influencer 1 named and influencer 2 not. *)
Lemma X5_witness :
  let D := specDeclarations in
  CampaignService.inviteInfluencers 7 [1; 2]
    (quiet (Example.base
       [Example.row 1 70 1 Added; Example.row 2 70 2 Invited; Example.row 3 70 3 Approved;
        Example.row 4 80 1 Added]))
  = (quiet (Example.base
       [ {| poi_id := 1; productOrderId := 70; influencerId := 1;
            agreedAmount := 100%Q; currency := 1; status := 1%Q |};
         {| poi_id := 2; productOrderId := 70; influencerId := 2;
            agreedAmount := 100%Q; currency := 1; status := 1%Q |};
         {| poi_id := 3; productOrderId := 70; influencerId := 3;
            agreedAmount := 100%Q; currency := 1; status := 5%Q |};
         {| poi_id := 4; productOrderId := 80; influencerId := 1;
            agreedAmount := 100%Q; currency := 1; status := 0%Q |} ]),
     Ok [ {| poi_id := 1; productOrderId := 70; influencerId := 1;
             agreedAmount := 100%Q; currency := 1; status := 1%Q |};
          {| poi_id := 2; productOrderId := 70; influencerId := 2;
             agreedAmount := 100%Q; currency := 1; status := 1%Q |} ]) /\
  SurveysService.inviteInfluencers 9 [1]
    (quiet (Example.base [Example.row 4 90 1 Added; Example.row 5 90 2 Matching]))
  = (quiet (Example.base
       [ {| poi_id := 4; productOrderId := 90; influencerId := 1;
            agreedAmount := 100%Q; currency := 1; status := 1%Q |};
         {| poi_id := 5; productOrderId := 90; influencerId := 2;
            agreedAmount := 100%Q; currency := 1; status := 2%Q |} ]),
     Ok [ {| poi_id := 4; productOrderId := 90; influencerId := 1;
             agreedAmount := 100%Q; currency := 1; status := 1%Q |} ]).
Proof.
cbv zeta. split.
- apply (proj1 (@X5_inviteInfluencers_batch specDeclarations
    (Example.base
      [Example.row 1 70 1 Added; Example.row 2 70 2 Invited; Example.row 3 70 3 Approved;
       Example.row 4 80 1 Added])
    [1; 2] ltac:(repeat constructor; cbn; lia))
    7 {| campaign_id := 7; campaign_platformProductOrderId := 70; postType := Some 0 |}
    {| order_id := 70; order_status := 1%Q |}).
  + split; reflexivity.
  + intros a [<-|[<-|[]]].
    * exists (Example.row 1 70 1 Added), {| influencer_id := 1; influencer_userId := 11 |}.
      repeat split. now left.
    * exists (Example.row 2 70 2 Invited), {| influencer_id := 2; influencer_userId := 12 |}.
      repeat split. right. now left.
  + intros r Hin. cbn in Hin.
    repeat (destruct Hin as [<-|Hin]; [intros Hn; first [discriminate Hn | left; reflexivity | right; reflexivity]|]).
    contradiction.
- apply (proj2 (@X5_inviteInfluencers_batch specDeclarations
    (Example.base [Example.row 4 90 1 Added; Example.row 5 90 2 Matching])
    [1] ltac:(repeat constructor; cbn; lia))
    9 {| survey_id := 9; survey_platformProductOrderId := 90; surveyType := Some 0 |}
    {| order_id := 90; order_status := 1%Q |}).
  + split; reflexivity.
  + intros a [<-|[]].
    exists (Example.row 4 90 1 Added), {| influencer_id := 1; influencer_userId := 11 |}.
    repeat split. now left.
  + intros r Hin. cbn in Hin.
    repeat (destruct Hin as [<-|Hin]; [intros Hn; first [discriminate Hn | left; reflexivity | right; reflexivity]|]).
    contradiction.
Defined.

(** X6.  [confirmMatch] matches the ids it is given against the user id of
    the influencers.  When primary keys are unique, every id is the user id
    of a registered influencer with a record in the order, and every record
    of the order of a named user is Matching, the call succeeds; exactly
    those records carry ToBeSubmitted afterwards, every other record is as
    before, and the call returns those records, in table order. *)
Theorem X6_confirmMatch_batch `{D : Declarations}
    (db : Db) (cid : Z) (c : Campaign) (o : PlatformProductOrder) (userIds : list Z) :
  campaignAt db cid c o ->
  NoDup (map poi_id (platformProductOrderInfluencers db)) ->
  (forall a, In a userIds -> takesPartAs db (order_id o) influencer_userId a) ->
  (forall r, In r (platformProductOrderInfluencers db) ->
     namedBy db (order_id o) influencer_userId userIds r = true ->
     (status r == influencerStatus Matching)%Q) ->
  batch (CampaignService.confirmMatch cid userIds) db
    (namedBy db (order_id o) influencer_userId userIds) (influencerStatus ToBeSubmitted).
Proof.
intros Hc Hnd Hall Hst. now apply campaign_confirmMatch_batch with (c := c).
Qed.

(** X6, at campaign 7: the users 11 and 12 are the influencers 1 and 2. *)
Lemma X6_witness :
  let D := specDeclarations in
  let db := Example.base
    [Example.row 1 70 1 Matching; Example.row 2 70 2 Matching; Example.row 3 70 3 Invited;
     Example.row 4 90 1 Matching] in
  CampaignService.confirmMatch 7 [11; 12] (quiet db)
  = (quiet (Example.base
       [Example.row 1 70 1 ToBeSubmitted; Example.row 2 70 2 ToBeSubmitted;
        Example.row 3 70 3 Invited; Example.row 4 90 1 Matching]),
     Ok [Example.row 1 70 1 ToBeSubmitted; Example.row 2 70 2 ToBeSubmitted]).
Proof.
cbv zeta.
apply (@X6_confirmMatch_batch specDeclarations
  (Example.base
    [Example.row 1 70 1 Matching; Example.row 2 70 2 Matching; Example.row 3 70 3 Invited;
     Example.row 4 90 1 Matching])
  7 {| campaign_id := 7; campaign_platformProductOrderId := 70; postType := Some 0 |}
  {| order_id := 70; order_status := 1%Q |} [11; 12]).
- split; reflexivity.
- repeat constructor; cbn; lia.
- intros a [<-|[<-|[]]].
  + exists (Example.row 1 70 1 Matching), {| influencer_id := 1; influencer_userId := 11 |}.
    repeat split. now left.
  + exists (Example.row 2 70 2 Matching), {| influencer_id := 2; influencer_userId := 12 |}.
    repeat split. right. now left.
- intros r Hin. cbn in Hin.
  repeat (destruct Hin as [<-|Hin]; [intros Hn; first [discriminate Hn | reflexivity]|]).
  contradiction.
Defined.

(** X7.  One id that names no registered influencer with a record in the
    order blocks the whole batch: [inviteInfluencers] (ids are influencer
    ids) and [confirmMatch] (ids are user ids) are refused with BadRequest
    and change no record, whatever the other ids are. *)
Theorem X7_unknown_id_blocks_the_batch `{D : Declarations}
    (db : Db) (ids : list Z) (a : Z) :
  In a ids ->
  (forall (cid : Z) (c : Campaign) (co : PlatformProductOrder),
     campaignAt db cid c co ->
     (~ takesPartAs db (order_id co) influencer_id a ->
        refuses (CampaignService.inviteInfluencers cid ids) db) /\
     (~ takesPartAs db (order_id co) influencer_userId a ->
        refuses (CampaignService.confirmMatch cid ids) db)) /\
  (forall (sid : Z) (s : Survey) (so : PlatformProductOrder),
     surveyAt db sid s so ->
     ~ takesPartAs db (order_id so) influencer_id a ->
     refuses (SurveysService.inviteInfluencers sid ids) db).
Proof.
intros Ha. split.
- intros cid c co Hc. split; intros Hn.
  + now apply campaign_invite_missing with (a := a) (c := c) (o := co).
  + now apply campaign_confirmMatch_missing with (a := a) (c := c) (o := co).
- intros sid s so Hs Hn.
  now apply survey_invite_missing with (a := a) (s := s) (o := so).
Qed.

(** X7, at campaign 7 with the influencers 1 and 2 and no survey
    participant, and at survey 9 with influencer 1 and no campaign
    participant: 99 is no influencer and no user, and the batches that name
    it are refused. *)
Lemma X7_witness :
  let D := specDeclarations in
  (refuses (CampaignService.inviteInfluencers 7 [1; 99])
     (Example.base [Example.row 1 70 1 Added; Example.row 2 70 2 Matching]) /\
   refuses (CampaignService.confirmMatch 7 [1; 99])
     (Example.base [Example.row 1 70 1 Added; Example.row 2 70 2 Matching])) /\
  refuses (SurveysService.inviteInfluencers 9 [1; 99])
    (Example.base [Example.row 4 90 1 Added]).
Proof.
cbv zeta. split.
- destruct (proj1 (@X7_unknown_id_blocks_the_batch specDeclarations
              (Example.base [Example.row 1 70 1 Added; Example.row 2 70 2 Matching])
              [1; 99] 99 ltac:(right; now left))
            7 {| campaign_id := 7; campaign_platformProductOrderId := 70; postType := Some 0 |}
            {| order_id := 70; order_status := 1%Q |})
    as [Hinvite Hconfirm].
  + split; reflexivity.
  + split.
    * apply Hinvite.
      intros [r [i [Hin [Ho [Hf Hk]]]]]. cbn in Hin.
      repeat (destruct Hin as [<-|Hin];
              [try discriminate Ho; cbn in Hf; injection Hf as <-; discriminate Hk|]).
      contradiction.
    * apply Hconfirm.
      intros [r [i [Hin [Ho [Hf Hk]]]]]. cbn in Hin.
      repeat (destruct Hin as [<-|Hin];
              [try discriminate Ho; cbn in Hf; injection Hf as <-; discriminate Hk|]).
      contradiction.
- apply (proj2 (@X7_unknown_id_blocks_the_batch specDeclarations
              (Example.base [Example.row 4 90 1 Added])
              [1; 99] 99 ltac:(right; now left))
            9 {| survey_id := 9; survey_platformProductOrderId := 90; surveyType := Some 0 |}
            {| order_id := 90; order_status := 1%Q |}).
  + split; reflexivity.
  + intros [r [i [Hin [Ho [Hf Hk]]]]]. cbn in Hin.
    repeat (destruct Hin as [<-|Hin];
            [try discriminate Ho; cbn in Hf; injection Hf as <-; discriminate Hk|]).
    contradiction.
Defined.

(** ** Writes in one transaction *)

Lemma replay_snoc ws f db :
  Prisma.replay (ws ++ [f]) db = f (Prisma.replay ws db).
Proof. unfold Prisma.replay. now rewrite fold_left_app. Qed.

Lemma write_tx_step {A} (f : Db -> Result (Db * A)) w :
  let (w', r) := Prisma.write Prisma.tx f w in
  committed w' = committed w /\
  (rejections w = [] -> rejections w' = []) /\
  match r with
  | Ok a => exists d, f (Prisma.replay (pending w) (committed w)) = Ok (d, a) /\
                      Prisma.replay (pending w') (committed w') = d
  | Throw e => rejections w = [] ->
               f (Prisma.replay (pending w) (committed w)) = Throw e
  end.
Proof.
unfold Prisma.write, bind, Prisma.answer, throw.
destruct (rejections w) as [|[code|] rest] eqn:E; cbn [committed pending rejections].
- destruct (f (Prisma.replay (pending w) (committed w))) as [[d a]|e] eqn:F.
  + cbn [committed pending rejections]. rewrite E. repeat split.
    exists d. split; [reflexivity|]. rewrite replay_snoc. unfold Prisma.effect. now rewrite F.
  + repeat split; auto.
- repeat split; intros H; discriminate H.
- destruct (f (Prisma.replay (pending w) (committed w))) as [[d a]|e] eqn:F.
  + cbn [committed pending rejections]. repeat split; try (intros H; discriminate H).
    exists d. split; [reflexivity|]. rewrite replay_snoc. unfold Prisma.effect. now rewrite F.
  + cbn [committed pending rejections]. repeat split; intros H; discriminate H.
Qed.

Lemma traverse_tx {A} (f : Z -> Db -> Result (Db * A)) ids :
  forall w,
    let (w', r) := traverse (fun id => Prisma.write Prisma.tx (f id)) ids w in
    committed w' = committed w /\
    (rejections w = [] -> rejections w' = []) /\
    match r with
    | Ok rs => applyAll (map f ids) (Prisma.replay (pending w) (committed w))
               = Ok (Prisma.replay (pending w') (committed w'), rs)
    | Throw e => rejections w = [] ->
                 applyAll (map f ids) (Prisma.replay (pending w) (committed w)) = Throw e
    end.
Proof.
induction ids as [|id ids IH]; intros w.
- cbn. repeat split; auto.
- cbn [traverse map applyAll]. unfold bind at 1.
  pose proof (write_tx_step (f id) w) as H1.
  destruct (Prisma.write Prisma.tx (f id) w) as [w1 [a|e]].
  + destruct H1 as (Hc & Hr & d & Hf & Hd). rewrite Hf.
    unfold bind at 1. pose proof (IH w1) as H2.
    destruct (traverse (fun id0 => Prisma.write Prisma.tx (f id0)) ids w1) as [w2 [rs|e]];
      destruct H2 as (Hc2 & Hr2 & H2); rewrite Hd in H2.
    * cbn [ret]. repeat split; [congruence|auto|]. now rewrite H2.
    * repeat split; [congruence|auto|]. intros Hq. now rewrite (H2 (Hr Hq)).
  + destruct H1 as (Hc & Hr & H1). repeat split; [exact Hc|exact Hr|].
    intros Hq. now rewrite (H1 Hq).
Qed.

Lemma transaction_traverse_atomic {A} (f : Z -> Db -> Result (Db * A)) ids db script :
  let (w, r) := Prisma.transaction
                  (fun tx => traverse (fun id => Prisma.write tx (f id)) ids)
                  (scripted db script) in
  pending w = [] /\
  match r with
  | Throw _ => committed w = db
  | Ok rs => applyAll (map f ids) db = Ok (committed w, rs)
  end.
Proof.
unfold Prisma.transaction.
pose proof (traverse_tx f ids (scripted db script)) as H.
destruct (traverse (fun id => Prisma.write Prisma.tx (f id)) ids (scripted db script))
  as [w1 [rs|e]]; destruct H as (Hc & _ & H); cbn in Hc.
- cbn in H. unfold Prisma.answer.
  destruct (rejections w1) as [|[code|] rest]; cbn; split; auto.
- cbn. split; auto.
Qed.

Lemma transaction_traverse_quiet {A} (f : Z -> Db -> Result (Db * A)) ids db :
  Prisma.transaction (fun tx => traverse (fun id => Prisma.write tx (f id)) ids) (quiet db)
  = match applyAll (map f ids) db with
    | Ok (d, rs) => (quiet d, Ok rs)
    | Throw e => (quiet db, Throw e)
    end.
Proof.
unfold Prisma.transaction.
pose proof (traverse_tx f ids (quiet db)) as H.
destruct (traverse (fun id => Prisma.write Prisma.tx (f id)) ids (quiet db))
  as [w1 [rs|e]]; destruct H as (Hc & Hr & H); cbn in Hc, H; specialize (Hr eq_refl).
- rewrite H. unfold Prisma.answer. rewrite Hr. unfold Prisma.commit, quiet. now rewrite Hr.
- rewrite (H eq_refl). unfold Prisma.rollback, quiet. now rewrite Hc, Hr.
Qed.

Lemma updateStatus_found db id s r :
  find (fun x => poi_id x =? id) (platformProductOrderInfluencers db) = Some r ->
  Prisma.updateStatus id s db = Ok (setStatus db id s, withStatus r s).
Proof. intros H. unfold Prisma.updateStatus. cbv zeta. now rewrite H. Qed.

Lemma applyAll_updates s ids :
  forall rs db,
    Forall2 (fun id r =>
               find (fun x => poi_id x =? id) (platformProductOrderInfluencers db) = Some r)
            ids rs ->
    applyAll (map (fun id => Prisma.updateStatus id s) ids) db
    = Ok (withParticipants db
            (map (fun x => if inIds (poi_id x) ids then withStatus x s else x)
                 (platformProductOrderInfluencers db)),
          map (fun r => withStatus r s) rs).
Proof.
induction ids as [|id ids IH]; intros rs db H; inversion H as [|? r ? rs' Hr Hrest]; subst.
- cbn [map applyAll inIds existsb]. rewrite map_id, withParticipants_same. reflexivity.
- cbn [map applyAll]. rewrite (updateStatus_found db id s r Hr).
  set (f1 := fun x => if poi_id x =? id then withStatus x s else x).
  assert (Hf1 : forall x, poi_id (f1 x) = poi_id x).
  { intros x. unfold f1. now destruct (poi_id x =? id). }
  rewrite (IH (map f1 rs') (setStatus db id s)).
  + f_equal. f_equal.
    * unfold setStatus.
      cbn [platformProductOrderInfluencers withParticipants].
      change (withParticipants (withParticipants db ?l) ?l') with (withParticipants db l').
      f_equal. rewrite map_map. apply map_ext. intros x.
      fold (f1 x). rewrite Hf1. unfold inIds. cbn [existsb]. fold (inIds (poi_id x) ids).
      unfold f1. destruct (poi_id x =? id); cbn [orb]; [|reflexivity].
      now destruct (inIds (poi_id x) ids).
    * f_equal. rewrite map_map. apply map_ext. intros x.
      unfold f1. now destruct (poi_id x =? id).
  + unfold setStatus. cbn [platformProductOrderInfluencers withParticipants].
    fold f1. clear -Hrest Hf1. induction Hrest as [|id' r' ids' rs' H1 _ IH'];
      constructor; [|exact IH'].
    rewrite (find_map_poi f1 id' _ Hf1), H1. reflexivity.
Qed.

Lemma applyAll_by_key db (sel : PlatformProductOrderInfluencer -> bool) s :
  NoDup (map poi_id (platformProductOrderInfluencers db)) ->
  applyAll (map (fun id => Prisma.updateStatus id s)
                (map poi_id (filter sel (platformProductOrderInfluencers db)))) db
  = Ok (withParticipants db
          (map (fun x => if sel x then withStatus x s else x)
               (platformProductOrderInfluencers db)),
        map (fun x => withStatus x s) (filter sel (platformProductOrderInfluencers db))).
Proof.
intros Hnd.
rewrite (applyAll_updates s _ (filter sel (platformProductOrderInfluencers db)) db).
- f_equal. f_equal. f_equal. apply map_ext_in. intros x Hx.
  now rewrite (inIds_filter _ sel x Hnd Hx).
- assert (Hall : forall r, In r (filter sel (platformProductOrderInfluencers db)) ->
                           In r (platformProductOrderInfluencers db)).
  { intros r Hr. apply filter_In in Hr. tauto. }
  induction (filter sel (platformProductOrderInfluencers db)) as [|r l IH]; constructor.
  + apply find_by_key; [exact Hnd|]. apply Hall. now left.
  + apply IH. intros r' Hr'. apply Hall. now right.
Qed.

(** ** Payments *)

Lemma length_positive {A} (l : list A) :
  l <> [] -> (0 <? Z.of_nat (List.length l)) = true.
Proof.
intros H. destruct l as [|x l]; [congruence|]. apply Z.ltb_lt. cbn [List.length]. lia.
Qed.

Section Payments.
Context `{D : Declarations}.
Variables (db : Db) (dto : PlatformProductOrderPayments.ApprovePaymentsDto).

Local Abbreviation ids := (PlatformProductOrderPayments.paymentIds dto).
Local Abbreviation rows := (platformProductOrderInfluencers db).
Local Abbreviation existing :=
  (fun r : PlatformProductOrderInfluencer =>
     inIds (poi_id r) ids
     && includes [influencerStatus Declined; influencerStatus ToBePaid; influencerStatus Paid]
                 (status r)).

Lemma payments_missing :
  filter (fun id => negb (inIds id (map poi_id (filter existing rows)))) ids
  = notPayable db ids.
Proof.
unfold notPayable, payable. apply filter_ext_in. intros id Hid. f_equal.
apply Bool.eq_iff_eq_true. split; intros H.
- apply inIds_In in H. apply in_map_iff in H. destruct H as [r [Hr Hin]].
  apply filter_In in Hin. destruct Hin as [Hin Hsel].
  apply andb_true_iff in Hsel. destruct Hsel as [_ Hpay].
  apply existsb_exists. exists r. split; [exact Hin|].
  apply andb_true_iff. split; [now apply Z.eqb_eq|exact Hpay].
- apply existsb_exists in H. destruct H as [r [Hin Hr]].
  apply andb_true_iff in Hr. destruct Hr as [Hk Hpay]. apply Z.eqb_eq in Hk.
  apply inIds_true. rewrite <- Hk. apply in_map. apply filter_In. split; [exact Hin|].
  apply andb_true_iff. split; [|exact Hpay]. rewrite Hk. now apply inIds_true.
Qed.

Lemma payments_conflict w :
  committed w = db ->
  notPayable db ids <> [] ->
  PlatformProductOrderPayments.updatePlatformProductPayments dto w
  = (w, Throw (ConflictException
                 ("Payment with id " ++ join (map jsNumber (notPayable db ids))
                    ++ " does not exist"))).
Proof.
intros Hw Hne. unfold PlatformProductOrderPayments.updatePlatformProductPayments, catch.
rewrite bind_query. rewrite Hw. cbv zeta.
rewrite payments_missing, (length_positive _ Hne). reflexivity.
Qed.

Lemma payments_existing r :
  NoDup (map poi_id rows) -> notPayable db ids = [] ->
  In r rows -> existing r = inIds (poi_id r) ids.
Proof.
intros Hnd Hnone Hin. cbv beta. destruct (inIds (poi_id r) ids) eqn:E; [|reflexivity].
cbn [andb]. apply inIds_In in E.
assert (H : negb (existsb (fun x => (poi_id x =? poi_id r) && payable (status x)) rows)
            = false).
{ apply not_true_is_false. intros H.
  assert (Hin' : In (poi_id r) (notPayable db ids)).
  { unfold notPayable. apply filter_In. now split. }
  rewrite Hnone in Hin'. contradiction. }
unfold payable in H.
apply negb_false_iff in H. apply existsb_exists in H. destruct H as [x [Hx Hp]].
apply andb_true_iff in Hp. destruct Hp as [Hk Hp]. apply Z.eqb_eq in Hk.
pose proof (find_by_key rows r Hnd Hin) as Fr.
pose proof (find_by_key rows x Hnd Hx) as Fx.
rewrite Hk, Fr in Fx. injection Fx as ->. exact Hp.
Qed.

Lemma payments_run :
  NoDup (map poi_id rows) -> notPayable db ids = [] ->
  batch (PlatformProductOrderPayments.updatePlatformProductPayments dto) db
    (fun r => inIds (poi_id r) ids) (PlatformProductOrderPayments.dto_status dto).
Proof.
intros Hnd Hnone. unfold batch.
unfold PlatformProductOrderPayments.updatePlatformProductPayments, catch.
rewrite bind_query. cbn [committed quiet]. cbv zeta.
rewrite payments_missing, Hnone. cbn [List.length Z.of_nat Z.ltb Z.compare].
unfold Prisma.platformProductOrderInfluencer_update.
rewrite (transaction_traverse_quiet
           (fun id => Prisma.updateStatus id (PlatformProductOrderPayments.dto_status dto))).
rewrite (applyAll_by_key db existing _ Hnd).
f_equal; [f_equal; f_equal; apply map_ext_in|f_equal; f_equal; apply filter_ext_in];
  intros r Hr; pose proof (payments_existing r Hnd Hnone Hr) as Er;
  cbv beta in Er |- *; now rewrite Er.
Qed.

Lemma payments_atomic script :
  NoDup (map poi_id rows) -> notPayable db ids = [] ->
  let (w, r) := PlatformProductOrderPayments.updatePlatformProductPayments dto
                  (scripted db script) in
  allOrNothing db w r
    (fun db' => db' = withParticipants db
                        (map (fun x => if inIds (poi_id x) ids
                                       then withStatus x (PlatformProductOrderPayments.dto_status dto)
                                       else x) rows)).
Proof.
intros Hnd Hnone.
unfold PlatformProductOrderPayments.updatePlatformProductPayments, catch.
rewrite bind_query. cbn [committed scripted]. cbv zeta.
rewrite payments_missing, Hnone. cbn [List.length Z.of_nat Z.ltb Z.compare].
unfold Prisma.platformProductOrderInfluencer_update.
pose proof (transaction_traverse_atomic
              (fun id => Prisma.updateStatus id (PlatformProductOrderPayments.dto_status dto))
              (map poi_id (filter existing rows)) db script) as H.
destruct (Prisma.transaction _ (scripted db script)) as [w [rs|e]];
  destruct H as [Hp H]; (split; [exact Hp|]).
- rewrite (applyAll_by_key db existing _ Hnd) in H. injection H as H _. rewrite <- H.
  f_equal. apply map_ext_in. intros r Hr. pose proof (payments_existing r Hnd Hnone Hr) as Er.
  cbv beta in Er |- *. unfold includes in Er. cbn [existsb] in Er. now rewrite Er.
- exact H.
Qed.

End Payments.

(** X8.  [updatePlatformProductPayments] when primary keys are unique and
    every id given is the key of a record that is Declined, ToBePaid or
    Paid.  Without rejection by the store the call succeeds: exactly the
    records with a given key carry the status of the request, whatever that
    status is, and the call returns them in table order.  Under any answers
    of the store the updates are all or nothing: a failure leaves every
    record as it was. *)
Theorem X8_updatePayments_all_or_nothing `{D : Declarations}
    (db : Db) (dto : PlatformProductOrderPayments.ApprovePaymentsDto) :
  NoDup (map poi_id (platformProductOrderInfluencers db)) ->
  notPayable db (PlatformProductOrderPayments.paymentIds dto) = [] ->
  batch (PlatformProductOrderPayments.updatePlatformProductPayments dto) db
    (fun r => inIds (poi_id r) (PlatformProductOrderPayments.paymentIds dto))
    (PlatformProductOrderPayments.dto_status dto) /\
  forall script,
    let (w, r) := PlatformProductOrderPayments.updatePlatformProductPayments dto
                    (scripted db script) in
    allOrNothing db w r
      (fun db' =>
         db' = withParticipants db
                 (map (fun x => if inIds (poi_id x) (PlatformProductOrderPayments.paymentIds dto)
                                then withStatus x (PlatformProductOrderPayments.dto_status dto)
                                else x)
                      (platformProductOrderInfluencers db))).
Proof.
intros Hnd Hnone. split.
- now apply payments_run.
- intros script. now apply payments_atomic.
Qed.

(** X8, for the payments 2 and 3: a Paid record is set back to Added. *)
Lemma X8_witness :
  let D := specDeclarations in
  let db := Example.base
    [Example.row 1 70 1 Approved; Example.row 2 70 2 ToBePaid; Example.row 3 90 1 Paid] in
  let dto := {| PlatformProductOrderPayments.paymentIds := [3; 2; 3];
                PlatformProductOrderPayments.dto_status := Example.val Added |} in
  PlatformProductOrderPayments.updatePlatformProductPayments dto (quiet db)
  = (quiet (Example.base
       [Example.row 1 70 1 Approved; Example.row 2 70 2 Added; Example.row 3 90 1 Added]),
     Ok [Example.row 2 70 2 Added; Example.row 3 90 1 Added]) /\
  (* the store rejects the second update: nothing is written *)
  PlatformProductOrderPayments.updatePlatformProductPayments dto
    (scripted db [None; Some "P2034"])
  = (quiet db, Throw (PrismaClientKnownRequestError "P2034")).
Proof.
cbv zeta.
pose proof (@X8_updatePayments_all_or_nothing specDeclarations
  (Example.base
    [Example.row 1 70 1 Approved; Example.row 2 70 2 ToBePaid; Example.row 3 90 1 Paid])
  {| PlatformProductOrderPayments.paymentIds := [3; 2; 3];
     PlatformProductOrderPayments.dto_status := Example.val Added |}) as H.
split.
- apply H; [repeat constructor; cbn; lia|reflexivity].
- reflexivity.
Defined.

(** X9.  [updatePlatformProductPayments] when some id given is the key of no
    record that is Declined, ToBePaid or Paid: in every world the call fails
    with Conflict, the message names exactly those ids (safe integers, in
    decimal digits), in the order and as often as they were given, and
    nothing is written, also for the ids that could have been updated. *)
Theorem X9_updatePayments_unknown `{D : Declarations}
    (db : Db) (dto : PlatformProductOrderPayments.ApprovePaymentsDto) (w : World) :
  committed w = db ->
  notPayable db (PlatformProductOrderPayments.paymentIds dto) <> [] ->
  Forall safeInteger (notPayable db (PlatformProductOrderPayments.paymentIds dto)) ->
  PlatformProductOrderPayments.updatePlatformProductPayments dto w
  = (w, Throw (ConflictException
                 ("Payment with id "
                    ++ join (map decimalDigits
                               (notPayable db (PlatformProductOrderPayments.paymentIds dto)))
                    ++ " does not exist"))).
Proof.
intros Hw Hne Hsafe. rewrite <- (map_jsNumber_safe _ Hsafe). now apply payments_conflict.
Qed.

(** X9, for the payments 2, 1, 7, 1: record 1 is Approved, record 7 does not
    exist. *)
Lemma X9_witness :
  let D := specDeclarations in
  let db := Example.base [Example.row 1 70 1 Approved; Example.row 2 70 2 ToBePaid] in
  let dto := {| PlatformProductOrderPayments.paymentIds := [2; 1; 7; 1];
                PlatformProductOrderPayments.dto_status := Example.val Paid |} in
  PlatformProductOrderPayments.updatePlatformProductPayments dto (quiet db)
  = (quiet db, Throw (ConflictException "Payment with id 1, 7, 1 does not exist")).
Proof.
cbv zeta.
apply (@X9_updatePayments_unknown specDeclarations
  (Example.base [Example.row 1 70 1 Approved; Example.row 2 70 2 ToBePaid])
  {| PlatformProductOrderPayments.paymentIds := [2; 1; 7; 1];
     PlatformProductOrderPayments.dto_status := Example.val Paid |}
  (quiet (Example.base [Example.row 1 70 1 Approved; Example.row 2 70 2 ToBePaid]))).
- reflexivity.
- intros H. vm_compute in H. discriminate H.
- repeat constructor; unfold safeInteger; cbn; lia.
Defined.

(** X10.  [PlatformProductOrderService.addInfluencers] without rejection by
    the store.  When the influencer has an account and a desired campaign
    amount, the order exists and has no record of the influencer, one record
    is appended: it carries the first desired campaign amount, the currency
    of the account and, as its status, the status of the account.  In every
    other case (no account, no amount, the pair is there already, or no such
    order) the call fails with Conflict "Already Exists" and writes
    nothing. *)
Theorem X10_platformProductOrder_addInfluencers
    (dto : PlatformProductOrderService.AddInfluencersDto) (db : Db) :
  let order := PlatformProductOrderService.dto_productOrderId dto in
  let infl := PlatformProductOrderService.dto_influencerId dto in
  let rows := platformProductOrderInfluencers db in
  (forall user amount,
     accountOf db infl = Some user ->
     campaignAmountOf db infl = Some amount ->
     participant db order infl = None ->
     Prisma.references db order infl = true ->
     PlatformProductOrderService.addInfluencers dto (quiet db)
     = (quiet (withParticipants db
                 (rows ++ [ {| poi_id := Prisma.nextId rows; productOrderId := order;
                               influencerId := infl; agreedAmount := desiredAmount amount;
                               currency := user_currency user;
                               status := user_status user |} ])%list),
        Ok {| poi_id := Prisma.nextId rows; productOrderId := order;
              influencerId := infl; agreedAmount := desiredAmount amount;
              currency := user_currency user; status := user_status user |})) /\
  (accountOf db infl = None \/ campaignAmountOf db infl = None \/
   participant db order infl <> None \/ Prisma.references db order infl = false ->
   PlatformProductOrderService.addInfluencers dto (quiet db)
   = (quiet db, Throw (ConflictException "Already Exists"))).
Proof.
cbv zeta. split.
- intros user amount Ha Hc Hp Hr.
  rewrite platformProductOrder_add_run. cbv zeta. now rewrite Ha, Hc, Hp, Hr.
- intros H. rewrite platformProductOrder_add_run. cbv zeta.
  destruct (accountOf db _) as [user|]; [|reflexivity].
  destruct (campaignAmountOf db _) as [amount|]; [|reflexivity].
  destruct (participant db _ _) as [p|]; [reflexivity|].
  destruct (Prisma.references db _ _); [|reflexivity].
  destruct H as [H|[H|[H|H]]]; try discriminate H. now elim H.
Qed.

(** X10, in a database where influencer 1 takes part in order 70: the pair
    (80, 2) gets a record with the amount 75/2, the currency 2 and the
    account status 4 of user 12; the pair (70, 1) and the pair (75, 2), of an
    order that does not exist, end in Conflict. *)
Lemma X10_witness :
  let db := Example.base [Example.row 1 70 1 Invited] in
  let dto o i := {| PlatformProductOrderService.dto_productOrderId := o;
                    PlatformProductOrderService.dto_influencerId := i |} in
  PlatformProductOrderService.addInfluencers (dto 80 2) (quiet db)
  = (quiet (Example.base
       [ Example.row 1 70 1 Invited;
         {| poi_id := 2; productOrderId := 80; influencerId := 2;
            agreedAmount := (75 # 2)%Q; currency := 2; status := 4%Q |} ]),
     Ok {| poi_id := 2; productOrderId := 80; influencerId := 2;
           agreedAmount := (75 # 2)%Q; currency := 2; status := 4%Q |}) /\
  PlatformProductOrderService.addInfluencers (dto 70 1) (quiet db)
  = (quiet db, Throw (ConflictException "Already Exists")) /\
  PlatformProductOrderService.addInfluencers (dto 75 2) (quiet db)
  = (quiet db, Throw (ConflictException "Already Exists")).
Proof.
cbv zeta. split; [|split].
- apply (proj1 (X10_platformProductOrder_addInfluencers
                  {| PlatformProductOrderService.dto_productOrderId := 80;
                     PlatformProductOrderService.dto_influencerId := 2 |}
                  (Example.base [Example.row 1 70 1 Invited]))
           {| user_id := 12; user_currency := 2; user_status := 4%Q |}
           {| amount_influencerId := 2; amount_type := 0; desiredAmount := (75 # 2)%Q |});
    reflexivity.
- apply (proj2 (X10_platformProductOrder_addInfluencers
                  {| PlatformProductOrderService.dto_productOrderId := 70;
                     PlatformProductOrderService.dto_influencerId := 1 |}
                  (Example.base [Example.row 1 70 1 Invited]))).
  right. right. left. discriminate.
- apply (proj2 (X10_platformProductOrder_addInfluencers
                  {| PlatformProductOrderService.dto_productOrderId := 75;
                     PlatformProductOrderService.dto_influencerId := 2 |}
                  (Example.base [Example.row 1 70 1 Invited]))).
  right. right. right. reflexivity.
Defined.

(** ** Reviews are written order-wide *)

Lemma takesPartAs_named db orderId key ids :
  (forall a, In a ids -> takesPartAs db orderId key a) ->
  forall a, In a ids ->
    exists r i, In (r, i) (named db orderId key ids) /\ key i = a.
Proof.
intros H a Ha. destruct (H a Ha) as [r [i [Hin [Ho [Hf Hk]]]]].
exists r, i. split; [|exact Hk].
apply in_named; try assumption. rewrite Hk. now apply inIds_true.
Qed.

Lemma named_namedBy db orderId key ids r i :
  In (r, i) (named db orderId key ids) ->
  In r (platformProductOrderInfluencers db) /\ namedBy db orderId key ids r = true.
Proof.
intros H. apply named_in in H. destruct H as [Hin [Ho [Hf Hk]]].
split; [exact Hin|]. unfold namedBy. rewrite Hf, Hk, Ho, Z.eqb_refl. reflexivity.
Qed.

(** X11.  [disapproveSubmission] and [disapproveSurveyResult] validate the
    named users only (ids are user ids; each must have a record in the order,
    at ToBeApproved), and then write NotApproved into every record of the
    order, named or not and whatever its status; the records of other orders
    are left as they are.  The survey method returns the number of records of
    the order. *)
Theorem X11_disapprove_is_order_wide `{D : Declarations} (db : Db) (ids : list Z) :
  (forall (cid : Z) (c : Campaign) (co : PlatformProductOrder),
     campaignAt db cid c co ->
     (forall a, In a ids -> takesPartAs db (order_id co) influencer_userId a) ->
     (forall r, In r (platformProductOrderInfluencers db) ->
        namedBy db (order_id co) influencer_userId ids r = true ->
        (status r == influencerStatus ToBeApproved)%Q) ->
     orderWide (CampaignService.disapproveSubmission cid ids) db (order_id co)
       (influencerStatus NotApproved) tt) /\
  (forall (sid : Z) (s : Survey) (so : PlatformProductOrder),
     surveyAt db sid s so ->
     (forall a, In a ids -> takesPartAs db (order_id so) influencer_userId a) ->
     (forall r, In r (platformProductOrderInfluencers db) ->
        namedBy db (order_id so) influencer_userId ids r = true ->
        (status r == influencerStatus ToBeApproved)%Q) ->
     orderWide (SurveysService.disapproveSurveyResult sid ids) db (order_id so)
       (influencerStatus NotApproved) (recordsOfOrder db (order_id so))).
Proof.
split.
- intros cid c co Hc Ha Hst.
  unfold orderWide, CampaignService.disapproveSubmission, bind.
  rewrite (campaign_review_run db cid c co ids); try assumption.
  + reflexivity.
  + now apply takesPartAs_named.
  + intros r i Hin. apply named_namedBy in Hin. destruct Hin as [Hin Hn].
    apply negb_false_iff. apply strictEq_true. now apply Hst.
- intros sid s so Hs Ha Hst.
  unfold orderWide, SurveysService.disapproveSurveyResult.
  rewrite (survey_review_run db sid s so ids); try assumption.
  + reflexivity.
  + now apply takesPartAs_named.
  + intros r i Hin. apply named_namedBy in Hin. destruct Hin as [Hin Hn].
    apply negb_false_iff. apply strictEq_true. now apply Hst.
Qed.

(** X11, with user 12 (influencer 2) alone named.  At campaign 7, whose
    order 70 holds influencer 1 at Paid and influencer 2 at ToBeApproved,
    while influencer 2 is at ToBeApproved in order 80 too: both records of
    order 70 end at NotApproved (value 9/2), the record of order 80 stays.
    At survey 9 with influencer 1 at Approved and influencer 2 at
    ToBeApproved: both end at NotApproved and the count is 2. *)
Lemma X11_witness :
  let D := specDeclarations in
  CampaignService.disapproveSubmission 7 [12]
    (quiet (Example.base [Example.row 1 70 1 Paid; Example.row 2 70 2 ToBeApproved;
                           Example.row 3 80 2 ToBeApproved]))
  = (quiet (Example.base [{| poi_id := 1; productOrderId := 70; influencerId := 1;
            agreedAmount := 100%Q; currency := 1; status := (9 # 2)%Q |};
         {| poi_id := 2; productOrderId := 70; influencerId := 2;
            agreedAmount := 100%Q; currency := 1; status := (9 # 2)%Q |};
         {| poi_id := 3; productOrderId := 80; influencerId := 2;
            agreedAmount := 100%Q; currency := 1; status := 4%Q |} ]), Ok tt) /\
  SurveysService.disapproveSurveyResult 9 [12]
    (quiet (Example.base [Example.row 4 90 1 Approved; Example.row 5 90 2 ToBeApproved]))
  = (quiet (Example.base [{| poi_id := 4; productOrderId := 90; influencerId := 1;
            agreedAmount := 100%Q; currency := 1; status := (9 # 2)%Q |};
         {| poi_id := 5; productOrderId := 90; influencerId := 2;
            agreedAmount := 100%Q; currency := 1; status := (9 # 2)%Q |} ]), Ok 2).
Proof.
cbv zeta. split.
- apply (proj1 (@X11_disapprove_is_order_wide specDeclarations
    (Example.base [Example.row 1 70 1 Paid; Example.row 2 70 2 ToBeApproved;
                           Example.row 3 80 2 ToBeApproved]) [12])
    7 {| campaign_id := 7; campaign_platformProductOrderId := 70; postType := Some 0 |}
    {| order_id := 70; order_status := 1%Q |}).
  + split; reflexivity.
  + intros a [<-|[]].
    exists (Example.row 2 70 2 ToBeApproved), {| influencer_id := 2; influencer_userId := 12 |}.
    repeat split. right. now left.
  + intros r Hin. cbn in Hin.
    repeat (destruct Hin as [<-|Hin]; [intros Hn; first [discriminate Hn | reflexivity]|]).
    contradiction.
- apply (proj2 (@X11_disapprove_is_order_wide specDeclarations
    (Example.base [Example.row 4 90 1 Approved; Example.row 5 90 2 ToBeApproved]) [12])
    9 {| survey_id := 9; survey_platformProductOrderId := 90; surveyType := Some 0 |}
    {| order_id := 90; order_status := 1%Q |}).
  + split; reflexivity.
  + intros a [<-|[]].
    exists (Example.row 5 90 2 ToBeApproved), {| influencer_id := 2; influencer_userId := 12 |}.
    repeat split. right. now left.
  + intros r Hin. cbn in Hin.
    repeat (destruct Hin as [<-|Hin]; [intros Hn; first [discriminate Hn | reflexivity]|]).
    contradiction.
Defined.

(** ** The ledger of FinanceService *)

Section FinanceLemmas.
Import Finance.
Local Open Scope finance_scope.
Context {Dec : Decimal.Arithmetic} `{D : Declarations}.

Lemma newest_snoc (where_ : Transaction -> bool) w t :
  newest where_ (withTransaction w t)
  = if where_ t then Some t else newest where_ w.
Proof.
unfold newest. cbn [transactions withTransaction].
rewrite filter_app. cbn [filter]. destruct (where_ t).
- now rewrite rev_app_distr.
- now rewrite app_nil_r.
Qed.

Lemma nextFlowId_fresh w f :
  In f (transactionFlows w) -> flow_id f < nextFlowId w.
Proof.
unfold nextFlowId. induction (transactionFlows w) as [|x l IH]; [contradiction|].
cbn [fold_right]. intros [->|H]; [lia|]. specialize (IH H). lia.
Qed.

Lemma flowOf_fresh w f t :
  flow_id f = nextFlowId w -> txn_transactionFlowId t = nextFlowId w ->
  flowOf (withFlow w f) t = Some f.
Proof.
intros Hf Ht. unfold flowOf. cbn [transactionFlows withFlow].
rewrite Ht.
assert (H : find (fun f0 => flow_id f0 =? nextFlowId w) (transactionFlows w) = None).
{ destruct (find _ (transactionFlows w)) as [x|] eqn:E; [|reflexivity].
  apply find_some in E. destruct E as [Hin E]. apply Z.eqb_eq in E.
  pose proof (nextFlowId_fresh w x Hin). lia. }
revert H. induction (transactionFlows w) as [|x l IH]; cbn [find app].
- intros _. now rewrite Hf, Z.eqb_refl.
- destruct (flow_id x =? nextFlowId w); [discriminate|]. exact IH.
Qed.

Lemma flowOf_old w f t x :
  flowOf w t = Some x -> flowOf (withFlow w f) t = Some x.
Proof.
unfold flowOf. cbn [transactionFlows withFlow].
induction (transactionFlows w) as [|y l IH]; cbn [find app]; [discriminate|].
destruct (flow_id y =? txn_transactionFlowId t); [auto|exact IH].
Qed.

Lemma attempt_accepted {A} (change : Store -> Store * A) w :
  answers w = [] ->
  attempt change w = (fst (change w), Done (snd (change w))).
Proof.
intros H. unfold attempt, bind, answer. rewrite H. now destruct (change w).
Qed.

End FinanceLemmas.

Section FinanceRuns.
Import Finance.
Local Open Scope finance_scope.
Context {Dec : Decimal.Arithmetic} `{D : Declarations}.

Lemma lastOf_ext w1 w2 userId :
  transactionFlows w1 = transactionFlows w2 -> transactions w1 = transactions w2 ->
  lastOf w1 userId = lastOf w2 userId.
Proof. intros H1 H2. unfold lastOf, newest, flowOf. now rewrite H1, H2. Qed.

Lemma lastInFlow_ext w1 w2 flowId :
  transactions w1 = transactions w2 -> lastInFlow w1 flowId = lastInFlow w2 flowId.
Proof. intros H. unfold lastInFlow, newest. now rewrite H. Qed.

Lemma flowOf_same_flow w t t' :
  txn_transactionFlowId t = txn_transactionFlowId t' -> flowOf w t = flowOf w t'.
Proof. intros H. unfold flowOf. now rewrite H. Qed.

Lemma lastInFlow_flow w flowId t :
  lastInFlow w flowId = Some t -> txn_transactionFlowId t = flowId.
Proof.
unfold lastInFlow, newest. intros H.
assert (Hin : In t (rev (filter (fun t0 => txn_transactionFlowId t0 =? flowId)
                                (transactions w)))).
{ destruct (rev _) as [|x l]; [discriminate|]. injection H as ->. now left. }
apply in_rev, filter_In in Hin. destruct Hin as [_ Hin]. now apply Z.eqb_eq.
Qed.

(** The newest transaction after one more was written. *)
Lemma lastOf_written w t f userId :
  flowOf w t = Some f ->
  lastOf (withTransaction w t) userId
  = if flow_userId f =? userId then Some t else lastOf w userId.
Proof.
intros Hf. unfold lastOf. rewrite newest_snoc.
change (flowOf (withTransaction w t) t) with (flowOf w t). now rewrite Hf.
Qed.

Lemma lastInFlow_written w t flowId :
  lastInFlow (withTransaction w t) flowId
  = if txn_transactionFlowId t =? flowId then Some t else lastInFlow w flowId.
Proof. unfold lastInFlow. now rewrite newest_snoc. Qed.

(** *** Settling a flow *)

Section Settle.
Variables (operation : string) (available unavailable : Transaction -> Decimal.t -> Decimal.t)
  (s : number) (notification : Z -> Z -> Z -> Notification) (flowId : Z).

Local Abbreviation run := (settle operation available unavailable s notification flowId).

Lemma settle_undefined w :
  lastInFlow w flowId = None -> run w = (w, Failed TypeError).
Proof.
intros H. unfold settle, bind, getLastTransactionInFlow.
fold (lastInFlow w flowId). now rewrite H.
Qed.

Lemma settle_refuses w t0 :
  lastInFlow w flowId = Some t0 ->
  strictEq (txn_status t0) (transactionStatus Pending) = false ->
  run w = (w, Failed (TransactionOperationBadRequestException flowId operation)).
Proof.
intros H Hs. unfold settle, bind, getLastTransactionInFlow.
fold (lastInFlow w flowId). rewrite H. cbn [option_map deref ret fst]. now rewrite Hs.
Qed.

Local Abbreviation settled := (settledTransaction flowId available unavailable s).

Lemma settle_run w t0 f lt :
  answers w = [] ->
  lastInFlow w flowId = Some t0 ->
  strictEq (txn_status t0) (transactionStatus Pending) = true ->
  flowOf w t0 = Some f ->
  lastOf w (flow_userId f) = Some lt ->
  run w
  = (withNotification (withTransaction w (settled w lt f))
       (notification (flow_userId f) (nextTransactionId w) (flow_id f)),
     Done (settled w lt f)).
Proof.
intros Ha H Hs Hf Hl. unfold settle, bind at 1, getLastTransactionInFlow.
fold (lastInFlow w flowId). rewrite H. cbn [option_map].
unfold bind at 1. cbn [deref ret fst snd]. rewrite Hs. cbn [negb].
rewrite Hf. unfold bind at 1. cbn [deref ret].
unfold bind at 1, getLastTransaction. fold (lastOf w (flow_userId f)). rewrite Hl.
unfold bind at 1. cbn [deref ret].
rewrite (lastInFlow_flow w flowId t0 H).
unfold bind at 1, transaction_create. rewrite attempt_accepted by exact Ha.
cbn [fst snd].
assert (Hf' : flowOf w (settled w lt f) = Some f).
{ rewrite <- Hf. apply flowOf_same_flow. cbn. symmetry. exact (lastInFlow_flow w flowId t0 H). }
fold (settled w lt f). rewrite Hf'.
unfold bind at 1. cbn [deref ret].
unfold bind, notificationsService. rewrite attempt_accepted by exact Ha.
reflexivity.
Qed.

(** Whatever the answers, a settlement writes no flow and at most one
    transaction, in the flow it was asked to settle and with its status; it
    returns that transaction, and it has checked that the flow exists. *)
Lemma settle_writes w w' r :
  run w = (w', r) ->
  transactionFlows w' = transactionFlows w /\
  (transactions w' = transactions w /\ (exists e, r = Failed e) \/
   exists t f, transactions w' = (transactions w ++ [t])%list /\
               txn_transactionFlowId t = flowId /\ txn_status t = s /\
               flowOf w t = Some f /\
               (r = Done t \/ exists code, r = Failed (Rejected code))).
Proof.
intros E. unfold settle in E. unfold bind at 1 in E. unfold getLastTransactionInFlow in E.
fold (lastInFlow w flowId) in E.
destruct (lastInFlow w flowId) as [t0|] eqn:H; cbn [option_map] in E.
2:{ cbn in E. injection E as <- <-. eauto. }
unfold bind at 1 in E. cbn [deref ret fst snd] in E.
destruct (strictEq (txn_status t0) (transactionStatus Pending)); cbn [negb] in E.
2:{ cbn in E. injection E as <- <-. eauto. }
destruct (flowOf w t0) as [f|] eqn:Hf.
2:{ cbn in E. injection E as <- <-. eauto. }
unfold bind at 1 in E. cbn [deref ret] in E.
unfold bind at 1 in E. unfold getLastTransaction in E. fold (lastOf w (flow_userId f)) in E.
destruct (lastOf w (flow_userId f)) as [lt|].
2:{ cbn in E. injection E as <- <-. eauto. }
unfold bind at 1 in E. cbn [deref ret] in E.
rewrite (lastInFlow_flow w flowId t0 H) in E.
assert (Hf' : forall w0, transactionFlows w0 = transactionFlows w ->
                flowOf w0 (settled w lt f) = Some f).
{ intros w0 Hw0. rewrite <- Hf. unfold flowOf. rewrite Hw0. cbn.
  now rewrite (lastInFlow_flow w flowId t0 H). }
unfold bind at 1 in E. unfold transaction_create, attempt in E.
unfold bind at 1 in E. unfold answer at 1 in E.
destruct (answers w) as [|[code|] rest] eqn:Ha; cbn [throw fst snd] in E.
- fold (settled w lt f) in E. rewrite (Hf' w eq_refl) in E.
  unfold bind, notificationsService, attempt, bind, answer in E.
  cbn [deref ret answers withTransaction] in E. rewrite Ha in E. cbn in E.
  injection E as <- <-. split; [reflexivity|]. right.
  exists (settled w lt f), f. repeat split; eauto; try apply (Hf' w eq_refl).
- injection E as <- <-. eauto.
- change (nextTransactionId _) with (nextTransactionId w) in E.
  fold (settled w lt f) in E.
  rewrite (Hf' {| transactionFlows := transactionFlows w; transactions := transactions w;
                  notified := notified w; answers := rest |} eq_refl) in E.
  unfold bind, notificationsService, attempt, bind, answer in E.
  cbn [deref ret answers withTransaction] in E.
  destruct rest as [|[code|] rest']; cbn in E; injection E as <- <-;
    (split; [reflexivity|]); right; exists (settled w lt f), f;
    repeat split; eauto; try apply (Hf' w eq_refl).
Qed.

End Settle.

End FinanceRuns.

Section FinanceCreates.
Import Finance.
Local Open Scope finance_scope.
Context {Dec : Decimal.Arithmetic} `{D : Declarations}.

(** A flow just opened: its first transaction is the last one of the flow and
    of the user. *)
Lemma opened_last w w1 f t :
  flow_id f = nextFlowId w -> txn_transactionFlowId t = nextFlowId w ->
  opened w1 w f t ->
  flowOf w1 t = Some f /\
  lastInFlow w1 (nextFlowId w) = Some t /\
  lastOf w1 (flow_userId f) = Some t.
Proof.
intros Hf Ht [H1 H2].
assert (Hflow : flowOf w1 t = Some f).
{ unfold flowOf. rewrite H1. exact (flowOf_fresh w f t Hf Ht). }
split; [exact Hflow|]. split.
- unfold lastInFlow, newest. rewrite H2, filter_app. cbn [filter].
  rewrite Ht, Z.eqb_refl, rev_app_distr. reflexivity.
- unfold lastOf, newest. rewrite H2, filter_app. cbn [filter].
  rewrite Hflow, Z.eqb_refl, rev_app_distr. reflexivity.
Qed.

(** Settling a flow just opened, when every answer accepts. *)
Lemma settle_opened operation available unavailable s notification w w1 f t :
  flow_id f = nextFlowId w -> txn_transactionFlowId t = nextFlowId w ->
  opened w1 w f t ->
  txn_status t = transactionStatus Pending ->
  answers w1 = [] ->
  exists t' w2,
    settle operation available unavailable s notification (nextFlowId w) w1
    = (w2, Done t') /\
    balance w2 (flow_userId f)
    = held (available t (flow_amount f), unavailable t (flow_amount f)) /\
    stateOfFlow w2 (nextFlowId w) = Some s /\
    notified w2
    = (notified w1 ++ [notification (flow_userId f) (nextTransactionId w1) (flow_id f)])%list.
Proof.
intros Hf Ht Hop Hst Ha.
destruct (opened_last w w1 f t Hf Ht Hop) as (Hflow & Hlast & Huser).
set (t' := settledTransaction (nextFlowId w) available unavailable s w1 t f).
set (w2 := withNotification (withTransaction w1 t')
             (notification (flow_userId f) (nextTransactionId w1) (flow_id f))).
assert (Hflow' : flowOf w1 t' = Some f).
{ rewrite <- Hflow. apply flowOf_same_flow. cbn. now symmetry. }
exists t', w2. split; [|split; [|split; [|reflexivity]]].
- apply (settle_run operation available unavailable s notification (nextFlowId w) w1 t f t);
    try assumption.
  rewrite Hst. apply strictEq_refl.
- unfold balance.
  rewrite (lastOf_ext w2 (withTransaction w1 t') (flow_userId f) eq_refl eq_refl).
  rewrite (lastOf_written w1 t' f _ Hflow'), Z.eqb_refl. reflexivity.
- unfold stateOfFlow.
  rewrite (lastInFlow_ext w2 (withTransaction w1 t') (nextFlowId w) eq_refl).
  rewrite lastInFlow_written. cbn [txn_transactionFlowId t' settledTransaction].
  now rewrite Z.eqb_refl.
Qed.

Lemma withdraw_insufficient w userId amount :
  Decimal.lessThan (Decimal.sub (fst (balance w userId)) (Decimal.new amount)) Decimal.zero = true ->
  createWithdrawTransaction userId amount w
  = (w, Failed TransactionInsufficientFundsUnprocessableEntityException).
Proof.
intros H. unfold createWithdrawTransaction, bind, getLastTransaction.
change (amountsOf (newest _ w)) with (balance w userId). now rewrite H.
Qed.

Lemma withdraw_run w userId amount :
  answers w = [] ->
  Decimal.lessThan (Decimal.sub (fst (balance w userId)) (Decimal.new amount)) Decimal.zero = false ->
  createWithdrawTransaction userId amount w
  = (withNotification
       (withTransaction (withFlow w (withdrawalFlow w userId amount))
          (reservation w userId amount))
       (withdrawRequested userId (nextFlowId w)),
     Done (withdrawalFlow w userId amount)).
Proof.
intros Ha H. unfold createWithdrawTransaction, bind at 1, getLastTransaction.
change (amountsOf (newest _ w)) with (balance w userId). rewrite H.
unfold bind at 1, transactionFlow_create_nested. rewrite attempt_accepted by exact Ha.
cbn [fst snd]. unfold bind, notificationsService. rewrite attempt_accepted by exact Ha.
reflexivity.
Qed.

(** [createWithdrawTransaction] under any answers, when the funds suffice:
    nothing is written and the call fails, or the flow and the reservation
    are written. *)
Lemma withdraw_writes w userId amount w' r :
  Decimal.lessThan (Decimal.sub (fst (balance w userId)) (Decimal.new amount)) Decimal.zero = false ->
  createWithdrawTransaction userId amount w = (w', r) ->
  (sameLedger w' w /\ exists code, r = Failed (Rejected code)) \/
  (opened w' w (withdrawalFlow w userId amount) (reservation w userId amount) /\
   (r = Done (withdrawalFlow w userId amount) \/ exists code, r = Failed (Rejected code))).
Proof.
intros H E. unfold createWithdrawTransaction in E. unfold bind at 1 in E.
unfold getLastTransaction in E.
change (amountsOf (newest _ w)) with (balance w userId) in E. rewrite H in E.
unfold bind at 1 in E. unfold transactionFlow_create_nested, attempt in E.
unfold bind at 1 in E. unfold answer at 1 in E.
destruct (answers w) as [|[code|] rest] eqn:Ha; cbn [throw fst snd] in E.
- unfold bind, notificationsService, attempt, bind, answer in E.
  cbn [answers withTransaction withFlow] in E. rewrite Ha in E. cbn in E.
  injection E as <- <-. right. split; [split; reflexivity|]. now left.
- injection E as <- <-. left. split; [split; reflexivity|]. eauto.
- unfold bind, notificationsService, attempt, bind, answer in E.
  cbn [answers withTransaction withFlow] in E.
  destruct rest as [|[code|] rest']; cbn in E; injection E as <- <-;
    right; (split; [split; reflexivity|]); eauto.
Qed.

Lemma createTransactionFlow_run w userId dto :
  answers w = [] ->
  createTransactionFlow userId dto w
  = (withNotification
       (withTransaction (withFlow w (paymentFlow w userId dto)) (paymentRequest w userId))
       (paymentRequested userId (nextTransactionId w) (nextFlowId w)),
     Done (paymentFlow w userId dto)).
Proof.
intros Ha. unfold createTransactionFlow, bind at 1, getLastTransaction.
change (amountsOf (newest _ w)) with (balance w userId).
unfold bind at 1, transactionFlow_create. rewrite attempt_accepted by exact Ha.
cbn [fst snd].
unfold bind at 1, transaction_create. rewrite attempt_accepted by exact Ha.
cbn [fst snd].
unfold bind, notificationsService. rewrite attempt_accepted by exact Ha.
reflexivity.
Qed.

End FinanceCreates.

(** ** Withdrawals *)

(** X13.  [createWithdrawTransaction] under any answers of the store and of
    the notifications service.  The funds are short when the available
    amount of the user less the amount, as Decimal computes it, tests below
    zero.  Either the funds are short and the call fails with
    InsufficientFunds, the store as it was; or they are not and nothing is
    written to the ledger, the call failing by a rejection; or they are not
    and one flow and one Pending transaction are written, after which the
    balance of the user is that difference and the unavailable amount plus
    the amount, as the columns hold them, also when the call then fails
    because the notification is rejected. *)
Theorem X13_withdraw_never_overdraws {Dec : Decimal.Arithmetic} `{D : Finance.Declarations}
    (w : Finance.Store) (userId : Z) (amount : Decimal.number) :
  let short :=
    Decimal.lessThan (Decimal.sub (fst (balance w userId)) (Decimal.new amount))
      Decimal.zero in
  let (w', r) := Finance.createWithdrawTransaction userId amount w in
  (short = true /\ w' = w /\
   r = Finance.Failed Finance.TransactionInsufficientFundsUnprocessableEntityException) \/
  (short = false /\ sameLedger w' w /\
   exists code, r = Finance.Failed (Finance.Rejected code)) \/
  (short = false /\
   opened w' w (withdrawalFlow w userId amount) (reservation w userId amount) /\
   balance w' userId
   = held (Decimal.sub (fst (balance w userId)) (Decimal.new amount),
           Decimal.add (snd (balance w userId)) (Decimal.new amount)) /\
   stateOfFlow w' (Finance.nextFlowId w)
   = Some (Finance.transactionStatus Finance.Pending) /\
   (r = Finance.Done (withdrawalFlow w userId amount) \/
    exists code, r = Finance.Failed (Finance.Rejected code))).
Proof.
cbv zeta.
destruct (Finance.createWithdrawTransaction userId amount w) as [w' r] eqn:E.
destruct (Decimal.lessThan (Decimal.sub (fst (balance w userId)) (Decimal.new amount))
            Decimal.zero) eqn:H.
- rewrite (withdraw_insufficient w userId amount H) in E. injection E as <- <-.
  left. repeat split.
- destruct (withdraw_writes w userId amount w' r H E) as [[[Hf Ht] Hr]|[Hop Hr]].
  + right. left. split; [reflexivity|]. split; [now split|exact Hr].
  + destruct (opened_last w w' (withdrawalFlow w userId amount) (reservation w userId amount)
                eq_refl eq_refl Hop) as (_ & Hlast & Huser).
    right. right. split; [reflexivity|]. split; [exact Hop|]. split; [|split; [|exact Hr]].
    * unfold balance at 1. cbn [Finance.flow_userId withdrawalFlow] in Huser.
      now rewrite Huser.
    * unfold stateOfFlow. now rewrite Hlast.
Qed.

(** X13, in cents, for user 11 (100 available, 20 reserved).  Asking for 40
    when the store accepts the write and the notification is rejected: the
    call fails and the balance is 60 available, 60 reserved.  Asking for 101:
    InsufficientFunds, the store as it was. *)
Lemma X13_witness :
  let Dec := exampleDecimals in
  let D := exampleFinance in
  (balance (fst (Finance.createWithdrawTransaction 11 40 (exampleLedger [None; Some "down"]))) 11
   = (60, 60) /\
   snd (Finance.createWithdrawTransaction 11 40 (exampleLedger [None; Some "down"]))
   = Finance.Failed (Finance.Rejected "down")) /\
  Finance.createWithdrawTransaction 11 101 (exampleLedger [])
  = (exampleLedger [],
     Finance.Failed Finance.TransactionInsufficientFundsUnprocessableEntityException).
Proof.
cbv zeta. split.
- pose proof (@X13_withdraw_never_overdraws exampleDecimals exampleFinance
                (exampleLedger [None; Some "down"]) 11 40) as H.
  cbv zeta in H.
  destruct (@Finance.createWithdrawTransaction exampleDecimals exampleFinance 11 40
              (exampleLedger [None; Some "down"])) as [w' r] eqn:E.
  destruct H as [(H & _)|[(_ & (H & _) & _)|(_ & _ & Hb & _ & Hr)]].
  + vm_compute in H. discriminate H.
  + vm_compute in E. injection E as <- <-. vm_compute in H. discriminate H.
  + cbn [fst snd]. split; [exact Hb|].
    vm_compute in E. injection E as _ <-. reflexivity.
- pose proof (@X13_withdraw_never_overdraws exampleDecimals exampleFinance
                (exampleLedger []) 11 101) as H.
  cbv zeta in H.
  destruct (@Finance.createWithdrawTransaction exampleDecimals exampleFinance 11 101
              (exampleLedger [])) as [w' r] eqn:E.
  destruct H as [(_ & -> & ->)|[(H & _)|(H & _)]].
  + reflexivity.
  + vm_compute in H. discriminate H.
  + vm_compute in H. discriminate H.
Defined.

Section FinanceRoundTrips.
Import Finance.
Local Open Scope finance_scope.
Context {Dec : Decimal.Arithmetic} `{D : Declarations}.
Variables (w : Store) (userId : Z).
Hypothesis accepted : answers w = [].

Lemma settles_after_withdrawal operation available unavailable s notification amount :
  settles (settle operation available unavailable s notification (nextFlowId w))
    (afterWithdrawal w userId amount) userId (nextFlowId w)
    (held (available (reservation w userId amount)
             (flow_amount (withdrawalFlow w userId amount)),
           unavailable (reservation w userId amount)
             (flow_amount (withdrawalFlow w userId amount)))) s.
Proof.
destruct (settle_opened operation available unavailable s notification
            w (afterWithdrawal w userId amount)
            (withdrawalFlow w userId amount) (reservation w userId amount)
            eq_refl eq_refl (conj eq_refl eq_refl) eq_refl accepted)
  as (t & w2 & Hrun & Hbal & Hstate & _).
exists t, w2. split; [exact Hrun|]. split; [exact Hbal|exact Hstate].
Qed.

Lemma settles_after_request operation available unavailable s notification dto :
  settles (settle operation available unavailable s notification (nextFlowId w))
    (afterRequest w userId dto) userId (nextFlowId w)
    (held (available (paymentRequest w userId) (flow_amount (paymentFlow w userId dto)),
           unavailable (paymentRequest w userId) (flow_amount (paymentFlow w userId dto)))) s.
Proof.
destruct (settle_opened operation available unavailable s notification
            w (afterRequest w userId dto)
            (paymentFlow w userId dto) (paymentRequest w userId)
            eq_refl eq_refl (conj eq_refl eq_refl) eq_refl accepted)
  as (t & w2 & Hrun & Hbal & Hstate & _).
exists t, w2. split; [exact Hrun|]. split; [exact Hbal|exact Hstate].
Qed.

End FinanceRoundTrips.

(** X14.  A withdrawal and its settlement, when every answer accepts and the
    funds are not short.  [createWithdrawTransaction] opens a flow whose id
    is the next one and notifies the request with that flow id in the place
    of the transaction id; the balance of the user is then that of the
    reservation it wrote.  [declineWithdrawTransactionFlow] on that flow
    adds the amount of the flow to the available amount of the reservation
    and takes it out of the unavailable one;
    [approveWithdrawTransactionFlow] keeps the available amount of the
    reservation and takes the amount of the flow out of the unavailable one;
    in both, the sums and differences are those Decimal computes, as the
    columns hold them. *)
Theorem X14_withdraw_round_trip {Dec : Decimal.Arithmetic} `{D : Finance.Declarations}
    (w : Finance.Store) (userId : Z) (amount : Decimal.number) :
  Finance.answers w = [] ->
  Decimal.lessThan (Decimal.sub (fst (balance w userId)) (Decimal.new amount)) Decimal.zero
  = false ->
  let flow := withdrawalFlow w userId amount in
  let t := reservation w userId amount in
  Finance.createWithdrawTransaction userId amount w
  = (afterWithdrawal w userId amount, Finance.Done flow) /\
  balance (afterWithdrawal w userId amount) userId
  = (Finance.availableAmounts t, Finance.unavailableAmounts t) /\
  settles (Finance.declineWithdrawTransactionFlow (Finance.nextFlowId w))
    (afterWithdrawal w userId amount) userId (Finance.nextFlowId w)
    (held (Decimal.add (Finance.availableAmounts t) (Finance.flow_amount flow),
           Decimal.sub (Finance.unavailableAmounts t) (Finance.flow_amount flow)))
    (Finance.transactionStatus Finance.Declined) /\
  settles (Finance.approveWithdrawTransactionFlow (Finance.nextFlowId w))
    (afterWithdrawal w userId amount) userId (Finance.nextFlowId w)
    (held (Finance.availableAmounts t,
           Decimal.sub (Finance.unavailableAmounts t) (Finance.flow_amount flow)))
    (Finance.transactionStatus Finance.Approved).
Proof.
intros Ha Hle. cbv zeta.
destruct (opened_last w (afterWithdrawal w userId amount) (withdrawalFlow w userId amount)
            (reservation w userId amount) eq_refl eq_refl (conj eq_refl eq_refl))
  as (_ & _ & Huser).
split; [|split; [|split]].
- now apply withdraw_run.
- unfold balance. cbn [Finance.flow_userId withdrawalFlow] in Huser. now rewrite Huser.
- exact (settles_after_withdrawal w userId Ha "decline" _ _ _ _ amount).
- exact (settles_after_withdrawal w userId Ha "approve" _ _ _ _ amount).
Qed.

(** X14, in cents, for user 11 (100 available, 20 reserved) and the amount
    40: the reservation leaves 60 and 60; the decline gives 100 and 20 back,
    the approval leaves 60 and 20. *)
Lemma X14_witness :
  let Dec := exampleDecimals in
  let D := exampleFinance in
  let w := exampleLedger [] in
  balance (afterWithdrawal w 11 40) 11 = (60, 60) /\
  settles (Finance.declineWithdrawTransactionFlow 3) (afterWithdrawal w 11 40) 11 3
    (100, 20) 2%Q /\
  settles (Finance.approveWithdrawTransactionFlow 3) (afterWithdrawal w 11 40) 11 3
    (60, 20) 1%Q.
Proof.
cbv zeta.
destruct (@X14_withdraw_round_trip exampleDecimals exampleFinance (exampleLedger []) 11 40
            eq_refl eq_refl) as (_ & Hb & Hd & Ha).
split; [exact Hb|]. split; [exact Hd|exact Ha].
Defined.

(** X15.  Payments: [createTransactionFlow], when every answer accepts,
    opens a Pending flow whose first transaction carries the amounts of the
    balance of the user, as the columns hold them;
    [approveTransactionFlow] on that flow adds the amount of the flow to the
    available amount of that transaction, as Decimal computes the sum and
    the column holds it; [declineTransactionFlow] writes the amounts of that
    transaction again. *)
Theorem X15_payment_flow {Dec : Decimal.Arithmetic} `{D : Finance.Declarations}
    (w : Finance.Store) (userId : Z) (dto : Finance.CreateTransactionFlowDto) :
  Finance.answers w = [] ->
  let flow := paymentFlow w userId dto in
  let t := paymentRequest w userId in
  Finance.createTransactionFlow userId dto w
  = (afterRequest w userId dto, Finance.Done flow) /\
  balance (afterRequest w userId dto) userId = held (balance w userId) /\
  stateOfFlow (afterRequest w userId dto) (Finance.nextFlowId w)
  = Some (Finance.transactionStatus Finance.Pending) /\
  settles (Finance.approveTransactionFlow (Finance.nextFlowId w))
    (afterRequest w userId dto) userId (Finance.nextFlowId w)
    (held (Decimal.add (Finance.availableAmounts t) (Finance.flow_amount flow),
           Finance.unavailableAmounts t))
    (Finance.transactionStatus Finance.Approved) /\
  settles (Finance.declineTransactionFlow (Finance.nextFlowId w))
    (afterRequest w userId dto) userId (Finance.nextFlowId w)
    (held (Finance.availableAmounts t, Finance.unavailableAmounts t))
    (Finance.transactionStatus Finance.Declined).
Proof.
intros Ha. cbv zeta.
destruct (opened_last w (afterRequest w userId dto) (paymentFlow w userId dto)
            (paymentRequest w userId) eq_refl eq_refl (conj eq_refl eq_refl))
  as (_ & Hlast & Huser).
split; [|split; [|split; [|split]]].
- now apply createTransactionFlow_run.
- unfold balance at 1. cbn [Finance.flow_userId paymentFlow] in Huser. now rewrite Huser.
- unfold stateOfFlow. now rewrite Hlast.
- exact (settles_after_request w userId Ha "approve" _ _ _ _ dto).
- exact (settles_after_request w userId Ha "decline" _ _ _ _ dto).
Qed.

(** X15, in cents, for user 11 (100 available, 20 reserved) and a payment of
    50: the request leaves 100 and 20, the approval gives 150 and 20, the
    decline 100 and 20. *)
Lemma X15_witness :
  let Dec := exampleDecimals in
  let D := exampleFinance in
  let w := exampleLedger [] in
  let dto := @Finance.Build_CreateTransactionFlowDto exampleDecimals
               (Some "report") None 0%Q 50 (Some 80) in
  balance (afterRequest w 11 dto) 11 = (100, 20) /\
  stateOfFlow (afterRequest w 11 dto) 3 = Some 0%Q /\
  settles (Finance.approveTransactionFlow 3) (afterRequest w 11 dto) 11 3 (150, 20) 1%Q /\
  settles (Finance.declineTransactionFlow 3) (afterRequest w 11 dto) 11 3 (100, 20) 2%Q.
Proof.
cbv zeta.
destruct (@X15_payment_flow exampleDecimals exampleFinance (exampleLedger []) 11
            (@Finance.Build_CreateTransactionFlowDto exampleDecimals
               (Some "report") None 0%Q 50 (Some 80))
            eq_refl) as (_ & Hb & Hs & Ha & Hd).
split; [exact Hb|]. split; [exact Hs|]. split; [exact Ha|exact Hd].
Defined.

(** X16.  No settlement looks at the type of the flow, when every answer
    accepts.  On a pending withdrawal, [approveTransactionFlow] adds the
    amount of the flow to the available amount of the reservation and keeps
    the unavailable one, and [declineTransactionFlow] writes the amounts of
    the reservation again.  On a pending payment,
    [approveWithdrawTransactionFlow] takes the amount of the flow out of the
    unavailable amount, and [declineWithdrawTransactionFlow] adds it to the
    available amount and takes it out of the unavailable one.  The sums and
    differences are those Decimal computes, as the columns hold them. *)
Theorem X16_settlement_ignores_the_flow_type
    {Dec : Decimal.Arithmetic} `{D : Finance.Declarations}
    (w : Finance.Store) (userId : Z) (amount : Decimal.number)
    (dto : Finance.CreateTransactionFlowDto) :
  Finance.answers w = [] ->
  let withdrawal := withdrawalFlow w userId amount in
  let reserved := reservation w userId amount in
  let payment := paymentFlow w userId dto in
  let requested := paymentRequest w userId in
  settles (Finance.approveTransactionFlow (Finance.nextFlowId w))
    (afterWithdrawal w userId amount) userId (Finance.nextFlowId w)
    (held (Decimal.add (Finance.availableAmounts reserved) (Finance.flow_amount withdrawal),
           Finance.unavailableAmounts reserved))
    (Finance.transactionStatus Finance.Approved) /\
  settles (Finance.declineTransactionFlow (Finance.nextFlowId w))
    (afterWithdrawal w userId amount) userId (Finance.nextFlowId w)
    (held (Finance.availableAmounts reserved, Finance.unavailableAmounts reserved))
    (Finance.transactionStatus Finance.Declined) /\
  settles (Finance.approveWithdrawTransactionFlow (Finance.nextFlowId w))
    (afterRequest w userId dto) userId (Finance.nextFlowId w)
    (held (Finance.availableAmounts requested,
           Decimal.sub (Finance.unavailableAmounts requested) (Finance.flow_amount payment)))
    (Finance.transactionStatus Finance.Approved) /\
  settles (Finance.declineWithdrawTransactionFlow (Finance.nextFlowId w))
    (afterRequest w userId dto) userId (Finance.nextFlowId w)
    (held (Decimal.add (Finance.availableAmounts requested) (Finance.flow_amount payment),
           Decimal.sub (Finance.unavailableAmounts requested) (Finance.flow_amount payment)))
    (Finance.transactionStatus Finance.Declined).
Proof.
intros Ha. cbv zeta. split; [|split; [|split]].
- exact (settles_after_withdrawal w userId Ha "approve" _ _ _ _ amount).
- exact (settles_after_withdrawal w userId Ha "decline" _ _ _ _ amount).
- exact (settles_after_request w userId Ha "approve" _ _ _ _ dto).
- exact (settles_after_request w userId Ha "decline" _ _ _ _ dto).
Qed.

(** X16, in cents, for user 11 (100 available, 20 reserved), a withdrawal of
    40 and a payment of 50: approving the withdrawal as a payment leaves 100
    available and 60 reserved; approving the payment as a withdrawal leaves
    the unavailable amount 30 short. *)
Lemma X16_witness :
  let Dec := exampleDecimals in
  let D := exampleFinance in
  let w := exampleLedger [] in
  let dto := @Finance.Build_CreateTransactionFlowDto exampleDecimals
               (Some "report") None 0%Q 50 (Some 80) in
  settles (Finance.approveTransactionFlow 3) (afterWithdrawal w 11 40) 11 3 (100, 60) 1%Q /\
  settles (Finance.declineTransactionFlow 3) (afterWithdrawal w 11 40) 11 3 (60, 60) 2%Q /\
  settles (Finance.approveWithdrawTransactionFlow 3) (afterRequest w 11 dto) 11 3
    (100, -30) 1%Q /\
  settles (Finance.declineWithdrawTransactionFlow 3) (afterRequest w 11 dto) 11 3
    (150, -30) 2%Q.
Proof.
cbv zeta.
exact (@X16_settlement_ignores_the_flow_type exampleDecimals exampleFinance
         (exampleLedger []) 11 40
         (@Finance.Build_CreateTransactionFlowDto exampleDecimals
            (Some "report") None 0%Q 50 (Some 80))
         eq_refl).
Defined.

Section FinanceInvariants.
Import Finance.
Local Open Scope finance_scope.
Context {Dec : Decimal.Arithmetic} `{D : Declarations}.

Lemma settlement_is_settle run :
  In run settlements ->
  exists operation available unavailable s notification,
    run = settle operation available unavailable s notification /\
    (s = transactionStatus Approved \/ s = transactionStatus Declined).
Proof.
intros [<-|[<-|[<-|[<-|[]]]]]; do 5 eexists; (split; [reflexivity|]); auto.
Qed.

Lemma written_last w w' t flowId :
  transactions w' = (transactions w ++ [t])%list ->
  txn_transactionFlowId t = flowId ->
  lastInFlow w' flowId = Some t.
Proof.
intros H Ht. unfold lastInFlow, newest. rewrite H, filter_app. cbn [filter].
rewrite Ht, Z.eqb_refl, rev_app_distr. reflexivity.
Qed.

Lemma settled_once first second flowId w w1 t :
  ~ (transactionStatus Approved == transactionStatus Pending)%Q ->
  ~ (transactionStatus Declined == transactionStatus Pending)%Q ->
  In first settlements -> In second settlements ->
  first flowId w = (w1, Done t) ->
  exists operation,
    second flowId w1
    = (w1, Failed (TransactionOperationBadRequestException flowId operation)).
Proof.
intros Hap Hdp H1 H2 E.
destruct (settlement_is_settle first H1) as (o1 & a1 & u1 & s1 & n1 & -> & Hs1).
destruct (settlement_is_settle second H2) as (o2 & a2 & u2 & s2 & n2 & -> & _).
destruct (settle_writes o1 a1 u1 s1 n1 flowId w w1 (Done t) E)
  as [_ [[_ [e He]]|(t' & f & Htx & Hflow & Hst & _ & _)]]; [discriminate He|].
exists o2. apply settle_refuses with (t0 := t').
- now apply written_last with (w := w).
- apply strictEq_false. rewrite Hst. now destruct Hs1 as [->| ->].
Qed.

(** No transaction of a store that keeps the foreign key belongs to the flow
    that comes next. *)
Lemma next_flow_is_empty w :
  foreignKeys w -> lastInFlow w (nextFlowId w) = None.
Proof.
intros Hfk. unfold lastInFlow, newest.
rewrite (nonEmpty_filter_nil (fun t => txn_transactionFlowId t =? nextFlowId w)); [reflexivity|].
intros t Ht. apply Z.eqb_neq. intros E.
specialize (Hfk t Ht). destruct (flowOf w t) as [f|] eqn:Hf; [|congruence].
unfold flowOf in Hf. apply find_some in Hf. destruct Hf as [Hin Hid].
apply Z.eqb_eq in Hid. pose proof (nextFlowId_fresh w f Hin). lia.
Qed.

Lemma createTransactionFlow_half w userId dto code rest :
  answers w = None :: Some code :: rest ->
  createTransactionFlow userId dto w
  = ({| transactionFlows := (transactionFlows w ++ [paymentFlow w userId dto])%list;
        transactions := transactions w; notified := notified w; answers := rest |},
     Failed (Rejected code)).
Proof.
intros Ha. unfold createTransactionFlow, bind at 1, getLastTransaction.
unfold bind at 1, transactionFlow_create, attempt, bind at 1, answer at 1.
rewrite Ha. cbn [fst snd withFlow].
unfold bind at 1, transaction_create, attempt, bind at 1, answer at 1.
cbn [answers]. reflexivity.
Qed.

(** [createTransactionFlow] under any answers: nothing is written, or the
    flow alone, or the flow and its Pending transaction. *)
Lemma createTransactionFlow_writes w userId dto w' r :
  createTransactionFlow userId dto w = (w', r) ->
  sameLedger w' w \/
  (transactionFlows w' = (transactionFlows w ++ [paymentFlow w userId dto])%list /\
   transactions w' = transactions w) \/
  opened w' w (paymentFlow w userId dto) (paymentRequest w userId).
Proof.
intros E. unfold createTransactionFlow in E. unfold bind at 1 in E.
unfold getLastTransaction in E.
change (amountsOf (newest _ w)) with (balance w userId) in E.
unfold bind at 1 in E. unfold transactionFlow_create, attempt in E.
unfold bind at 1 in E. unfold answer at 1 in E.
destruct (answers w) as [|[code|] rest] eqn:Ha; cbn [throw fst snd] in E.
- unfold bind at 1 in E. unfold transaction_create, attempt in E.
  unfold bind at 1 in E. unfold answer at 1 in E.
  cbn [answers withFlow] in E. rewrite Ha in E. cbn [fst snd] in E.
  unfold bind, notificationsService, attempt, bind, answer in E.
  cbn [answers withTransaction withFlow] in E. rewrite Ha in E. cbn in E.
  injection E as <- <-. right. right. split; reflexivity.
- injection E as <- <-. left. split; reflexivity.
- unfold bind at 1 in E. unfold transaction_create, attempt in E.
  unfold bind at 1 in E. unfold answer at 1 in E.
  cbn [answers withFlow] in E.
  destruct rest as [|[code|] rest']; cbn [throw fst snd] in E.
  + unfold bind, notificationsService, attempt, bind, answer in E.
    cbn in E. injection E as <- <-. right. right. split; reflexivity.
  + injection E as <- <-. right. left. split; reflexivity.
  + unfold bind, notificationsService, attempt, bind, answer in E.
    cbn [answers withTransaction withFlow] in E.
    destruct rest' as [|[code|] rest'']; cbn in E; injection E as <- <-;
      right; right; split; reflexivity.
Qed.

(** *** What a new flow and a new transaction leave as they are *)

Lemma flowOf_more_flows w w' f t :
  foreignKeys w -> In t (transactions w) ->
  transactionFlows w' = (transactionFlows w ++ [f])%list ->
  flowOf w' t = flowOf w t.
Proof.
intros Hfk Ht Hf. specialize (Hfk t Ht).
destruct (flowOf w t) as [x|] eqn:E; [|congruence].
unfold flowOf. rewrite Hf. exact (flowOf_old w f t x E).
Qed.

Lemma frame_flow w w' f v :
  foreignKeys w ->
  transactionFlows w' = (transactionFlows w ++ [f])%list ->
  transactions w' = transactions w ->
  lastOf w' v = lastOf w v.
Proof.
intros Hfk Hf Ht. unfold lastOf, newest. rewrite Ht. f_equal. f_equal.
apply filter_ext_in. intros t Hin.
now rewrite (flowOf_more_flows w w' f t Hfk Hin Hf).
Qed.

Lemma frame_opened w w' f t v :
  foreignKeys w ->
  flow_id f = nextFlowId w -> txn_transactionFlowId t = nextFlowId w ->
  flow_userId f <> v ->
  opened w' w f t ->
  lastOf w' v = lastOf w v.
Proof.
intros Hfk Hf Ht Hv Hop.
destruct (opened_last w w' f t Hf Ht Hop) as (Hflow & _ & _).
destruct Hop as [H1 H2].
unfold lastOf, newest. rewrite H2, filter_app. cbn [filter].
rewrite Hflow. apply Z.eqb_neq in Hv. rewrite Hv, app_nil_r.
f_equal. f_equal. apply filter_ext_in. intros x Hin.
now rewrite (flowOf_more_flows w w' f x Hfk Hin H1).
Qed.

Lemma frame_settled w w' t f v :
  transactionFlows w' = transactionFlows w ->
  transactions w' = (transactions w ++ [t])%list ->
  flowOf w t = Some f -> flow_userId f <> v ->
  lastOf w' v = lastOf w v.
Proof.
intros H1 H2 Hf Hv. unfold lastOf, newest, flowOf. rewrite H1, H2, filter_app.
cbn [filter]. fold (flowOf w t). rewrite Hf. apply Z.eqb_neq in Hv.
now rewrite Hv, app_nil_r.
Qed.

Lemma foreignKeys_flow w w' f :
  foreignKeys w ->
  transactionFlows w' = (transactionFlows w ++ [f])%list ->
  transactions w' = transactions w ->
  foreignKeys w'.
Proof.
intros Hfk Hf Ht t Hin. rewrite Ht in Hin.
rewrite (flowOf_more_flows w w' f t Hfk Hin Hf). now apply Hfk.
Qed.

Lemma foreignKeys_opened w w' f t :
  foreignKeys w ->
  flow_id f = nextFlowId w -> txn_transactionFlowId t = nextFlowId w ->
  opened w' w f t ->
  foreignKeys w'.
Proof.
intros Hfk Hf Ht Hop x Hin.
destruct (opened_last w w' f t Hf Ht Hop) as (Hflow & _ & _).
destruct Hop as [H1 H2]. rewrite H2 in Hin. apply in_app_or in Hin.
destruct Hin as [Hin|[<-|[]]].
- rewrite (flowOf_more_flows w w' f x Hfk Hin H1). now apply Hfk.
- now rewrite Hflow.
Qed.

Lemma foreignKeys_settled w w' t f :
  foreignKeys w ->
  transactionFlows w' = transactionFlows w ->
  transactions w' = (transactions w ++ [t])%list ->
  flowOf w t = Some f ->
  foreignKeys w'.
Proof.
intros Hfk H1 H2 Hf x Hin. rewrite H2 in Hin. unfold flowOf. rewrite H1.
apply in_app_or in Hin. destruct Hin as [Hin|[<-|[]]].
- now apply Hfk.
- fold (flowOf w t). now rewrite Hf.
Qed.

Lemma foreignKeys_same w w' :
  foreignKeys w -> sameLedger w' w -> foreignKeys w'.
Proof.
intros Hfk [H1 H2] x Hin. rewrite H2 in Hin. unfold flowOf. rewrite H1. now apply Hfk.
Qed.

End FinanceInvariants.

(** ** A flow is settled once *)

(** X17.  When Approved and Declined differ from Pending: once one of
    [approveTransactionFlow], [declineTransactionFlow],
    [approveWithdrawTransactionFlow] and [declineWithdrawTransactionFlow] has
    settled a flow, each of the four fails on that flow with
    TransactionOperationBadRequest and writes nothing, whatever the answers
    of the store. *)
Theorem X17_flow_is_settled_once {Dec : Decimal.Arithmetic} `{D : Finance.Declarations}
    (first second : Z -> Finance.F Finance.Transaction) (flowId : Z)
    (w w1 : Finance.Store) (t : Finance.Transaction) :
  ~ (Finance.transactionStatus Finance.Approved == Finance.transactionStatus Finance.Pending)%Q ->
  ~ (Finance.transactionStatus Finance.Declined == Finance.transactionStatus Finance.Pending)%Q ->
  In first settlements -> In second settlements ->
  first flowId w = (w1, Finance.Done t) ->
  exists operation,
    second flowId w1
    = (w1, Finance.Failed (Finance.TransactionOperationBadRequestException flowId operation)).
Proof. intros Hap Hdp H1 H2 E. now apply settled_once with (first := first) (w := w) (t := t). Qed.

(** X17, for the pending payment of user 12 (flow 2): declined, it can not be
    approved. *)
Lemma X17_witness :
  let Dec := exampleDecimals in
  let D := exampleFinance in
  exists operation,
    Finance.approveTransactionFlow 2
      (fst (Finance.declineTransactionFlow 2 (exampleLedger [])))
    = (fst (Finance.declineTransactionFlow 2 (exampleLedger [])),
       Finance.Failed (Finance.TransactionOperationBadRequestException 2 operation)).
Proof.
cbv zeta.
apply (@X17_flow_is_settled_once exampleDecimals exampleFinance
         (@Finance.declineTransactionFlow exampleDecimals exampleFinance)
         (@Finance.approveTransactionFlow exampleDecimals exampleFinance) 2
         (exampleLedger [])
         (fst (@Finance.declineTransactionFlow exampleDecimals exampleFinance 2
                 (exampleLedger [])))
         (@Finance.Build_Transaction exampleDecimals 4 2 0 0 2%Q)).
- intros H. vm_compute in H. discriminate H.
- intros H. vm_compute in H. discriminate H.
- right. now left.
- now left.
- reflexivity.
Defined.

(** ** A flow without a transaction *)

(** X18.  [createTransactionFlow] writes the flow and its first transaction
    one after the other: when the store accepts the first write and rejects
    the second, the call fails and the flow stays, without a transaction.
    Such a flow can not be settled: each of the four settlements reads the
    status of a transaction that is not there and fails with a TypeError,
    writing nothing. *)
Theorem X18_flow_without_transaction {Dec : Decimal.Arithmetic} `{D : Finance.Declarations}
    (w : Finance.Store) (userId : Z) (dto : Finance.CreateTransactionFlowDto)
    (code : string) (rest : list (option string)) :
  foreignKeys w ->
  Finance.answers w = None :: Some code :: rest ->
  exists w',
    Finance.createTransactionFlow userId dto w
    = (w', Finance.Failed (Finance.Rejected code)) /\
    Finance.transactionFlows w'
    = (Finance.transactionFlows w ++ [paymentFlow w userId dto])%list /\
    Finance.transactions w' = Finance.transactions w /\
    forall run, In run settlements ->
      run (Finance.nextFlowId w) w' = (w', Finance.Failed Finance.TypeError).
Proof.
intros Hfk Ha. eexists.
split; [exact (createTransactionFlow_half w userId dto code rest Ha)|].
split; [reflexivity|]. split; [reflexivity|].
intros run Hrun.
destruct (settlement_is_settle run Hrun) as (o & a & u & s & n & -> & _).
apply settle_undefined.
match goal with
| |- lastInFlow ?x _ = _ => rewrite (lastInFlow_ext x w (Finance.nextFlowId w) eq_refl)
end.
now apply next_flow_is_empty.
Qed.

Lemma exampleLedger_foreignKeys script : foreignKeys (exampleLedger script).
Proof.
intros t Hin. cbn in Hin.
repeat (destruct Hin as [<-|Hin]; [cbn; discriminate|]). contradiction.
Qed.

(** X18, for a payment of user 11 whose second write is rejected. *)
Lemma X18_witness :
  let Dec := exampleDecimals in
  let D := exampleFinance in
  let dto := @Finance.Build_CreateTransactionFlowDto exampleDecimals
               (Some "report") None 0%Q 50 (Some 80) in
  let w := exampleLedger [None; Some "P2003"] in
  exists w',
    Finance.createTransactionFlow 11 dto w = (w', Finance.Failed (Finance.Rejected "P2003")) /\
    Finance.transactionFlows w' = (Finance.transactionFlows w ++ [paymentFlow w 11 dto])%list /\
    Finance.transactions w' = Finance.transactions w /\
    forall run, In run settlements -> run 3 w' = (w', Finance.Failed Finance.TypeError).
Proof.
cbv zeta.
apply (@X18_flow_without_transaction exampleDecimals exampleFinance
  (exampleLedger [None; Some "P2003"]) 11
  (@Finance.Build_CreateTransactionFlowDto exampleDecimals (Some "report") None 0%Q 50 (Some 80))
  "P2003" []).
- apply exampleLedger_foreignKeys.
- reflexivity.
Defined.

(** ** The balances of the other users *)

(** X19.  In a store that keeps the foreign key of Transaction, and under any
    answers: [createTransactionFlow] and [createWithdrawTransaction] for one
    user, and the four settlements of a flow of another owner, leave the
    balance of the user [v] as it was; and the store keeps the foreign key
    afterwards. *)
Theorem X19_other_balances_untouched {Dec : Decimal.Arithmetic} `{D : Finance.Declarations}
    (w : Finance.Store) (userId v flowId : Z)
    (dto : Finance.CreateTransactionFlowDto) (amount : Decimal.number) :
  foreignKeys w ->
  userId <> v ->
  notTheOwner w flowId v ->
  (balance (fst (Finance.createTransactionFlow userId dto w)) v = balance w v /\
   foreignKeys (fst (Finance.createTransactionFlow userId dto w))) /\
  (balance (fst (Finance.createWithdrawTransaction userId amount w)) v = balance w v /\
   foreignKeys (fst (Finance.createWithdrawTransaction userId amount w))) /\
  (forall run, In run settlements ->
     balance (fst (run flowId w)) v = balance w v /\
     foreignKeys (fst (run flowId w))).
Proof.
intros Hfk Hv Hown. split; [|split].
- destruct (Finance.createTransactionFlow userId dto w) as [w' r] eqn:E. cbn [fst].
  destruct (createTransactionFlow_writes w userId dto w' r E) as [[H1 H2]|[[H1 H2]|Hop]].
  + split; [unfold balance; now rewrite (lastOf_ext w' w v H1 H2)|].
    now apply foreignKeys_same with (w := w).
  + split; [unfold balance; now rewrite (frame_flow w w' _ v Hfk H1 H2)|].
    now apply foreignKeys_flow with (w := w) (f := paymentFlow w userId dto).
  + split.
    * unfold balance.
      now rewrite (frame_opened w w' (paymentFlow w userId dto) (paymentRequest w userId) v
                   Hfk eq_refl eq_refl Hv Hop).
    * now apply (foreignKeys_opened w w' (paymentFlow w userId dto) (paymentRequest w userId)
                 Hfk eq_refl eq_refl Hop).
- destruct (Finance.createWithdrawTransaction userId amount w) as [w' r] eqn:E. cbn [fst].
  destruct (Decimal.lessThan (Decimal.sub (fst (balance w userId)) (Decimal.new amount)) Decimal.zero) eqn:H.
  + rewrite (withdraw_insufficient w userId amount H) in E. injection E as <- <-.
    now split.
  + destruct (withdraw_writes w userId amount w' r H E) as [[[H1 H2] _]|[Hop _]].
    * split; [unfold balance; now rewrite (lastOf_ext w' w v H1 H2)|].
      now apply foreignKeys_same with (w := w).
    * split.
      -- unfold balance.
         now rewrite (frame_opened w w' (withdrawalFlow w userId amount)
                       (reservation w userId amount) v Hfk eq_refl eq_refl Hv Hop).
      -- now apply (foreignKeys_opened w w' (withdrawalFlow w userId amount)
                     (reservation w userId amount) Hfk eq_refl eq_refl Hop).
- intros run Hrun.
  destruct (settlement_is_settle run Hrun) as (o & a & u & s & n & -> & _).
  destruct (Finance.settle o a u s n flowId w) as [w' r] eqn:E. cbn [fst].
  destruct (settle_writes o a u s n flowId w w' r E)
    as [H1 [[H2 _]|(t & f & H2 & Hflow & _ & Hf & _)]].
  + split; [unfold balance; now rewrite (lastOf_ext w' w v H1 H2)|].
    now apply foreignKeys_same with (w := w).
  + split.
    * unfold balance. rewrite (frame_settled w w' t f v H1 H2 Hf); [reflexivity|].
      unfold Finance.flowOf in Hf. apply find_some in Hf. destruct Hf as [Hin Hid].
      apply Z.eqb_eq in Hid. apply Hown; [exact Hin|]. now rewrite Hid.
    * now apply foreignKeys_settled with (w := w) (t := t) (f := f).
Qed.

(** X19, for user 12 while user 11 acts and flow 1 (of user 11) is settled,
    whatever the store answers first. *)
Lemma X19_witness :
  let Dec := exampleDecimals in
  let D := exampleFinance in
  let w := exampleLedger [Some "P2024"] in
  let dto := @Finance.Build_CreateTransactionFlowDto exampleDecimals
               (Some "report") None 0%Q 50 (Some 80) in
  (balance (fst (Finance.createTransactionFlow 11 dto w)) 12 = balance w 12 /\
   foreignKeys (fst (Finance.createTransactionFlow 11 dto w))) /\
  (balance (fst (Finance.createWithdrawTransaction 11 40 w)) 12 = balance w 12 /\
   foreignKeys (fst (Finance.createWithdrawTransaction 11 40 w))) /\
  (forall run, In run settlements ->
     balance (fst (run 1 w)) 12 = balance w 12 /\ foreignKeys (fst (run 1 w))).
Proof.
cbv zeta.
apply (@X19_other_balances_untouched exampleDecimals exampleFinance
  (exampleLedger [Some "P2024"]) 11 12 1
  (@Finance.Build_CreateTransactionFlowDto exampleDecimals (Some "report") None 0%Q 50 (Some 80))
  40).
- apply exampleLedger_foreignKeys.
- discriminate.
- intros f Hin Hid. cbn in Hin.
  repeat (destruct Hin as [<-|Hin]; [first [discriminate Hid | cbn; discriminate]|]).
  contradiction.
Defined.

(** ** Submissions and clicks *)

Lemma transaction_two_writes_quiet {A B} (f1 : Db -> Result (Db * A))
    (f2 : Db -> Result (Db * B)) (db : Db) :
  Prisma.transaction (fun tx => Prisma.write tx f1 ;;; Prisma.write tx f2) (quiet db)
  = match f1 db with
    | Throw e => (quiet db, Throw e)
    | Ok (d1, _) =>
        match f2 d1 with
        | Throw e => (quiet db, Throw e)
        | Ok (d2, b) => (quiet d2, Ok b)
        end
    end.
Proof.
unfold Prisma.transaction, bind, Prisma.write, bind, Prisma.answer, throw.
cbn [quiet rejections committed pending Prisma.replay fold_left].
destruct (f1 db) as [[d1 a]|e1] eqn:E1; [|reflexivity].
cbn [rejections committed pending app Prisma.replay fold_left].
try (unfold Prisma.effect at 1; rewrite E1).
destruct (f2 d1) as [[d2 b]|e2] eqn:E2; [|reflexivity].
unfold Prisma.commit, quiet.
cbn [rejections committed pending Prisma.replay fold_left].
unfold Prisma.effect. rewrite E1, E2. reflexivity.
Qed.

Section Submissions.
Context `{D : Declarations}.
Variables (db : Db) (cid : Z) (c : Campaign) (o : PlatformProductOrder)
  (user : UserWithInfluencer) (u : Z) (p : PlatformProductOrderInfluencer) (link : string).
Hypothesis caller_ : caller_influencer user = Some u.
Hypothesis at_ : campaignAt db cid c o.
Hypothesis record_ : participant db (order_id o) u = Some p.
Hypothesis status_ :
  includes [influencerStatus ToBeSubmitted; influencerStatus NotApproved] (status p) = true.

Local Abbreviation moved := (setStatus db (poi_id p) (influencerStatus ToBeApproved)).

Lemma campaign_submit_run :
  CampaignService.submitInfluencerData cid user link (quiet db)
  = match Prisma.upsertPerformance (firstPerformance cid u link) link moved with
    | Throw e => (quiet db, Throw e)
    | Ok (d2, b) => (quiet d2, Ok b)
    end.
Proof.
unfold CampaignService.submitInfluencerData. rewrite caller_.
rewrite (campaign_prefix cid c o) by assumption.
rewrite bind_query, first_row_is_participant. cbn [committed quiet]. rewrite record_.
change (bind (deref (Some p)) ?k (quiet db)) with (k p (quiet db)).
cbv beta. rewrite status_. cbn [negb].
unfold Prisma.platformProductOrderInfluencer_update, Prisma.campaignInfluencerPerformance_upsert.
rewrite transaction_two_writes_quiet.
destruct (participant_some _ _ _ _ record_) as [Hin _].
assert (Hfind : exists r, find (fun x => poi_id x =? poi_id p)
                               (platformProductOrderInfluencers db) = Some r).
{ destruct (find _ (platformProductOrderInfluencers db)) as [r|] eqn:E; [eauto|].
  pose proof (find_none _ _ E p Hin) as H. cbn in H. now rewrite Z.eqb_refl in H. }
destruct Hfind as [r Hr].
rewrite (updateStatus_found db (poi_id p) _ r Hr). reflexivity.
Qed.

Lemma campaign_first_submission :
  performanceOf db cid u = None ->
  CampaignService.submitInfluencerData cid user link (quiet db)
  = (quiet (withPerformances moved
              (campaignInfluencerPerformances db ++ [firstPerformance cid u link])),
     Ok (firstPerformance cid u link)).
Proof.
intros Hnone. rewrite campaign_submit_run.
unfold Prisma.upsertPerformance. cbv zeta.
cbn [perf_campaignId perf_influencerId firstPerformance
     campaignInfluencerPerformances setStatus withParticipants].
unfold performanceOf in Hnone. now rewrite Hnone.
Qed.

Lemma campaign_resubmission q :
  performanceOf db cid u = Some q ->
  CampaignService.submitInfluencerData cid user link (quiet db)
  = (quiet (withPerformances moved
              (map (fun x => if (perf_campaignId x =? cid) && (perf_influencerId x =? u)
                             then relinked link x else x)
                   (campaignInfluencerPerformances db))),
     Ok (relinked link q)).
Proof.
intros Hsome. rewrite campaign_submit_run.
unfold Prisma.upsertPerformance. cbv zeta.
cbn [perf_campaignId perf_influencerId firstPerformance
     campaignInfluencerPerformances setStatus withParticipants].
unfold performanceOf in Hsome. now rewrite Hsome.
Qed.

End Submissions.

(** ** Submissions are all or nothing *)





Section SubmissionsSucceed.
Context `{D : Declarations}.
Variables (db : Db) (user : UserWithInfluencer) (u : Z) (p : PlatformProductOrderInfluencer).
Hypothesis caller_ : caller_influencer user = Some u.



End SubmissionsSucceed.




Section Tracking.
Variable website : Campaign -> option string.

Lemma track_run db code q c :
  tracked db code = Some q ->
  find (fun x => campaign_id x =? perf_campaignId q) (campaigns db) = Some c ->
  CampaignTracking.track website code (quiet db)
  = (quiet (withPerformances db
              (map (fun x => if (trackingCode x =? code)%string
                             then CampaignTracking.clicked x else x)
                   (campaignInfluencerPerformances db))),
     Ok (website c)).
Proof.
intros Hq Hc. unfold CampaignTracking.track, catch, bind,
  CampaignTracking.campaignInfluencerPerformance_update_websiteClick.
rewrite write_quiet. unfold CampaignTracking.incrementWebsiteClick. cbv zeta.
unfold tracked in Hq. rewrite Hq, Hc. reflexivity.
Qed.

(** [track] of a code that no record carries, whatever the store answers. *)
Lemma track_unknown db code script :
  tracked db code = None ->
  let (w, r) := CampaignTracking.track website code (scripted db script) in
  committed w = db /\
  (r = Throw (NotFoundApplicationException "Cannot track a code") \/
   exists errorCode rest,
     script = Some errorCode :: rest /\ errorCode <> "P2025" /\
     r = Throw (PrismaClientKnownRequestError errorCode)).
Proof.
intros Hnone. unfold CampaignTracking.track, catch, bind,
  CampaignTracking.campaignInfluencerPerformance_update_websiteClick,
  Prisma.write, bind, Prisma.answer, throw.
destruct script as [|[errorCode|] rest]; cbn [scripted rejections committed pending].
- unfold CampaignTracking.incrementWebsiteClick. cbv zeta.
  unfold tracked in Hnone. rewrite Hnone. cbn. auto.
- destruct (errorCode =? "P2025")%string eqn:E; cbn [fst snd].
  + split; [reflexivity|]. now left.
  + split; [reflexivity|]. right. exists errorCode, rest.
    apply String.eqb_neq in E. auto.
- unfold CampaignTracking.incrementWebsiteClick. cbv zeta.
  unfold tracked in Hnone. rewrite Hnone. cbn. auto.
Qed.

End Tracking.

Section Clicks.
Variable website : Campaign -> option string.

Lemma withClicks_none q : withClicks 0 q = q.
Proof. destruct q. unfold withClicks. cbn. f_equal. lia. Qed.

Lemma withPerformances_same db :
  withPerformances db (campaignInfluencerPerformances db) = db.
Proof. now destruct db. Qed.

Lemma track_last db code rows q c :
  campaignInfluencerPerformances db = (rows ++ [q])%list ->
  find (fun x => (trackingCode x =? code)%string) rows = None ->
  trackingCode q = code ->
  find (fun x => campaign_id x =? perf_campaignId q) (campaigns db) = Some c ->
  CampaignTracking.track website code (quiet db)
  = (quiet (withPerformances db (rows ++ [CampaignTracking.clicked q])%list), Ok (website c)).
Proof.
intros Hrows Hnone Hq Hc.
assert (Hfind : tracked db code = Some q).
{ unfold tracked. rewrite Hrows.
  clear -Hnone Hq. induction rows as [|x l IH]; cbn [app find].
  - apply String.eqb_eq in Hq. now rewrite Hq.
  - cbn [find] in Hnone. destruct (trackingCode x =? code)%string; [discriminate|].
    now apply IH. }
rewrite (track_run website db code q c Hfind Hc). f_equal. f_equal. f_equal.
rewrite Hrows, map_app. cbn [map]. apply String.eqb_eq in Hq. rewrite Hq. f_equal.
rewrite <- (map_id rows) at 2. apply map_ext_in. intros x Hx.
pose proof (find_none _ _ Hnone x Hx) as H. cbn in H. now rewrite H.
Qed.

Lemma track_counts code c n :
  forall db rows q,
    campaignInfluencerPerformances db = (rows ++ [q])%list ->
    find (fun x => (trackingCode x =? code)%string) rows = None ->
    trackingCode q = code ->
    find (fun x => campaign_id x =? perf_campaignId q) (campaigns db) = Some c ->
    repeatedly n (CampaignTracking.track website code) (quiet db)
    = quiet (withPerformances db (rows ++ [withClicks n q])%list).
Proof.
induction n as [|n IH]; intros db rows q Hrows Hnone Hq Hc.
- cbn [repeatedly]. rewrite withClicks_none, <- Hrows, withPerformances_same. reflexivity.
- cbn [repeatedly]. rewrite (track_last db code rows q c Hrows Hnone Hq Hc). cbn [fst].
  rewrite (IH _ rows (CampaignTracking.clicked q)); try assumption; try reflexivity.
  change (withPerformances (withPerformances db ?l) ?l') with (withPerformances db l').
  f_equal. f_equal. f_equal. f_equal. unfold withClicks, CampaignTracking.clicked. cbn.
  f_equal. lia.
Qed.

End Clicks.

(** X20.  The first submission of a participant and the clicks on its
    tracking code, when no answer of the store rejects.  A participant at
    ToBeSubmitted or NotApproved without a performance record in the
    campaign, whose tracking code no record carries: [submitInfluencerData]
    moves the participant to ToBeApproved and adds the performance record
    with the link, the tracking code of the influencer and no click; each
    [track] of that code then returns the website of the campaign, and after
    [n] of them the record counts [n] clicks and nothing else has changed. *)
Theorem X20_clicks_are_counted `{D : Declarations}
    (website : Campaign -> option string)
    (db : Db) (cid : Z) (c : Campaign) (o : PlatformProductOrder)
    (user : UserWithInfluencer) (u : Z) (p : PlatformProductOrderInfluencer)
    (link : string) (n : nat) :
  caller_influencer user = Some u ->
  campaignAt db cid c o ->
  participant db (order_id o) u = Some p ->
  includes [influencerStatus ToBeSubmitted; influencerStatus NotApproved] (status p) = true ->
  performanceOf db cid u = None ->
  tracked db (idToPseudostring u) = None ->
  let submitted :=
    withPerformances (setStatus db (poi_id p) (influencerStatus ToBeApproved))
      (campaignInfluencerPerformances db ++ [firstPerformance cid u link]) in
  CampaignService.submitInfluencerData cid user link (quiet db)
  = (quiet submitted, Ok (firstPerformance cid u link)) /\
  snd (CampaignTracking.track website (idToPseudostring u) (quiet submitted))
  = Ok (website c) /\
  repeatedly n (CampaignTracking.track website (idToPseudostring u)) (quiet submitted)
  = quiet (withPerformances submitted
             (campaignInfluencerPerformances db
                ++ [withClicks n (firstPerformance cid u link)])).
Proof.
intros Hu Hc Hp Hst Hnone Hcode. cbv zeta. split; [|split].
- now apply campaign_first_submission with (c := c) (o := o).
- rewrite (track_last website _ (idToPseudostring u)
             (campaignInfluencerPerformances db) (firstPerformance cid u link) c);
    try reflexivity; [exact Hcode|exact (proj1 Hc)].
- apply (track_counts website (idToPseudostring u) c n); try reflexivity;
    [exact Hcode|exact (proj1 Hc)].
Qed.

(** X20, for influencer 2 (user 12) in campaign 7 and three clicks. *)
Lemma X20_witness :
  let D := specDeclarations in
  let db := Example.base [Example.row 1 70 2 ToBeSubmitted] in
  let submitted :=
    withPerformances (Example.base [Example.row 1 70 2 ToBeApproved])
      [firstPerformance 7 2 "https://post"] in
  CampaignService.submitInfluencerData 7 (Example.caller 12 2) "https://post" (quiet db)
  = (quiet submitted, Ok (firstPerformance 7 2 "https://post")) /\
  snd (CampaignTracking.track (fun _ => Some "https://client") "2" (quiet submitted))
  = Ok (Some "https://client") /\
  repeatedly 3 (CampaignTracking.track (fun _ => Some "https://client") "2") (quiet submitted)
  = quiet (withPerformances submitted
             [withClicks 3 (firstPerformance 7 2 "https://post")]).
Proof.
cbv zeta.
apply (@X20_clicks_are_counted specDeclarations (fun _ => Some "https://client")
  (Example.base [Example.row 1 70 2 ToBeSubmitted])
  7 {| campaign_id := 7; campaign_platformProductOrderId := 70; postType := Some 0 |}
  {| order_id := 70; order_status := 1%Q |}
  (Example.caller 12 2) 2 (Example.row 1 70 2 ToBeSubmitted) "https://post" 3).
- reflexivity.
- split; reflexivity.
- reflexivity.
- reflexivity.
- reflexivity.
- reflexivity.
Defined.

(** X21.  A resubmission, when no answer of the store rejects: for a
    participant at ToBeSubmitted or NotApproved who has a performance record
    in the campaign, [submitInfluencerData] moves the participant to
    ToBeApproved and replaces the link of the record; the record keeps its
    tracking code and the clicks counted so far, and no record is added. *)
Theorem X21_resubmission_keeps_the_clicks `{D : Declarations}
    (db : Db) (cid : Z) (c : Campaign) (o : PlatformProductOrder)
    (user : UserWithInfluencer) (u : Z) (p : PlatformProductOrderInfluencer)
    (q : CampaignInfluencerPerformance) (link : string) :
  caller_influencer user = Some u ->
  campaignAt db cid c o ->
  participant db (order_id o) u = Some p ->
  includes [influencerStatus ToBeSubmitted; influencerStatus NotApproved] (status p) = true ->
  performanceOf db cid u = Some q ->
  CampaignService.submitInfluencerData cid user link (quiet db)
  = (quiet (withPerformances (setStatus db (poi_id p) (influencerStatus ToBeApproved))
              (map (fun x => if (perf_campaignId x =? cid) && (perf_influencerId x =? u)
                             then relinked link x else x)
                   (campaignInfluencerPerformances db))),
     Ok (relinked link q)).
Proof.
intros Hu Hc Hp Hst Hq. now apply campaign_resubmission with (c := c) (o := o).
Qed.

(** X21, for influencer 2 in campaign 7, whose record counts 5 clicks. *)
Lemma X21_witness :
  let D := specDeclarations in
  let perf link :=
    {| perf_campaignId := 7; perf_influencerId := 2; submissionLink := link;
       trackingCode := "2"; websiteClick := 5 |} in
  let other :=
    {| perf_campaignId := 8; perf_influencerId := 3; submissionLink := "https://other";
       trackingCode := "3"; websiteClick := 1 |} in
  CampaignService.submitInfluencerData 7 (Example.caller 12 2) "https://second"
    (quiet (withPerformances (Example.base [Example.row 1 70 2 NotApproved])
              [other; perf "https://first"]))
  = (quiet (withPerformances (Example.base [Example.row 1 70 2 ToBeApproved])
              [other; perf "https://second"]),
     Ok (perf "https://second")).
Proof.
cbv zeta.
apply (@X21_resubmission_keeps_the_clicks specDeclarations
  (withPerformances (Example.base [Example.row 1 70 2 NotApproved])
     [ {| perf_campaignId := 8; perf_influencerId := 3; submissionLink := "https://other";
          trackingCode := "3"; websiteClick := 1 |};
       {| perf_campaignId := 7; perf_influencerId := 2; submissionLink := "https://first";
          trackingCode := "2"; websiteClick := 5 |} ])
  7 {| campaign_id := 7; campaign_platformProductOrderId := 70; postType := Some 0 |}
  {| order_id := 70; order_status := 1%Q |}
  (Example.caller 12 2) 2 (Example.row 1 70 2 NotApproved)
  {| perf_campaignId := 7; perf_influencerId := 2; submissionLink := "https://first";
     trackingCode := "2"; websiteClick := 5 |} "https://second").
- reflexivity.
- split; reflexivity.
- reflexivity.
- reflexivity.
- reflexivity.
Defined.

(** X22.  [track] of a code that no performance record carries, whatever the
    store answers: the database stays as it was and the call fails, with
    NotFound "Cannot track a code", unless the store rejected the update
    with a code other than P2025, which is passed on as it is. *)
Theorem X22_track_unknown_code
    (website : Campaign -> option string) (db : Db) (code : string)
    (script : list (option string)) :
  tracked db code = None ->
  let (w, r) := CampaignTracking.track website code (scripted db script) in
  committed w = db /\
  (r = Throw (NotFoundApplicationException "Cannot track a code") \/
   exists errorCode rest,
     script = Some errorCode :: rest /\ errorCode <> "P2025" /\
     r = Throw (PrismaClientKnownRequestError errorCode)).
Proof. intros H. now apply track_unknown. Qed.

(** X22, for the code "9" when the store is out of connections. *)
Lemma X22_witness :
  let db := withPerformances (Example.base [])
              [ {| perf_campaignId := 7; perf_influencerId := 2;
                   submissionLink := "https://first"; trackingCode := "2";
                   websiteClick := 5 |} ] in
  let (w, r) := CampaignTracking.track (fun _ => None) "9" (scripted db [Some "P2024"]) in
  committed w = db /\
  (r = Throw (NotFoundApplicationException "Cannot track a code") \/
   exists errorCode rest,
     [Some "P2024"] = Some errorCode :: rest /\ errorCode <> "P2025" /\
     r = Throw (PrismaClientKnownRequestError errorCode)).
Proof.
cbv zeta.
apply (X22_track_unknown_code (fun _ => None)
  (withPerformances (Example.base [])
     [ {| perf_campaignId := 7; perf_influencerId := 2;
          submissionLink := "https://first"; trackingCode := "2";
          websiteClick := 5 |} ]) "9" [Some "P2024"]).
reflexivity.
Defined.

(** X23.  [approveSubmission] and [approveSurveyResult] validate the named
    users only (ids are user ids; each must have a record in the order, at
    ToBeApproved or NotApproved), and then write Approved into every record
    of the order, named or not and whatever its status; the records of other
    orders are left as they are, and the call returns the number of records
    of the order. *)
Theorem X23_approve_is_order_wide `{D : Declarations} (db : Db) (ids : list Z) :
  (forall (cid : Z) (c : Campaign) (co : PlatformProductOrder),
     campaignAt db cid c co ->
     (forall a, In a ids -> takesPartAs db (order_id co) influencer_userId a) ->
     (forall r, In r (platformProductOrderInfluencers db) ->
        namedBy db (order_id co) influencer_userId ids r = true ->
        includes [influencerStatus ToBeApproved; influencerStatus NotApproved] (status r) = true) ->
     orderWide (CampaignService.approveSubmission cid ids) db (order_id co)
       (influencerStatus Approved) (recordsOfOrder db (order_id co))) /\
  (forall (sid : Z) (s : Survey) (so : PlatformProductOrder),
     surveyAt db sid s so ->
     (forall a, In a ids -> takesPartAs db (order_id so) influencer_userId a) ->
     (forall r, In r (platformProductOrderInfluencers db) ->
        namedBy db (order_id so) influencer_userId ids r = true ->
        includes [influencerStatus ToBeApproved; influencerStatus NotApproved] (status r) = true) ->
     orderWide (SurveysService.approveSurveyResult sid ids) db (order_id so)
       (influencerStatus Approved) (recordsOfOrder db (order_id so))).
Proof.
split.
- intros cid c co Hc Ha Hst.
  unfold orderWide, CampaignService.approveSubmission.
  rewrite (campaign_review_run db cid c co ids); try assumption.
  + reflexivity.
  + now apply takesPartAs_named.
  + intros r i Hin. apply named_namedBy in Hin. destruct Hin as [Hin Hn].
    apply negb_false_iff. now apply Hst.
- intros sid s so Hs Ha Hst.
  unfold orderWide, SurveysService.approveSurveyResult.
  rewrite (survey_review_run db sid s so ids); try assumption.
  + reflexivity.
  + now apply takesPartAs_named.
  + intros r i Hin. apply named_namedBy in Hin. destruct Hin as [Hin Hn].
    apply negb_false_iff. now apply Hst.
Qed.

(** X23, with user 12 (influencer 2) alone named.  At campaign 7, whose
    order 70 holds influencer 1 at Invited and influencer 2 at NotApproved,
    while influencer 2 is at ToBeApproved in order 80 too: both records of
    order 70 end at Approved (value 5), the record of order 80 stays, and the
    count is 2.  At survey 9 with influencer 1 at Declined and influencer 2
    at ToBeApproved: both end at Approved and the count is 2. *)
Lemma X23_witness :
  let D := specDeclarations in
  CampaignService.approveSubmission 7 [12]
    (quiet (Example.base [Example.row 1 70 1 Invited; Example.row 2 70 2 NotApproved;
                           Example.row 3 80 2 ToBeApproved]))
  = (quiet (Example.base [{| poi_id := 1; productOrderId := 70; influencerId := 1;
            agreedAmount := 100%Q; currency := 1; status := 5%Q |};
         {| poi_id := 2; productOrderId := 70; influencerId := 2;
            agreedAmount := 100%Q; currency := 1; status := 5%Q |};
         {| poi_id := 3; productOrderId := 80; influencerId := 2;
            agreedAmount := 100%Q; currency := 1; status := 4%Q |} ]), Ok 2) /\
  SurveysService.approveSurveyResult 9 [12]
    (quiet (Example.base [Example.row 4 90 1 Declined; Example.row 5 90 2 ToBeApproved]))
  = (quiet (Example.base [{| poi_id := 4; productOrderId := 90; influencerId := 1;
            agreedAmount := 100%Q; currency := 1; status := 5%Q |};
         {| poi_id := 5; productOrderId := 90; influencerId := 2;
            agreedAmount := 100%Q; currency := 1; status := 5%Q |} ]), Ok 2).
Proof.
cbv zeta. split.
- apply (proj1 (@X23_approve_is_order_wide specDeclarations
    (Example.base [Example.row 1 70 1 Invited; Example.row 2 70 2 NotApproved;
                           Example.row 3 80 2 ToBeApproved]) [12])
    7 {| campaign_id := 7; campaign_platformProductOrderId := 70; postType := Some 0 |}
    {| order_id := 70; order_status := 1%Q |}).
  + split; reflexivity.
  + intros a [<-|[]].
    exists (Example.row 2 70 2 NotApproved), {| influencer_id := 2; influencer_userId := 12 |}.
    repeat split. right. now left.
  + intros r Hin. cbn in Hin.
    repeat (destruct Hin as [<-|Hin]; [intros Hn; first [discriminate Hn | reflexivity]|]).
    contradiction.
- apply (proj2 (@X23_approve_is_order_wide specDeclarations
    (Example.base [Example.row 4 90 1 Declined; Example.row 5 90 2 ToBeApproved]) [12])
    9 {| survey_id := 9; survey_platformProductOrderId := 90; surveyType := Some 0 |}
    {| order_id := 90; order_status := 1%Q |}).
  + split; reflexivity.
  + intros a [<-|[]].
    exists (Example.row 5 90 2 ToBeApproved), {| influencer_id := 2; influencer_userId := 12 |}.
    repeat split. right. now left.
  + intros r Hin. cbn in Hin.
    repeat (destruct Hin as [<-|Hin]; [intros Hn; first [discriminate Hn | reflexivity]|]).
    contradiction.
Defined.

(** ** The relative change *)

(** X24.  [getChange] and its missing operands.  The result is 'N/A' when
    [after] is undefined or null and when [before] is null; with two numbers
    it is never 'N/A'.  An undefined [before] passes the guard, which tests
    [after] twice: with a number for [after] the result is then NaN,
    whatever that number is. *)
Theorem X24_getChange_missing_operands `{F : RelativeChange.Doubles} :
  propagatesNaN F ->
  (forall before, RelativeChange.getChange RelativeChange.undefined before = RelativeChange.NA /\
                  RelativeChange.getChange RelativeChange.null before = RelativeChange.NA) /\
  (forall a, RelativeChange.getChange (RelativeChange.Num a) RelativeChange.null
             = RelativeChange.NA) /\
  (forall a b, RelativeChange.getChange (RelativeChange.Num a) (RelativeChange.Num b)
               <> RelativeChange.NA) /\
  (forall a, RelativeChange.getChange (RelativeChange.Num a) RelativeChange.undefined
             = RelativeChange.Val (RelativeChange.Num RelativeChange.NaN)).
Proof.
intros (Hneg & Hdiv & Hsub & Hmul). split; [|split; [|split]].
- intros before. split; reflexivity.
- intros a. reflexivity.
- intros a b. unfold RelativeChange.getChange.
  cbn [RelativeChange.isNull RelativeChange.isUndefined orb].
  destruct (RelativeChange.isZero (RelativeChange.Num b)),
           (RelativeChange.isZero (RelativeChange.Num a)); cbn; discriminate.
- intros a. unfold RelativeChange.getChange.
  cbn [RelativeChange.isNull RelativeChange.isUndefined RelativeChange.isZero
       RelativeChange.toNumber orb andb negb].
  destruct (RelativeChange.identical a (RelativeChange.literal 0)).
  + now rewrite Hneg.
  + now rewrite Hdiv, Hsub, Hmul.
Qed.

(** X24, on rationals with NaN. *)
Lemma X24_witness :
  let F := exampleDoubles in
  (forall before, RelativeChange.getChange RelativeChange.undefined before = RelativeChange.NA /\
                  RelativeChange.getChange RelativeChange.null before = RelativeChange.NA) /\
  (forall a, RelativeChange.getChange (RelativeChange.Num a) RelativeChange.null
             = RelativeChange.NA) /\
  (forall a b, RelativeChange.getChange (RelativeChange.Num a) (RelativeChange.Num b)
               <> RelativeChange.NA) /\
  (forall a, RelativeChange.getChange (RelativeChange.Num a) RelativeChange.undefined
             = RelativeChange.Val (RelativeChange.Num RelativeChange.NaN)).
Proof.
cbv zeta. apply (@X24_getChange_missing_operands exampleDoubles).
split; [reflexivity|]. split; [|split].
- intros [x|]; reflexivity.
- intros y. reflexivity.
- intros [x|]; reflexivity.
Defined.

(** ** The dates of birth of an age range *)

(** X25.  [calculateDOB] when setting the year of a date gives a date of
    that year.  With both ages given and not 0, the latest date of birth
    lies [minAge] years back, and the earliest lies [minAge + maxAge] years
    back, not [maxAge]: the second subtraction starts from the date the
    first one changed.  Without a minimal age (undefined or 0) the earliest
    date lies [maxAge] years back and the age is returned in the place of
    the latest date. *)
Theorem X25_calculateDOB_years (Date : Type)
    (getFullYear : Date -> Z) (setFullYear : Date -> Z -> Date)
    (now : Date) (minAge maxAge : Z) :
  (forall d y, getFullYear (setFullYear d y) = y) ->
  minAge <> 0 -> maxAge <> 0 ->
  (let (minDOB, maxDOB) :=
     DateOfBirth.calculateDOB Date getFullYear setFullYear now (Some minAge) (Some maxAge) in
   yearOfBound getFullYear maxDOB = Some (getFullYear now - minAge) /\
   yearOfBound getFullYear minDOB = Some (getFullYear now - minAge - maxAge)) /\
  (let (minDOB, maxDOB) :=
     DateOfBirth.calculateDOB Date getFullYear setFullYear now None (Some maxAge) in
   maxDOB = DateOfBirth.NoAge Date None /\
   yearOfBound getFullYear minDOB = Some (getFullYear now - maxAge)) /\
  (let (minDOB, maxDOB) :=
     DateOfBirth.calculateDOB Date getFullYear setFullYear now (Some 0) (Some maxAge) in
   maxDOB = DateOfBirth.NoAge Date (Some 0) /\
   yearOfBound getFullYear minDOB = Some (getFullYear now - maxAge)).
Proof.
intros Hyear Hmin Hmax. apply Z.eqb_neq in Hmin, Hmax. split; [|split].
- unfold DateOfBirth.calculateDOB. cbn [DateOfBirth.truthy DateOfBirth.yearsOf].
  rewrite Hmin, Hmax. cbn [negb yearOfBound]. now rewrite !Hyear.
- unfold DateOfBirth.calculateDOB. cbn [DateOfBirth.truthy DateOfBirth.yearsOf].
  rewrite Hmax. cbn [negb yearOfBound]. now rewrite Hyear.
- unfold DateOfBirth.calculateDOB. cbn [DateOfBirth.truthy DateOfBirth.yearsOf Z.eqb negb].
  rewrite Hmax. cbn [negb yearOfBound]. now rewrite Hyear.
Qed.

(** X25, with the year for a date: in 2026, the ages 18 to 30 select the
    years 1978 to 2008. *)
Lemma X25_witness :
  (let (minDOB, maxDOB) :=
     DateOfBirth.calculateDOB Z (fun d => d) (fun _ y => y) 2026 (Some 18) (Some 30) in
   yearOfBound (fun d => d) maxDOB = Some 2008 /\
   yearOfBound (fun d => d) minDOB = Some 1978) /\
  (let (minDOB, maxDOB) :=
     DateOfBirth.calculateDOB Z (fun d => d) (fun _ y => y) 2026 None (Some 30) in
   maxDOB = DateOfBirth.NoAge Z None /\
   yearOfBound (fun d => d) minDOB = Some 1996) /\
  (let (minDOB, maxDOB) :=
     DateOfBirth.calculateDOB Z (fun d => d) (fun _ y => y) 2026 (Some 0) (Some 30) in
   maxDOB = DateOfBirth.NoAge Z (Some 0) /\
   yearOfBound (fun d => d) minDOB = Some 1996).
Proof.
apply (X25_calculateDOB_years Z (fun d => d) (fun _ y => y) 2026 18 30).
- reflexivity.
- discriminate.
- discriminate.
Defined.

(** ** Paginated results *)

Section Pages.
Context `{N : Pagination.Numbers}.
Variables (U Where Others : Type) (id : U -> Z).
Variable count : option Where -> option Z.
Variable findMany : Pagination.FindManyArgs Where Others -> option (list U).
Variables (args : Pagination.FindManyArgs Where Others) (params : Pagination.PaginationParams).

Lemma getPaginatedResults_run totalItems totalFilteredItems fetched :
  count None = Some totalItems ->
  filteredCount count args totalItems = Some totalFilteredItems ->
  findMany (pageQuery args params) = Some fetched ->
  Pagination.getPaginatedResults U Where Others id count findMany args params
  = Some {| Pagination.data :=
              if Pagination.limit params <? Pagination.length_ U fetched
              then removelast fetched else fetched;
            Pagination.pagination :=
              Pagination.calculatePaginationMetadata U id params totalItems
                totalFilteredItems fetched |}.
Proof.
intros Hc Hf Hq. unfold Pagination.getPaginatedResults. rewrite Hc.
unfold filteredCount in Hf. rewrite Hf.
unfold pageQuery in Hq.
destruct (Pagination.params_cursor params); now rewrite Hq.
Qed.

Lemma last_snoc (l : list U) x : hd_error (rev (l ++ [x])) = Some x.
Proof. now rewrite rev_app_distr. Qed.

Lemma snoc_cases (l : list U) : l = [] \/ exists init final, l = (init ++ [final])%list.
Proof.
destruct l as [|x l]; [now left|]. right.
destruct (exists_last (l := x :: l)) as [init [final H]]; [discriminate|]. eauto.
Qed.

Lemma page_cases totalItems totalFilteredItems fetched :
  0 <= Pagination.limit params ->
  Z.of_nat (List.length fetched) <= Pagination.limit params + 1 ->
  pageOf id
    {| Pagination.data :=
         if Pagination.limit params <? Pagination.length_ U fetched
         then removelast fetched else fetched;
       Pagination.pagination :=
         Pagination.calculatePaginationMetadata U id params totalItems
           totalFilteredItems fetched |}
    fetched (Pagination.limit params).
Proof.
intros Hlimit Hlen. unfold pageOf. cbv zeta.
cbn [Pagination.data Pagination.pagination Pagination.calculatePaginationMetadata
     Pagination.itemCount Pagination.nextCursor].
unfold Pagination.length_ in *.
destruct (snoc_cases fetched) as [->|[init [final ->]]].
- left. cbn [List.length Z.of_nat]. cbn.
  destruct (Pagination.limit params <? 0) eqn:E; [apply Z.ltb_lt in E; lia|]. auto.
- right. rewrite length_app in *. cbn [List.length] in *.
  rewrite last_snoc. cbn [option_map].
  assert (Hpos : (0 <? Z.of_nat (List.length init + 1)) = true) by (apply Z.ltb_lt; lia).
  rewrite Hpos.
  destruct (Pagination.limit params <? Z.of_nat (List.length init + 1)) eqn:E.
  + left. apply Z.ltb_lt in E. exists final. rewrite removelast_last.
    repeat split; lia.
  + right. apply Z.ltb_ge in E. exists init, final. rewrite length_app. cbn [List.length].
    repeat split; lia.
Qed.

End Pages.

(** X26.  A page of [getPaginatedResults] when the client answers the two
    counts and the query with at most [limit + 1] rows, for a limit that is
    not negative.  The page holds at most [limit] rows.  If the query
    returned nothing, the page is empty and the next cursor is null.  If it
    returned [limit + 1] rows, the page holds the first [limit] of them, the
    item count is [limit] and the next cursor is the id of the row left out.
    Otherwise the page holds all the rows returned, the item count is one
    less than the rows on the page, and the next cursor is the id of the
    last row of the page, not null. *)
Theorem X26_page_and_metadata `{N : Pagination.Numbers}
    (U Where Others : Type) (id : U -> Z)
    (count : option Where -> option Z)
    (findMany : Pagination.FindManyArgs Where Others -> option (list U))
    (args : Pagination.FindManyArgs Where Others) (params : Pagination.PaginationParams)
    (totalItems totalFilteredItems : Z) (fetched : list U) :
  count None = Some totalItems ->
  filteredCount count args totalItems = Some totalFilteredItems ->
  findMany (pageQuery args params) = Some fetched ->
  0 <= Pagination.limit params ->
  Z.of_nat (List.length fetched) <= Pagination.limit params + 1 ->
  exists page,
    Pagination.getPaginatedResults U Where Others id count findMany args params = Some page /\
    Z.of_nat (List.length (Pagination.data page)) <= Pagination.limit params /\
    Pagination.totalItems (Pagination.pagination page) = totalItems /\
    Pagination.totalFilteredItems (Pagination.pagination page) = totalFilteredItems /\
    pageOf id page fetched (Pagination.limit params).
Proof.
intros Hc Hf Hq Hlimit Hlen. eexists.
split; [exact (getPaginatedResults_run U Where Others id count findMany args params
                 totalItems totalFilteredItems fetched Hc Hf Hq)|].
pose proof (page_cases U id params totalItems totalFilteredItems fetched Hlimit Hlen) as H.
split; [|split; [reflexivity|split; [reflexivity|exact H]]].
destruct H as [(_ & -> & _)|[(next & _ & -> & _)|(init & final & _ & -> & H & _)]];
  cbn [List.length Z.of_nat]; lia.
Qed.

(** X26, for five rows: the first page of two, and the last page, from the
    cursor 16. *)
Lemma X26_witness :
  let N := exampleNumbers in
  (exists page,
     Pagination.getPaginatedResults (Z * string) unit unit fst
       (exampleCount exampleRows) (exampleFindMany exampleRows) exampleArgs
       {| Pagination.limit := 2; Pagination.params_skip := None;
          Pagination.params_cursor := None |} = Some page /\
     Z.of_nat (List.length (Pagination.data page)) <= 2 /\
     Pagination.totalItems (Pagination.pagination page) = 5 /\
     Pagination.totalFilteredItems (Pagination.pagination page) = 5 /\
     pageOf fst page [(4, "d"); (8, "h"); (15, "o")] 2) /\
  (exists page,
     Pagination.getPaginatedResults (Z * string) unit unit fst
       (exampleCount exampleRows) (exampleFindMany exampleRows) exampleArgs
       {| Pagination.limit := 2; Pagination.params_skip := None;
          Pagination.params_cursor := Some 16 |} = Some page /\
     Z.of_nat (List.length (Pagination.data page)) <= 2 /\
     Pagination.totalItems (Pagination.pagination page) = 5 /\
     Pagination.totalFilteredItems (Pagination.pagination page) = 5 /\
     pageOf fst page [(16, "p"); (23, "w")] 2).
Proof.
cbv zeta. split.
- apply (@X26_page_and_metadata exampleNumbers (Z * string) unit unit fst
           (exampleCount exampleRows) (exampleFindMany exampleRows) exampleArgs
           {| Pagination.limit := 2; Pagination.params_skip := None;
              Pagination.params_cursor := None |}
           5 5 [(4, "d"); (8, "h"); (15, "o")]);
    try reflexivity; cbn; lia.
- apply (@X26_page_and_metadata exampleNumbers (Z * string) unit unit fst
           (exampleCount exampleRows) (exampleFindMany exampleRows) exampleArgs
           {| Pagination.limit := 2; Pagination.params_skip := None;
              Pagination.params_cursor := Some 16 |}
           5 5 [(16, "p"); (23, "w")]);
    try reflexivity; cbn; lia.
Defined.

Section Cursors.
Variables (U : Type) (id : U -> Z).

Lemma fromCursor_suffix c rows :
  exists before, rows = (before ++ fromCursor id c rows)%list.
Proof.
induction rows as [|x rows [before IH]]; [now exists []|].
cbn [fromCursor]. destruct (id x =? c).
- now exists [].
- exists (x :: before). cbn [app]. now rewrite <- IH.
Qed.

Lemma fromCursor_at before x after :
  NoDup (map id (before ++ x :: after)) ->
  fromCursor id (id x) (before ++ x :: after) = x :: after.
Proof.
induction before as [|y before IH]; cbn [app map fromCursor]; intros Hnd.
- now rewrite Z.eqb_refl.
- inversion Hnd as [|? ? Hnot Hnd']; subst.
  destruct (id y =? id x) eqn:E; [|now apply IH].
  apply Z.eqb_eq in E. elim Hnot. rewrite E. apply in_map.
  apply in_or_app. right. now left.
Qed.

Lemma firstn_succ n (l : list U) x rest :
  skipn n l = x :: rest -> firstn (S n) l = (firstn n l ++ [x])%list.
Proof.
revert l. induction n as [|n IH]; intros l H.
- cbn in H. subst l. reflexivity.
- destruct l as [|y l]; [discriminate|]. cbn [skipn] in H.
  cbn [firstn app]. f_equal. now apply IH.
Qed.

End Cursors.

(** X27.  Pages at a cursor, for rows of distinct ids and a client that
    answers a cursor by the rows from it on.  When more than [limit] rows
    lie at the cursor and after it, the page and the rows from its next
    cursor on make up the rows from the cursor on: following the cursors
    loses no row and repeats none.  Otherwise the page holds all the rows
    from the cursor on; its next cursor is not null but the id of its last
    row, and the rows from there on are that row again. *)
Theorem X27_cursor_chain `{N : Pagination.Numbers}
    (U Where Others : Type) (id : U -> Z)
    (count : option Where -> option Z)
    (findMany : Pagination.FindManyArgs Where Others -> option (list U))
    (args : Pagination.FindManyArgs Where Others)
    (rows : list U) (limit : Z) (skip : option Z) (c : Z)
    (totalItems totalFilteredItems : Z) :
  count None = Some totalItems ->
  filteredCount count args totalItems = Some totalFilteredItems ->
  answersCursors id findMany args rows ->
  NoDup (map id rows) ->
  0 <= limit ->
  exists page,
    Pagination.getPaginatedResults U Where Others id count findMany args
      (pageAt limit skip c) = Some page /\
    ((exists next,
        Pagination.nextCursor (Pagination.pagination page) = Some next /\
        limit < Z.of_nat (List.length (fromCursor id c rows)) /\
        (Pagination.data page ++ fromCursor id next rows)%list = fromCursor id c rows) \/
     (Pagination.data page = fromCursor id c rows /\
      Z.of_nat (List.length (fromCursor id c rows)) <= limit /\
      (fromCursor id c rows = [] /\
       Pagination.nextCursor (Pagination.pagination page) = None \/
       exists final,
         Pagination.nextCursor (Pagination.pagination page) = Some (id final) /\
         fromCursor id (id final) rows = [final]))).
Proof.
intros Hc Hf Hans Hnd Hlimit.
pose proof (Hans limit skip c Hlimit) as Hq.
eexists. split; [exact (getPaginatedResults_run U Where Others id count findMany args
                          (pageAt limit skip c) totalItems totalFilteredItems _ Hc Hf Hq)|].
cbn [Pagination.data Pagination.pagination Pagination.calculatePaginationMetadata
     Pagination.nextCursor Pagination.limit pageAt].
unfold Pagination.length_.
destruct (fromCursor_suffix U id c rows) as [before Hrows].
set (l := fromCursor id c rows) in *.
set (n := Z.to_nat limit).
replace (Z.to_nat (limit + 1)) with (S n) by (unfold n; lia).
destruct (skipn n l) as [|x rest] eqn:Hskip.
- (* the last page *)
  right.
  assert (Hlen : (List.length l <= n)%nat).
  { destruct (Nat.le_gt_cases (List.length l) n) as [H|H]; [exact H|].
    apply (f_equal (@List.length U)) in Hskip. rewrite length_skipn in Hskip.
    cbn [List.length] in Hskip. lia. }
  rewrite (firstn_all2 (n := S n)) by lia.
  assert (Hno : (limit <? Z.of_nat (List.length l)) = false)
    by (apply Z.ltb_ge; unfold n in Hlen; lia).
  rewrite Hno. split; [reflexivity|]. split; [unfold n in Hlen; lia|].
  destruct (snoc_cases U l) as [Hl|[init [final Hl]]].
  + left. rewrite Hl. cbn. auto.
  + right. exists final. rewrite Hl, length_app. cbn [List.length].
    assert (Hpos : (0 <? Z.of_nat (List.length init + 1)) = true) by (apply Z.ltb_lt; lia).
    rewrite Hpos, (last_snoc U). split; [reflexivity|].
    rewrite Hrows, Hl, app_assoc. apply fromCursor_at.
    rewrite <- app_assoc, <- Hl, <- Hrows. exact Hnd.
- (* a page with a successor *)
  left.
  assert (Hn : (n < List.length l)%nat).
  { destruct (Nat.le_gt_cases (List.length l) n) as [H|H]; [|exact H].
    rewrite (skipn_all2 l H) in Hskip. discriminate. }
  rewrite (firstn_succ U n l x rest Hskip).
  rewrite length_app, length_firstn. cbn [List.length].
  replace (Init.Nat.min n (List.length l)) with n by lia.
  assert (Hyes : (limit <? Z.of_nat (n + 1)) = true) by (apply Z.ltb_lt; unfold n; lia).
  assert (Hpos : (0 <? Z.of_nat (n + 1)) = true) by (apply Z.ltb_lt; lia).
  rewrite Hyes, Hpos, removelast_last, (last_snoc U). cbn [option_map].
  exists (id x). split; [reflexivity|]. split; [unfold n in Hn; lia|].
  assert (Hat : fromCursor id (id x) rows = x :: rest).
  { rewrite Hrows, <- (firstn_skipn n l), Hskip, app_assoc. apply fromCursor_at.
    rewrite <- app_assoc, <- Hskip, firstn_skipn, <- Hrows. exact Hnd. }
  rewrite Hat, <- Hskip. apply firstn_skipn.
Qed.

Lemma exampleFindMany_answersCursors rows :
  answersCursors fst (exampleFindMany rows) exampleArgs rows.
Proof.
intros limit skip c Hlimit. unfold exampleFindMany, pageQuery, pageAt.
cbn [Pagination.params_cursor Pagination.take Pagination.skip Pagination.cursor
     Pagination.limit exampleArgs].
assert (H : (limit + 1 <? 0) = false) by (apply Z.ltb_ge; lia).
rewrite H. cbn [orb Z.ltb Z.compare Z.to_nat skipn]. reflexivity.
Qed.

(** X27, for five rows and pages of two: from the cursor 8, and from the
    cursor 16. *)
Lemma X27_witness :
  let N := exampleNumbers in
  exists page,
    Pagination.getPaginatedResults (Z * string) unit unit fst
      (exampleCount exampleRows) (exampleFindMany exampleRows) exampleArgs
      (pageAt 2 None 8) = Some page /\
    ((exists next,
        Pagination.nextCursor (Pagination.pagination page) = Some next /\
        2 < Z.of_nat (List.length (fromCursor fst 8 exampleRows)) /\
        (Pagination.data page ++ fromCursor fst next exampleRows)%list
        = fromCursor fst 8 exampleRows) \/
     (Pagination.data page = fromCursor fst 8 exampleRows /\
      Z.of_nat (List.length (fromCursor fst 8 exampleRows)) <= 2 /\
      (fromCursor fst 8 exampleRows = [] /\
       Pagination.nextCursor (Pagination.pagination page) = None \/
       exists final,
         Pagination.nextCursor (Pagination.pagination page) = Some (fst final) /\
         fromCursor fst (fst final) exampleRows = [final]))).
Proof.
cbv zeta.
apply (@X27_cursor_chain exampleNumbers (Z * string) unit unit fst
         (exampleCount exampleRows) (exampleFindMany exampleRows) exampleArgs
         exampleRows 2 None 8 5 5).
- reflexivity.
- reflexivity.
- apply exampleFindMany_answersCursors.
- repeat constructor; cbn; lia.
- lia.
Defined.

(** X28.  The page number of a page at a cursor, when no skip is given and
    the limit is positive, for numbers on which a count from 0 to the limit
    over the limit rounds up as it should and on which 0 + 1 is 1 and 1 + 1
    is 2: the current page is 1 when the query returned at most one row and
    2 otherwise, wherever the cursor stands. *)
Theorem X28_current_page_at_a_cursor `{N : Pagination.Numbers}
    (U : Type) (id : U -> Z) (limit c : Z) (totalItems totalFilteredItems : Z)
    (fetched : list U) :
  roundsUp N limit ->
  0 < limit ->
  Z.of_nat (List.length fetched) <= limit + 1 ->
  let meta := Pagination.calculatePaginationMetadata U id (pageAt limit None c)
                totalItems totalFilteredItems fetched in
  (Z.of_nat (List.length fetched) <= 1 /\ Pagination.currentPage meta = Pagination.ofZ 1) \/
  (1 < Z.of_nat (List.length fetched) /\ Pagination.currentPage meta = Pagination.ofZ 2).
Proof.
intros (Hzero & Hone & Hadd0 & Hadd1) Hlimit Hlen. cbv zeta.
cbn [Pagination.calculatePaginationMetadata Pagination.currentPage pageAt
     Pagination.params_skip Pagination.params_cursor Pagination.given Pagination.limit].
unfold Pagination.length_.
destruct (Z.of_nat (List.length fetched) <=? 1) eqn:E.
- left. apply Z.leb_le in E. split; [exact E|].
  assert (H : (if 0 <? Z.of_nat (List.length fetched)
               then Z.of_nat (List.length fetched) - 1 else 0) = 0).
  { destruct (0 <? Z.of_nat (List.length fetched)) eqn:E0; [|reflexivity].
    apply Z.ltb_lt in E0. lia. }
  rewrite H, Hzero. exact Hadd0.
- right. apply Z.leb_gt in E. split; [exact E|].
  assert (H : (0 <? Z.of_nat (List.length fetched)) = true) by (apply Z.ltb_lt; lia).
  rewrite H, (Hone (Z.of_nat (List.length fetched) - 1)) by lia.
  exact Hadd1.
Qed.

Lemma Qceiling_unit x : (0 < x)%Q -> (x <= 1)%Q -> Qceiling x = 1.
Proof.
intros Hpos Hle.
pose proof (Qle_ceiling x) as H1. pose proof (Qceiling_lt x) as H2.
assert (Hlow : (0 < inject_Z (Qceiling x))%Q) by (eapply Qlt_le_trans; eassumption).
assert (Hhigh : (inject_Z (Qceiling x - 1) < 1)%Q) by (eapply Qlt_le_trans; eassumption).
change 0%Q with (inject_Z 0) in Hlow. change 1%Q with (inject_Z 1) in Hhigh.
rewrite <- Zlt_Qlt in Hlow, Hhigh. lia.
Qed.

Lemma exampleNumbers_roundsUp (l : Z) : 0 < l -> roundsUp exampleNumbers l.
Proof.
intros Hl. split; [|split; [|split; reflexivity]].
- cbn. destruct (l =? 0) eqn:E; [apply Z.eqb_eq in E; lia|]. reflexivity.
- intros k [Hk Hkl]. cbn.
  destruct (l =? 0) eqn:E; [apply Z.eqb_eq in E; lia|].
  destruct (k mod l =? 0) eqn:Em.
  + apply Z.eqb_eq in Em.
    assert (k = l).
    { destruct (Z.eq_dec k l) as [H|H]; [exact H|].
      rewrite Z.mod_small in Em by lia. lia. }
    subst k. rewrite Z.div_same by lia. reflexivity.
  + f_equal. apply Qceiling_unit.
    * apply Qlt_shift_div_l.
      -- change 0%Q with (inject_Z 0). rewrite <- Zlt_Qlt. lia.
      -- rewrite Qmult_0_l. change 0%Q with (inject_Z 0). rewrite <- Zlt_Qlt. lia.
    * apply Qle_shift_div_r.
      -- change 0%Q with (inject_Z 0). rewrite <- Zlt_Qlt. lia.
      -- rewrite Qmult_1_l. rewrite <- Zle_Qle. lia.
Qed.

(** X28, for pages of two: three rows returned at the cursor 8. *)
Lemma X28_witness :
  let N := exampleNumbers in
  let meta := Pagination.calculatePaginationMetadata (Z * string) fst (pageAt 2 None 8)
                5 5 [(8, "h"); (15, "o"); (16, "p")] in
  (Z.of_nat (List.length [(8, "h"); (15, "o"); (16, "p")]) <= 1 /\
   Pagination.currentPage meta = Pagination.ofZ 1) \/
  (1 < Z.of_nat (List.length [(8, "h"); (15, "o"); (16, "p")]) /\
   Pagination.currentPage meta = Pagination.ofZ 2).
Proof.
cbv zeta.
apply (@X28_current_page_at_a_cursor exampleNumbers (Z * string) fst 2 8 5 5
         [(8, "h"); (15, "o"); (16, "p")]).
- apply exampleNumbers_roundsUp. lia.
- lia.
- cbn. lia.
Defined.
